(* ===== verification/_CoqProject ===== *)
-Q . S2P
Prelude.v
Domain.v
Effects.v
HttpKit.v
Sql.v
InventoryData.v
InventoryStore.v
InventoryService.v
InventoryLaws.v
InventorySafety.v
InventoryProps.v
InventoryCut.v
InventoryLife.v
InventoryFlow.v
InventoryCount.v
ProductionData.v
ProductionStore.v
ProductionService.v
ProductionSafety.v
ProductionProps.v
ProductionLife.v
ProductionFlow.v
ProductionOps.v
System.v
