(* ===== verification/Prelude.v ===== *)
(** * Vmarble warehouse service: a verification library

    The service is a modular monolith in Go (src/cmd/server, src/internal): each
    module under src/internal/module has a service with the business rules, a
    PostgreSQL store, and small interfaces (deps.go) through which it calls the
    others; src/internal/domain and src/internal/platform/httpkit are shared.
    This library models the two modules that move material and work: inventory
    (lots, board sheets, cutting, remnants, quality control, claims, cycle counts)
    and production (work orders from plan to costing, with labour, blockers,
    assignment and carry-over), the shared packages they rest on, and the adapter
    that lets a recorded cut advance its work order.

    ** How a request is modelled

    A handler is a computation [M D X A] (Effects.v): explicit state passing over
    the tables [D] of its module and the state [X] reached through its
    dependency interfaces, with Go's [error] as a sum.  An [Oracle] supplies what
    the request does not control - identifiers, clock, failing statements, and
    what other sessions commit between two statements - and theorems quantify
    over it.  A statement on the pool is one transaction ([exec], [query]); a
    transaction of several ([tx]) rolls back as a whole and is isolated from its
    first statement on, which in the code takes the row locks.  A COMMIT that
    fails is one that was rolled back: the reply lost after the server committed
    is not modelled.  Sql.v gives
    inserts, updates, selections, foreign keys and orderings over [gmap] tables;
    the CHECK constraints, foreign keys and integer widths of migrations/ are
    part of the statements that meet them.  What a definition needs to know of the
    server or the driver is a field of a class: [Schema] says when the foreign
    key of a cutting record is checked (migration 00037: at the statement) and
    whether the driver encodes an integer for a text parameter; [Postgres] says
    whether the server locks the nullable side of an outer join (it does not).

    Integers are [Z] with Go's 64-bit wrap-around written out ([wrap64]) and the
    32-bit INT columns refusing what does not fit ([int4]); [float64] is the
    binary64 arithmetic of the Standard Library; a UUID is a natural number and
    an instant a number of nanoseconds.  Strings are [String.string].

    Three assumptions on interference occur.  [rely R]: the other sessions keep
    to the relation [R], which the module's own handlers are proved to keep to as
    well.  [serial]: no session commits in between.  [calm]: none writes work
    orders.  Invariants and safety hold under [rely]; functional results of one
    request under [serial], or under [rely] where the code's locks suffice.

    ** The files

    - Prelude.v: notation, integers, strings, sums, automation.
    - Domain.v: src/internal/domain - dimensions, money, statuses and the
      work-order transition table, errors.
    - Effects.v: the request monad, its weakest-precondition rules ([wp]) and the
      rely/guarantee rules ([respects]).
    - HttpKit.v: src/internal/platform/httpkit - offset and keyset pagination,
      cursors over an abstract codec ([CursorCodec], with an instance), status
      codes.
    - Sql.v: tables and statements, and the lemmas on them.
    - InventoryData.v, InventoryStore.v, InventoryService.v: the records of
      iface.go and store.go, the store methods of pgstore.go statement by
      statement, the handlers of service.go; Go names are kept.
    - InventoryLaws.v, InventorySafety.v: well-formedness [wf], the guarantee
      [guar], and that every statement and handler keeps to it.
    - InventoryProps.v: the machine of all requests and its invariant; the
      concrete factory floor of the witnesses.
    - InventoryCut.v: the cut transaction against its specification, and RecordCut.
    - InventoryLife.v: lifecycles of sheets and remnants, material balance.
    - InventoryFlow.v: quality control, claims and their race, overflow gate,
      allocation, aging.
    - InventoryCount.v: posting of cycle counts, its log, and the stock a posting
      can bring back.
    - ProductionData.v, ProductionStore.v, ProductionService.v: production in the
      same way.
    - ProductionSafety.v, ProductionProps.v: invariant, guarantee, machine of
      requests and concrete shop floor.
    - ProductionLife.v: work-order lifecycle and carry-over balance.
    - ProductionFlow.v, ProductionOps.v: what each handler does, and the two ways
      the state machine is left.
    - System.v: src/cmd/server/main.go, inventory driving production.

    ** What is shown

    Reachable states (any requests, faults and concurrent sessions): area
    accounts, remnant geometry, quantities, statuses and parentage stay well
    formed; no row disappears; audit rows are append-only.  Conservation: what is
    cut from a board, what is left of it and the board while uncut never exceed
    its area; what a work order produced and what its carry-overs plan again
    never exceed its quantity.  Lifecycles: sheets, remnants, claims and work
    orders only move along their graphs.  Exclusion: a remnant, and a work order
    that is claimed, goes to one holder whatever other sessions commit.
    Refinement: the cut transaction implements an atomic step.  Functional results
    of the handlers on success and error: the remnant policy of the board's
    material, the log of every count difference, the cascade of a cancelled
    plan, the aging report, least-busy assignment, exact labour cost, complete
    keyset traversal.

    Limits of the code, each for every request it concerns: a claim approved
    after another session rejected it, a cancelled order advanced back to life,
    a cut sheet put back in stock by a count, PARTIAL_COMPLETE without its
    quantity, a page past the cap that passes it by overflow, and two statements
    the database refuses (a cut that keeps a remnant under the key of migration
    00037; claiming and reassigning under PostgreSQL's rule on locks).

    ** Recursion and bounds

    The handlers recurse only over lists; [mfor] is the loop.  The one fuel is
    that of [HttpKit.collect], the client that follows cursors: its theorem gives
    the number of pages that is enough, so it is a proof of termination.

    ** Not modelled

    HTTP binding and JSON, authentication, event publishing and object storage
    (I/O); read-only ranking and dashboard queries; machine slots and schedules,
    feasibility and pre-emption candidates of production; the other modules
    (costing, planning, delivery, sales, packing with the finished-goods pool,
    barcode, loading exceptions, catalog, purchasing and the rest), which the two
    modelled modules see as arbitrary functions on [X].  Texts of database errors are labels; sentinels
    and messages of the service's own errors are kept.  Deadlocks and lock waits
    are faults. *)

From stdpp Require Import base gmap sets list strings sorting option pretty.
From Stdlib Require Import ZArith Lia SpecFloat.

Declare Scope vm_scope.
Delimit Scope vm_scope with vm.
#[global] Open Scope vm_scope.

(** ** Identifiers and instants

    [uuid.UUID] is a 128-bit value, compared for equality by Go and ordered
    bytewise by PostgreSQL, which is the numeric order of its big-endian
    reading: a natural number.  [uuid.Nil] is zero.  [time.Time] is a number
    of nanoseconds from Go's zero time, so [t.IsZero()] is [t = 0]. *)
Abbreviation uuid := N (only parsing).
Abbreviation instant := Z (only parsing).

Definition uuid_Nil : uuid := 0%N.

(** ** Machine integers

    Go's [int] and [int64] are 64-bit two's complement: arithmetic wraps.
    PostgreSQL's INT column is 32 bits and refuses a value outside. *)
Definition wrap64 (z : Z) : Z := ((z + 2 ^ 63) mod 2 ^ 64 - 2 ^ 63)%Z.
Definition int64 (z : Z) : Prop := (- 2 ^ 63 <= z < 2 ^ 63)%Z.
Definition int4 (z : Z) : bool := ((- 2 ^ 31 <=? z) && (z <? 2 ^ 31))%Z.

Lemma wrap64_range (z : Z) : int64 (wrap64 z).
Proof. unfold wrap64, int64. pose proof (Z.mod_pos_bound (z + 2 ^ 63) (2 ^ 64)). lia. Qed.

Lemma wrap64_id (z : Z) : int64 z → wrap64 z = z.
Proof. unfold wrap64, int64. intros. rewrite Z.mod_small; lia. Qed.

Lemma int4_spec (z : Z) : int4 z = true ↔ (- 2 ^ 31 <= z < 2 ^ 31)%Z.
Proof. unfold int4. rewrite andb_true_iff, Z.leb_le, Z.ltb_lt. done. Qed.

Lemma int4_product (a b : Z) :
  int4 a = true → int4 b = true → (- 2 ^ 62 <= a * b <= 2 ^ 62)%Z.
Proof. rewrite !int4_spec. nia. Qed.

(** [fmt.Sprintf] of an integer with the verb d *)
Definition itoa (z : Z) : string := pretty z.

(** [float64] values are IEEE binary64 data, computed by the specification
    arithmetic of the Standard Library. *)
Definition f64_of_int (z : Z) : spec_float := binary_normalize 53 1024 z 0 false.
Definition f64_mul (a b : spec_float) : spec_float := SFmul 53 1024 a b.
Definition f64_div (a b : spec_float) : spec_float := SFdiv 53 1024 a b.
Definition f64_ltb (a b : spec_float) : bool := SFltb a b.
Definition f64_leb (a b : spec_float) : bool := SFleb a b.

(** ** Strings: status columns and enum types are Go strings *)
Notation "a =s b" := (String.eqb a b) (at level 70, no associativity) : vm_scope.
Notation "a <>s b" := (negb (String.eqb a b)) (at level 70, no associativity) : vm_scope.

(** [len([]rune(s))] on the UTF-8 text of a decoded JSON string: the bytes that
    are not continuation bytes. *)
Fixpoint rune_count (s : string) : Z :=
  match s with
  | EmptyString => 0
  | String c s' =>
      let n := Ascii.N_of_ascii c in
      (if (128 <=? n)%N && (n <? 192)%N then 0 else 1) + rune_count s'
  end%Z.

(** ** Options and lists *)
Definition opt_eqb {A} `{EqDecision A} (a b : option A) : bool := bool_decide (a = b).
Definition is_none {A} (o : option A) : bool := match o with None => true | Some _ => false end.
Definition is_some {A} (o : option A) : bool := negb (is_none o).

Definition zlen {A} (l : list A) : Z := Z.of_nat (length l).

Lemma zlen_nonneg {A} (l : list A) : (0 <= zlen l)%Z.
Proof. unfold zlen. lia. Qed.

Lemma zlen_app {A} (l k : list A) : zlen (l ++ k) = (zlen l + zlen k)%Z.
Proof. unfold zlen. rewrite length_app. lia. Qed.

(** [zsum f l] is the sum of [f] over [l]. *)
Definition zsum {A} (f : A → Z) (l : list A) : Z := foldr (λ a acc, f a + acc)%Z 0%Z l.

Lemma zsum_app {A} (f : A → Z) (l k : list A) : zsum f (l ++ k) = (zsum f l + zsum f k)%Z.
Proof. induction l as [|a l IH]; simpl; lia. Qed.

Lemma zsum_perm {A} (f : A → Z) (l k : list A) : l ≡ₚ k → zsum f l = zsum f k.
Proof. induction 1; simpl; lia. Qed.

Lemma zsum_nonneg {A} (f : A → Z) (l : list A) :
  Forall (λ a, 0 <= f a)%Z l → (0 <= zsum f l)%Z.
Proof. induction 1; simpl; lia. Qed.

Lemma zsum_ext {A} (f g : A → Z) (l : list A) :
  Forall (λ a, f a = g a) l → zsum f l = zsum g l.
Proof. induction 1; simpl; lia. Qed.

Lemma filter_all {A} (P : A → Prop) `{!∀ x, Decision (P x)} (l : list A) :
  Forall P l → filter P l = l.
Proof. induction 1; [done|]. rewrite filter_cons_True; congruence. Qed.

Lemma filter_fmap {A B} (f : A → B) (P : B → Prop) `{!∀ y, Decision (P y)} (l : list A) :
  filter P (f <$> l) = f <$> filter (λ x, P (f x)) l.
Proof.
  induction l as [|x l IH]; [done|]. rewrite fmap_cons, !filter_cons.
  case_decide; [by rewrite fmap_cons, IH|done].
Qed.

(** Ordering by an integer key, ties by identifier: the deterministic reading
    of [ORDER BY key, id]. *)
Definition by_key {A} (key : A → Z) (id : A → N) (x y : A) : Prop :=
  (key x < key y)%Z ∨ (key x = key y ∧ (id x <= id y)%N).

#[export] Instance by_key_dec {A} (key : A → Z) (id : A → N) : RelDecision (by_key key id).
Proof. unfold by_key. intros x y. apply _. Defined.

#[export] Instance by_key_total {A} (key : A → Z) (id : A → N) : Total (by_key key id).
Proof. intros x y. unfold by_key. lia. Qed.

#[export] Instance by_key_trans {A} (key : A → Z) (id : A → N) : Transitive (by_key key id).
Proof. intros x y z. unfold by_key. lia. Qed.

(** ** Development-wide automation *)
Create HintDb vmarble.

Ltac split_and_all := repeat match goal with H : _ ∧ _ |- _ => destruct H end.

(** Turn boolean tests among the hypotheses into propositions. *)
Ltac bool_hyps :=
  repeat match goal with
  | H : negb _ = true |- _ => apply negb_true_iff in H
  | H : negb _ = false |- _ => apply negb_false_iff in H
  | H : (_ || _) = false |- _ => apply orb_false_iff in H; destruct H
  | H : (_ && _) = true |- _ => apply andb_true_iff in H; destruct H
  | H : bool_decide _ = true |- _ => apply bool_decide_eq_true in H
  | H : bool_decide _ = false |- _ => apply bool_decide_eq_false in H
  | H : (_ <=? _)%Z = true |- _ => apply Z.leb_le in H
  | H : (_ <=? _)%Z = false |- _ => apply Z.leb_gt in H
  | H : (_ <? _)%Z = true |- _ => apply Z.ltb_lt in H
  | H : (_ <? _)%Z = false |- _ => apply Z.ltb_ge in H
  | H : (_ =? _)%Z = true |- _ => apply Z.eqb_eq in H
  | H : (_ =? _)%Z = false |- _ => apply Z.eqb_neq in H
  | H : String.eqb _ _ = true |- _ => apply String.eqb_eq in H
  | H : String.eqb _ _ = false |- _ => apply String.eqb_neq in H
  | H : (_ =? _)%N = true |- _ => apply N.eqb_eq in H
  | H : (_ =? _)%N = false |- _ => apply N.eqb_neq in H
  end.

Definition opt_list {A} (o : option A) : list A := match o with Some a => [a] | None => [] end.
