(* ===== verification/Domain.v ===== *)
(** * The shared domain package (internal/domain)

    Dimensions, money, the status enums with the work-order transition table,
    and the error values every module returns. *)

From S2P Require Import Prelude.
From stdpp Require Import base gmap strings list.
From Stdlib Require Import ZArith Lia.

Open Scope string_scope.

(** ** errors.go *)
Inductive sentinel : Type :=
  | ErrNotFound
  | ErrConflict
  | ErrInvalidInput
  | ErrInsufficientStock
  | ErrInvalidTransition
  | ErrAreaConservation
  | ErrAlreadyFinalized
  | ErrPreconditionFailed.

#[export] Instance sentinel_eq_dec : EqDecision sentinel.
Proof. solve_decision. Defined.

(** A Go error value: a bare sentinel, a [BizError] around a sentinel, an error
    wrapped by [fmt.Errorf("...: %w", err)], the cursor error of httpkit, or an
    error of the driver or of the database that carries no sentinel. *)
Inductive error : Type :=
  | ESentinel (s : sentinel)
  | EBiz (s : sentinel) (msg : string)
  | EWrap (msg : string) (e : error)
  | EInvalidCursor
  | EOther (msg : string).

Definition NewBizError (s : sentinel) (msg : string) : error := EBiz s msg.

(** [errors.Is(err, sentinel)] follows [Unwrap]. *)
Fixpoint errors_Is (e : error) (s : sentinel) : bool :=
  match e with
  | ESentinel s' | EBiz s' _ => bool_decide (s' = s)
  | EWrap _ e' => errors_Is e' s
  | EInvalidCursor | EOther _ => false
  end.

Fixpoint errors_Is_InvalidCursor (e : error) : bool :=
  match e with
  | EInvalidCursor => true
  | EWrap _ e' => errors_Is_InvalidCursor e'
  | _ => false
  end.

(** The outcome of a Go function returning [(A, error)]. *)
Inductive result (A : Type) : Type :=
  | Ok (a : A)
  | Err (e : error).
Arguments Ok {A}. Arguments Err {A}.

Definition is_ok {A} (r : result A) : bool := match r with Ok _ => true | Err _ => false end.

(** ** dimension.go *)
Record Dimension := mkDim { LengthMM : Z; WidthMM : Z }.

#[export] Instance Dimension_eq_dec : EqDecision Dimension.
Proof. solve_decision. Defined.

(** [int64(d.LengthMM) * int64(d.WidthMM)] wraps at 64 bits. *)
Definition AreaSqMM (d : Dimension) : Z := wrap64 (LengthMM d * WidthMM d).

Definition FitsInside (d outer : Dimension) : bool :=
  ((LengthMM d <=? LengthMM outer) && (WidthMM d <=? WidthMM outer))%Z.

Definition Dim_Valid (d : Dimension) : bool :=
  ((0 <? LengthMM d) && (0 <? WidthMM d))%Z.

(** The mathematical area, without wrap-around: what the routine promises. *)
Definition area (d : Dimension) : Z := (LengthMM d * WidthMM d)%Z.

(** Both axes fit the INT columns that store a dimension. *)
Definition dim_int4 (d : Dimension) : bool := int4 (LengthMM d) && int4 (WidthMM d).

(** ** money.go *)
Record Money := mkMoney { Amount : Z; Currency : string }.

#[export] Instance Money_eq_dec : EqDecision Money.
Proof. solve_decision. Defined.

Definition VND (amount : Z) : Money := mkMoney amount "VND".

Definition Money_Add (m other : Money) : Money :=
  mkMoney (wrap64 (Amount m + Amount other)) (Currency m).

(** [m.Amount * numerator / denominator]: the product wraps, the division
    truncates towards zero. *)
Definition Money_Scale (m : Money) (numerator denominator : Z) : Money :=
  if (denominator =? 0)%Z then m
  else mkMoney (wrap64 (Z.quot (wrap64 (Amount m * numerator)) denominator)) (Currency m).

(** ** status.go *)
Definition WOPlanned : string := "PLANNED".
Definition WOInCutting : string := "IN_CUTTING".
Definition WOInProcessing : string := "IN_PROCESSING".
Definition WOCompleted : string := "COMPLETED".
Definition WOPartialComplete : string := "PARTIAL_COMPLETE".
Definition WOCosted : string := "COSTED".
Definition WOCanceled : string := "CANCELED".

(** The map literal [woTransitions]; [None] is a missing key. *)
Definition woTransitions (s : string) : option (list string) :=
  if s =s WOPlanned then Some [WOInCutting]
  else if s =s WOInCutting then Some [WOInProcessing]
  else if s =s WOInProcessing then Some [WOCompleted; WOPartialComplete]
  else if s =s WOCompleted then Some [WOCosted]
  else if s =s WOPartialComplete then Some [WOCosted]
  else None.

Definition WO_Next (s : string) : option string :=
  match woTransitions s with
  | None | Some [] => None
  | Some (n :: _) => Some n
  end.

(** [CanTransitionTo] returns a plain [fmt.Errorf] value on refusal. *)
Definition CanTransitionTo (s to : string) : option error :=
  let refused := EOther ("invalid transition " ++ s ++ " -> " ++ to) in
  match woTransitions s with
  | None => Some refused
  | Some nexts => if existsb (String.eqb to) nexts then None else Some refused
  end.

Definition RemnantAvailable : string := "AVAILABLE".
Definition RemnantAllocated : string := "ALLOCATED".
Definition RemnantConsumed : string := "CONSUMED".
Definition RemnantWaste : string := "WASTE".
Definition RemnantExpired : string := "EXPIRED".

Definition PlanDraft : string := "DRAFT".
Definition PlanApproved : string := "APPROVED".
Definition PlanCanceled : string := "CANCELED".

Definition LaborStageCNC : string := "CNC".
Definition LaborStageGrinding : string := "GRINDING".
Definition LaborStageAssembly : string := "ASSEMBLY".
Definition LaborStagePolishing : string := "POLISHING".

Definition LaborStage_Valid (s : string) : bool :=
  (s =s LaborStageCNC) || (s =s LaborStageGrinding)
  || (s =s LaborStageAssembly) || (s =s LaborStagePolishing).

(** ** The work-order lifecycle as a relation *)
Inductive wo_step : string → string → Prop :=
  | wo_start : wo_step WOPlanned WOInCutting
  | wo_cut : wo_step WOInCutting WOInProcessing
  | wo_complete : wo_step WOInProcessing WOCompleted
  | wo_partial : wo_step WOInProcessing WOPartialComplete
  | wo_cost : wo_step WOCompleted WOCosted
  | wo_cost_partial : wo_step WOPartialComplete WOCosted.

(** The position of a status on the production line. *)
Definition wo_rank (s : string) : Z :=
  if s =s WOPlanned then 0
  else if s =s WOInCutting then 1
  else if s =s WOInProcessing then 2
  else if s =s WOCompleted then 3
  else if s =s WOPartialComplete then 3
  else if s =s WOCosted then 4
  else (-1).

Ltac woT :=
  unfold woTransitions in *;
  repeat match goal with
  | H : context [if (?a =s ?b) then _ else _] |- _ => destruct (String.eqb_spec a b); subst
  | |- context [if (?a =s ?b) then _ else _] => destruct (String.eqb_spec a b); subst
  end.

Lemma CanTransitionTo_step (s to : string) :
  CanTransitionTo s to = None ↔ wo_step s to.
Proof.
  unfold CanTransitionTo. split.
  - woT; simpl; intros H; try done;
      repeat match type of H with
      | context [String.eqb ?a ?b] => destruct (String.eqb_spec a b); subst; simpl in H
      end; try done; constructor.
  - destruct 1; reflexivity.
Qed.

Lemma wo_step_rank (s to : string) : wo_step s to → wo_rank to = (wo_rank s + 1)%Z.
Proof. destruct 1; reflexivity. Qed.

Lemma WO_Next_step (s n : string) : WO_Next s = Some n → wo_step s n.
Proof. unfold WO_Next. woT; intros; simplify_eq; constructor. Qed.

(** ** Areas *)
Lemma AreaSqMM_exact (d : Dimension) : dim_int4 d = true → AreaSqMM d = area d.
Proof.
  unfold dim_int4, AreaSqMM, area. intros [H1 H2]%andb_true_iff.
  apply wrap64_id. pose proof (int4_product _ _ H1 H2). unfold int64. lia.
Qed.

Lemma FitsInside_int4 (d outer : Dimension) :
  Dim_Valid d = true → FitsInside d outer = true → dim_int4 outer = true → dim_int4 d = true.
Proof.
  unfold Dim_Valid, FitsInside, dim_int4. intros. bool_hyps.
  rewrite andb_true_iff, !int4_spec in *. lia.
Qed.

Lemma area_nonneg (d : Dimension) : Dim_Valid d = true → (0 < area d)%Z.
Proof. unfold Dim_Valid, area. intros. bool_hyps. nia. Qed.

Lemma FitsInside_area (d outer : Dimension) :
  Dim_Valid d = true → FitsInside d outer = true → (area d <= area outer)%Z.
Proof. unfold Dim_Valid, FitsInside, area. intros. bool_hyps. nia. Qed.
