(* ===== verification/Effects.v ===== *)
(** * Effects of a request: database session, clock, identifiers, errors

    A request runs in one goroutine against a PostgreSQL pool shared with other
    requests.  [M D X A] is such a computation over the tables [D] of the module
    and the state [X] of everything reached through its dependency interfaces.
    An [Oracle] fixes what the request cannot control: the identifiers drawn by
    [uuid.New], the instants read by [time.Now] and [NOW()], which statements
    the driver or the server fails, and what other sessions commit between two
    statements of this one.  Theorems quantify over the oracle. *)

From S2P Require Import Prelude Domain.
From stdpp Require Import base gmap strings list.
From Stdlib Require Import ZArith Lia.

Record world (D X : Type) := World { w_db : D; w_ext : X; w_step : nat }.
Arguments World {D X}. Arguments w_db {D X}. Arguments w_ext {D X}. Arguments w_step {D X}.

(** A call through a dependency interface reads the step counter and acts on
    the foreign state. *)
Definition dep (X A : Type) : Type := nat → X → result A * X.

Class Oracle (D : Type) := {
  o_uuid : nat → uuid;
  o_time : nat → instant;
  o_fault : nat → bool;
  o_interf : nat → D → D
}.

Definition M (D X A : Type) : Type := world D X → result A * world D X.

#[export] Instance M_ret {D X} : MRet (M D X) := λ A a w, (Ok a, w).
#[export] Instance M_bind {D X} : MBind (M D X) := λ A B f m w,
  match m w with
  | (Ok a, w') => f a w'
  | (Err e, w') => (Err e, w')
  end.

Section effects.
Context {D X : Type} `{!Oracle D}.
Implicit Types (w : world D X) (d : D).

Definition throw {A} (e : error) : M D X A := λ w, (Err e, w).

(** [if b { return e }] *)
Definition fail_if (b : bool) (e : error) : M D X unit :=
  if b then throw e else mret tt.

Definition fail_opt (o : option error) : M D X unit :=
  match o with None => mret tt | Some e => throw e end.

Definition of_result {A} (r : result A) : M D X A :=
  match r with Ok a => mret a | Err e => throw e end.

(** [fmt.Errorf("msg: %w", err)] around a failing call. *)
Definition wrap_err {A} (msg : string) (m : M D X A) : M D X A := λ w,
  match m w with (Err e, w') => (Err (EWrap msg e), w') | r => r end.

(** A best-effort call: the error is logged and dropped. *)
Definition try {A} (m : M D X A) : M D X (result A) := λ w,
  let (r, w') := m w in (Ok r, w').

Definition best_effort {A} (m : M D X A) : M D X unit := λ w,
  let (_, w') := m w in (Ok tt, w').

Definition bump w : world D X := World (w_db w) (w_ext w) (S (w_step w)).

Definition with_db (d : D) w : world D X := World d (w_ext w) (w_step w).

(** Other sessions commit, then this session's next statement runs. *)
Definition interfere w : world D X :=
  World (o_interf (w_step w) (w_db w)) (w_ext w) (S (w_step w)).

Definition new_uuid : M D X uuid := λ w, (Ok (o_uuid (w_step w)), bump w).
Definition now : M D X instant := λ w, (Ok (o_time (w_step w)), bump w).

(** A statement reads and updates the tables or is refused by a constraint. *)
Definition stmt (A : Type) : Type := D → result (A * D).

Definition run_stmt {A} (s : stmt A) w : result A * world D X :=
  match s (w_db w) with
  | Ok (a, d') => (Ok a, with_db d' w)
  | Err e => (Err e, w)
  end.

(** Statements issued on the pool: each is its own transaction. *)
Definition exec {A} (lbl : string) (s : stmt A) : M D X A := λ w,
  if o_fault (w_step w) then (Err (EOther lbl), interfere w)
  else run_stmt s (interfere w).

Definition query {A} (lbl : string) (f : D → A) : M D X A :=
  exec lbl (λ d, Ok (f d, d)).

(** [QueryRow(...).Scan] with a not-found error of the store's own. *)
Definition query_row {A} (lbl : string) (f : D → option A) (nf : error) : M D X A :=
  exec lbl (λ d, match f d with Some a => Ok (a, d) | None => Err nf end).

(** Statements inside an open transaction: the rows they touch are locked, so
    no other session intervenes. *)
Definition texec {A} (lbl : string) (s : stmt A) : M D X A := λ w,
  if o_fault (w_step w) then (Err (EOther lbl), bump w)
  else run_stmt s (bump w).

Definition tquery {A} (lbl : string) (f : D → A) : M D X A :=
  texec lbl (λ d, Ok (f d, d)).

Definition tquery_row {A} (lbl : string) (f : D → option A) (nf : error) : M D X A :=
  texec lbl (λ d, match f d with Some a => Ok (a, d) | None => Err nf end).

(** [SendBatch] runs its statements in one implicit transaction, which the
    server commits when the batch is closed.  The error of [Close] is dropped:
    a failure there undoes the statements and is not reported. *)
Definition batch {A} (lbl : string) (s : stmt A) : M D X A := λ w,
  match exec lbl s w with
  | (Ok a, w1) =>
      (Ok a, bump (if o_fault (w_step w1) then with_db (w_db (interfere w)) w1 else w1))
  | (Err e, w1) => (Err e, w1)
  end.

(** [Begin], the body, then [Commit]; any error rolls the tables back to what
    they were when the transaction began.  A failing [Commit] is taken to have
    rolled back: a connection lost after the server committed, which leaves the
    caller with an error and the tables changed, is not modelled. *)
Definition tx {A} (body : M D X A) : M D X A := λ w,
  let w0 := interfere w in
  if o_fault (w_step w) then (Err (EOther "begin transaction"), w0)
  else match body w0 with
       | (Ok a, w1) =>
           if o_fault (w_step w1)
           then (Err (EOther "commit transaction"), bump (with_db (w_db w0) w1))
           else (Ok a, bump w1)
       | (Err e, w1) => (Err e, with_db (w_db w0) w1)
       end.

(** A call through a dependency interface acts on [X] only. *)
Definition call_dep {A} (f : dep X A) : M D X A := λ w,
  let (r, x') := f (w_step w) (w_ext w) in (r, World (w_db w) x' (S (w_step w))).

(** [SUM(bigint)] is a numeric; scanning it into an int64 fails out of range. *)
Definition scan_int64 (z : Z) : M D X Z :=
  if ((- 2 ^ 63 <=? z) && (z <? 2 ^ 63))%Z then mret z else throw (EOther "scan int64").

Fixpoint mfor {A B} (f : B → A → M D X B) (l : list A) (b : B) : M D X B :=
  match l with
  | [] => mret b
  | a :: l' => b' ← f b a; mfor f l' b'
  end.

(** ** Symbolic execution *)
Definition wp {A} (m : M D X A) (Q : result A → world D X → Prop) w : Prop :=
  Q (fst (m w)) (snd (m w)).

Lemma wp_run {A} (m : M D X A) Q w r w' : m w = (r, w') → wp m Q w → Q r w'.
Proof. unfold wp. by intros ->. Qed.

Lemma wp_mono {A} (m : M D X A) (Q Q' : result A → world D X → Prop) w :
  wp m Q w → (∀ r w', Q r w' → Q' r w') → wp m Q' w.
Proof. unfold wp. eauto. Qed.

Lemma wp_mret {A} (a : A) Q w : Q (Ok a) w → wp (mret a) Q w.
Proof. done. Qed.

Lemma wp_throw {A} e (Q : result A → _ → Prop) w : Q (Err e) w → wp (throw e) Q w.
Proof. done. Qed.

Lemma wp_bind {A B} (m : M D X A) (f : A → M D X B) Q w :
  wp m (λ r w', match r with Ok a => wp (f a) Q w' | Err e => Q (Err e) w' end) w →
  wp (m ≫= f) Q w.
Proof. unfold wp, mbind, M_bind. destruct (m w) as [[a|e] w']; done. Qed.

Lemma wp_fail_if b e Q w :
  (b = true → Q (Err e) w) → (b = false → Q (Ok tt) w) → wp (fail_if b e) Q w.
Proof. unfold wp, fail_if. destruct b; auto. Qed.

Lemma fail_opt_wp o Q w :
  (∀ e, o = Some e → Q (Err e) w) → (o = None → Q (Ok tt) w) → wp (fail_opt o) Q w.
Proof. intros He Hn. destruct o; simpl; [by apply wp_throw, He|by apply wp_mret, Hn]. Qed.

Lemma wp_wrap_err {A} msg (m : M D X A) Q w :
  wp m (λ r w', match r with Ok a => Q (Ok a) w' | Err e => Q (Err (EWrap msg e)) w' end) w →
  wp (wrap_err msg m) Q w.
Proof. unfold wp, wrap_err. destruct (m w) as [[a|e] w']; done. Qed.

Lemma wp_try {A} (m : M D X A) Q w :
  wp m (λ r w', Q (Ok r) w') w → wp (try m) Q w.
Proof. unfold wp, try. destruct (m w) as [r w']; done. Qed.

Lemma wp_best_effort {A} (m : M D X A) Q w :
  wp m (λ _ w', Q (Ok tt) w') w → wp (best_effort m) Q w.
Proof. unfold wp, best_effort. destruct (m w) as [r w']; done. Qed.

Lemma wp_new_uuid Q w : Q (Ok (o_uuid (w_step w))) (bump w) → wp new_uuid Q w.
Proof. done. Qed.

Lemma wp_now Q w : Q (Ok (o_time (w_step w))) (bump w) → wp now Q w.
Proof. done. Qed.

Lemma wp_exec {A} lbl (s : stmt A) Q w :
  (o_fault (w_step w) = true → Q (Err (EOther lbl)) (interfere w)) →
  (∀ e, s (w_db (interfere w)) = Err e → Q (Err e) (interfere w)) →
  (∀ a d', s (w_db (interfere w)) = Ok (a, d') → Q (Ok a) (with_db d' (interfere w))) →
  wp (exec lbl s) Q w.
Proof.
  unfold wp, exec, run_stmt. intros Hf He Ho. destruct (o_fault _); [by apply Hf|].
  destruct (s _) as [[a d']|e] eqn:Hs; simpl; eauto.
Qed.

Lemma wp_query {A} lbl (f : D → A) Q w :
  (o_fault (w_step w) = true → Q (Err (EOther lbl)) (interfere w)) →
  Q (Ok (f (w_db (interfere w)))) (interfere w) →
  wp (query lbl f) Q w.
Proof.
  unfold wp, query, exec, run_stmt. intros Hf Ho. destruct (o_fault _); [by apply Hf|].
  done.
Qed.

Lemma wp_query_row {A} lbl (f : D → option A) nf Q w :
  (o_fault (w_step w) = true → Q (Err (EOther lbl)) (interfere w)) →
  (f (w_db (interfere w)) = None → Q (Err nf) (interfere w)) →
  (∀ a, f (w_db (interfere w)) = Some a → Q (Ok a) (interfere w)) →
  wp (query_row lbl f nf) Q w.
Proof.
  unfold wp, query_row, exec, run_stmt. intros Hf Hn Hs. destruct (o_fault _); [by apply Hf|].
  destruct (f _) eqn:E; simpl; auto.
Qed.

Lemma wp_texec {A} lbl (s : stmt A) Q w :
  (o_fault (w_step w) = true → Q (Err (EOther lbl)) (bump w)) →
  (∀ e, s (w_db w) = Err e → Q (Err e) (bump w)) →
  (∀ a d', s (w_db w) = Ok (a, d') → Q (Ok a) (with_db d' (bump w))) →
  wp (texec lbl s) Q w.
Proof.
  unfold wp, texec, run_stmt. simpl. intros Hf He Ho. destruct (o_fault _); [by apply Hf|].
  destruct (s _) as [[a d']|e] eqn:Hs; simpl; eauto.
Qed.

Lemma wp_tquery {A} lbl (f : D → A) Q w :
  (o_fault (w_step w) = true → Q (Err (EOther lbl)) (bump w)) →
  Q (Ok (f (w_db w))) (bump w) →
  wp (tquery lbl f) Q w.
Proof.
  unfold wp, tquery, texec, run_stmt. intros Hf Ho. destruct (o_fault _); [by apply Hf|].
  done.
Qed.

Lemma wp_tquery_row {A} lbl (f : D → option A) nf Q w :
  (o_fault (w_step w) = true → Q (Err (EOther lbl)) (bump w)) →
  (f (w_db w) = None → Q (Err nf) (bump w)) →
  (∀ a, f (w_db w) = Some a → Q (Ok a) (bump w)) →
  wp (tquery_row lbl f nf) Q w.
Proof.
  unfold wp, tquery_row, texec, run_stmt. simpl. intros Hf Hn Hs.
  destruct (o_fault _); [by apply Hf|]. destruct (f _) eqn:E; simpl; auto.
Qed.

Lemma wp_tx {A} (body : M D X A) Q w :
  (o_fault (w_step w) = true → Q (Err (EOther "begin transaction")) (interfere w)) →
  wp body (λ r w1,
    match r with
    | Ok a => (o_fault (w_step w1) = true →
                 Q (Err (EOther "commit transaction"))
                   (bump (with_db (w_db (interfere w)) w1)))
              ∧ (o_fault (w_step w1) = false → Q (Ok a) (bump w1))
    | Err e => Q (Err e) (with_db (w_db (interfere w)) w1)
    end) (interfere w) →
  wp (tx body) Q w.
Proof.
  unfold wp, tx. intros Hf Hb. destruct (o_fault (w_step w)); [by apply Hf|].
  destruct (body (interfere w)) as [[a|e] w1]; simpl in *; [|done].
  destruct Hb as [Hc Hk]. destruct (o_fault (w_step w1)); auto.
Qed.

Lemma wp_call_dep {A} (f : nat → X → result A * X) Q w :
  (∀ r x', f (w_step w) (w_ext w) = (r, x') → Q r (World (w_db w) x' (S (w_step w)))) →
  wp (call_dep f) Q w.
Proof. unfold wp, call_dep. destruct (f _ _) as [r x'] eqn:E. simpl. auto. Qed.

Lemma wp_if {A} (b : bool) (m1 m2 : M D X A) Q w :
  (b = true → wp m1 Q w) → (b = false → wp m2 Q w) → wp (if b then m1 else m2) Q w.
Proof. destruct b; auto. Qed.

(** ** Rely/guarantee: what a computation may do to the tables *)
Definition respects {A} (R : relation D) (m : M D X A) : Prop :=
  ∀ w, R (w_db w) (w_db (snd (m w))).

(** Other sessions stay within [R]. *)
Definition rely (R : relation D) : Prop := ∀ k d, R d (o_interf k d).

Section respects.
Context (R : relation D) `{!PreOrder R} (HR : rely R).

Lemma respects_mret {A} (a : A) : respects R (mret a).
Proof. intros w. simpl. reflexivity. Qed.

Lemma respects_throw {A} e : respects R (throw (A:=A) e).
Proof. intros w. simpl. reflexivity. Qed.

Lemma respects_bind {A B} (m : M D X A) (f : A → M D X B) :
  respects R m → (∀ a, respects R (f a)) → respects R (m ≫= f).
Proof.
  intros Hm Hf w. unfold mbind, M_bind. specialize (Hm w).
  destruct (m w) as [[a|e] w']; simpl in *; [|done]. etrans; [done|apply Hf].
Qed.

Lemma respects_fail_if b e : respects R (fail_if b e).
Proof. destruct b; [apply respects_throw|apply respects_mret]. Qed.

Lemma respects_wrap_err {A} msg (m : M D X A) : respects R m → respects R (wrap_err msg m).
Proof. intros Hm w. unfold wrap_err. specialize (Hm w). destruct (m w) as [[|] ?]; exact Hm. Qed.

Lemma respects_try {A} (m : M D X A) : respects R m → respects R (try m).
Proof. intros Hm w. unfold try. specialize (Hm w). destruct (m w); exact Hm. Qed.

Lemma respects_best_effort {A} (m : M D X A) : respects R m → respects R (best_effort m).
Proof. intros Hm w. unfold best_effort. specialize (Hm w). destruct (m w); exact Hm. Qed.

Lemma respects_new_uuid : respects R new_uuid.
Proof. intros w. simpl. reflexivity. Qed.

Lemma respects_now : respects R now.
Proof. intros w. simpl. reflexivity. Qed.

Lemma respects_exec {A} lbl (s : stmt A) :
  (∀ d a d', s d = Ok (a, d') → R d d') → respects R (exec lbl s).
Proof.
  intros Hs w. unfold exec, run_stmt. destruct (o_fault _); simpl; [apply HR|].
  destruct (s _) as [[a d']|e] eqn:E; simpl; [|apply HR].
  etrans; [apply HR|]. by eapply Hs.
Qed.

Lemma respects_batch {A} lbl (s : stmt A) :
  (∀ d a d', s d = Ok (a, d') → R d d') → respects R (batch lbl s).
Proof.
  intros Hs w. pose proof (respects_exec lbl s Hs w) as He. unfold batch.
  destruct (exec lbl s w) as [[a|e] w1]; simpl in *; [|exact He].
  destruct (o_fault (w_step w1)); simpl; [apply HR|exact He].
Qed.

Lemma respects_query {A} lbl (f : D → A) : respects R (query lbl f).
Proof. apply respects_exec. intros d a d' [= _ ->]. reflexivity. Qed.

Lemma respects_query_row {A} lbl (f : D → option A) nf : respects R (query_row lbl f nf).
Proof.
  apply respects_exec. intros d a d' H. destruct (f d); simplify_eq. reflexivity.
Qed.

Lemma respects_texec {A} lbl (s : stmt A) :
  (∀ d a d', s d = Ok (a, d') → R d d') → respects R (texec lbl s).
Proof.
  intros Hs w. unfold texec, run_stmt. destruct (o_fault _); simpl; [reflexivity|].
  destruct (s _) as [[a d']|e] eqn:E; simpl; [|reflexivity]. by eapply Hs.
Qed.

Lemma respects_tquery {A} lbl (f : D → A) : respects R (tquery lbl f).
Proof. apply respects_texec. intros d a d' [= _ ->]. reflexivity. Qed.

Lemma respects_tquery_row {A} lbl (f : D → option A) nf : respects R (tquery_row lbl f nf).
Proof.
  apply respects_texec. intros d a d' H. destruct (f d); simplify_eq. reflexivity.
Qed.

(** A transaction respects [R] as soon as its body does on success. *)
Lemma respects_tx_ok {A} (body : M D X A) :
  (∀ w a w1, body w = (Ok a, w1) → R (w_db w) (w_db w1)) → respects R (tx body).
Proof.
  intros Hb w. unfold tx. destruct (o_fault _); simpl; [apply HR|].
  destruct (body (interfere w)) as [[a|e] w1] eqn:E; simpl; [|apply HR].
  destruct (o_fault _); simpl; [apply HR|]. apply Hb in E. exact (transitivity (HR _ _) E).
Qed.

Lemma respects_tx {A} (body : M D X A) : respects R body → respects R (tx body).
Proof.
  intros Hb. apply respects_tx_ok. intros w a w1 E. specialize (Hb w). by rewrite E in Hb.
Qed.

Lemma respects_call_dep {A} (f : nat → X → result A * X) : respects R (call_dep f).
Proof. intros w. unfold call_dep. destruct (f _ _). simpl. reflexivity. Qed.

Lemma respects_mfor {A B} (f : B → A → M D X B) l b :
  (∀ b a, respects R (f b a)) → respects R (mfor f l b).
Proof.
  intros Hf. revert b. induction l as [|a l IH]; intros b; simpl;
    [apply respects_mret|]. apply respects_bind; auto.
Qed.

Lemma respects_if {A} (b : bool) (m1 m2 : M D X A) :
  respects R m1 → respects R m2 → respects R (if b then m1 else m2).
Proof. destruct b; auto. Qed.
End respects.

Lemma wp_respects {A} (R : relation D) (m : M D X A) w :
  wp m (λ _ w', R (w_db w) (w_db w')) w → R (w_db w) (w_db (snd (m w))).
Proof. done. Qed.

(** Continue after a call that respects [R]. *)
Lemma wp_keeps {A} (R : relation D) `{!Transitive R} (m : M D X A) (Q : result A → world D X → Prop) d0 w :
  respects R m → R d0 (w_db w) → (∀ r w', m w = (r, w') → R d0 (w_db w') → Q r w') → wp m Q w.
Proof.
  intros Hm G HQ. unfold wp. specialize (Hm w). destruct (m w) as [r w'] eqn:E. simpl in *.
  apply HQ; [done|]. by etrans.
Qed.

(** Preservation of an invariant is respect for the implication. *)
Definition keeps (I : D → Prop) : relation D := λ d d', I d → I d'.

#[export] Instance keeps_preorder I : PreOrder (keeps I).
Proof. split; unfold keeps; repeat intro; auto. Qed.

Definition conj_rel (R1 R2 : relation D) : relation D := λ d d', R1 d d' ∧ R2 d d'.

#[export] Instance conj_rel_preorder R1 R2 `{!PreOrder R1, !PreOrder R2} :
  PreOrder (conj_rel R1 R2).
Proof.
  split; [intros d; split; reflexivity|].
  intros a b c [] []; split; etrans; eassumption.
Qed.

(** No other session commits between the statements of a request. *)
Definition serial : Prop := ∀ k d, o_interf k d = d.

Lemma wp_query_row_serial (HS : serial) {A} lbl (f : D → option A) nf Q w :
  (∀ e w', w_db w' = w_db w → Q (Err e) w') →
  (∀ a w', f (w_db w) = Some a → w_db w' = w_db w → Q (Ok a) w') →
  wp (query_row lbl f nf) Q w.
Proof.
  intros He Ho. apply wp_query_row; [intros _|intros _|intros a Ha]; simpl in *; rewrite ?HS in *.
  - apply He. simpl. by rewrite HS.
  - apply He. simpl. by rewrite HS.
  - apply Ho; [done|]. simpl. by rewrite HS.
Qed.

Lemma wp_query_serial (HS : serial) {A} lbl (f : D → A) Q w :
  (∀ e w', w_db w' = w_db w → Q (Err e) w') →
  (∀ w', w_db w' = w_db w → Q (Ok (f (w_db w))) w') → wp (query lbl f) Q w.
Proof.
  intros He Ho. apply wp_query; [intros _; apply He; simpl; apply HS|]. simpl. rewrite HS.
  apply Ho. simpl. apply HS.
Qed.

Lemma wp_exec_serial (HS : serial) {A} lbl (s : stmt A) Q w :
  (∀ e w', w_db w' = w_db w → Q (Err e) w') →
  (∀ a d' w', s (w_db w) = Ok (a, d') → w_db w' = d' → Q (Ok a) w') → wp (exec lbl s) Q w.
Proof.
  intros He Ho. apply wp_exec; [intros _|intros e _|intros a d' Hs]; [by apply He; simpl; apply HS..|].
  simpl in Hs. rewrite HS in Hs. by eapply Ho.
Qed.
End effects.

(** ** How far a run looks ahead

    A run depends on the oracle only up to the step it ends at: two oracles that
    agree so far give the same run.  [m] takes the oracle as an argument. *)
Section prefix.
Context {D X : Type}.
Implicit Types (E : Oracle D) (w : world D X).

Definition agree_until (n : nat) E E' : Prop := ∀ k, (k < n)%nat →
  @o_uuid D E k = @o_uuid D E' k ∧ @o_time D E k = @o_time D E' k ∧ @o_fault D E k = @o_fault D E' k
  ∧ ∀ d, @o_interf D E k d = @o_interf D E' k d.

Definition prefixed {A} (m : Oracle D → M D X A) : Prop := ∀ E w r w', m E w = (r, w') →
  (w_step w <= w_step w')%nat ∧ ∀ E', agree_until (w_step w') E E' → m E' w = (r, w').

Lemma agree_until_le n n' E E' : (n <= n')%nat → agree_until n' E E' → agree_until n E E'.
Proof. intros Hn Ha k Hk. apply Ha. lia. Qed.

Lemma prefixed_bind {A B} (m : Oracle D → M D X A) (f : Oracle D → A → M D X B) :
  prefixed m → (∀ a, prefixed (λ E, f E a)) → prefixed (λ E, m E ≫= f E).
Proof.
  intros Hm Hf E w r w'. unfold mbind, M_bind. destruct (m E w) as [[a|e] w1] eqn:E1.
  - intros E2. destruct (Hm E w _ _ E1) as [L1 P1], (Hf a E w1 r w' E2) as [L2 P2]. split; [lia|].
    intros E' Ha. rewrite (P1 E') by (by eapply agree_until_le). by apply P2.
  - intros [= <- <-]. destruct (Hm E w _ _ E1) as [L1 P1]. split; [done|]. intros E' Ha. by rewrite (P1 E' Ha).
Qed.

(** No step at all, or one step that does not ask the oracle. *)
Lemma prefixed_const {A} (m : M D X A) :
  (∀ w, (w_step w <= w_step (snd (m w)))%nat) → prefixed (λ _, m).
Proof. intros Hm E w r w' E1. specialize (Hm w). rewrite E1 in Hm. by split. Qed.

Lemma prefixed_mret {A} (a : A) : prefixed (λ _, mret a).
Proof. apply prefixed_const. by intros w. Qed.

Lemma prefixed_throw {A} e : prefixed (λ _, throw (A:=A) e).
Proof. apply prefixed_const. by intros w. Qed.

Lemma prefixed_fail_if b e : prefixed (λ _, fail_if b e).
Proof. apply prefixed_const. intros w. by destruct b. Qed.

Lemma prefixed_fail_opt o : prefixed (λ _, fail_opt o).
Proof. apply prefixed_const. intros w. by destruct o. Qed.

Lemma prefixed_of_result {A} (r : result A) : prefixed (λ _, of_result r).
Proof. apply prefixed_const. intros w. by destruct r. Qed.

Lemma prefixed_call_dep {A} (f : dep X A) : prefixed (λ _, call_dep f).
Proof. apply prefixed_const. intros w. unfold call_dep. destruct (f _ _). simpl. lia. Qed.

Lemma prefixed_wrap_err {A} msg (m : Oracle D → M D X A) : prefixed m → prefixed (λ E, wrap_err msg (m E)).
Proof.
  intros Hm E w r w'. unfold wrap_err. destruct (m E w) as [r1 w1] eqn:E1.
  destruct (Hm E w _ _ E1) as [L P]. intros E2.
  assert (w1 = w') as -> by (destruct r1; congruence). split; [done|]. intros E' Ha. by rewrite (P E' Ha).
Qed.

Lemma prefixed_exec {A} lbl (s : stmt A) : prefixed (λ E, @exec D X E A lbl s).
Proof.
  intros E w r w' E1. assert (w_step w' = S (w_step w)) as Hs.
  { revert E1. unfold exec, run_stmt. destruct (o_fault _); [by intros [= _ <-]|].
    destruct (s _) as [[a d']|e]; by intros [= _ <-]. }
  split; [lia|]. intros E' Ha. destruct (Ha (w_step w)) as (_ & _ & Hf & Hi); [lia|].
  revert E1. unfold exec, interfere. by rewrite <- Hf, <- Hi.
Qed.
End prefix.

#[export] Hint Resolve respects_mret respects_throw respects_bind respects_fail_if
  respects_wrap_err respects_try respects_best_effort respects_new_uuid respects_now
  respects_query respects_query_row respects_tquery respects_tquery_row respects_tx
  respects_call_dep respects_mfor respects_if : vmarble.

(** One step of symbolic execution of the goal [wp m Q w]. *)
Ltac wp_step :=
  lazymatch goal with
  | |- wp (mbind _ _) _ _ => apply wp_bind
  | |- wp (mret _) _ _ => apply wp_mret
  | |- wp (throw _) _ _ => apply wp_throw
  | |- wp (fail_if _ _) _ _ => apply wp_fail_if; intros
  | |- wp (wrap_err _ _) _ _ => apply wp_wrap_err
  | |- wp (try _) _ _ => apply wp_try
  | |- wp (best_effort _) _ _ => apply wp_best_effort
  | |- wp new_uuid _ _ => apply wp_new_uuid
  | |- wp now _ _ => apply wp_now
  | |- wp (exec _ _) _ _ => apply wp_exec; intros
  | |- wp (query _ _) _ _ => apply wp_query; intros
  | |- wp (query_row _ _ _) _ _ => apply wp_query_row; intros
  | |- wp (texec _ _) _ _ => apply wp_texec; intros
  | |- wp (tquery _ _) _ _ => apply wp_tquery; intros
  | |- wp (tquery_row _ _ _) _ _ => apply wp_tquery_row; intros
  | |- wp (tx _) _ _ => apply wp_tx; intros
  | |- wp (call_dep _) _ _ => apply wp_call_dep; intros
  | |- wp (if _ then _ else _) _ _ => apply wp_if; intros
  | |- wp (match ?x with _ => _ end) _ _ => destruct x eqn:?
  | |- wp (let (_, _) := ?x in _) _ _ => destruct x eqn:?
  end.

Ltac wp_steps := repeat (wp_step; try done; try congruence).

(** One step of a proof of [respects R m], given the rely [HR] on the other
    sessions: a handler is split into its statements. *)
Ltac resp_step HR :=
  lazymatch goal with
  | |- respects _ (mbind _ _) => apply respects_bind; [typeclasses eauto| |intros]
  | |- respects _ (mret _) => apply respects_mret; typeclasses eauto
  | |- respects _ (throw _) => apply respects_throw; typeclasses eauto
  | |- respects _ (fail_if _ _) => apply respects_fail_if; typeclasses eauto
  | |- respects _ (wrap_err _ _) => apply respects_wrap_err
  | |- respects _ (try _) => apply respects_try
  | |- respects _ (best_effort _) => apply respects_best_effort
  | |- respects _ new_uuid => apply respects_new_uuid; typeclasses eauto
  | |- respects _ now => apply respects_now; typeclasses eauto
  | |- respects _ (query _ _) => apply respects_query; [typeclasses eauto|exact HR]
  | |- respects _ (query_row _ _ _) => apply respects_query_row; [typeclasses eauto|exact HR]
  | |- respects _ (tquery _ _) => apply respects_tquery; typeclasses eauto
  | |- respects _ (tquery_row _ _ _) => apply respects_tquery_row; typeclasses eauto
  | |- respects _ (exec _ _) => apply respects_exec; [typeclasses eauto|exact HR|intros]
  | |- respects _ (batch _ _) => apply respects_batch; [typeclasses eauto|exact HR|intros]
  | |- respects _ (texec _ _) => apply respects_texec; [typeclasses eauto|intros]
  | |- respects _ (tx _) => apply respects_tx; [typeclasses eauto|exact HR|]
  | |- respects _ (call_dep _) => apply respects_call_dep; typeclasses eauto
  | |- respects _ (mfor _ _ _) => apply respects_mfor; [typeclasses eauto|intros]
  | |- respects _ (if ?b then _ else _) => destruct b
  | |- respects _ (match ?x with _ => _ end) => destruct x
  | |- respects _ (let (_, _) := ?x in _) => destruct x
  end.

Ltac resp_steps HR := repeat resp_step HR.

(** From a run [E : m w = (r, w')] to the symbolic execution of [m]. *)
Ltac run_wp E :=
  match type of E with
  | ?m ?w = (?r, ?w') => pattern r, w'; refine (wp_run m _ w r w' E _); clear E
  end.
