(* ===== verification/HttpKit.v ===== *)
(** * HTTP envelopes (internal/platform/httpkit)

    Offset pagination, keyset pagination over [(timestamp, id)] cursors, and the
    mapping from error values to status codes.  [keyset_select] is the query every
    [select...Keyset] store method issues; [collect] is a client that follows
    [next_cursor] until [has_more] is false. *)

From S2P Require Import Prelude Domain.
From stdpp Require Import base gmap strings list sorting.
From Stdlib Require Import ZArith Lia Ascii.

Open Scope Z_scope.

(** ** httpkit.go: page parameters *)
Definition defaultPageLimit : Z := 10.
Definition maxPageLimit : Z := 100.
Definition MaxOffset : Z := 10000.
Definition CountThreshold : Z := 50000.

Record PageParams := mkPageParams {
  pp_Page : Z; pp_Limit : Z; pp_Search : string; pp_SortBy : string; pp_Order : string
}.

Record PagedResult (T : Type) := mkPagedResult {
  pr_Items : list T; pr_TotalItems : Z; pr_TotalPages : Z;
  pr_CurrentPage : Z; pr_Limit : Z; pr_TotalIsEstimate : bool
}.
Arguments mkPagedResult {T}. Arguments pr_Items {T}. Arguments pr_TotalItems {T}.
Arguments pr_TotalPages {T}. Arguments pr_CurrentPage {T}. Arguments pr_Limit {T}.
Arguments pr_TotalIsEstimate {T}.

(** [totalItems + limit - 1] wraps at 64 bits; [/] truncates. *)
Definition newPagedResult {T} (items : list T) (totalItems : Z) (params : PageParams)
    (isEstimate : bool) : PagedResult T :=
  let limit := if pp_Limit params <=? 0 then defaultPageLimit else pp_Limit params in
  let totalPages := Z.quot (wrap64 (totalItems + limit - 1)) limit in
  let totalPages := if totalPages =? 0 then 1 else totalPages in
  mkPagedResult items totalItems totalPages (pp_Page params) limit isEstimate.

Definition NewPagedResult {T} (items : list T) (totalItems : Z) (params : PageParams) :=
  newPagedResult items totalItems params false.

Definition NewPagedResultEstimated {T} (items : list T) (totalItems : Z) (params : PageParams) :=
  newPagedResult items totalItems params true.

Definition Offset (p : PageParams) : Z := wrap64 (wrap64 (pp_Page p - 1) * pp_Limit p).

(** A query parameter is absent ([None]) or a string; [strconv.Atoi] answers
    0 on a malformed number, [math.MaxInt64] or [math.MinInt64] out of range.
    The parse itself is the argument [atoi]. *)
Definition clamp_limit (limit : Z) : Z :=
  let limit := if limit <? 1 then defaultPageLimit else limit in
  if maxPageLimit <? limit then maxPageLimit else limit.

Definition BindPageParams (atoi : string → Z) (page limit search sort_by order : option string)
    : PageParams :=
  let pg := atoi (default "1"%string page) in
  let pg := if pg <? 1 then 1 else pg in
  let lm := clamp_limit (atoi (default "10"%string limit)) in
  let od := default "asc"%string order in
  let od := if (od <>s "asc") && (od <>s "desc") then "asc"%string else od in
  mkPageParams pg lm (default EmptyString search) (default EmptyString sort_by) od.

Definition ValidateOffset (p : PageParams) : option error :=
  if MaxOffset <? Offset p
  then Some (NewBizError ErrInvalidInput
    "page * limit exceeds offset cap of 10000; narrow the result set with a date filter or use the cursor-based endpoint")
  else None.

(** [CountOrEstimate] with its two data sources as outcomes. *)
Definition CountOrEstimate (est : result Z) (realCount : result Z) : result (Z * bool) :=
  match est with
  | Err e => Err e
  | Ok n =>
      if n <? CountThreshold
      then match realCount with Err e => Err e | Ok c => Ok (c, false) end
      else Ok (n, true)
  end.

(** [Error]: the status code of an error value, in the order of the switch. *)
Definition status_of (err : error) : Z :=
  if errors_Is err ErrNotFound then 404
  else if errors_Is err ErrInvalidInput then 400
  else if errors_Is_InvalidCursor err then 400
  else if errors_Is err ErrInsufficientStock then 422
  else if errors_Is err ErrInvalidTransition then 409
  else if errors_Is err ErrAreaConservation then 422
  else if errors_Is err ErrAlreadyFinalized then 409
  else if errors_Is err ErrPreconditionFailed then 412
  else if errors_Is err ErrConflict then 409
  else 500.

(** ** cursor.go *)
Record Cursor := mkCursor { Ts : instant; CID : uuid }.

#[export] Instance Cursor_eq_dec : EqDecision Cursor.
Proof. solve_decision. Defined.

Definition zeroCursor : Cursor := mkCursor 0 uuid_Nil.

Definition Cursor_IsZero (c : Cursor) : bool := (Ts c =? 0) && (CID c =? uuid_Nil)%N.

(** The opaque token is base64url of the JSON of the cursor.  The codec is the
    standard library's; the code relies on decoding inverting encoding for the
    cursors it can marshal. *)
Class CursorCodec := {
  cc_marshal : Cursor → string;
  cc_unmarshal : string → option Cursor;
  cc_valid : Cursor → Prop;
  cc_roundtrip : ∀ c, cc_valid c → cc_unmarshal (cc_marshal c) = Some c;
  cc_nonempty : ∀ c, cc_valid c → cc_marshal c ≠ EmptyString
}.

Record CursorParams := mkCursorParams { cp_Cursor : string; cp_Limit : Z }.

Record CursorResult (T : Type) := mkCursorResult {
  cr_Items : list T; cr_NextCursor : string; cr_HasMore : bool;
  cr_Total : Z; cr_TotalIsEstimate : bool
}.
Arguments mkCursorResult {T}. Arguments cr_Items {T}. Arguments cr_NextCursor {T}.
Arguments cr_HasMore {T}. Arguments cr_Total {T}. Arguments cr_TotalIsEstimate {T}.

Section cursor.
Context `{!CursorCodec}.

Definition Cursor_Encode (c : Cursor) : string :=
  if Cursor_IsZero c then EmptyString else cc_marshal c.

Definition DecodeCursor (s : string) : result Cursor :=
  if s =s EmptyString then Ok zeroCursor
  else match cc_unmarshal s with
       | None => Err (EWrap "bad token" EInvalidCursor)
       | Some c => if Cursor_IsZero c then Err (EWrap "empty cursor" EInvalidCursor) else Ok c
       end.

Definition Decoded (p : CursorParams) : result Cursor := DecodeCursor (cp_Cursor p).

Definition BindCursorParams (atoi : string → Z) (cursor limit : option string) : CursorParams :=
  mkCursorParams (default EmptyString cursor) (clamp_limit (atoi (default "10"%string limit))).

Definition NewCursorResultWithCount {T} (items : list T) (limit : Z) (getCursor : T → Cursor)
    (total : Z) (isEstimate : bool) : CursorResult T :=
  let limit := if limit <? 1 then defaultPageLimit else limit in
  if zlen items <=? limit then mkCursorResult items EmptyString false total isEstimate
  else
    let kept := take (Z.to_nat limit) items in
    let next := match last kept with Some r => Cursor_Encode (getCursor r) | None => EmptyString end in
    mkCursorResult kept next true total isEstimate.

Definition NewCursorResult {T} (items : list T) (limit : Z) (getCursor : T → Cursor) :=
  NewCursorResultWithCount items limit getCursor 0 false.

(** *** The keyset query *)
Definition cursor_lt (a b : Cursor) : Prop :=
  Ts a < Ts b ∨ (Ts a = Ts b ∧ (CID a < CID b)%N).

#[export] Instance cursor_lt_dec : RelDecision cursor_lt.
Proof. unfold cursor_lt. intros a b. apply _. Defined.

(** [ORDER BY ts DESC, id DESC] *)
Definition newer {T} (key : T → Cursor) (x y : T) : Prop := ¬ cursor_lt (key x) (key y).

#[export] Instance newer_dec {T} (key : T → Cursor) : RelDecision (newer key).
Proof. unfold newer. intros x y. apply _. Defined.

(** [WHERE p AND (ts, id) < cur ORDER BY ts DESC, id DESC LIMIT limit]; the
    cursor conjunct is left out when the cursor is zero. *)
Definition keyset_select {T} (key : T → Cursor) (rows : list T) (cur : Cursor) (limit : Z) : list T :=
  take (Z.to_nat limit)
    (filter (λ r, Cursor_IsZero cur = true ∨ cursor_lt (key r) cur)
       (merge_sort (newer key) rows)).

(** One request of a list endpoint: decode, select [limit+1], wrap. *)
Definition keyset_page {T} (key : T → Cursor) (rows : list T) (p : CursorParams)
    : result (CursorResult T) :=
  match Decoded p with
  | Err e => Err e
  | Ok cur => Ok (NewCursorResult (keyset_select key rows cur (cp_Limit p + 1)) (cp_Limit p) key)
  end.

(** A client that follows the cursors; [None] when the fuel runs out or a
    request fails. *)
Fixpoint collect {T} (key : T → Cursor) (rows : list T) (limit : Z) (fuel : nat) (tok : string)
    : option (list T) :=
  match fuel with
  | O => None
  | S fuel' =>
      match keyset_page key rows (mkCursorParams tok limit) with
      | Err _ => None
      | Ok r => if cr_HasMore r
                then app (cr_Items r) <$> collect key rows limit fuel' (cr_NextCursor r)
                else Some (cr_Items r)
      end
  end.

(** *** Facts about the order *)
Lemma cursor_lt_irrefl c : ¬ cursor_lt c c.
Proof. unfold cursor_lt. lia. Qed.

Lemma cursor_total a b : ¬ cursor_lt a b → ¬ cursor_lt b a → a = b.
Proof.
  unfold cursor_lt. destruct a, b; simpl. intros. f_equal; lia.
Qed.

#[export] Instance newer_total {T} (key : T → Cursor) : Total (newer key).
Proof. intros x y. unfold newer, cursor_lt. lia. Qed.

#[export] Instance newer_trans {T} (key : T → Cursor) : Transitive (newer key).
Proof. intros x y z. unfold newer, cursor_lt. lia. Qed.

Section sorted.
Context {T : Type} (key : T → Cursor).

Definition strictly_newer (x y : T) : Prop := cursor_lt (key y) (key x).

Lemma sorted_strict (l : list T) :
  NoDup (key <$> l) → StronglySorted (newer key) l → StronglySorted strictly_newer l.
Proof.
  intros Hnd Hs. induction Hs as [|x l Hs IH Hx]; [constructor|].
  apply NoDup_cons in Hnd as [Hin Hnd]. constructor; [by apply IH|].
  rewrite Forall_forall in Hx |- *. intros y Hy. unfold strictly_newer.
  destruct (decide (cursor_lt (key y) (key x))) as [|Hn]; [done|].
  destruct Hin. rewrite (cursor_total _ _ (Hx y Hy) Hn). by apply list_elem_of_fmap_2.
Qed.

Lemma sort_strict (rows : list T) :
  NoDup (key <$> rows) → StronglySorted strictly_newer (merge_sort (newer key) rows).
Proof.
  intros Hnd. apply sorted_strict; [|by apply StronglySorted_merge_sort; apply _].
  by rewrite (merge_sort_Permutation (newer key) rows).
Qed.

Lemma filter_suffix (pre post : list T) (x : T) :
  Cursor_IsZero (key x) = false →
  StronglySorted strictly_newer (pre ++ x :: post) →
  filter (λ r, Cursor_IsZero (key x) = true ∨ cursor_lt (key r) (key x)) (pre ++ x :: post) = post.
Proof.
  intros Hz. set (P := λ r, _ ∨ _). induction pre as [|y pre IH]; simpl; intros Hs.
  - apply StronglySorted_inv in Hs as [Hs Hx].
    rewrite filter_cons_False by (intros [?|?%cursor_lt_irrefl]; congruence).
    apply filter_all. eapply Forall_impl; [exact Hx|]. intros r Hr. by right.
  - apply StronglySorted_inv in Hs as [Hs Hy].
    rewrite filter_cons_False; [by apply IH|].
    rewrite Forall_app, Forall_cons in Hy. destruct Hy as (_ & Hy & _).
    intros [?|Hlt]; [congruence|]. unfold strictly_newer, cursor_lt in *. lia.
Qed.
End sorted.
End cursor.

(** ** Following the cursors reads every row once *)
Section paging.
Context `{!CursorCodec} {T : Type} (key : T → Cursor) (rows : list T) (limit : Z).
Context (Hlimit : 1 <= limit).
Context (Hkeys : Forall (λ r, Cursor_IsZero (key r) = false ∧ cc_valid (key r)) rows).
Context (Hnd : NoDup (key <$> rows)).

Let sorted := merge_sort (newer key) rows.

(** [tok] names the position after the rows [pre]. *)
Definition at_token (pre : list T) (tok : string) : Prop :=
  match last pre with
  | None => tok = EmptyString
  | Some x => tok = Cursor_Encode (key x)
  end.

Lemma sorted_keys x : x ∈ sorted → Cursor_IsZero (key x) = false ∧ cc_valid (key x).
Proof.
  intros Hx. apply (proj1 (Forall_forall _ _) Hkeys).
  by rewrite <- (merge_sort_Permutation (newer key) rows).
Qed.

Lemma decode_encode c :
  Cursor_IsZero c = false → cc_valid c → DecodeCursor (Cursor_Encode c) = Ok c.
Proof.
  intros Hz Hv. unfold Cursor_Encode, DecodeCursor. rewrite Hz.
  destruct (String.eqb_spec (cc_marshal c) EmptyString) as [E|_].
  - by destruct (cc_nonempty c Hv).
  - by rewrite cc_roundtrip, Hz.
Qed.

Lemma select_suffix pre post tok :
  sorted = pre ++ post → at_token pre tok →
  ∃ cur, DecodeCursor tok = Ok cur ∧
    ∀ n, keyset_select key rows cur n = take (Z.to_nat n) post.
Proof.
  intros Hs Ht. unfold at_token in Ht. unfold keyset_select. fold sorted.
  destruct (last pre) as [x|] eqn:Hl; subst tok.
  - apply last_Some in Hl as [pre' ->]. rewrite <- app_assoc in Hs. simpl in Hs.
    destruct (sorted_keys x) as [Hz Hv]; [rewrite Hs; set_solver|].
    exists (key x). split; [by apply decode_encode|]. intros n.
    rewrite Hs, filter_suffix; [done..|]. rewrite <- Hs. by apply sort_strict.
  - apply last_None in Hl as ->. exists zeroCursor. split; [done|]. intros n.
    rewrite filter_all; [by rewrite Hs|]. apply Forall_true. by left.
Qed.

Lemma page_suffix pre post tok :
  sorted = pre ++ post → at_token pre tok →
  ∃ r, keyset_page key rows (mkCursorParams tok limit) = Ok r ∧
    cr_Items r = take (Z.to_nat limit) post ∧
    (cr_HasMore r = true ↔ limit < zlen post) ∧
    (cr_HasMore r = true → at_token (pre ++ take (Z.to_nat limit) post) (cr_NextCursor r)).
Proof.
  intros Hs Ht. destruct (select_suffix _ _ _ Hs Ht) as (cur & Hd & Hsel).
  unfold keyset_page, Decoded. simpl. rewrite Hd. eexists; split; [done|].
  rewrite Hsel. unfold NewCursorResult, NewCursorResultWithCount.
  rewrite (proj2 (Z.ltb_ge limit 1)) by lia. unfold zlen. rewrite length_take.
  case_eq (Z.of_nat (Z.to_nat (limit + 1) `min` length post) <=? limit); intros; bool_hyps; simpl.
  - rewrite !take_ge by lia. split_and!; [done| |done]. split; [done|lia].
  - rewrite take_take. replace (_ `min` _)%nat with (Z.to_nat limit) by lia.
    split_and!; [done|split; [lia|done]|]. intros _. unfold at_token.
    rewrite last_app. destruct (last (take _ post)) eqn:E; [done|].
    apply last_None, (f_equal length) in E. rewrite length_take in E. simpl in E. lia.
Qed.

Lemma collect_suffix fuel pre post tok :
  sorted = pre ++ post → at_token pre tok → (length post < fuel)%nat →
  collect key rows limit fuel tok = Some post.
Proof.
  revert pre post tok. induction fuel as [|fuel IH]; [lia|]; intros pre post tok Hs Ht Hf.
  simpl. destruct (page_suffix _ _ _ Hs Ht) as (r & -> & Hi & Hm & Hn). rewrite Hi.
  destruct (cr_HasMore r) eqn:E.
  - rewrite (IH (pre ++ take (Z.to_nat limit) post) (drop (Z.to_nat limit) post)); simpl.
    + by rewrite take_drop.
    + by rewrite <- app_assoc, take_drop.
    + auto.
    + rewrite length_drop. assert (limit < zlen post) by (by apply Hm). unfold zlen in *. lia.
  - f_equal. apply take_ge. destruct (decide (limit < zlen post)) as [Hlt|Hlt].
    + apply Hm in Hlt. congruence.
    + unfold zlen in *. lia.
Qed.
End paging.

(** [C14] Following the cursors reads every row exactly once: a client that
    starts without a cursor and follows [next_cursor] while [has_more] holds
    terminates after at most one request per row, gets a permutation of the
    rows and gets them strictly newest first, whatever ties the timestamps
    have.  The codec's round trip is what the code relies on. *)
Theorem collect_complete `{!CursorCodec} {T} (key : T → Cursor) (rows : list T) (limit : Z) :
  1 <= limit →
  NoDup (key <$> rows) →
  Forall (λ r, Cursor_IsZero (key r) = false ∧ cc_valid (key r)) rows →
  ∃ out, collect key rows limit (S (length rows)) EmptyString = Some out
    ∧ out ≡ₚ rows
    ∧ StronglySorted (strictly_newer key) out.
Proof.
  intros Hl Hnd Hk. exists (merge_sort (newer key) rows).
  split_and!; [|apply merge_sort_Permutation|by apply sort_strict].
  eapply (collect_suffix key rows limit Hl Hk Hnd _ []); [done..|].
  rewrite (Permutation_length (merge_sort_Permutation (newer key) rows)). lia.
Qed.

(** ** A codec that meets the contract: the cursor as a numeral in base 2 *)
Module BinaryCodec.
Open Scope string_scope.

Fixpoint digits (p : positive) : string :=
  match p with xH => "1" | xO q => String "0"%char (digits q) | xI q => String "i"%char (digits q) end.

Fixpoint undigits (s : string) : option positive :=
  match s with
  | EmptyString => None
  | String c s' =>
      match c, s' with
      | "1"%char, EmptyString => Some xH
      | "0"%char, _ => xO <$> undigits s'
      | "i"%char, _ => xI <$> undigits s'
      | _, _ => None
      end
  end.

Lemma undigits_digits p : undigits (digits p) = Some p.
Proof. induction p as [p IH|p IH|]; simpl; [by rewrite IH|by rewrite IH|done]. Qed.

Definition marshal (c : Cursor) : string := digits (encode (Ts c, CID c)).

Definition unmarshal (s : string) : option Cursor :=
  p ← undigits s; '(t, i) ← decode p; Some (mkCursor t i).

Lemma unmarshal_marshal c : True → unmarshal (marshal c) = Some c.
Proof.
  destruct c as [t i]. intros _. unfold unmarshal, marshal. rewrite undigits_digits. simpl.
  by rewrite countable.decode_encode.
Qed.

Lemma marshal_nonempty c : True → marshal c ≠ EmptyString.
Proof. intros _. unfold marshal. by destruct (encode _). Qed.

#[export] Instance codec : CursorCodec :=
  Build_CursorCodec marshal unmarshal (λ _, True) unmarshal_marshal marshal_nonempty.
End BinaryCodec.

Lemma collect_complete_witness :
  let rows := [mkCursor 5 1; mkCursor 7 2; mkCursor 5 3; mkCursor 9 4]%N in
  ∃ out, @collect BinaryCodec.codec _ id rows 2 5 EmptyString = Some out ∧ out ≡ₚ rows
         ∧ StronglySorted (strictly_newer id) out.
Proof.
  intros rows. apply (@collect_complete BinaryCodec.codec _ id rows 2).
  - lia.
  - apply (bool_decide_unpack _). by vm_compute.
  - repeat constructor.
Defined.

(** ** Offset pagination *)
Lemma BindPageParams_bounds atoi page limit search sort_by order :
  let p := BindPageParams atoi page limit search sort_by order in
  1 <= pp_Page p ∧ 1 <= pp_Limit p <= 100.
Proof.
  unfold BindPageParams, clamp_limit, maxPageLimit, defaultPageLimit. simpl.
  repeat case_match; bool_hyps; lia.
Qed.

(** [C36] For page numbers below 2^56 the offset cap is exact: the parameters
    bound from a request pass [ValidateOffset] exactly when the rows they skip
    number at most 10000, and the SQL offset is that number. *)
Theorem offset_cap_exact (atoi : string → Z) (page limit search sort_by order : option string) :
  let p := BindPageParams atoi page limit search sort_by order in
  pp_Page p <= 2 ^ 56 →
  Offset p = (pp_Page p - 1) * pp_Limit p
  ∧ (ValidateOffset p = None ↔ (pp_Page p - 1) * pp_Limit p <= MaxOffset).
Proof.
  intros p Hp. pose proof (BindPageParams_bounds atoi page limit search sort_by order) as [H1 H2].
  fold p in H1, H2. unfold ValidateOffset, Offset.
  rewrite (wrap64_id (pp_Page p - 1)) by (unfold int64; lia).
  rewrite wrap64_id by (unfold int64; nia). split; [done|].
  case_match; bool_hyps; split; intros; try done; lia.
Qed.

Lemma offset_cap_exact_witness :
  let p := BindPageParams (λ s, if s =s "101" then 101 else 100) (Some "101"%string) None None None None in
  Offset p = 10000 ∧ ValidateOffset p = None.
Proof.
  cbv zeta.
  destruct (offset_cap_exact (λ s, if s =s "101" then 101 else 100) (Some "101"%string) None None None None)
    as [HO [_ HV]]; [vm_compute; discriminate|].
  split; [by rewrite HO|]. apply HV. by vm_compute.
Defined.

Lemma wrap64_shift (a k : Z) : wrap64 (a + k * 2 ^ 64) = wrap64 a.
Proof.
  unfold wrap64. replace (a + k * 2 ^ 64 + 2 ^ 63) with (a + 2 ^ 63 + k * 2 ^ 64) by lia.
  by rewrite Z.mod_add.
Qed.

(** [C37] The cap is passed by overflow.  Take any request whose limit is a
    multiple of four, as 20 or 100, and whose page is at most 2^61, and the same
    request for a page 2^62 further, still a number [strconv.Atoi] accepts.  The second skips more
    than 2^60 rows on paper, but its 64-bit offset, with which the lists are
    queried, is that of the first: it passes [ValidateOffset] exactly when the
    first does. *)
Theorem offset_cap_overflow (atoi : string → Z) (page limit search sort_by order : option string) (far : string) :
  let p := BindPageParams atoi page limit search sort_by order in
  let q := BindPageParams atoi (Some far) limit search sort_by order in
  pp_Page p <= 2 ^ 61 → (4 | pp_Limit p) → atoi far = pp_Page p + 2 ^ 62 →
  int64 (atoi far) ∧ Offset q = Offset p ∧ ValidateOffset q = ValidateOffset p
  ∧ MaxOffset < 2 ^ 60 < (pp_Page q - 1) * pp_Limit q.
Proof.
  intros p q Hp [m Hm] Hfar. pose proof (BindPageParams_bounds atoi page limit search sort_by order) as [H1 H2].
  fold p in H1, H2.
  assert (pp_Page q = pp_Page p + 2 ^ 62) as Hq.
  { change (pp_Page q) with (if atoi far <? 1 then 1 else atoi far). rewrite Hfar. clearbody p.
    case_match; bool_hyps; lia. }
  assert (pp_Limit q = pp_Limit p) as Hl by done. clearbody p q.
  assert (Offset q = Offset p) as Ho.
  { unfold Offset. rewrite Hq, Hl. rewrite Hm.
    rewrite (wrap64_id (pp_Page p + 2 ^ 62 - 1)) by (unfold int64; lia).
    rewrite (wrap64_id (pp_Page p - 1)) by (unfold int64; lia).
    rewrite <- (wrap64_shift ((pp_Page p - 1) * (m * 4)) m). f_equal. ring. }
  split_and!.
  - rewrite Hfar. unfold int64. lia.
  - done.
  - unfold ValidateOffset. by rewrite Ho.
  - done.
  - rewrite Hq, Hl. nia.
Qed.

Lemma offset_cap_overflow_witness :
  let atoi s := if s =s "20" then 20 else if s =s "3" then 3 else 2 ^ 62 + 3 in
  let q := BindPageParams atoi (Some "4611686018427387907"%string) (Some "20"%string) None None None in
  ValidateOffset q = None ∧ Offset q = 40 ∧ 2 ^ 60 < (pp_Page q - 1) * pp_Limit q.
Proof.
  cbv zeta.
  destruct (offset_cap_overflow (λ s, if s =s "20" then 20 else if s =s "3" then 3 else 2 ^ 62 + 3)
    (Some "3"%string) (Some "20"%string) None None None "4611686018427387907"%string)
    as (_ & HO & HV & _ & Hskip); [vm_compute; discriminate|by exists 5|done|].
  split_and!; [rewrite HV; by vm_compute|rewrite HO; by vm_compute|exact Hskip].
Defined.

(** [C38] The page count is the rounded-up quotient, at least one: for a total
    that is a row count, every row is on one of the [total_pages] pages and no
    page but the first is empty. *)
Theorem total_pages_covers {T} (items : list T) (total : Z) (p : PageParams) (est : bool) :
  0 <= total < 2 ^ 62 → 1 <= pp_Limit p <= 100 →
  let r := newPagedResult items total p est in
  1 <= pr_TotalPages r ∧ total <= pr_TotalPages r * pr_Limit r
  ∧ (total = 0 ∨ (pr_TotalPages r - 1) * pr_Limit r < total).
Proof.
  intros Ht Hl r. unfold r, newPagedResult. simpl.
  rewrite (proj2 (Z.leb_gt (pp_Limit p) 0)) by lia. rewrite wrap64_id by (unfold int64; lia).
  pose proof (Z.quot_rem' (total + pp_Limit p - 1) (pp_Limit p)).
  pose proof (Z.rem_bound_pos (total + pp_Limit p - 1) (pp_Limit p)).
  set (q := Z.quot _ _) in *. case_match; bool_hyps; nia.
Qed.

Lemma total_pages_covers_witness :
  let r := newPagedResult [1; 2; 3] 43 (mkPageParams 1 10 "" "" "asc") false in
  43 <= pr_TotalPages r * pr_Limit r ∧ pr_TotalPages r = 5.
Proof.
  intros r. split; [|done].
  refine (proj1 (proj2 (total_pages_covers [1; 2; 3] 43 (mkPageParams 1 10 "" "" "asc") false _ _)));
    simpl; lia.
Defined.

(** ** Status codes *)
Definition sentinel_status (s : sentinel) : Z :=
  match s with
  | ErrNotFound => 404
  | ErrConflict | ErrInvalidTransition | ErrAlreadyFinalized => 409
  | ErrInvalidInput => 400
  | ErrInsufficientStock | ErrAreaConservation => 422
  | ErrPreconditionFailed => 412
  end.

(** The one sentinel an error value carries, under any wrapping. *)
Fixpoint carried (e : error) : option sentinel :=
  match e with
  | ESentinel s | EBiz s _ => Some s
  | EWrap _ e' => carried e'
  | EInvalidCursor | EOther _ => None
  end.

Lemma errors_Is_carried e s : errors_Is e s = bool_decide (carried e = Some s).
Proof.
  induction e as [s'|s' m|m e IH| |m]; simpl; [| |exact IH|done..];
    apply bool_decide_ext; naive_solver.
Qed.

Lemma invalid_cursor_carried e : errors_Is_InvalidCursor e = true → carried e = None.
Proof. by induction e. Qed.

(** [C39] The status of a response depends only on the sentinel the error carries,
    however often it was wrapped: each sentinel has its code, an invalid cursor
    is a 400 and anything else - a driver or database error - is a 500. *)
Theorem status_of_sentinel (e : error) :
  status_of e = match carried e with
                | Some s => sentinel_status s
                | None => if errors_Is_InvalidCursor e then 400 else 500
                end.
Proof.
  unfold status_of. rewrite !errors_Is_carried.
  destruct (errors_Is_InvalidCursor e) eqn:Ei.
  - by rewrite (invalid_cursor_carried e Ei).
  - destruct (carried e) as [[]|]; reflexivity.
Qed.
