(* ===== verification/Sql.v ===== *)
(** * SQL building blocks over keyed tables

    A table with an UUID primary key is a finite map.  The statements below are
    the shapes the stores issue: INSERT with the primary key and the declared
    constraints, UPDATE by key or by predicate with the row count, SELECT by
    predicate with a deterministic reading of ORDER BY. *)

From S2P Require Import Prelude Domain Effects.
From stdpp Require Import base gmap fin_maps strings list sorting.
From Stdlib Require Import ZArith Lia.

Open Scope string_scope.

#[export] Instance result_ret : MRet result := λ A a, Ok a.
#[export] Instance result_bind : MBind result := λ A B f r,
  match r with Ok a => f a | Err e => Err e end.

(** SQLSTATE 23505, 23503, 23514, 22003 and 22001. *)
Definition pg_unique_violation : error := EOther "23505 unique_violation".
Definition pg_fk_violation : error := EOther "23503 foreign_key_violation".
Definition pg_check_violation : error := EOther "23514 check_violation".
Definition pg_out_of_range : error := EOther "22003 numeric_value_out_of_range".
Definition pg_string_too_long : error := EOther "22001 string_data_right_truncation".

Definition require (b : bool) (e : error) : result unit := if b then Ok tt else Err e.

Definition sql_insert {A} (k : uuid) (r : A) (t : gmap uuid A) : result (gmap uuid A) :=
  match t !! k with Some _ => Err pg_unique_violation | None => Ok (<[k := r]> t) end.

(** [UPDATE ... WHERE id = k]: rows affected and the new table. *)
Definition sql_update {A} (k : uuid) (f : A → A) (t : gmap uuid A) : Z * gmap uuid A :=
  match t !! k with Some r => (1%Z, <[k := f r]> t) | None => (0%Z, t) end.

Definition sql_update_where {A} (p : A → bool) (f : A → A) (t : gmap uuid A) : Z * gmap uuid A :=
  (Z.of_nat (size (filter (λ kv, p kv.2 = true) t)), (λ r, if p r then f r else r) <$> t).

Definition table_rows {A} (t : gmap uuid A) : list A := (map_to_list t).*2.

Definition sql_where {A} (p : A → bool) (t : gmap uuid A) : list A :=
  filter (λ r, p r = true) (table_rows t).

(** [ORDER BY key] with ties broken by identifier. *)
Definition sql_order {A} (key : A → Z) (id : A → uuid) (l : list A) : list A :=
  merge_sort (by_key key id) l.

Definition fk_ok {A} (k : uuid) (t : gmap uuid A) : bool := is_some (t !! k).
Definition fk_opt_ok {A} (k : option uuid) (t : gmap uuid A) : bool :=
  match k with None => true | Some k => fk_ok k t end.

Section laws.
Context {A : Type}.
Implicit Types (t : gmap uuid A) (r : A).

Lemma sql_insert_ok k r t t' :
  sql_insert k r t = Ok t' → t !! k = None ∧ t' = <[k := r]> t.
Proof. unfold sql_insert. destruct (t !! k); by intros; simplify_eq. Qed.

Lemma sql_insert_lookup k r t t' i x :
  sql_insert k r t = Ok t' → t !! i = Some x → t' !! i = Some x.
Proof.
  intros [Hn ->]%sql_insert_ok Hi. destruct (decide (i = k)) as [->|]; [congruence|].
  by rewrite lookup_insert_ne.
Qed.

Lemma sql_update_lookup k f t i :
  snd (sql_update k f t) !! i = if decide (k = i) then f <$> t !! i else t !! i.
Proof.
  unfold sql_update. destruct (t !! k) eqn:E; simpl; case_decide; subst.
  - by rewrite lookup_insert_eq, E.
  - by rewrite lookup_insert_ne.
  - by rewrite E.
  - done.
Qed.

Lemma sql_update_where_lookup p f t i :
  snd (sql_update_where p f t) !! i = (λ r, if p r then f r else r) <$> t !! i.
Proof. unfold sql_update_where. simpl. by rewrite lookup_fmap. Qed.

Lemma table_rows_elem t r : r ∈ table_rows t ↔ ∃ k, t !! k = Some r.
Proof.
  unfold table_rows. rewrite list_elem_of_fmap. split.
  - intros ([k r'] & -> & H%elem_of_map_to_list). eauto.
  - intros [k H%elem_of_map_to_list]. by exists (k, r).
Qed.

Lemma sql_where_elem p t r : r ∈ sql_where p t ↔ p r = true ∧ ∃ k, t !! k = Some r.
Proof. unfold sql_where. by rewrite list_elem_of_filter, table_rows_elem. Qed.

Lemma sql_order_perm key id (l : list A) : sql_order key id l ≡ₚ l.
Proof. apply merge_sort_Permutation. Qed.

Lemma sql_order_sorted key id (l : list A) :
  StronglySorted (by_key key id) (sql_order key id l).
Proof. apply StronglySorted_merge_sort; apply _. Qed.

Lemma fk_ok_spec k t : fk_ok k t = true ↔ is_Some (t !! k).
Proof.
  unfold fk_ok, is_some, is_none. destruct (t !! k); simpl; split; eauto.
  - done.
  - by intros [? ?].
Qed.

Lemma require_ok b e : require b e = Ok tt → b = true.
Proof. by destruct b. Qed.
End laws.

Lemma result_bind_ok {A B} (r : result A) (f : A → result B) b :
  r ≫= f = Ok b → ∃ a, r = Ok a ∧ f a = Ok b.
Proof. destruct r; simpl; [eauto|]; intros; simplify_eq. Qed.

(** Decompose the success of a statement. *)
Ltac stmt_ok :=
  repeat match goal with
  | H : mbind _ _ = Ok _ |- _ =>
      let a := fresh "a" in apply result_bind_ok in H as (a & ? & H)
  | H : require _ _ = Ok ?u |- _ => destruct u; apply require_ok in H
  | H : mret _ = Ok _ |- _ => injection H as ?; subst
  | H : Ok _ = Ok _ |- _ => injection H as ?; subst
  | H : Err _ = Ok _ |- _ => discriminate H
  | H : (_, _) = (_, _) |- _ => injection H as ?; subst
  | H : sql_insert _ _ _ = Ok _ |- _ => apply sql_insert_ok in H as [? ?]; subst
  end.

(** ** What a statement leaves alone

    [core] keeps the columns no statement of a module rewrites; a table that
    only grows and is updated in place evolves along [⊆] of its cores. *)
Section core.
Context {A B : Type} (core : A → B).
Implicit Types (t : gmap uuid A) (r : A).

Lemma core_update k f t :
  (∀ r, core (f r) = core r) → core <$> snd (sql_update k f t) = core <$> t.
Proof.
  intros Hf. apply map_eq. intros i. rewrite !lookup_fmap, sql_update_lookup.
  case_decide; [|done]. destruct (t !! i); simpl; [by rewrite Hf|done].
Qed.

Lemma core_fmap (f : A → A) t : (∀ r, core (f r) = core r) → core <$> (f <$> t) = core <$> t.
Proof.
  intros Hf. apply map_eq. intros i. rewrite !lookup_fmap.
  destruct (t !! i); simpl; [by rewrite Hf|done].
Qed.

Lemma core_update_where p f t :
  (∀ r, core (f r) = core r) → core <$> snd (sql_update_where p f t) = core <$> t.
Proof. intros Hf. apply core_fmap. intros r. by destruct (p r). Qed.

Lemma core_insert k r t : t !! k = None → core <$> t ⊆ core <$> <[k := r]> t.
Proof. intros Hn. rewrite fmap_insert. apply insert_subseteq. by rewrite lookup_fmap, Hn. Qed.

Lemma core_lookup t t' k r :
  core <$> t ⊆ core <$> t' → t !! k = Some r → ∃ r', t' !! k = Some r' ∧ core r' = core r.
Proof.
  intros Hs Hk. eapply (lookup_weaken _ _ k (core r)) in Hs; [|by rewrite lookup_fmap, Hk].
  rewrite lookup_fmap in Hs. destruct (t' !! k); simplify_eq/=. eauto.
Qed.

Lemma core_lookup_eq t t' k r :
  core <$> t = core <$> t' → t' !! k = Some r → ∃ r', t !! k = Some r' ∧ core r' = core r.
Proof. intros He. apply core_lookup. by rewrite He. Qed.
End core.

(** ** Sums over a table *)
Definition table_sum {A} (f : A → Z) (t : gmap uuid A) : Z := zsum f (table_rows t).

Section table_sum.
Context {A : Type} (f : A → Z).
Implicit Types (t : gmap uuid A) (r : A).

Lemma table_sum_insert_new k r t :
  t !! k = None → table_sum f (<[k := r]> t) = (f r + table_sum f t)%Z.
Proof.
  intros Hn. unfold table_sum, table_rows.
  rewrite (zsum_perm f _ (((k, r) :: map_to_list t).*2)); [done|].
  apply fmap_Permutation. by apply map_to_list_insert.
Qed.

Lemma table_sum_delete k r t :
  t !! k = Some r → table_sum f t = (f r + table_sum f (delete k t))%Z.
Proof.
  intros Hk. rewrite <- (table_sum_insert_new k r (delete k t)) by apply lookup_delete_eq.
  by rewrite insert_delete_id.
Qed.

Lemma table_sum_insert k r r' t :
  t !! k = Some r → table_sum f (<[k := r']> t) = (table_sum f t - f r + f r')%Z.
Proof.
  intros Hk. pose proof (table_sum_delete k r t Hk) as Hd.
  pose proof (table_sum_insert_new k r' (delete k t) (lookup_delete_eq t k)) as Hi.
  rewrite insert_delete_eq in Hi. lia.
Qed.

Lemma table_sum_update k g t :
  (∀ r, t !! k = Some r → f (g r) = f r) → table_sum f (snd (sql_update k g t)) = table_sum f t.
Proof.
  intros Hg. unfold sql_update. destruct (t !! k) as [r|] eqn:E; simpl; [|done].
  rewrite (table_sum_insert k r) by done. rewrite Hg; [lia|done].
Qed.

Lemma table_sum_nonneg t : (∀ k r, t !! k = Some r → 0 <= f r)%Z → (0 <= table_sum f t)%Z.
Proof.
  intros Hf. apply zsum_nonneg, Forall_forall. intros r [k Hk]%table_rows_elem. eauto.
Qed.

Lemma table_sum_elem k r t :
  (∀ k r, t !! k = Some r → 0 <= f r)%Z → t !! k = Some r → (f r <= table_sum f t)%Z.
Proof.
  intros Hf Hk. rewrite (table_sum_delete k r t Hk).
  enough (0 <= table_sum f (delete k t))%Z by lia. apply table_sum_nonneg.
  intros k2 r2 [_ H2]%lookup_delete_Some. by eapply Hf.
Qed.

Lemma table_sum_ext (g : A → Z) t :
  (∀ k r, t !! k = Some r → f r = g r) → table_sum f t = table_sum g t.
Proof.
  intros Hf. apply zsum_ext, Forall_forall. intros r [k Hk]%table_rows_elem. eauto.
Qed.

(** A sum that reads only the core. *)
Lemma table_sum_core {B} (core : A → B) (g : B → Z) t :
  (∀ r, f r = g (core r)) → table_sum f t = zsum g (table_rows (core <$> t)).
Proof.
  intros Hg. unfold table_sum, table_rows. rewrite map_to_list_fmap, <- !list_fmap_compose.
  induction (map_to_list t) as [|[k r] l IH]; simpl; [done|]. f_equal; [apply Hg|exact IH].
Qed.

Lemma table_rows_fmap (g : A → A) t : table_rows (g <$> t) ≡ₚ g <$> table_rows t.
Proof.
  unfold table_rows. rewrite map_to_list_fmap, <- !list_fmap_compose. apply fmap_Permutation.
  done.
Qed.

Lemma table_sum_fmap (g : A → A) t :
  (∀ k r, t !! k = Some r → f (g r) <= f r)%Z → (table_sum f (g <$> t) <= table_sum f t)%Z.
Proof.
  intros Hg. unfold table_sum. rewrite (zsum_perm f _ _ (table_rows_fmap g t)).
  assert (Forall (λ r, f (g r) <= f r)%Z (table_rows t)) as HF.
  { apply Forall_forall. intros r [k Hk]%table_rows_elem. eauto. }
  induction HF; [done|]. rewrite fmap_cons. simpl. lia.
Qed.
End table_sum.

(** A table of no more rows, each worth no more. *)
Lemma table_sum_le {A} (f f' : A → Z) (t t' : gmap uuid A) :
  (∀ k r', t' !! k = Some r' → ∃ r, t !! k = Some r ∧ f' r' <= f r)%Z →
  (∀ k r, t !! k = Some r → 0 <= f r)%Z →
  (table_sum f' t' <= table_sum f t)%Z.
Proof.
  revert t. induction t' as [|k r' m Hk IH] using map_ind; intros t Hle Hnn.
  - by apply table_sum_nonneg.
  - destruct (Hle k r') as (r & Hr & Hf); [apply lookup_insert_eq|].
    rewrite table_sum_insert_new, (table_sum_delete f k r t) by done.
    enough (table_sum f' m <= table_sum f (delete k t))%Z by lia. apply IH.
    + intros k2 r2 H2. assert (k ≠ k2) by (intros ->; congruence).
      destruct (Hle k2 r2) as (r3 & H3 & ?); [by rewrite lookup_insert_ne|].
      exists r3. by rewrite lookup_delete_ne.
    + intros k2 r2 [_ H2]%lookup_delete_Some. by eapply Hnn.
Qed.

Lemma table_sum_zero {A} (f : A → Z) (t : gmap uuid A) :
  (∀ k r, t !! k = Some r → f r = 0%Z) → table_sum f t = 0%Z.
Proof.
  intros Hf. rewrite (table_sum_ext f (λ _, 0%Z) t Hf). unfold table_sum.
  induction (table_rows t); simpl; lia.
Qed.

(** ** ORDER BY ... LIMIT *)
Lemma sql_where_ids_nodup {A} (id : A → uuid) p (t : gmap uuid A) :
  (∀ k r, t !! k = Some r → id r = k) → NoDup (id <$> sql_where p t).
Proof.
  intros Hid. apply (sublist_NoDup _ (id <$> table_rows t)).
  - assert (id <$> table_rows t = (map_to_list t).*1) as ->; [|apply NoDup_fst_map_to_list].
    unfold table_rows. rewrite <- list_fmap_compose. apply list_fmap_ext.
    intros i [k r] Hi. simpl. apply Hid, elem_of_map_to_list. by eapply list_elem_of_lookup_2.
  - apply fmap_sublist, sublist_filter.
Qed.

Lemma sql_limit_least {A} key id (l : list A) n x y :
  x ∈ take n (sql_order key id l) → y ∈ l → y ∉ take n (sql_order key id l) → by_key key id x y.
Proof.
  intros Hx Hy Hn. pose proof (sql_order_sorted key id l) as Hs.
  rewrite <- (take_drop n (sql_order key id l)) in Hs.
  eapply StronglySorted_app_1_elem_of; [exact Hs|exact Hx|].
  rewrite <- (sql_order_perm key id l), <- (take_drop n (sql_order key id l)), elem_of_app in Hy.
  by destruct Hy.
Qed.
