(* ===== verification/InventoryData.v ===== *)
(** * Inventory: data and tables (internal/module/inventory/iface.go, store.go)

    The DTOs and rows of the module with their updates, the tables it keeps and
    the SQL building blocks its store uses on them. *)

From S2P Require Import Prelude Domain Effects HttpKit.
From stdpp Require Import base gmap strings list.
From Stdlib Require Import ZArith Lia SpecFloat.

Open Scope string_scope.

(** ** iface.go *)
Definition SheetStatusPendingQC : string := "PENDING_QC".
Definition SheetStatusAvailable : string := "AVAILABLE".
Definition SheetStatusRejected : string := "REJECTED".
Definition SheetStatusIssued : string := "ISSUED".

Definition RejectionReasonCrack : string := "CRACK".
Definition RejectionReasonColorMismatch : string := "COLOR_MISMATCH".
Definition RejectionReasonLateDelivery : string := "LATE_DELIVERY".
Definition RejectionReasonDamage : string := "DAMAGE".
Definition RejectionReasonWrongSpec : string := "WRONG_SPEC".
Definition RejectionReasonOther : string := "OTHER".

Definition ClaimStatusOpen : string := "OPEN".
Definition ClaimStatusApproved : string := "APPROVED".
Definition ClaimStatusRejected : string := "REJECTED".
Definition ClaimStatusPaid : string := "PAID".

Record ReceiveStockInput := {
  rs_MaterialID : uuid; rs_Dimensions : Dimension; rs_CostPerSheet : Money;
  rs_Quantity : Z; rs_SupplierRef : string
}.

Record InventoryLot := {
  lot_ID : uuid; lot_MaterialID : uuid; lot_Quantity : Z; lot_CostPerSheet : Money;
  lot_SupplierRef : string; lot_IsActive : bool; lot_ReceivedAt : instant
}.

Record BoardSheet := {
  sh_ID : uuid; sh_LotID : uuid; sh_MaterialID : uuid; sh_MaterialName : string;
  sh_Dimensions : Dimension; sh_CostPerSheet : Money; sh_Status : string;
  sh_IssuedToWorkOrderID : option uuid;
  sh_SupplierCode : option string; sh_LotBatch : option string;
  sh_GrainPattern : option string; sh_QualityGrade : option string;
  sh_BinLocationID : option uuid
}.

Record RecordCutInput := {
  rc_SheetID : option uuid; rc_RemnantID : option uuid; rc_WorkOrderID : uuid; rc_SKUID : uuid;
  rc_UsedDimension : Dimension; rc_RemnantDimension : option Dimension; rc_IsWaste : bool;
  rc_BoundingBoxLengthMM : option Z; rc_BoundingBoxWidthMM : option Z; rc_ShapeType : string
}.

Record CutResult := {
  cut_CuttingRecordID : uuid; cut_RemnantID : option uuid; cut_BarcodeIDs : list uuid;
  cut_DroppedRemnantCount : Z
}.

Record StorageLocation := {
  loc_ID : uuid; loc_Zone : string; loc_Rack : string; loc_Shelf : string; loc_Label : string;
  loc_Barcode : string; loc_IsActive : bool; loc_CreatedAt : instant
}.

Record Remnant := {
  rem_ID : uuid; rem_ParentBoardID : uuid; rem_ParentRemnantID : option uuid;
  rem_Dimensions : Dimension; rem_Status : string; rem_ShapeType : string;
  rem_AllocatedToWO : option uuid; rem_AllocatedAt : option instant;
  rem_SupplierCode : option string; rem_LotBatch : option string;
  rem_GrainPattern : option string; rem_QualityGrade : option string;
  rem_BoundingBoxLengthMM : option Z; rem_BoundingBoxWidthMM : option Z;
  rem_BinLocationID : option uuid; rem_CreatedAt : instant
}.

Definition OverflowGreen : string := "GREEN".
Definition OverflowRed : string := "RED".

Record OverflowStatus := {
  of_Status : string; of_OverflowPct : spec_float; of_ThresholdPct : spec_float;
  of_BlockNewSheetIssue : bool; of_TotalRemnantAreaMM2 : Z; of_TotalSheetAreaMM2 : Z
}.

Record PreAssignSheetInput := {
  pa_SheetID : uuid; pa_WorkOrderID : uuid; pa_BypassOverflow : bool;
  pa_ActorID : uuid; pa_Reason : string
}.

Record RemnantAgingRow := { ra_Remnant : Remnant; ra_AgeDays : Z; ra_Level : string }.

Record RemnantAgingSummary := {
  ras_WarnDays : Z; ras_ExpireDays : Z; ras_Rows : list RemnantAgingRow;
  ras_TotalOK : Z; ras_TotalAtRisk : Z; ras_TotalExpired : Z
}.

Record TransferInput := {
  tr_EntityType : string; tr_EntityID : uuid; tr_TargetBarcode : string; tr_ActorID : uuid
}.

Record TransferResult := {
  trr_EntityType : string; trr_EntityID : uuid; trr_FromLocation : option uuid;
  trr_ToLocation : uuid; trr_AuditLogID : uuid
}.

(** [Metadata] is the list of ids the only writer marshals into JSON. *)
Record AuditLogEntry := {
  al_ID : uuid; al_EntityType : string; al_EntityID : uuid; al_Action : string;
  al_ActorID : uuid; al_FromLocation : option uuid; al_ToLocation : option uuid;
  al_FromStatus : option string; al_ToStatus : option string; al_Reason : option string;
  al_SessionID : option uuid; al_Metadata : list uuid; al_CreatedAt : instant
}.

Record LogRemnantBypassInput := {
  lb_WorkOrderID : uuid; lb_ActorID : uuid; lb_SuggestedRemnantIDs : list uuid; lb_Reason : string
}.

Record CreateCycleCountInput := { ccc_Zone : string; ccc_ActorID : uuid }.

Record CycleCountSession := {
  cs_ID : uuid; cs_Zone : string; cs_Status : string; cs_CreatedBy : uuid;
  cs_PostedBy : option uuid; cs_CreatedAt : instant; cs_PostedAt : option instant
}.

Record AddCountLineInput := {
  acl_SessionID : uuid; acl_EntityType : string; acl_EntityID : uuid;
  acl_CountedStatus : string; acl_CountedLocationID : option uuid; acl_Reason : string
}.

Record CycleCountLine := {
  cl_ID : uuid; cl_SessionID : uuid; cl_EntityType : string; cl_EntityID : uuid;
  cl_CountedStatus : string; cl_CountedLocationID : option uuid; cl_Reason : string;
  cl_CreatedAt : instant
}.

Record PostCycleCountInput := { pcc_SessionID : uuid; pcc_ActorID : uuid }.

Record MaterialRejection := {
  mr_ID : uuid; mr_LotID : uuid; mr_ReasonCode : string; mr_ReasonDetail : string;
  mr_RejectedQtySheets : Z; mr_PhotoURLs : list string; mr_ClaimAmount : option Z;
  mr_ClaimCurrency : string; mr_ClaimStatus : string; mr_ResolutionNotes : string;
  mr_ReportedBy : uuid; mr_ReportedAt : instant;
  mr_ResolvedBy : option uuid; mr_ResolvedAt : option instant
}.

Record RejectLotInput := {
  rl_LotID : uuid; rl_ReasonCode : string; rl_ReasonDetail : string;
  rl_RejectedQtySheets : Z; rl_PhotoURLs : list string; rl_ActorID : uuid
}.

Record RejectLotResult := { rlr_Rejection : MaterialRejection; rlr_RejectedSheetIDs : list uuid }.

Record UpdateClaimInput := {
  uc_RejectionID : uuid; uc_ClaimStatus : string; uc_ClaimAmount : option Z;
  uc_ClaimCurrency : string; uc_ResolutionNotes : string; uc_ActorID : uuid
}.

(** ** store.go *)
Record CuttingRecord := {
  cut_ID : uuid; cut_SheetID : option uuid; cut_RemnantSourceID : option uuid;
  cut_WorkOrderID : uuid; cut_SKUID : uuid; cut_UsedLengthMM : Z; cut_UsedWidthMM : Z;
  cut_ProducedRemnantID : option uuid; cut_CreatedAt : instant
}.

Record sheetStatusUpdate := { ssu_ID : uuid; ssu_Status : string; ssu_IssuedToWO : option uuid }.

Record remnantStatusUpdate := { rsu_ID : uuid; rsu_Status : string }.

Record cutWriteOp := {
  cwo_Record : CuttingRecord; cwo_SheetUpdate : option sheetStatusUpdate;
  cwo_RemnantUpdate : option remnantStatusUpdate; cwo_NewRemnant : option Remnant
}.

Record rejectLotOp := { rlo_LotID : uuid; rlo_Qty : Z; rlo_Rejection : MaterialRejection }.

Record updateClaimRow := {
  ucr_RejectionID : uuid; ucr_ClaimStatus : string; ucr_ClaimAmount : option Z;
  ucr_ClaimCurrency : string; ucr_ResolutionNotes : string;
  ucr_ResolvedBy : option uuid; ucr_ResolvedAt : option instant
}.

Record cycleCountAdjustment := {
  cca_EntityType : string; cca_EntityID : uuid;
  cca_OldLocationID : option uuid; cca_NewLocationID : option uuid;
  cca_OldStatus : string; cca_NewStatus : string; cca_AuditEntry : AuditLogEntry
}.

Record cycleCountPostOp := {
  ccp_SessionID : uuid; ccp_PostedBy : uuid; ccp_Adjustments : list cycleCountAdjustment
}.

(** The columns of [materials] the module reads; the catalog module owns them. *)
Record MaterialRow := {
  mat_Name : string; mat_MinRemnantLengthMM : Z; mat_MinRemnantWidthMM : Z
}.

(** ** Row updates *)
Definition sheet_set_status (st : string) (wo : option uuid) (s : BoardSheet) : BoardSheet :=
  {| sh_ID := sh_ID s; sh_LotID := sh_LotID s; sh_MaterialID := sh_MaterialID s;
     sh_MaterialName := sh_MaterialName s; sh_Dimensions := sh_Dimensions s;
     sh_CostPerSheet := sh_CostPerSheet s; sh_Status := st; sh_IssuedToWorkOrderID := wo;
     sh_SupplierCode := sh_SupplierCode s; sh_LotBatch := sh_LotBatch s;
     sh_GrainPattern := sh_GrainPattern s; sh_QualityGrade := sh_QualityGrade s;
     sh_BinLocationID := sh_BinLocationID s |}.

Definition sheet_set_bin (bin : option uuid) (s : BoardSheet) : BoardSheet :=
  {| sh_ID := sh_ID s; sh_LotID := sh_LotID s; sh_MaterialID := sh_MaterialID s;
     sh_MaterialName := sh_MaterialName s; sh_Dimensions := sh_Dimensions s;
     sh_CostPerSheet := sh_CostPerSheet s; sh_Status := sh_Status s;
     sh_IssuedToWorkOrderID := sh_IssuedToWorkOrderID s;
     sh_SupplierCode := sh_SupplierCode s; sh_LotBatch := sh_LotBatch s;
     sh_GrainPattern := sh_GrainPattern s; sh_QualityGrade := sh_QualityGrade s;
     sh_BinLocationID := bin |}.

Definition sheet_set_material (mid : uuid) (name : string) (s : BoardSheet) : BoardSheet :=
  {| sh_ID := sh_ID s; sh_LotID := sh_LotID s; sh_MaterialID := mid; sh_MaterialName := name;
     sh_Dimensions := sh_Dimensions s; sh_CostPerSheet := sh_CostPerSheet s;
     sh_Status := sh_Status s; sh_IssuedToWorkOrderID := sh_IssuedToWorkOrderID s;
     sh_SupplierCode := sh_SupplierCode s; sh_LotBatch := sh_LotBatch s;
     sh_GrainPattern := sh_GrainPattern s; sh_QualityGrade := sh_QualityGrade s;
     sh_BinLocationID := sh_BinLocationID s |}.

Definition remnant_set_status (st : string) (wo : option uuid) (at_ : option instant) (r : Remnant) : Remnant :=
  {| rem_ID := rem_ID r; rem_ParentBoardID := rem_ParentBoardID r;
     rem_ParentRemnantID := rem_ParentRemnantID r; rem_Dimensions := rem_Dimensions r;
     rem_Status := st; rem_ShapeType := rem_ShapeType r; rem_AllocatedToWO := wo;
     rem_AllocatedAt := at_; rem_SupplierCode := rem_SupplierCode r;
     rem_LotBatch := rem_LotBatch r; rem_GrainPattern := rem_GrainPattern r;
     rem_QualityGrade := rem_QualityGrade r;
     rem_BoundingBoxLengthMM := rem_BoundingBoxLengthMM r;
     rem_BoundingBoxWidthMM := rem_BoundingBoxWidthMM r;
     rem_BinLocationID := rem_BinLocationID r; rem_CreatedAt := rem_CreatedAt r |}.

Definition remnant_set_bin (bin : option uuid) (r : Remnant) : Remnant :=
  {| rem_ID := rem_ID r; rem_ParentBoardID := rem_ParentBoardID r;
     rem_ParentRemnantID := rem_ParentRemnantID r; rem_Dimensions := rem_Dimensions r;
     rem_Status := rem_Status r; rem_ShapeType := rem_ShapeType r;
     rem_AllocatedToWO := rem_AllocatedToWO r; rem_AllocatedAt := rem_AllocatedAt r;
     rem_SupplierCode := rem_SupplierCode r;
     rem_LotBatch := rem_LotBatch r; rem_GrainPattern := rem_GrainPattern r;
     rem_QualityGrade := rem_QualityGrade r;
     rem_BoundingBoxLengthMM := rem_BoundingBoxLengthMM r;
     rem_BoundingBoxWidthMM := rem_BoundingBoxWidthMM r;
     rem_BinLocationID := bin; rem_CreatedAt := rem_CreatedAt r |}.

Definition session_set_status (st : string) (by_ : option uuid) (at_ : option instant)
    (s : CycleCountSession) : CycleCountSession :=
  {| cs_ID := cs_ID s; cs_Zone := cs_Zone s; cs_Status := st; cs_CreatedBy := cs_CreatedBy s;
     cs_PostedBy := by_; cs_CreatedAt := cs_CreatedAt s; cs_PostedAt := at_ |}.

Definition lot_set_active (b : bool) (l : InventoryLot) : InventoryLot :=
  {| lot_ID := lot_ID l; lot_MaterialID := lot_MaterialID l; lot_Quantity := lot_Quantity l;
     lot_CostPerSheet := lot_CostPerSheet l; lot_SupplierRef := lot_SupplierRef l;
     lot_IsActive := b; lot_ReceivedAt := lot_ReceivedAt l |}.

(** [COALESCE] and [NULLIF(s, '')] as [updateRejectionClaim] combines them. *)
Definition coalesce {A} (new old : option A) : option A :=
  match new with Some _ => new | None => old end.

Definition coalesce_text (new old : string) : string := if new =s "" then old else new.

Definition claim_update (u : updateClaimRow) (r : MaterialRejection) : MaterialRejection :=
  {| mr_ID := mr_ID r; mr_LotID := mr_LotID r; mr_ReasonCode := mr_ReasonCode r;
     mr_ReasonDetail := mr_ReasonDetail r; mr_RejectedQtySheets := mr_RejectedQtySheets r;
     mr_PhotoURLs := mr_PhotoURLs r;
     mr_ClaimAmount := coalesce (ucr_ClaimAmount u) (mr_ClaimAmount r);
     mr_ClaimCurrency := coalesce_text (ucr_ClaimCurrency u) (mr_ClaimCurrency r);
     mr_ClaimStatus := ucr_ClaimStatus u;
     mr_ResolutionNotes := coalesce_text (ucr_ResolutionNotes u) (mr_ResolutionNotes r);
     mr_ReportedBy := mr_ReportedBy r; mr_ReportedAt := mr_ReportedAt r;
     mr_ResolvedBy := coalesce (ucr_ResolvedBy u) (mr_ResolvedBy r);
     mr_ResolvedAt := coalesce (ucr_ResolvedAt u) (mr_ResolvedAt r) |}.

(** ** The tables *)
Record InvDB := mkInvDB {
  t_lots : gmap uuid InventoryLot;
  t_sheets : gmap uuid BoardSheet;
  t_remnants : gmap uuid Remnant;
  t_cuts : gmap uuid CuttingRecord;
  t_locs : gmap uuid StorageLocation;
  t_audit : gmap uuid AuditLogEntry;
  t_sessions : gmap uuid CycleCountSession;
  t_lines : gmap uuid CycleCountLine;
  t_rejections : gmap uuid MaterialRejection;
  t_materials : gmap uuid MaterialRow;
  t_users : gset uuid
}.

Definition set_lots m (d : InvDB) := mkInvDB m (t_sheets d) (t_remnants d) (t_cuts d) (t_locs d)
  (t_audit d) (t_sessions d) (t_lines d) (t_rejections d) (t_materials d) (t_users d).
Definition set_sheets m (d : InvDB) := mkInvDB (t_lots d) m (t_remnants d) (t_cuts d) (t_locs d)
  (t_audit d) (t_sessions d) (t_lines d) (t_rejections d) (t_materials d) (t_users d).
Definition set_remnants m (d : InvDB) := mkInvDB (t_lots d) (t_sheets d) m (t_cuts d) (t_locs d)
  (t_audit d) (t_sessions d) (t_lines d) (t_rejections d) (t_materials d) (t_users d).
Definition set_cuts m (d : InvDB) := mkInvDB (t_lots d) (t_sheets d) (t_remnants d) m (t_locs d)
  (t_audit d) (t_sessions d) (t_lines d) (t_rejections d) (t_materials d) (t_users d).
Definition set_audit m (d : InvDB) := mkInvDB (t_lots d) (t_sheets d) (t_remnants d) (t_cuts d)
  (t_locs d) m (t_sessions d) (t_lines d) (t_rejections d) (t_materials d) (t_users d).
Definition set_sessions m (d : InvDB) := mkInvDB (t_lots d) (t_sheets d) (t_remnants d) (t_cuts d)
  (t_locs d) (t_audit d) m (t_lines d) (t_rejections d) (t_materials d) (t_users d).
Definition set_lines m (d : InvDB) := mkInvDB (t_lots d) (t_sheets d) (t_remnants d) (t_cuts d)
  (t_locs d) (t_audit d) (t_sessions d) m (t_rejections d) (t_materials d) (t_users d).
Definition set_rejections m (d : InvDB) := mkInvDB (t_lots d) (t_sheets d) (t_remnants d) (t_cuts d)
  (t_locs d) (t_audit d) (t_sessions d) (t_lines d) m (t_materials d) (t_users d).
