(* ===== verification/InventoryStore.v ===== *)
(** * Inventory: the PostgreSQL store (internal/module/inventory/pgstore.go)

    Each store method as the statements it issues.  A method that opens a
    transaction is [tx] of its body; a single pool statement is [exec] or
    [query].  Foreign keys and CHECK constraints come from migrations/. *)

From S2P Require Import Prelude Domain Effects HttpKit Sql InventoryData.
From stdpp Require Import base gmap strings list sorting.
From Stdlib Require Import ZArith Lia.

Open Scope string_scope.

(** What the source leaves to the server and its driver.  When the foreign key
    [cutting_records.produced_remnant_id] is checked: [AtStatement] is how
    migration 00037 declares it (no DEFERRABLE clause), [AtCommit] is a
    deferred constraint. *)
Inductive fk_timing := AtStatement | AtCommit.

(** Whether the driver encodes a Go int for a parameter the server takes to be
    text, as it does the one of [($3 || ' days')::INTERVAL]; a driver that does
    not fails the statement. *)
Class Schema := { produced_fk : fk_timing; int_as_text : bool }.

(** ** Statements *)
Definition lot_insert (lot : InventoryLot) : stmt (D:=InvDB) unit := λ d,
  _ ← require (int4 (lot_Quantity lot)) pg_out_of_range;
  t ← sql_insert (lot_ID lot) lot (t_lots d);
  mret (tt, set_lots t d).

Definition sheet_insert (sh : BoardSheet) : stmt (D:=InvDB) unit := λ d,
  _ ← require (dim_int4 (sh_Dimensions sh)) pg_out_of_range;
  _ ← require (fk_ok (sh_LotID sh) (t_lots d)) pg_fk_violation;
  t ← sql_insert (sh_ID sh) sh (t_sheets d);
  mret (tt, set_sheets t d).

Fixpoint sheets_insert (shs : list BoardSheet) : stmt (D:=InvDB) unit := λ d,
  match shs with
  | [] => mret (tt, d)
  | sh :: shs' => '(_, d') ← sheet_insert sh d; sheets_insert shs' d'
  end.

Definition cut_insert `{!Schema} (cr : CuttingRecord) : stmt (D:=InvDB) unit := λ d,
  _ ← require (int4 (cut_UsedLengthMM cr) && int4 (cut_UsedWidthMM cr)) pg_out_of_range;
  _ ← require (fk_opt_ok (cut_SheetID cr) (t_sheets d)) pg_fk_violation;
  _ ← require (match produced_fk with
               | AtStatement => fk_opt_ok (cut_ProducedRemnantID cr) (t_remnants d)
               | AtCommit => true
               end) pg_fk_violation;
  t ← sql_insert (cut_ID cr) cr (t_cuts d);
  mret (tt, set_cuts t d).

(** The deferred check of the same key. *)
Definition cut_fk_at_commit `{!Schema} (cr : CuttingRecord) : stmt (D:=InvDB) unit := λ d,
  _ ← require (match produced_fk with
               | AtStatement => true
               | AtCommit => fk_opt_ok (cut_ProducedRemnantID cr) (t_remnants d)
               end) pg_fk_violation;
  mret (tt, d).

Definition int4_opt (o : option Z) : bool := match o with None => true | Some z => int4 z end.

Definition shape_ok (s : string) : bool := (s =s "rectangle") || (s =s "irregular").

Definition remnant_insert (r : Remnant) : stmt (D:=InvDB) unit := λ d,
  _ ← require (dim_int4 (rem_Dimensions r) && int4_opt (rem_BoundingBoxLengthMM r)
               && int4_opt (rem_BoundingBoxWidthMM r)) pg_out_of_range;
  _ ← require (shape_ok (rem_ShapeType r)) pg_check_violation;
  _ ← require (fk_ok (rem_ParentBoardID r) (t_sheets d)
               && fk_opt_ok (rem_ParentRemnantID r) (t_remnants d)
               && fk_opt_ok (rem_BinLocationID r) (t_locs d)) pg_fk_violation;
  t ← sql_insert (rem_ID r) r (t_remnants d);
  mret (tt, set_remnants t d).

Definition sheet_update (id : uuid) (f : BoardSheet → BoardSheet) : stmt (D:=InvDB) Z := λ d,
  let (n, t) := sql_update id f (t_sheets d) in Ok (n, set_sheets t d).

Definition remnant_update (id : uuid) (f : Remnant → Remnant) : stmt (D:=InvDB) Z := λ d,
  let (n, t) := sql_update id f (t_remnants d) in Ok (n, set_remnants t d).

(** Updates of [bin_location_id] are checked against [storage_locations]. *)
Definition sheet_update_bin (id : uuid) (bin : option uuid) (f : BoardSheet → BoardSheet)
    : stmt (D:=InvDB) Z := λ d,
  _ ← require (is_none (t_sheets d !! id) || fk_opt_ok bin (t_locs d)) pg_fk_violation;
  sheet_update id f d.

Definition remnant_update_bin (id : uuid) (bin : option uuid) (f : Remnant → Remnant)
    : stmt (D:=InvDB) Z := λ d,
  _ ← require (is_none (t_remnants d !! id) || fk_opt_ok bin (t_locs d)) pg_fk_violation;
  remnant_update id f d.

Definition audit_insert (e : AuditLogEntry) : stmt (D:=InvDB) unit := λ d,
  t ← sql_insert (al_ID e) e (t_audit d); mret (tt, set_audit t d).

Definition session_update (id : uuid) (f : CycleCountSession → CycleCountSession)
    : stmt (D:=InvDB) Z := λ d,
  let (n, t) := sql_update id f (t_sessions d) in Ok (n, set_sessions t d).

Definition validRejectionReason (s : string) : bool :=
  (s =s RejectionReasonCrack) || (s =s RejectionReasonColorMismatch)
  || (s =s RejectionReasonLateDelivery) || (s =s RejectionReasonDamage)
  || (s =s RejectionReasonWrongSpec) || (s =s RejectionReasonOther).

Definition isValidClaimStatus (s : string) : bool :=
  (s =s ClaimStatusOpen) || (s =s ClaimStatusApproved)
  || (s =s ClaimStatusRejected) || (s =s ClaimStatusPaid).

Definition rejection_insert (r : MaterialRejection) : stmt (D:=InvDB) unit := λ d,
  _ ← require (int4 (mr_RejectedQtySheets r)) pg_out_of_range;
  _ ← require (validRejectionReason (mr_ReasonCode r) && (0 <? mr_RejectedQtySheets r)%Z
               && isValidClaimStatus (mr_ClaimStatus r)) pg_check_violation;
  _ ← require (fk_ok (mr_LotID r) (t_lots d) && bool_decide (mr_ReportedBy r ∈ t_users d))
        pg_fk_violation;
  t ← sql_insert (mr_ID r) r (t_rejections d);
  mret (tt, set_rejections t d).

(** ** Store methods *)
Section store.
Context {X : Type} `{!Oracle InvDB} `{!Schema}.
Local Abbreviation M := (M InvDB X).

Definition insertLot (lot : InventoryLot) : M unit := exec "insert lot" (lot_insert lot).

Definition deactivateLot (id : uuid) : M unit :=
  n ← exec "deactivate lot" (λ d,
    let (n, t) := sql_update id (lot_set_active false) (t_lots d) in Ok (n, set_lots t d));
  fail_if (n =? 0)%Z (ESentinel ErrNotFound).

Definition insertSheets (sheets : list BoardSheet) : M unit :=
  batch "insert sheets" (sheets_insert sheets).

Definition selectLotByID (id : uuid) : M InventoryLot :=
  query_row "select lot" (λ d, t_lots d !! id) (NewBizError ErrNotFound "lot not found").

(** The projection [sheetCols]: LEFT JOIN inventory_lots and materials. *)
Definition sheet_join (d : InvDB) (sh : BoardSheet) : BoardSheet :=
  match t_lots d !! sh_LotID sh with
  | None => sheet_set_material uuid_Nil "" sh
  | Some lot =>
      sheet_set_material (lot_MaterialID lot)
        (match t_materials d !! lot_MaterialID lot with Some m => mat_Name m | None => "" end) sh
  end.

Definition selectSheetByID (id : uuid) : M BoardSheet :=
  query_row "select sheet" (λ d, sheet_join d <$> t_sheets d !! id)
    (NewBizError ErrNotFound "board sheet not found").

Definition countAvailableSheetsByMaterial (materialID : uuid) : M Z :=
  query "count available board_sheets" (λ d,
    zlen (sql_where (λ sh, (sh_Status sh =s "AVAILABLE") &&
      match t_lots d !! sh_LotID sh with
      | Some lot => (lot_MaterialID lot =? materialID)%N
      | None => false
      end) (t_sheets d))).

(** BR-K06/K07 thresholds through board_sheets, inventory_lots, materials. *)
Definition min_policy (d : InvDB) (boardSheetID : uuid) : option (Z * Z) :=
  sh ← t_sheets d !! boardSheetID;
  lot ← t_lots d !! sh_LotID sh;
  m ← t_materials d !! lot_MaterialID lot;
  Some (mat_MinRemnantLengthMM m, mat_MinRemnantWidthMM m).

Definition selectMinRemnantPolicyByParentBoard (boardSheetID : uuid) : M (Z * Z) :=
  query_row "select min remnant policy" (λ d, min_policy d boardSheetID)
    (NewBizError ErrNotFound "board sheet not found").

Definition remnant_area_sum (d : InvDB) : Z :=
  zsum (λ r, area (rem_Dimensions r))
    (sql_where (λ r, (rem_Status r =s "AVAILABLE") || (rem_Status r =s "ALLOCATED")) (t_remnants d)).

Definition sheet_area_sum (d : InvDB) : Z :=
  zsum (λ s, area (sh_Dimensions s))
    (sql_where (λ s, sh_Status s =s "AVAILABLE") (t_sheets d)).

Definition selectOverflowAreas : M (Z * Z) :=
  r ← query "sum remnant area" remnant_area_sum;
  totalRemnantAreaMM2 ← scan_int64 r;
  s ← query "sum sheet area" sheet_area_sum;
  totalSheetAreaMM2 ← scan_int64 s;
  mret (totalRemnantAreaMM2, totalSheetAreaMM2).

Definition preAssignSheet (sheetID workOrderID : uuid) : M unit :=
  tx (status ← tquery_row "lock sheet" (λ d, sh_Status <$> t_sheets d !! sheetID)
        (NewBizError ErrNotFound "board sheet not found");
      fail_if (status <>s "AVAILABLE")
        (NewBizError ErrPreconditionFailed ("sheet must be AVAILABLE to pre-assign, got " ++ status));;
      texec "pre-assign sheet" (sheet_update sheetID (λ s,
        sheet_set_status (sh_Status s) (Some workOrderID) s));;
      mret tt).

Definition selectRemnantByID (id : uuid) : M Remnant :=
  query_row "select remnant" (λ d, t_remnants d !! id)
    (NewBizError ErrNotFound "remnant not found").

Definition selectRemnantsByBoardSheet (boardSheetID : uuid) : M (list Remnant) :=
  query "select remnants by board" (λ d,
    sql_order rem_CreatedAt rem_ID
      (sql_where (λ r, (rem_ParentBoardID r =? boardSheetID)%N) (t_remnants d))).

(** [recordCutAtomically]: lock and re-check the source, update it, insert the
    cutting record, then the new remnant. *)
Definition lock_sheet (u : sheetStatusUpdate) : M unit :=
  lockedStatus ← tquery_row "lock board sheet" (λ d, sh_Status <$> t_sheets d !! ssu_ID u)
    (NewBizError ErrNotFound "board sheet not found");
  fail_if (lockedStatus <>s "AVAILABLE")
    (NewBizError ErrPreconditionFailed "board sheet is no longer available");;
  n ← texec "update sheet status"
        (sheet_update (ssu_ID u) (sheet_set_status (ssu_Status u) (ssu_IssuedToWO u)));
  fail_if (n =? 0)%Z (NewBizError ErrNotFound "board sheet not found").

Definition lock_remnant (u : remnantStatusUpdate) : M unit :=
  lockedStatus ← tquery_row "lock remnant" (λ d, rem_Status <$> t_remnants d !! rsu_ID u)
    (NewBizError ErrNotFound "remnant not found");
  fail_if ((lockedStatus <>s RemnantAvailable) && (lockedStatus <>s RemnantAllocated))
    (NewBizError ErrPreconditionFailed "remnant is no longer available");;
  n ← texec "update remnant status" (remnant_update (rsu_ID u) (λ r,
        remnant_set_status (rsu_Status u) None (rem_AllocatedAt r) r));
  fail_if (n =? 0)%Z (NewBizError ErrNotFound "remnant not found").

Definition lock_source (op : cutWriteOp) : M unit :=
  match cwo_SheetUpdate op, cwo_RemnantUpdate op with
  | Some u, _ => lock_sheet u
  | None, Some u => lock_remnant u
  | None, None => mret tt
  end.

Definition recordCutAtomically (op : cutWriteOp) : M unit :=
  tx (lock_source op;;
      texec "insert cutting record" (cut_insert (cwo_Record op));;
      match cwo_NewRemnant op with
      | Some r => texec "insert remnant" (remnant_insert r)
      | None => mret tt
      end;;
      texec "deferred constraints" (cut_fk_at_commit (cwo_Record op))).

Definition allocateRemnantAtomically (remnantID workOrderID : uuid) : M unit :=
  tx (lockedStatus ← tquery_row "lock remnant" (λ d, rem_Status <$> t_remnants d !! remnantID)
        (NewBizError ErrNotFound "remnant not found");
      fail_if (lockedStatus <>s RemnantAvailable)
        (NewBizError ErrPreconditionFailed "remnant is no longer available for allocation");;
      at_ ← now;
      n ← texec "update remnant status" (remnant_update remnantID
            (remnant_set_status RemnantAllocated (Some workOrderID) (Some at_)));
      fail_if (n =? 0)%Z (NewBizError ErrNotFound "remnant not found")).

Definition markRemnantWasteAtomically (remnantID : uuid) : M unit :=
  tx (lockedStatus ← tquery_row "lock remnant" (λ d, rem_Status <$> t_remnants d !! remnantID)
        (NewBizError ErrNotFound "remnant not found");
      fail_if ((lockedStatus <>s RemnantAvailable) && (lockedStatus <>s RemnantAllocated))
        (NewBizError ErrPreconditionFailed "remnant cannot be marked waste in its current state");;
      n ← texec "update remnant status" (remnant_update remnantID (λ r,
            remnant_set_status RemnantWaste None (rem_AllocatedAt r) r));
      fail_if (n =? 0)%Z (NewBizError ErrNotFound "remnant not found")).

Definition release_expired (before : instant) (r : Remnant) : bool :=
  (rem_Status r =s RemnantAllocated) &&
  match rem_AllocatedAt r with Some t => (t <? before)%Z | None => false end.

Definition releaseExpiredAllocations (before : instant) : M Z :=
  exec "release expired allocations" (λ d,
    let (n, t) := sql_update_where (release_expired before)
                    (remnant_set_status RemnantAvailable None None) (t_remnants d) in
    Ok (n, set_remnants t d)).

Definition day : Z := 86400000000000%Z.

(** [EXTRACT(DAY FROM (NOW() - created_at))]: whole days, towards zero. *)
Definition age_days (at_ : instant) (r : Remnant) : Z := Z.quot (at_ - rem_CreatedAt r) day.

Definition selectRemnantAging : M (list (Remnant * Z)) :=
  at_ ← now;
  query "select remnant aging" (λ d,
    (λ r, (r, age_days at_ r)) <$>
      sql_order rem_CreatedAt rem_ID (sql_where (λ r, rem_Status r =s "AVAILABLE") (t_remnants d))).

Definition expireStaleRemnants (ageDays : Z) : M Z :=
  at_ ← now;
  exec "expire stale remnants" (λ d,
    _ ← require int_as_text (EOther "cannot find encode plan");
    let (n, t) := sql_update_where
        (λ r, (rem_Status r =s RemnantAvailable) && (rem_CreatedAt r <? at_ - ageDays * day)%Z)
        (λ r, remnant_set_status RemnantExpired (rem_AllocatedToWO r) (rem_AllocatedAt r) r)
        (t_remnants d) in
    Ok (n, set_remnants t d)).

Definition updateRemnantBinLocation (remnantID locationID : uuid) : M unit :=
  n ← exec "update remnant bin" (remnant_update_bin remnantID (Some locationID)
        (remnant_set_bin (Some locationID)));
  fail_if (n =? 0)%Z (NewBizError ErrNotFound "remnant not found").

Definition updateSheetBinLocation (sheetID locationID : uuid) : M unit :=
  n ← exec "update sheet bin" (sheet_update_bin sheetID (Some locationID)
        (sheet_set_bin (Some locationID)));
  fail_if (n =? 0)%Z (NewBizError ErrNotFound "board sheet not found").

Definition selectStorageLocationByBarcode (barcode : string) : M StorageLocation :=
  query_row "select storage location" (λ d,
    head (sql_where (λ l, (loc_Barcode l =s barcode) && loc_IsActive l) (t_locs d)))
    (NewBizError ErrNotFound "storage location not found").

Definition insertAuditLog (e : AuditLogEntry) : M unit := exec "insert audit log" (audit_insert e).

Definition audit_key (e : AuditLogEntry) : Cursor := mkCursor (al_CreatedAt e) (al_ID e).

Definition selectAuditLogByEntityKeyset (entityID : uuid) (entityType : string) (cur : Cursor)
    (limit : Z) : M (list AuditLogEntry) :=
  query "select audit by entity" (λ d, keyset_select audit_key
    (sql_where (λ e, (al_EntityID e =? entityID)%N && (al_EntityType e =s entityType)) (t_audit d))
    cur limit).

Definition selectAuditLogByActionKeyset (action : string) (cur : Cursor) (limit : Z)
    : M (list AuditLogEntry) :=
  query "select audit by action" (λ d, keyset_select audit_key
    (sql_where (λ e, al_Action e =s action) (t_audit d)) cur limit).

Definition insertCycleCountSession (s : CycleCountSession) : M unit :=
  exec "insert cycle count session" (λ d,
    t ← sql_insert (cs_ID s) s (t_sessions d); mret (tt, set_sessions t d)).

Definition selectCycleCountSessionByID (id : uuid) : M CycleCountSession :=
  query_row "select cycle count session" (λ d, t_sessions d !! id)
    (NewBizError ErrNotFound "cycle count session not found").

Definition updateCycleCountSessionStatus (id : uuid) (status : string) (postedBy : option uuid)
    : M unit :=
  at_ ← now;
  n ← exec "update cycle count session" (session_update id
        (session_set_status status postedBy (if status =s "POSTED" then Some at_ else None)));
  fail_if (n =? 0)%Z (NewBizError ErrNotFound "cycle count session not found").

Definition line_counted (l : CycleCountLine) (l' : CycleCountLine) : bool :=
  (cl_SessionID l' =? cl_SessionID l)%N && (cl_EntityType l' =s cl_EntityType l)
  && (cl_EntityID l' =? cl_EntityID l)%N.

(** UNIQUE (session_id, entity_type, entity_id): a duplicate, like a duplicate
    primary key, becomes ErrPreconditionFailed. *)
Definition insertCycleCountLine (l : CycleCountLine) : M unit :=
  exec "insert cycle count line" (λ d,
    _ ← require (fk_ok (cl_SessionID l) (t_sessions d)
                 && fk_opt_ok (cl_CountedLocationID l) (t_locs d)) pg_fk_violation;
    if is_some (t_lines d !! cl_ID l) || existsb (line_counted l) (table_rows (t_lines d))
    then Err (NewBizError ErrPreconditionFailed "entity already counted in this session")
    else mret (tt, set_lines (<[cl_ID l := l]> (t_lines d)) d)).

Definition selectCycleCountLinesBySession (sessionID : uuid) : M (list CycleCountLine) :=
  query "select cycle count lines" (λ d,
    sql_order cl_CreatedAt cl_ID (sql_where (λ l, (cl_SessionID l =? sessionID)%N) (t_lines d))).

Definition apply_adjustment (adj : cycleCountAdjustment) : M unit :=
  (if cca_EntityType adj =s "REMNANT"
   then texec "adjust remnant" (remnant_update_bin (cca_EntityID adj) (cca_NewLocationID adj) (λ r,
          remnant_set_bin (cca_NewLocationID adj)
            (remnant_set_status (cca_NewStatus adj) (rem_AllocatedToWO r) (rem_AllocatedAt r) r)))
   else texec "adjust board_sheet" (sheet_update_bin (cca_EntityID adj) (cca_NewLocationID adj) (λ s,
          sheet_set_bin (cca_NewLocationID adj)
            (sheet_set_status (cca_NewStatus adj) (sh_IssuedToWorkOrderID s) s))));;
  texec "insert audit log" (audit_insert (cca_AuditEntry adj)).

Definition postCycleCountAtomically (op : cycleCountPostOp) : M unit :=
  tx (lockedStatus ← tquery_row "lock cycle count session"
        (λ d, cs_Status <$> t_sessions d !! ccp_SessionID op)
        (NewBizError ErrNotFound "cycle count session not found");
      fail_if (lockedStatus <>s "OPEN")
        (NewBizError ErrInvalidTransition "cycle count session is not OPEN");;
      mfor (λ _ adj, apply_adjustment adj) (ccp_Adjustments op) tt;;
      at_ ← now;
      texec "update session status" (session_update (ccp_SessionID op)
        (session_set_status "POSTED" (Some (ccp_PostedBy op)) (Some at_)));;
      mret tt).

Definition pending_of_lot (lotID : uuid) (s : BoardSheet) : bool :=
  (sh_LotID s =? lotID)%N && (sh_Status s =s SheetStatusPendingQC).

Definition qcPassLotAtomically (lotID : uuid) : M Z :=
  tx (texec "qc-pass lot" (λ d,
        let (n, t) := sql_update_where (pending_of_lot lotID) (λ s,
              sheet_set_status SheetStatusAvailable (sh_IssuedToWorkOrderID s) s) (t_sheets d) in
        Ok (n, set_sheets t d))).

(** [SELECT id ... ORDER BY id LIMIT qty FOR UPDATE] *)
Definition pending_ids (lotID : uuid) (qty : Z) (d : InvDB) : list uuid :=
  sh_ID <$> take (Z.to_nat qty)
    (sql_order (λ _, 0%Z) sh_ID (sql_where (pending_of_lot lotID) (t_sheets d))).

Definition reject_sheets (ids : list uuid) : stmt (D:=InvDB) unit := λ d,
  Ok (tt, set_sheets ((λ s, if bool_decide (sh_ID s ∈ ids)
                            then sheet_set_status SheetStatusRejected (sh_IssuedToWorkOrderID s) s
                            else s) <$> t_sheets d) d).

Definition rejectLotAtomically (op : rejectLotOp) : M (list uuid) :=
  tx (ids ← tquery "lock pending sheets" (pending_ids (rlo_LotID op) (rlo_Qty op));
      fail_if (zlen ids <? rlo_Qty op)%Z
        (NewBizError ErrPreconditionFailed ("only " ++ itoa (zlen ids)
           ++ " PENDING_QC sheets remain, cannot reject " ++ itoa (rlo_Qty op)));;
      texec "update sheets to REJECTED" (reject_sheets ids);;
      texec "insert material_rejection" (rejection_insert (rlo_Rejection op));;
      mret ids).

Definition selectRejectionByID (id : uuid) : M MaterialRejection :=
  query_row "select rejection" (λ d, t_rejections d !! id)
    (NewBizError ErrNotFound "material rejection not found").

Record RejectionFilter := {
  rf_ClaimStatus : string; rf_LotID : option uuid;
  rf_From : option instant; rf_To : option instant
}.

Definition rejection_matches (f : RejectionFilter) (r : MaterialRejection) : bool :=
  ((rf_ClaimStatus f =s "") || (mr_ClaimStatus r =s rf_ClaimStatus f))
  && match rf_LotID f with None => true | Some l => (mr_LotID r =? l)%N end
  && match rf_From f with None => true | Some t => (t <=? mr_ReportedAt r)%Z end
  && match rf_To f with None => true | Some t => (mr_ReportedAt r <? t)%Z end.

Definition rejection_key (r : MaterialRejection) : Cursor := mkCursor (mr_ReportedAt r) (mr_ID r).

Definition selectRejectionsKeyset (f : RejectionFilter) (cur : Cursor) (limit : Z)
    : M (list MaterialRejection) :=
  query "select rejections" (λ d,
    keyset_select rejection_key (sql_where (rejection_matches f) (t_rejections d)) cur limit).

(** [claim_currency] is VARCHAR(3), [claim_status] has its CHECK and
    [resolved_by] refers to [users]. *)
Definition updateRejectionClaim (u : updateClaimRow) : M MaterialRejection :=
  n ← exec "update rejection claim" (λ d,
    _ ← require (is_none (t_rejections d !! ucr_RejectionID u)
                 || (rune_count (ucr_ClaimCurrency u) <=? 3)%Z) pg_string_too_long;
    _ ← require (is_none (t_rejections d !! ucr_RejectionID u)
                 || isValidClaimStatus (ucr_ClaimStatus u)) pg_check_violation;
    _ ← require (is_none (t_rejections d !! ucr_RejectionID u)
                 || match ucr_ResolvedBy u with
                    | None => true | Some a => bool_decide (a ∈ t_users d) end) pg_fk_violation;
    let (n, t) := sql_update (ucr_RejectionID u) (claim_update u) (t_rejections d) in
    Ok (n, set_rejections t d));
  fail_if (n =? 0)%Z (NewBizError ErrNotFound "material rejection not found");;
  selectRejectionByID (ucr_RejectionID u).
End store.
