(* ===== verification/InventoryService.v ===== *)
(** * Inventory: the service (internal/module/inventory/service.go)

    The handlers of the module over its store and its four dependency
    interfaces (deps.go).  Each returns the Go result or error; best-effort
    calls whose errors are only logged are [best_effort]. *)

From S2P Require Import Prelude Domain Effects HttpKit Sql InventoryData InventoryStore.
From stdpp Require Import base gmap strings list.
From Stdlib Require Import ZArith Lia SpecFloat.

Open Scope string_scope.

(** ** deps.go: what the module asks of the others *)
Record BarcodeForCutInput := {
  bci_WorkOrderID : uuid; bci_UsedDimension : Dimension;
  bci_RemnantDimension : option Dimension; bci_ProducedDate : instant
}.

Record BarcodeForCutOutput := {
  bco_WIPBarcodeID : option uuid; bco_RemnantBarcodeID : option uuid
}.

Record PRFromRejectionInput := {
  pr_RejectionID : uuid; pr_LotID : uuid; pr_MaterialID : uuid; pr_Supplier : string;
  pr_QtySheets : Z; pr_ActorID : uuid
}.

Record PurchaseRequestCreator (X : Type) := {
  CreateFromRejection : PRFromRejectionInput → dep X unit;
  CancelFromRejection : uuid → dep X unit
}.
Arguments CreateFromRejection {X}. Arguments CancelFromRejection {X}.

(** The optional dependencies are Go interfaces that may be nil.
    [GenerateForCut] returns its output together with its error, and the
    service uses the output in both cases. *)
Class InventoryDeps (X : Type) := {
  woa : option (uuid → string → dep X unit);
  bcg : option (BarcodeForCutInput → nat → X → (BarcodeForCutOutput * option error) * X);
  notifier : option (uuid → uuid → dep X unit);
  prCreator : option (PurchaseRequestCreator X);
  overflowThresholdPct : spec_float
}.

(** The constructors reject a threshold outside (0, 100]. *)
Definition defaultOverflowThresholdPct : spec_float := f64_of_int 15.

Definition clamp_threshold (pct : spec_float) : spec_float :=
  if f64_leb pct (f64_of_int 0) || f64_ltb (f64_of_int 100) pct
  then defaultOverflowThresholdPct else pct.

(** ** Constants *)
Definition entityTypeRemnant : string := "REMNANT".
Definition entityTypeBoardSheet : string := "BOARD_SHEET".
Definition entityTypeWorkOrder : string := "WORK_ORDER".
Definition entityTypeLot : string := "INVENTORY_LOT".
Definition auditActionTransfer : string := "TRANSFER".
Definition auditActionAdjust : string := "ADJUSTMENT".
Definition auditActionOverflowBypassed : string := "OVERFLOW_BYPASSED".
Definition auditActionRemnantBypassed : string := "REMNANT_BYPASSED".
Definition auditActionLotQCPass : string := "LOT_QC_PASS".
Definition auditActionLotReject : string := "LOT_REJECT".
Definition auditActionClaimTransition : string := "CLAIM_TRANSITION".
Definition defaultAgingWarnDays : Z := 60.
Definition defaultAgingExpireDays : Z := 90.

Definition isAllowedClaimTransition (from to : string) : bool :=
  if from =s ClaimStatusOpen then (to =s ClaimStatusApproved) || (to =s ClaimStatusRejected)
  else if from =s ClaimStatusApproved then to =s ClaimStatusPaid
  else false.

Definition uuidPtrEqual (a b : option uuid) : bool :=
  match a, b with
  | None, None => true
  | Some x, Some y => (x =? y)%N
  | _, _ => false
  end.

Definition newAudit (id : uuid) (etype : string) (eid : uuid) (action : string) (actor : uuid)
    (at_ : instant) : AuditLogEntry :=
  {| al_ID := id; al_EntityType := etype; al_EntityID := eid; al_Action := action;
     al_ActorID := actor; al_FromLocation := None; al_ToLocation := None; al_FromStatus := None;
     al_ToStatus := None; al_Reason := None; al_SessionID := None; al_Metadata := [];
     al_CreatedAt := at_ |}.

Definition audit_with_reason (reason : option string) (e : AuditLogEntry) : AuditLogEntry :=
  {| al_ID := al_ID e; al_EntityType := al_EntityType e; al_EntityID := al_EntityID e;
     al_Action := al_Action e; al_ActorID := al_ActorID e; al_FromLocation := al_FromLocation e;
     al_ToLocation := al_ToLocation e; al_FromStatus := al_FromStatus e;
     al_ToStatus := al_ToStatus e; al_Reason := reason; al_SessionID := al_SessionID e;
     al_Metadata := al_Metadata e; al_CreatedAt := al_CreatedAt e |}.

Definition audit_with_status (from to : string) (e : AuditLogEntry) : AuditLogEntry :=
  {| al_ID := al_ID e; al_EntityType := al_EntityType e; al_EntityID := al_EntityID e;
     al_Action := al_Action e; al_ActorID := al_ActorID e; al_FromLocation := al_FromLocation e;
     al_ToLocation := al_ToLocation e; al_FromStatus := Some from;
     al_ToStatus := Some to; al_Reason := al_Reason e; al_SessionID := al_SessionID e;
     al_Metadata := al_Metadata e; al_CreatedAt := al_CreatedAt e |}.

Definition audit_with_locations (from to : option uuid) (e : AuditLogEntry) : AuditLogEntry :=
  {| al_ID := al_ID e; al_EntityType := al_EntityType e; al_EntityID := al_EntityID e;
     al_Action := al_Action e; al_ActorID := al_ActorID e; al_FromLocation := from;
     al_ToLocation := to; al_FromStatus := al_FromStatus e;
     al_ToStatus := al_ToStatus e; al_Reason := al_Reason e; al_SessionID := al_SessionID e;
     al_Metadata := al_Metadata e; al_CreatedAt := al_CreatedAt e |}.

Definition audit_with_session (sid : uuid) (e : AuditLogEntry) : AuditLogEntry :=
  {| al_ID := al_ID e; al_EntityType := al_EntityType e; al_EntityID := al_EntityID e;
     al_Action := al_Action e; al_ActorID := al_ActorID e; al_FromLocation := al_FromLocation e;
     al_ToLocation := al_ToLocation e; al_FromStatus := al_FromStatus e;
     al_ToStatus := al_ToStatus e; al_Reason := al_Reason e; al_SessionID := Some sid;
     al_Metadata := al_Metadata e; al_CreatedAt := al_CreatedAt e |}.

Definition audit_with_metadata (ids : list uuid) (e : AuditLogEntry) : AuditLogEntry :=
  {| al_ID := al_ID e; al_EntityType := al_EntityType e; al_EntityID := al_EntityID e;
     al_Action := al_Action e; al_ActorID := al_ActorID e; al_FromLocation := al_FromLocation e;
     al_ToLocation := al_ToLocation e; al_FromStatus := al_FromStatus e;
     al_ToStatus := al_ToStatus e; al_Reason := al_Reason e; al_SessionID := al_SessionID e;
     al_Metadata := ids; al_CreatedAt := al_CreatedAt e |}.

Section service.
Context {X : Type} `{!Oracle InvDB} `{!Schema} `{!InventoryDeps X}.
Local Abbreviation M := (M InvDB X).

(** ** Receiving *)
Fixpoint new_sheets (n : nat) (in_ : ReceiveStockInput) (lotID : uuid) : M (list BoardSheet) :=
  match n with
  | O => mret []
  | S n' =>
      id ← new_uuid;
      rest ← new_sheets n' in_ lotID;
      mret ({| sh_ID := id; sh_LotID := lotID; sh_MaterialID := uuid_Nil; sh_MaterialName := "";
               sh_Dimensions := rs_Dimensions in_; sh_CostPerSheet := rs_CostPerSheet in_;
               sh_Status := SheetStatusPendingQC; sh_IssuedToWorkOrderID := None;
               sh_SupplierCode := None; sh_LotBatch := Some (rs_SupplierRef in_);
               sh_GrainPattern := None; sh_QualityGrade := None; sh_BinLocationID := None |} :: rest)
  end.

Definition ReceiveStock (in_ : ReceiveStockInput) : M InventoryLot :=
  fail_if (rs_Quantity in_ <=? 0)%Z (NewBizError ErrInvalidInput "quantity must be positive");;
  fail_if (negb (Dim_Valid (rs_Dimensions in_))) (NewBizError ErrInvalidInput "invalid dimensions");;
  id ← new_uuid;
  at_ ← now;
  let lot := {| lot_ID := id; lot_MaterialID := rs_MaterialID in_; lot_Quantity := rs_Quantity in_;
                lot_CostPerSheet := rs_CostPerSheet in_; lot_SupplierRef := rs_SupplierRef in_;
                lot_IsActive := true; lot_ReceivedAt := at_ |} in
  insertLot lot;;
  sheets ← new_sheets (Z.to_nat (rs_Quantity in_)) in_ (lot_ID lot);
  insertSheets sheets;;
  mret lot.

Definition DeactivateLot (lotID : uuid) : M unit := deactivateLot lotID.
Definition GetSheet (sheetID : uuid) : M BoardSheet := selectSheetByID sheetID.
Definition GetRemnant (remnantID : uuid) : M Remnant := selectRemnantByID remnantID.
Definition CountAvailableSheetsByMaterial (materialID : uuid) : M Z :=
  countAvailableSheetsByMaterial materialID.

(** ** Overflow gate *)
Definition overflow_pct (totalRemnantAreaMM2 totalSheetAreaMM2 : Z) : spec_float :=
  if (0 <? totalSheetAreaMM2)%Z
  then f64_div (f64_mul (f64_of_int totalRemnantAreaMM2) (f64_of_int 100))
               (f64_of_int totalSheetAreaMM2)
  else if (0 <? totalRemnantAreaMM2)%Z then f64_of_int 100 else f64_of_int 0.

Definition overflow_of (rem sheet : Z) : OverflowStatus :=
  let pct := overflow_pct rem sheet in
  let status := if f64_ltb overflowThresholdPct pct then OverflowRed else OverflowGreen in
  {| of_Status := status; of_OverflowPct := pct; of_ThresholdPct := overflowThresholdPct;
     of_BlockNewSheetIssue := status =s OverflowRed;
     of_TotalRemnantAreaMM2 := rem; of_TotalSheetAreaMM2 := sheet |}.

Definition GetOverflowStatus : M OverflowStatus :=
  '(rem, sheet) ← selectOverflowAreas;
  mret (overflow_of rem sheet).

Definition PreAssignSheet (in_ : PreAssignSheetInput) : M unit :=
  overflow ← GetOverflowStatus;
  (if of_BlockNewSheetIssue overflow then
     fail_if (negb (pa_BypassOverflow in_)) (NewBizError ErrPreconditionFailed
       "remnant overflow: must consume remnants before issuing new sheets");;
     fail_if ((pa_ActorID in_ =? uuid_Nil)%N || (pa_Reason in_ =s ""))
       (NewBizError ErrInvalidInput "overflow bypass requires actor and reason");;
     id ← new_uuid;
     at_ ← now;
     wrap_err "write overflow bypass audit log"
       (insertAuditLog (audit_with_reason (Some (pa_Reason in_))
         (newAudit id entityTypeBoardSheet (pa_SheetID in_) auditActionOverflowBypassed
            (pa_ActorID in_) at_)))
   else mret tt);;
  preAssignSheet (pa_SheetID in_) (pa_WorkOrderID in_).

(** ** Cutting *)
Definition cut_input_check (in_ : RecordCutInput) : option error :=
  let hasRemnant := is_some (rc_RemnantDimension in_) in
  if (is_none (rc_SheetID in_) && is_none (rc_RemnantID in_))
     || (is_some (rc_SheetID in_) && is_some (rc_RemnantID in_))
  then Some (NewBizError ErrInvalidInput "exactly one of sheet_id or remnant_id must be set")
  else if negb (Dim_Valid (rc_UsedDimension in_))
  then Some (NewBizError ErrInvalidInput "invalid used dimension")
  else if match rc_RemnantDimension in_ with Some d => negb (Dim_Valid d) | None => false end
  then Some (NewBizError ErrInvalidInput "invalid remnant dimension")
  else if hasRemnant && rc_IsWaste in_
  then Some (NewBizError ErrInvalidInput "remnant_dimension and is_waste cannot both be set")
  else if negb hasRemnant && negb (rc_IsWaste in_)
  then Some (NewBizError ErrInvalidInput "must provide remnant_dimension or set is_waste=true")
  else None.

Definition normal_shape (s : string) : string := if s =s "" then "rectangle" else s.

(** What a cut inherits from its source. *)
Record cutSource := {
  src_Dim : Dimension; src_ParentBoardID : uuid; src_ParentRemnantID : option uuid;
  src_SupplierCode : option string; src_LotBatch : option string;
  src_GrainPattern : option string; src_QualityGrade : option string
}.

Definition sheet_source (sheet : BoardSheet) : cutSource :=
  {| src_Dim := sh_Dimensions sheet; src_ParentBoardID := sh_ID sheet;
     src_ParentRemnantID := None; src_SupplierCode := sh_SupplierCode sheet;
     src_LotBatch := sh_LotBatch sheet; src_GrainPattern := sh_GrainPattern sheet;
     src_QualityGrade := sh_QualityGrade sheet |}.

Definition remnant_source (r : Remnant) : cutSource :=
  {| src_Dim := rem_Dimensions r; src_ParentBoardID := rem_ParentBoardID r;
     src_ParentRemnantID := Some (rem_ID r); src_SupplierCode := rem_SupplierCode r;
     src_LotBatch := rem_LotBatch r; src_GrainPattern := rem_GrainPattern r;
     src_QualityGrade := rem_QualityGrade r |}.

Definition cut_source (in_ : RecordCutInput) : M cutSource :=
  match rc_SheetID in_, rc_RemnantID in_ with
  | Some sid, _ =>
      overflow ← GetOverflowStatus;
      fail_if (of_BlockNewSheetIssue overflow) (NewBizError ErrPreconditionFailed
        "cannot issue new sheet while overflow status is RED");;
      sheet ← selectSheetByID sid;
      fail_if (sh_Status sheet <>s "AVAILABLE")
        (NewBizError ErrInvalidInput "sheet is not available");;
      mret (sheet_source sheet)
  | None, Some rid =>
      remnant ← selectRemnantByID rid;
      fail_if ((rem_Status remnant <>s RemnantAvailable) && (rem_Status remnant <>s RemnantAllocated))
        (NewBizError ErrInvalidInput "remnant is not available for cutting");;
      mret (remnant_source remnant)
  | None, None => throw (EOther "nil pointer dereference")
  end.

(** The BR-K03 test, in 64-bit arithmetic. *)
Definition conservation_check (used : Dimension) (rem : option Dimension) (source : Dimension)
    : option error :=
  let remnantArea := match rem with Some d => AreaSqMM d | None => 0%Z end in
  if match rem with Some d => negb (FitsInside d source) | None => false end
  then Some (NewBizError ErrInvalidInput "remnant dimension does not fit inside source")
  else if (AreaSqMM source <? wrap64 (AreaSqMM used + remnantArea))%Z
  then Some (NewBizError ErrAreaConservation "used + remnant area exceeds source area")
  else None.

Definition bounding_box_check (in_ : RecordCutInput) (rd : Dimension) : option error :=
  match rc_BoundingBoxLengthMM in_, rc_BoundingBoxWidthMM in_ with
  | Some l, Some w =>
      if (LengthMM rd <? l)%Z || (WidthMM rd <? w)%Z
      then Some (NewBizError ErrInvalidInput "usable dimension cannot exceed actual dimension")
      else None
  | None, None => None
  | _, _ => Some (NewBizError ErrInvalidInput
      "bounding_box_length_mm and bounding_box_width_mm must be provided together")
  end.

(** BR-K06/K07 *)
Definition drop_by_policy (policyLen policyWid : Z) (rd : Dimension) : bool :=
  ((0 <? policyLen) && (LengthMM rd <? policyLen) || (0 <? policyWid) && (WidthMM rd <? policyWid))%Z.

Definition afterCut (in_ : RecordCutInput) (cr : CuttingRecord) : M unit :=
  match woa with
  | Some adv => best_effort (call_dep (adv (rc_WorkOrderID in_) WOInProcessing))
  | None => mret tt
  end;;
  match notifier with
  | Some notify => best_effort (call_dep (notify (rc_WorkOrderID in_) (cut_ID cr)))
  | None => mret tt
  end.

Definition cut_record (id : uuid) (at_ : instant) (in_ : RecordCutInput) (produced : option uuid)
    : CuttingRecord :=
  {| cut_ID := id; cut_SheetID := rc_SheetID in_;
     cut_RemnantSourceID := match rc_SheetID in_ with Some _ => None | None => rc_RemnantID in_ end;
     cut_WorkOrderID := rc_WorkOrderID in_; cut_SKUID := rc_SKUID in_;
     cut_UsedLengthMM := LengthMM (rc_UsedDimension in_);
     cut_UsedWidthMM := WidthMM (rc_UsedDimension in_);
     cut_ProducedRemnantID := produced; cut_CreatedAt := at_ |}.

Definition cut_op (in_ : RecordCutInput) (cr : CuttingRecord) (newRemnant : option Remnant)
    : cutWriteOp :=
  {| cwo_Record := cr;
     cwo_SheetUpdate := match rc_SheetID in_ with
       | Some sid => Some {| ssu_ID := sid; ssu_Status := "ISSUED";
                             ssu_IssuedToWO := Some (rc_WorkOrderID in_) |}
       | None => None
       end;
     cwo_RemnantUpdate := match rc_SheetID in_, rc_RemnantID in_ with
       | None, Some rid => Some {| rsu_ID := rid; rsu_Status := RemnantConsumed |}
       | _, _ => None
       end;
     cwo_NewRemnant := newRemnant |}.

Definition new_remnant (id : uuid) (at_ : instant) (in_ : RecordCutInput) (src : cutSource)
    (rd : Dimension) : Remnant :=
  {| rem_ID := id; rem_ParentBoardID := src_ParentBoardID src;
     rem_ParentRemnantID := src_ParentRemnantID src; rem_Dimensions := rd;
     rem_Status := RemnantAvailable; rem_ShapeType := normal_shape (rc_ShapeType in_);
     rem_AllocatedToWO := None; rem_AllocatedAt := None;
     rem_SupplierCode := src_SupplierCode src; rem_LotBatch := src_LotBatch src;
     rem_GrainPattern := src_GrainPattern src; rem_QualityGrade := src_QualityGrade src;
     rem_BoundingBoxLengthMM := coalesce (rc_BoundingBoxLengthMM in_) (Some (LengthMM rd));
     rem_BoundingBoxWidthMM := coalesce (rc_BoundingBoxWidthMM in_) (Some (WidthMM rd));
     rem_BinLocationID := None; rem_CreatedAt := at_ |}.

(** The remnant of a cut: [None] when it is dropped by policy. *)
Definition leftover (in_ : RecordCutInput) (src : cutSource) (rd : Dimension) : M (option Remnant) :=
  fail_opt (bounding_box_check in_ rd);;
  '(policyLen, policyWid) ← selectMinRemnantPolicyByParentBoard (src_ParentBoardID src);
  if drop_by_policy policyLen policyWid rd then mret None
  else id ← new_uuid; at_ ← now; mret (Some (new_remnant id at_ in_ src rd)).

Definition cut_barcodes (in_ : RecordCutInput) (cr : CuttingRecord) : M (list uuid) :=
  match bcg with
  | None => mret []
  | Some generate =>
      let input := {| bci_WorkOrderID := rc_WorkOrderID in_;
         bci_UsedDimension := rc_UsedDimension in_;
         bci_RemnantDimension := rc_RemnantDimension in_; bci_ProducedDate := cut_CreatedAt cr |} in
      '(out, _) ← call_dep (λ n x, let (r, x') := generate input n x in (Ok r, x'));
      mret (opt_list (bco_WIPBarcodeID out) ++ opt_list (bco_RemnantBarcodeID out))%list
  end.

Definition RecordCut (in_ : RecordCutInput) : M CutResult :=
  fail_opt (cut_input_check in_);;
  fail_if (negb (shape_ok (normal_shape (rc_ShapeType in_))))
    (NewBizError ErrInvalidInput "shape_type must be 'rectangle' or 'irregular'");;
  src ← cut_source in_;
  fail_opt (conservation_check (rc_UsedDimension in_) (rc_RemnantDimension in_) (src_Dim src));;
  id ← new_uuid;
  at_ ← now;
  left ← match rc_RemnantDimension in_ with
         | Some rd => leftover in_ src rd
         | None => mret None
         end;
  match rc_RemnantDimension in_, left with
  | Some _, None =>
      let cr := cut_record id at_ in_ None in
      recordCutAtomically (cut_op in_ cr None);;
      afterCut in_ cr;;
      mret {| cut_CuttingRecordID := id; cut_RemnantID := None; cut_BarcodeIDs := [];
              cut_DroppedRemnantCount := 1 |}
  | _, _ =>
      let cr := cut_record id at_ in_ (rem_ID <$> left) in
      recordCutAtomically (cut_op in_ cr left);;
      codes ← cut_barcodes in_ cr;
      afterCut in_ cr;;
      mret {| cut_CuttingRecordID := id; cut_RemnantID := rem_ID <$> left;
              cut_BarcodeIDs := codes; cut_DroppedRemnantCount := 0 |}
  end.

(** ** Remnants *)
Definition AllocateRemnant (remnantID workOrderID : uuid) : M unit :=
  remnant ← selectRemnantByID remnantID;
  fail_if (rem_Status remnant <>s RemnantAvailable)
    (NewBizError ErrInvalidInput "remnant is not available for allocation");;
  allocateRemnantAtomically remnantID workOrderID.

Definition MarkRemnantWaste (remnantID : uuid) : M unit :=
  remnant ← selectRemnantByID remnantID;
  fail_if ((rem_Status remnant <>s RemnantAvailable) && (rem_Status remnant <>s RemnantAllocated))
    (NewBizError ErrInvalidInput "remnant cannot be marked waste");;
  markRemnantWasteAtomically remnantID.

Definition GetRemnantLineage (boardSheetID : uuid) : M (list Remnant) :=
  selectRemnantsByBoardSheet boardSheetID.

Definition GetRemnantLineageByRemnant (remnantID : uuid) : M (list Remnant) :=
  remnant ← selectRemnantByID remnantID;
  selectRemnantsByBoardSheet (rem_ParentBoardID remnant).

Definition StockRemnant (remnantID : uuid) (locationBarcode : string) : M unit :=
  loc ← selectStorageLocationByBarcode locationBarcode;
  updateRemnantBinLocation remnantID (loc_ID loc).

Definition ReleaseExpiredAllocations (before : instant) : M Z := releaseExpiredAllocations before.

Definition aging_level (warnDays expireDays ageDays : Z) : string :=
  if (expireDays <=? ageDays)%Z then "EXPIRED"
  else if (warnDays <=? ageDays)%Z then "AT_RISK" else "OK".

(** The loop of [GetRemnantAging]: counters and rows accumulate. *)
Definition aging_add (warnDays expireDays : Z) (acc : RemnantAgingSummary) (r : Remnant * Z)
    : RemnantAgingSummary :=
  let level := aging_level warnDays expireDays r.2 in
  {| ras_WarnDays := ras_WarnDays acc; ras_ExpireDays := ras_ExpireDays acc;
     ras_Rows := (ras_Rows acc ++ [{| ra_Remnant := r.1; ra_AgeDays := r.2; ra_Level := level |}])%list;
     ras_TotalOK := ras_TotalOK acc + (if level =s "OK" then 1 else 0);
     ras_TotalAtRisk := ras_TotalAtRisk acc + (if level =s "AT_RISK" then 1 else 0);
     ras_TotalExpired := ras_TotalExpired acc + (if level =s "EXPIRED" then 1 else 0) |}%Z.

Definition aging_init (warnDays expireDays : Z) : RemnantAgingSummary :=
  {| ras_WarnDays := warnDays; ras_ExpireDays := expireDays; ras_Rows := [];
     ras_TotalOK := 0; ras_TotalAtRisk := 0; ras_TotalExpired := 0 |}.

Definition GetRemnantAging (warnDays expireDays : Z) : M RemnantAgingSummary :=
  let warnDays := if (warnDays <=? 0)%Z then defaultAgingWarnDays else warnDays in
  let expireDays := if (expireDays <=? 0)%Z then defaultAgingExpireDays else expireDays in
  fail_if (expireDays <=? warnDays)%Z
    (NewBizError ErrInvalidInput "warn_days must be less than expire_days");;
  raw ← selectRemnantAging;
  mret (foldl (aging_add warnDays expireDays) (aging_init warnDays expireDays) raw).

Definition ExpireStaleRemnants (ageDays : Z) : M Z :=
  expireStaleRemnants (if (ageDays <=? 0)%Z then defaultAgingExpireDays else ageDays).

(** ** Transfers and the audit log *)
Definition Transfer (in_ : TransferInput) : M TransferResult :=
  fail_if ((tr_EntityType in_ <>s entityTypeRemnant) && (tr_EntityType in_ <>s entityTypeBoardSheet))
    (NewBizError ErrInvalidInput "entity_type must be REMNANT or BOARD_SHEET");;
  targetLoc ← selectStorageLocationByBarcode (tr_TargetBarcode in_);
  fail_if (negb (loc_IsActive targetLoc))
    (NewBizError ErrInvalidInput "target location is not active");;
  from ← (if tr_EntityType in_ =s entityTypeRemnant then
      remnant ← selectRemnantByID (tr_EntityID in_);
      fail_if ((rem_Status remnant <>s RemnantAvailable) && (rem_Status remnant <>s RemnantAllocated))
        (NewBizError ErrInvalidInput "remnant must be AVAILABLE or ALLOCATED to transfer");;
      updateRemnantBinLocation (tr_EntityID in_) (loc_ID targetLoc);;
      mret (rem_BinLocationID remnant)
    else
      sheet ← selectSheetByID (tr_EntityID in_);
      fail_if (sh_Status sheet <>s "AVAILABLE")
        (NewBizError ErrInvalidInput "board sheet must be AVAILABLE to transfer");;
      updateSheetBinLocation (tr_EntityID in_) (loc_ID targetLoc);;
      mret (sh_BinLocationID sheet));
  id ← new_uuid;
  at_ ← now;
  best_effort (insertAuditLog (audit_with_locations from (Some (loc_ID targetLoc))
    (newAudit id (tr_EntityType in_) (tr_EntityID in_) auditActionTransfer (tr_ActorID in_) at_)));;
  mret {| trr_EntityType := tr_EntityType in_; trr_EntityID := tr_EntityID in_;
          trr_FromLocation := from; trr_ToLocation := loc_ID targetLoc; trr_AuditLogID := id |}.

Definition ListAuditLog `{!CursorCodec} (entityID : uuid) (entityType : string) (params : CursorParams)
    : M (CursorResult AuditLogEntry) :=
  fail_if ((entityType <>s entityTypeRemnant) && (entityType <>s entityTypeBoardSheet)
           && (entityType <>s entityTypeWorkOrder))
    (NewBizError ErrInvalidInput "entity_type must be REMNANT, BOARD_SHEET, or WORK_ORDER");;
  cur ← of_result (Decoded params);
  rows ← selectAuditLogByEntityKeyset entityID entityType cur (cp_Limit params + 1)%Z;
  mret (NewCursorResult rows (cp_Limit params) audit_key).

Definition ListAuditLogByAction `{!CursorCodec} (action : string) (params : CursorParams)
    : M (CursorResult AuditLogEntry) :=
  fail_if (action =s "") (NewBizError ErrInvalidInput "action is required");;
  cur ← of_result (Decoded params);
  rows ← selectAuditLogByActionKeyset action cur (cp_Limit params + 1)%Z;
  mret (NewCursorResult rows (cp_Limit params) audit_key).

Definition LogRemnantBypass (in_ : LogRemnantBypassInput) : M unit :=
  fail_if (lb_WorkOrderID in_ =? uuid_Nil)%N (NewBizError ErrInvalidInput "work_order_id is required");;
  fail_if (lb_ActorID in_ =? uuid_Nil)%N (NewBizError ErrInvalidInput "actor_id is required");;
  fail_if (zlen (lb_SuggestedRemnantIDs in_) =? 0)%Z
    (NewBizError ErrInvalidInput "suggested_remnant_ids must contain at least one id");;
  id ← new_uuid;
  at_ ← now;
  wrap_err "write remnant bypass audit log"
    (insertAuditLog
      (audit_with_reason (if lb_Reason in_ =s "" then None else Some (lb_Reason in_))
      (audit_with_metadata (lb_SuggestedRemnantIDs in_)
      (newAudit id entityTypeWorkOrder (lb_WorkOrderID in_) auditActionRemnantBypassed
         (lb_ActorID in_) at_)))).

(** ** Cycle counts *)
Definition CreateCycleCountSession (in_ : CreateCycleCountInput) : M CycleCountSession :=
  id ← new_uuid;
  at_ ← now;
  let sess := {| cs_ID := id; cs_Zone := ccc_Zone in_; cs_Status := "OPEN";
                 cs_CreatedBy := ccc_ActorID in_; cs_PostedBy := None; cs_CreatedAt := at_;
                 cs_PostedAt := None |} in
  insertCycleCountSession sess;;
  mret sess.

Definition GetCycleCountSession (sessionID : uuid) : M CycleCountSession :=
  selectCycleCountSessionByID sessionID.

Definition validRemnantStatuses (s : string) : bool :=
  (s =s RemnantAvailable) || (s =s RemnantAllocated) || (s =s RemnantConsumed) || (s =s RemnantWaste).

Definition AddCycleCountLine (in_ : AddCountLineInput) : M CycleCountLine :=
  sess ← selectCycleCountSessionByID (acl_SessionID in_);
  fail_if (cs_Status sess <>s "OPEN")
    (NewBizError ErrInvalidTransition "cycle count session is not OPEN");;
  fail_if ((acl_EntityType in_ <>s entityTypeRemnant) && (acl_EntityType in_ <>s entityTypeBoardSheet))
    (NewBizError ErrInvalidInput "entity_type must be REMNANT or BOARD_SHEET");;
  fail_if (acl_Reason in_ =s "") (NewBizError ErrInvalidInput "reason is required");;
  fail_if (255 <? rune_count (acl_Reason in_))%Z
    (NewBizError ErrInvalidInput "reason exceeds max length 255");;
  (if acl_EntityType in_ =s entityTypeRemnant then
     fail_if (negb (validRemnantStatuses (acl_CountedStatus in_)))
       (NewBizError ErrInvalidInput "counted_status is not a valid remnant status");;
     selectRemnantByID (acl_EntityID in_);;
     mret tt
   else
     fail_if ((acl_CountedStatus in_ <>s "AVAILABLE") && (acl_CountedStatus in_ <>s "ISSUED"))
       (NewBizError ErrInvalidInput "counted_status for BOARD_SHEET must be AVAILABLE or ISSUED");;
     selectSheetByID (acl_EntityID in_);;
     mret tt);;
  id ← new_uuid;
  at_ ← now;
  let line := {| cl_ID := id; cl_SessionID := acl_SessionID in_; cl_EntityType := acl_EntityType in_;
                 cl_EntityID := acl_EntityID in_; cl_CountedStatus := acl_CountedStatus in_;
                 cl_CountedLocationID := acl_CountedLocationID in_; cl_Reason := acl_Reason in_;
                 cl_CreatedAt := at_ |} in
  insertCycleCountLine line;;
  mret line.

Definition ListCycleCountLines (sessionID : uuid) : M (list CycleCountLine) :=
  selectCycleCountLinesBySession sessionID.

(** One iteration of the diff loop of [PostCycleCount]. *)
Definition count_diff (in_ : PostCycleCountInput) (adjustments : list cycleCountAdjustment)
    (line : CycleCountLine) : M (list cycleCountAdjustment) :=
  '(currentStatus, currentLocID) ←
    (if cl_EntityType line =s entityTypeRemnant then
       wrap_err "load remnant" (r ← selectRemnantByID (cl_EntityID line);
                                mret (rem_Status r, rem_BinLocationID r))
     else
       wrap_err "load sheet" (s ← selectSheetByID (cl_EntityID line);
                              mret (sh_Status s, sh_BinLocationID s)));
  let statusChanged := currentStatus <>s cl_CountedStatus line in
  let locChanged := negb (uuidPtrEqual currentLocID (cl_CountedLocationID line)) in
  if negb statusChanged && negb locChanged then mret adjustments
  else
    id ← new_uuid;
    at_ ← now;
    let entry := audit_with_session (pcc_SessionID in_)
      (audit_with_reason (Some (cl_Reason line))
      (audit_with_status currentStatus (cl_CountedStatus line)
      (audit_with_locations currentLocID (cl_CountedLocationID line)
      (newAudit id (cl_EntityType line) (cl_EntityID line) auditActionAdjust (pcc_ActorID in_) at_)))) in
    mret (adjustments ++ [{| cca_EntityType := cl_EntityType line; cca_EntityID := cl_EntityID line;
                             cca_OldLocationID := currentLocID;
                             cca_NewLocationID := cl_CountedLocationID line;
                             cca_OldStatus := currentStatus;
                             cca_NewStatus := cl_CountedStatus line; cca_AuditEntry := entry |}])%list.

Definition PostCycleCount (in_ : PostCycleCountInput) : M unit :=
  sess ← selectCycleCountSessionByID (pcc_SessionID in_);
  fail_if (cs_Status sess <>s "OPEN")
    (NewBizError ErrInvalidTransition "cycle count session is not OPEN");;
  lines ← selectCycleCountLinesBySession (pcc_SessionID in_);
  adjustments ← mfor (count_diff in_) lines [];
  postCycleCountAtomically {| ccp_SessionID := pcc_SessionID in_; ccp_PostedBy := pcc_ActorID in_;
                              ccp_Adjustments := adjustments |}.

Definition CancelCycleCountSession (sessionID actorID : uuid) : M unit :=
  sess ← selectCycleCountSessionByID sessionID;
  fail_if (cs_Status sess <>s "OPEN")
    (NewBizError ErrInvalidTransition "cycle count session is not OPEN");;
  updateCycleCountSessionStatus sessionID "CANCELLED" None.

(** ** Quality control and supplier claims *)
Definition QCPassLot (lotID actorID : uuid) : M unit :=
  fail_if (lotID =? uuid_Nil)%N (NewBizError ErrInvalidInput "lot_id is required");;
  fail_if (actorID =? uuid_Nil)%N (NewBizError ErrInvalidInput "actor_id is required");;
  updated ← qcPassLotAtomically lotID;
  fail_if (updated =? 0)%Z
    (NewBizError ErrPreconditionFailed "lot has no PENDING_QC sheets to pass");;
  id ← new_uuid;
  at_ ← now;
  best_effort (insertAuditLog (audit_with_status SheetStatusPendingQC SheetStatusAvailable
    (newAudit id entityTypeLot lotID auditActionLotQCPass actorID at_))).

Definition RejectLot (in_ : RejectLotInput) : M RejectLotResult :=
  fail_if (rl_LotID in_ =? uuid_Nil)%N (NewBizError ErrInvalidInput "lot_id is required");;
  fail_if (rl_ActorID in_ =? uuid_Nil)%N (NewBizError ErrInvalidInput "actor_id is required");;
  fail_if (negb (validRejectionReason (rl_ReasonCode in_))) (NewBizError ErrInvalidInput
    "reason_code must be one of CRACK, COLOR_MISMATCH, LATE_DELIVERY, DAMAGE, WRONG_SPEC, OTHER");;
  fail_if (rl_RejectedQtySheets in_ <=? 0)%Z
    (NewBizError ErrInvalidInput "rejected_qty_sheets must be positive");;
  rid ← new_uuid;
  at_ ← now;
  let rejection := {| mr_ID := rid; mr_LotID := rl_LotID in_; mr_ReasonCode := rl_ReasonCode in_;
      mr_ReasonDetail := rl_ReasonDetail in_; mr_RejectedQtySheets := rl_RejectedQtySheets in_;
      mr_PhotoURLs := rl_PhotoURLs in_; mr_ClaimAmount := None; mr_ClaimCurrency := "";
      mr_ClaimStatus := ClaimStatusOpen; mr_ResolutionNotes := ""; mr_ReportedBy := rl_ActorID in_;
      mr_ReportedAt := at_; mr_ResolvedBy := None; mr_ResolvedAt := None |} in
  rejectedIDs ← rejectLotAtomically {| rlo_LotID := rl_LotID in_;
      rlo_Qty := rl_RejectedQtySheets in_; rlo_Rejection := rejection |};
  aid ← new_uuid;
  at2 ← now;
  best_effort (insertAuditLog (audit_with_reason (Some (rl_ReasonCode in_))
    (audit_with_status SheetStatusPendingQC SheetStatusRejected
    (newAudit aid entityTypeLot (rl_LotID in_) auditActionLotReject (rl_ActorID in_) at2))));;
  match prCreator with
  | None => mret tt
  | Some pr =>
      best_effort (
        lot ← selectLotByID (rl_LotID in_);
        call_dep (CreateFromRejection pr {| pr_RejectionID := rid; pr_LotID := rl_LotID in_;
          pr_MaterialID := lot_MaterialID lot; pr_Supplier := lot_SupplierRef lot;
          pr_QtySheets := rl_RejectedQtySheets in_; pr_ActorID := rl_ActorID in_ |}))
  end;;
  mret {| rlr_Rejection := rejection; rlr_RejectedSheetIDs := rejectedIDs |}.

Definition ListRejections `{!CursorCodec} (f : RejectionFilter) (params : CursorParams)
    : M (CursorResult MaterialRejection) :=
  fail_if ((rf_ClaimStatus f <>s "") && negb (isValidClaimStatus (rf_ClaimStatus f)))
    (NewBizError ErrInvalidInput "claim_status must be OPEN, APPROVED, REJECTED, or PAID");;
  cur ← of_result (Decoded params);
  rows ← selectRejectionsKeyset f cur (cp_Limit params + 1)%Z;
  mret (NewCursorResult rows (cp_Limit params) rejection_key).

Definition GetRejection (id : uuid) : M MaterialRejection := selectRejectionByID id.

(** The amount and currency demanded when a claim is approved or paid. *)
Definition claim_amount_check (in_ : UpdateClaimInput) : option error :=
  if (uc_ClaimStatus in_ =s ClaimStatusApproved) || (uc_ClaimStatus in_ =s ClaimStatusPaid) then
    if match uc_ClaimAmount in_ with None => true | Some a => (a <=? 0)%Z end
    then Some (NewBizError ErrInvalidInput "claim_amount > 0 is required when approving or marking paid")
    else if uc_ClaimCurrency in_ =s ""
    then Some (NewBizError ErrInvalidInput "claim_currency is required when approving or marking paid")
    else None
  else None.

Definition UpdateRejectionClaim (in_ : UpdateClaimInput) : M MaterialRejection :=
  fail_if (uc_RejectionID in_ =? uuid_Nil)%N (NewBizError ErrInvalidInput "rejection_id is required");;
  fail_if (uc_ActorID in_ =? uuid_Nil)%N (NewBizError ErrInvalidInput "actor_id is required");;
  fail_if (negb (isValidClaimStatus (uc_ClaimStatus in_)))
    (NewBizError ErrInvalidInput "claim_status must be OPEN, APPROVED, REJECTED, or PAID");;
  current ← selectRejectionByID (uc_RejectionID in_);
  fail_if (negb (isAllowedClaimTransition (mr_ClaimStatus current) (uc_ClaimStatus in_)))
    (NewBizError ErrInvalidTransition ("cannot transition claim from " ++ mr_ClaimStatus current
       ++ " to " ++ uc_ClaimStatus in_));;
  fail_opt (claim_amount_check in_);;
  at_ ← now;
  let resolved := uc_ClaimStatus in_ <>s ClaimStatusOpen in
  updated ← updateRejectionClaim {| ucr_RejectionID := uc_RejectionID in_;
      ucr_ClaimStatus := uc_ClaimStatus in_; ucr_ClaimAmount := uc_ClaimAmount in_;
      ucr_ClaimCurrency := uc_ClaimCurrency in_; ucr_ResolutionNotes := uc_ResolutionNotes in_;
      ucr_ResolvedBy := if resolved then Some (uc_ActorID in_) else None;
      ucr_ResolvedAt := if resolved then Some at_ else None |};
  aid ← new_uuid;
  best_effort (insertAuditLog (audit_with_status (mr_ClaimStatus current) (uc_ClaimStatus in_)
    (newAudit aid entityTypeLot (mr_LotID current) auditActionClaimTransition (uc_ActorID in_) at_)));;
  match prCreator with
  | Some pr =>
      if uc_ClaimStatus in_ =s ClaimStatusApproved
      then best_effort (call_dep (CancelFromRejection pr (uc_RejectionID in_)))
      else mret tt
  | None => mret tt
  end;;
  mret updated.
End service.
