(* ===== verification/InventoryLaws.v ===== *)
(** * Inventory: what holds of the tables

    The well-formedness invariant [wf] (row identities, physical dimensions,
    remnant lineage, area conservation of every cutting record), the relation
    [guar] every handler keeps to (rows persist with their physical columns, and
    [wf] is preserved), and the statement lemmas behind it. *)

From S2P Require Import Prelude Domain Effects HttpKit Sql InventoryData InventoryStore.
From stdpp Require Import base gmap strings list.
From Stdlib Require Import ZArith Lia.

(** ** The columns no handler rewrites *)
Definition lot_core (l : InventoryLot) :=
  (lot_ID l, lot_MaterialID l, lot_Quantity l, lot_CostPerSheet l, lot_SupplierRef l,
   lot_ReceivedAt l).

Definition sheet_core (s : BoardSheet) :=
  (sh_ID s, sh_LotID s, sh_Dimensions s, sh_CostPerSheet s, sh_SupplierCode s, sh_LotBatch s,
   sh_GrainPattern s, sh_QualityGrade s).

Definition remnant_core (r : Remnant) :=
  (rem_ID r, rem_ParentBoardID r, rem_ParentRemnantID r, rem_Dimensions r, rem_ShapeType r,
   (rem_SupplierCode r, rem_LotBatch r, rem_GrainPattern r, rem_QualityGrade r),
   (rem_BoundingBoxLengthMM r, rem_BoundingBoxWidthMM r), rem_CreatedAt r).

Definition session_core (s : CycleCountSession) :=
  (cs_ID s, cs_Zone s, cs_CreatedBy s, cs_CreatedAt s).

Definition rejection_core (r : MaterialRejection) :=
  (mr_ID r, mr_LotID r, mr_ReasonCode r, mr_ReasonDetail r, mr_RejectedQtySheets r,
   mr_PhotoURLs r, mr_ReportedBy r, mr_ReportedAt r).

Record inv_persist (d d' : InvDB) : Prop := {
  ip_lots : lot_core <$> t_lots d ⊆ lot_core <$> t_lots d';
  ip_sheets : sheet_core <$> t_sheets d ⊆ sheet_core <$> t_sheets d';
  ip_remnants : remnant_core <$> t_remnants d ⊆ remnant_core <$> t_remnants d';
  ip_cuts : t_cuts d ⊆ t_cuts d';
  ip_audit : t_audit d ⊆ t_audit d';
  ip_sessions : session_core <$> t_sessions d ⊆ session_core <$> t_sessions d';
  ip_lines : t_lines d ⊆ t_lines d';
  ip_rejections : rejection_core <$> t_rejections d ⊆ rejection_core <$> t_rejections d'
}.

#[export] Instance inv_persist_preorder : PreOrder inv_persist.
Proof.
  split.
  - intros d. split; reflexivity.
  - intros d1 d2 d3 [] []. split; etrans; eassumption.
Qed.

(** ** Area conservation of a cutting record, in unbounded arithmetic *)
Definition source_dims (d : InvDB) (c : CuttingRecord) : option Dimension :=
  match cut_SheetID c with
  | Some sid => sh_Dimensions <$> t_sheets d !! sid
  | None => rid ← cut_RemnantSourceID c; rem_Dimensions <$> t_remnants d !! rid
  end.

Definition produced_area (d : InvDB) (c : CuttingRecord) : option Z :=
  match cut_ProducedRemnantID c with
  | None => Some 0%Z
  | Some rid => (λ r, area (rem_Dimensions r)) <$> t_remnants d !! rid
  end.

Definition used_dim (c : CuttingRecord) : Dimension := mkDim (cut_UsedLengthMM c) (cut_UsedWidthMM c).

Definition cut_conserves (d : InvDB) (c : CuttingRecord) : Prop :=
  ∃ src p, source_dims d c = Some src ∧ produced_area d c = Some p
    ∧ (area (used_dim c) + p <= area src)%Z.

(** ** The invariant *)
Definition sheet_wf (k : uuid) (s : BoardSheet) : Prop :=
  sh_ID s = k ∧ dim_int4 (sh_Dimensions s) = true ∧ Dim_Valid (sh_Dimensions s) = true.

Definition remnant_wf (d : InvDB) (k : uuid) (r : Remnant) : Prop :=
  rem_ID r = k ∧ dim_int4 (rem_Dimensions r) = true ∧ Dim_Valid (rem_Dimensions r) = true
  ∧ ∃ s, t_sheets d !! rem_ParentBoardID r = Some s
         ∧ FitsInside (rem_Dimensions r) (sh_Dimensions s) = true.

Record wf (d : InvDB) : Prop := {
  wf_sheets : map_Forall sheet_wf (t_sheets d);
  wf_remnants : map_Forall (remnant_wf d) (t_remnants d);
  wf_cuts : map_Forall (λ k c, cut_ID c = k ∧ Dim_Valid (used_dim c) = true ∧ cut_conserves d c)
              (t_cuts d)
}.

Definition guar (d d' : InvDB) : Prop := inv_persist d d' ∧ (wf d → wf d').

#[export] Instance guar_preorder : PreOrder guar.
Proof.
  split.
  - intros d. split; [reflexivity|done].
  - intros d1 d2 d3 [P12 W12] [P23 W23]. split; [by etrans|auto].
Qed.

(** ** Persistence of the facts the invariant is made of *)
Lemma sheet_persists d d' k s :
  inv_persist d d' → t_sheets d !! k = Some s →
  ∃ s', t_sheets d' !! k = Some s' ∧ sheet_core s' = sheet_core s.
Proof. intros [? H]. intros. by eapply core_lookup. Qed.

Lemma remnant_persists d d' k r :
  inv_persist d d' → t_remnants d !! k = Some r →
  ∃ r', t_remnants d' !! k = Some r' ∧ remnant_core r' = remnant_core r.
Proof. intros [? ? H]. intros. by eapply core_lookup. Qed.

Lemma source_dims_persists d d' c src :
  inv_persist d d' → source_dims d c = Some src → source_dims d' c = Some src.
Proof.
  intros HP. unfold source_dims. destruct (cut_SheetID c) as [sid|].
  - intros (s & Hs & ->)%fmap_Some_1. edestruct sheet_persists as (s' & -> & Hc); [done..|].
    unfold sheet_core in Hc. simpl. congruence.
  - destruct (cut_RemnantSourceID c) as [rid|]; simpl; [|done].
    intros (r & Hr & ->)%fmap_Some_1. edestruct remnant_persists as (r' & -> & Hc); [done..|].
    unfold remnant_core in Hc. simpl. congruence.
Qed.

Lemma produced_area_persists d d' c p :
  inv_persist d d' → produced_area d c = Some p → produced_area d' c = Some p.
Proof.
  intros HP. unfold produced_area. destruct (cut_ProducedRemnantID c) as [rid|]; [|done].
  intros (r & Hr & ->)%fmap_Some_1. edestruct remnant_persists as (r' & -> & Hc); [done..|].
  unfold remnant_core in Hc. simpl. congruence.
Qed.

Lemma cut_conserves_persists d d' c :
  inv_persist d d' → cut_conserves d c → cut_conserves d' c.
Proof.
  intros HP (src & p & Hs & Hp & Hle). exists src, p.
  eauto using source_dims_persists, produced_area_persists.
Qed.

Lemma remnant_wf_persists d d' k r : inv_persist d d' → remnant_wf d k r → remnant_wf d' k r.
Proof.
  intros HP (Hid & Hi & Hv & s & Hs & Hf). split_and!; [done..|].
  edestruct sheet_persists as (s' & Hs' & Hc); [done..|]. exists s'. split; [done|].
  unfold sheet_core in Hc. congruence.
Qed.

Lemma sheet_wf_core k s s' : sheet_core s = sheet_core s' → sheet_wf k s → sheet_wf k s'.
Proof. unfold sheet_core, sheet_wf. destruct s, s'. intros. by simplify_eq/=. Qed.

Lemma remnant_wf_core d k r r' :
  remnant_core r = remnant_core r' → remnant_wf d k r → remnant_wf d k r'.
Proof. unfold remnant_core, remnant_wf. destruct r, r'. intros. by simplify_eq/=. Qed.

(** ** Statements *)

(** A statement that rewrites rows in place and adds none. *)
Lemma guar_in_place d d' :
  inv_persist d d' →
  sheet_core <$> t_sheets d' = sheet_core <$> t_sheets d →
  remnant_core <$> t_remnants d' = remnant_core <$> t_remnants d →
  t_cuts d' = t_cuts d →
  guar d d'.
Proof.
  intros HP Hs Hr Hc. split; [done|]. intros [W1 W2 W3]. split.
  - intros k s' Hk. edestruct (core_lookup_eq sheet_core) as (s & H & E); [symmetry; done..|].
    eapply sheet_wf_core; [exact E|]. by apply W1.
  - intros k r' Hk. edestruct (core_lookup_eq remnant_core) as (r & H & E); [symmetry; done..|].
    eapply remnant_wf_core; [exact E|]. eapply remnant_wf_persists; [done|]. by apply W2.
  - rewrite Hc. intros k c Hk. destruct (W3 k c Hk) as (? & ? & ?). split_and!; [done..|].
    by eapply cut_conserves_persists.
Qed.

Lemma inv_persist_sheets d t :
  sheet_core <$> t_sheets d ⊆ sheet_core <$> t → inv_persist d (set_sheets t d).
Proof. split; simpl; done. Qed.

Lemma inv_persist_remnants d t :
  remnant_core <$> t_remnants d ⊆ remnant_core <$> t → inv_persist d (set_remnants t d).
Proof. split; simpl; done. Qed.

Lemma inv_persist_cuts d t : t_cuts d ⊆ t → inv_persist d (set_cuts t d).
Proof. split; simpl; done. Qed.

Lemma guar_sheets d t :
  sheet_core <$> t = sheet_core <$> t_sheets d → guar d (set_sheets t d).
Proof. intros E. apply guar_in_place; try done. apply inv_persist_sheets. by rewrite E. Qed.

Lemma guar_remnants d t :
  remnant_core <$> t = remnant_core <$> t_remnants d → guar d (set_remnants t d).
Proof. intros E. apply guar_in_place; try done. apply inv_persist_remnants. by rewrite E. Qed.

Lemma lot_insert_guar lot d u d' : lot_insert lot d = Ok (u, d') → guar d d'.
Proof.
  unfold lot_insert. intros. stmt_ok. apply guar_in_place; try done.
  split; simpl; try done. by apply core_insert.
Qed.

Lemma audit_insert_guar e d u d' : audit_insert e d = Ok (u, d') → guar d d'.
Proof.
  unfold audit_insert. intros. stmt_ok. apply guar_in_place; try done.
  split; simpl; try done. by apply insert_subseteq.
Qed.

Lemma rejection_insert_guar r d u d' : rejection_insert r d = Ok (u, d') → guar d d'.
Proof.
  unfold rejection_insert. intros. stmt_ok. apply guar_in_place; try done.
  split; simpl; try done. by apply core_insert.
Qed.

Lemma sheet_update_guar id f d n d' :
  (∀ s, sheet_core (f s) = sheet_core s) → sheet_update id f d = Ok (n, d') → guar d d'.
Proof.
  unfold sheet_update. intros Hf H. pose proof (core_update sheet_core id f (t_sheets d) Hf).
  destruct (sql_update id f (t_sheets d)). stmt_ok. by apply guar_sheets.
Qed.

Lemma remnant_update_guar id f d n d' :
  (∀ r, remnant_core (f r) = remnant_core r) → remnant_update id f d = Ok (n, d') → guar d d'.
Proof.
  unfold remnant_update. intros Hf H. pose proof (core_update remnant_core id f (t_remnants d) Hf).
  destruct (sql_update id f (t_remnants d)). stmt_ok. by apply guar_remnants.
Qed.

Lemma sheet_update_bin_guar id bin f d n d' :
  (∀ s, sheet_core (f s) = sheet_core s) → sheet_update_bin id bin f d = Ok (n, d') → guar d d'.
Proof. unfold sheet_update_bin. intros. stmt_ok. eauto using sheet_update_guar. Qed.

Lemma remnant_update_bin_guar id bin f d n d' :
  (∀ r, remnant_core (f r) = remnant_core r) → remnant_update_bin id bin f d = Ok (n, d') → guar d d'.
Proof. unfold remnant_update_bin. intros. stmt_ok. eauto using remnant_update_guar. Qed.

Lemma session_update_guar id f d n d' :
  (∀ s, session_core (f s) = session_core s) → session_update id f d = Ok (n, d') → guar d d'.
Proof.
  unfold session_update. intros Hf H. pose proof (core_update session_core id f (t_sessions d) Hf) as E.
  destruct (sql_update id f (t_sessions d)). stmt_ok. apply guar_in_place; try done.
  split; simpl; try done. simpl in E. by rewrite E.
Qed.

Lemma sheet_insert_guar sh d u d' :
  Dim_Valid (sh_Dimensions sh) = true → sheet_insert sh d = Ok (u, d') → guar d d'.
Proof.
  unfold sheet_insert. intros Hv H. stmt_ok.
  assert (inv_persist d (set_sheets (<[sh_ID sh := sh]> (t_sheets d)) d)) as HP
    by (apply inv_persist_sheets; by apply core_insert).
  split; [done|]. intros [W1 W2 W3]. split; simpl.
  - by apply map_Forall_insert_2.
  - intros k r Hk. eapply remnant_wf_persists; [exact HP|]. by apply W2.
  - intros k c Hk. destruct (W3 k c Hk) as (? & ? & ?). split_and!; [done..|].
    by eapply cut_conserves_persists.
Qed.

Lemma sheets_insert_guar shs d u d' :
  Forall (λ sh, Dim_Valid (sh_Dimensions sh) = true) shs → sheets_insert shs d = Ok (u, d') → guar d d'.
Proof.
  intros HF. revert d. induction HF as [|sh shs Hv _ IH]; simpl; intros d H; stmt_ok; [reflexivity|].
  destruct a as [[] d1]. stmt_ok. etrans; [by eapply sheet_insert_guar|]. by apply IH.
Qed.

Lemma sheets_fmap_guar (f : BoardSheet → BoardSheet) d :
  (∀ s, sheet_core (f s) = sheet_core s) → guar d (set_sheets (f <$> t_sheets d) d).
Proof. intros Hf. apply guar_sheets. by apply core_fmap. Qed.

Lemma remnants_update_where_guar p f d :
  (∀ r, remnant_core (f r) = remnant_core r) →
  guar d (set_remnants (snd (sql_update_where p f (t_remnants d))) d).
Proof. intros Hf. apply guar_remnants. by apply core_update_where. Qed.

Lemma sheets_update_where_guar p f d :
  (∀ s, sheet_core (f s) = sheet_core s) →
  guar d (set_sheets (snd (sql_update_where p f (t_sheets d))) d).
Proof. intros Hf. apply guar_sheets. by apply core_update_where. Qed.

Lemma lots_update_guar k f d :
  (∀ l, lot_core (f l) = lot_core l) →
  guar d (set_lots (snd (sql_update k f (t_lots d))) d).
Proof.
  intros Hf. apply guar_in_place; try done. split; simpl; try done.
  by rewrite (core_update lot_core).
Qed.

Lemma sessions_insert_guar k s d :
  t_sessions d !! k = None → guar d (set_sessions (<[k := s]> (t_sessions d)) d).
Proof.
  intros Hn. apply guar_in_place; try done. split; simpl; try done. by apply core_insert.
Qed.

Lemma lines_insert_guar k l d :
  t_lines d !! k = None → guar d (set_lines (<[k := l]> (t_lines d)) d).
Proof.
  intros Hn. apply guar_in_place; try done. split; simpl; try done. by apply insert_subseteq.
Qed.

Lemma rejections_update_guar k f d :
  (∀ r, rejection_core (f r) = rejection_core r) →
  guar d (set_rejections (snd (sql_update k f (t_rejections d))) d).
Proof.
  intros Hf. apply guar_in_place; try done. split; simpl; try done.
  by rewrite (core_update rejection_core).
Qed.
