(* ===== verification/InventorySafety.v ===== *)
(** * Inventory: safety of every handler

    Every handler of the service, run under any faults and beside any sessions
    that keep to [guar], keeps to [guar] itself: rows persist, and the
    well-formedness invariant - with it the area conservation of every cut -
    is preserved. *)

From S2P Require Import Prelude Domain Effects HttpKit Sql InventoryData InventoryStore InventoryService InventoryLaws.
From stdpp Require Import base gmap strings list.
From Stdlib Require Import ZArith Lia.

(** ** BR-K03: the 64-bit test is exact on dimensions the tables can hold *)
Lemma conservation_check_sound used rem src :
  conservation_check used rem src = None →
  dim_int4 used = true → dim_int4 src = true → Dim_Valid used = true →
  match rem with
  | None => (area used <= area src)%Z
  | Some rd => Dim_Valid rd = true → FitsInside rd src = true ∧ (area used + area rd <= area src)%Z
  end.
Proof.
  unfold conservation_check. intros Hc Hu Hs Hv.
  pose proof (AreaSqMM_exact _ Hu) as Eu. pose proof (AreaSqMM_exact _ Hs) as Es.
  assert (∀ d, dim_int4 d = true → Dim_Valid d = true → 0 < area d < 2 ^ 62)%Z as B.
  { unfold dim_int4, Dim_Valid, area. intros d [Hl Hw]%andb_true_iff ?. bool_hyps.
    rewrite int4_spec in Hl, Hw. nia. }
  pose proof (B _ Hu Hv). destruct rem as [rd|].
  - intros Hr. destruct (FitsInside rd src) eqn:Hf; simpl in Hc; [|done].
    pose proof (FitsInside_int4 _ _ Hr Hf Hs) as Hi. pose proof (B _ Hi Hr).
    rewrite (AreaSqMM_exact _ Hi), Eu, Es, wrap64_id in Hc by (unfold int64; lia).
    case_match; [done|]. bool_hyps. split; [done|lia].
  - rewrite Eu, Es, wrap64_id in Hc by (unfold int64; lia). simpl in Hc.
    case_match; [done|]. bool_hyps. lia.
Qed.

(** ** A planned cut: what the service has established when it reaches the store *)
Definition plan_ok (d : InvDB) (op : cutWriteOp) : Prop :=
  ∃ src, source_dims d (cwo_Record op) = Some src
    ∧ Dim_Valid (used_dim (cwo_Record op)) = true
    ∧ match cwo_NewRemnant op with
      | None => cut_ProducedRemnantID (cwo_Record op) = None
                ∧ ∃ ro, conservation_check (used_dim (cwo_Record op)) ro src = None
                        ∧ ∀ rd, ro = Some rd → Dim_Valid rd = true
      | Some r => cut_ProducedRemnantID (cwo_Record op) = Some (rem_ID r)
                ∧ Dim_Valid (rem_Dimensions r) = true
                ∧ conservation_check (used_dim (cwo_Record op)) (Some (rem_Dimensions r)) src = None
                ∧ ∃ s, t_sheets d !! rem_ParentBoardID r = Some s
                     ∧ (wf d → FitsInside src (sh_Dimensions s) = true)
      end
    ∧ (wf d → dim_int4 src = true).

(** The effect of the inserting half of the transaction. *)
Definition insert_remnant_opt (o : option Remnant) : stmt (D:=InvDB) unit :=
  match o with Some r => remnant_insert r | None => λ d, Ok (tt, d) end.

Lemma FitsInside_trans a b c :
  FitsInside a b = true → FitsInside b c = true → FitsInside a c = true.
Proof. unfold FitsInside. intros. bool_hyps. rewrite andb_true_iff, !Z.leb_le. lia. Qed.

Lemma insert_remnant_opt_ok o d u d' :
  insert_remnant_opt o d = Ok (u, d') →
  match o with
  | None => d' = d
  | Some r => t_remnants d !! rem_ID r = None ∧ d' = set_remnants (<[rem_ID r := r]> (t_remnants d)) d
              ∧ dim_int4 (rem_Dimensions r) = true
  end.
Proof.
  destruct o as [r|]; simpl; intros H; [|by stmt_ok].
  unfold remnant_insert in H. stmt_ok. bool_hyps. done.
Qed.

Lemma cut_inserts_persist `{!Schema} d cr o d1 d2 u1 u2 :
  cut_insert cr d = Ok (u1, d1) → insert_remnant_opt o d1 = Ok (u2, d2) → inv_persist d d2.
Proof.
  intros H1 H2. unfold cut_insert in H1. stmt_ok.
  trans (set_cuts (<[cut_ID cr := cr]> (t_cuts d)) d).
  - apply inv_persist_cuts. by apply insert_subseteq.
  - apply insert_remnant_opt_ok in H2. destruct o; [|by subst].
    destruct H2 as (? & -> & ?). apply inv_persist_remnants. by apply core_insert.
Qed.

Lemma cut_inserts_wf `{!Schema} d op d1 d2 u1 u2 :
  wf d → plan_ok d op →
  cut_insert (cwo_Record op) d = Ok (u1, d1) →
  insert_remnant_opt (cwo_NewRemnant op) d1 = Ok (u2, d2) →
  wf d2.
Proof.
  intros W (src & Hsrc & Hv & Hplan & Hi4) H1 H2.
  pose proof (cut_inserts_persist _ _ _ _ _ _ _ H1 H2) as HP.
  unfold cut_insert in H1. stmt_ok. apply insert_remnant_opt_ok in H2.
  set (cr := cwo_Record op) in *. specialize (Hi4 W). destruct W as [W1 W2 W3].
  assert (cut_conserves d2 cr ∧ t_sheets d2 = t_sheets d
          ∧ t_cuts d2 = <[cut_ID cr := cr]> (t_cuts d)
          ∧ map_Forall (remnant_wf d2) (t_remnants d2)) as (Hc & Es & Ec & Hr).
  - assert (dim_int4 (used_dim cr) = true) as Hu by done.
    destruct (cwo_NewRemnant op) as [r|].
    + destruct Hplan as (Hp & Hvr & Hck & s & Hs & Hfit), H2 as (Hnew & -> & Hir).
      destruct (conservation_check_sound _ _ _ Hck Hu Hi4 Hv Hvr) as [Hf Hle].
      split_and!; [|done..|].
      * exists src, (area (rem_Dimensions r)). split_and!; [by eapply source_dims_persists| |done].
        unfold produced_area. rewrite Hp. simpl. by rewrite lookup_insert_eq.
      * simpl. apply map_Forall_insert_2.
        -- split_and!; [done..|]. exists s. split; [done|].
           eapply FitsInside_trans; [exact Hf|]. by apply Hfit.
        -- intros k r' Hk. eapply remnant_wf_persists; [exact HP|]. by apply W2.
    + destruct Hplan as (Hp & ro & Hck & Hro). subst d2.
      assert (area (used_dim cr) <= area src)%Z as Hle.
      { pose proof (conservation_check_sound _ _ _ Hck Hu Hi4 Hv) as Hle.
        destruct ro as [rd|]; [|done]. specialize (Hro rd eq_refl).
        pose proof (area_nonneg _ Hro). destruct (Hle Hro). lia. }
      split_and!; [|done..|].
      * exists src, 0%Z. split_and!; [by eapply source_dims_persists| |lia].
        unfold produced_area. by rewrite Hp.
      * intros k r' Hk. eapply remnant_wf_persists; [exact HP|]. by apply W2.
  - split; [by rewrite Es|done|]. rewrite Ec. apply map_Forall_insert_2; [done|].
    intros k c Hk. destruct (W3 k c Hk) as (? & ? & ?). split_and!; [done..|].
    by eapply cut_conserves_persists.
Qed.

Lemma plan_ok_persists d d' op : guar d d' → wf d → plan_ok d op → plan_ok d' op.
Proof.
  intros [HP HW] W (src & Hsrc & Hv & Hplan & Hi4). exists src.
  split_and!; [by eapply source_dims_persists|done| |auto].
  destruct (cwo_NewRemnant op) as [r|]; [|done].
  destruct Hplan as (? & ? & ? & s & Hs & Hfit). split_and!; [done..|].
  edestruct sheet_persists as (s' & Hs' & E); [done..|]. exists s'. split; [done|].
  unfold sheet_core in E. intros _. replace (sh_Dimensions s') with (sh_Dimensions s) by congruence.
  auto.
Qed.

(** ** The store's transactions *)
Section safety.
Context {X : Type} `{!Oracle InvDB} `{!Schema} `{!InventoryDeps X}.
Context (HR : rely guar).
Local Abbreviation M := (M InvDB X).
Local Abbreviation safe m := (respects (X:=X) guar m).

Ltac safe_step := resp_step HR.
Ltac safe_steps := repeat safe_step.

(** A statement stays within [guar] by its lemma. *)
Ltac stmt_guar :=
  first
  [ eapply sheet_update_guar; [|eassumption]; intros; reflexivity
  | eapply remnant_update_guar; [|eassumption]; intros; reflexivity
  | eapply sheet_update_bin_guar; [|eassumption]; intros; reflexivity
  | eapply remnant_update_bin_guar; [|eassumption]; intros; reflexivity
  | eapply session_update_guar; [|eassumption]; intros; reflexivity
  | eapply audit_insert_guar; eassumption
  | eapply lot_insert_guar; eassumption
  | eapply rejection_insert_guar; eassumption
  | reflexivity
  | match goal with E : (let (_, _) := ?p in Ok _) = Ok _ |- _ =>
      rewrite (surjective_pairing p) in E; injection E as <- <-
    end;
    first [ apply sheets_update_where_guar; intros; reflexivity
          | apply remnants_update_where_guar; intros; reflexivity
          | apply lots_update_guar; intros; reflexivity ] ].

Lemma lock_source_safe op : safe (lock_source op).
Proof.
  unfold lock_source, lock_sheet, lock_remnant. safe_steps.
  all: stmt_guar.
Qed.

(** Continue after a call that stays within [guar]. *)
Lemma wp_safe {A} (m : M A) (Q : result A → world InvDB X → Prop) d0 w :
  safe m → guar d0 (w_db w) →
  (∀ r w', m w = (r, w') → guar d0 (w_db w') → Q r w') → wp m Q w.
Proof. apply wp_keeps, _. Qed.

Lemma recordCutAtomically_safe op d0 w :
  guar d0 (w_db w) → (wf d0 → plan_ok (w_db w) op) →
  guar d0 (w_db (snd (recordCutAtomically (X:=X) op w))).
Proof.
  intros Gw Hplan. apply (wp_respects (λ _ d', guar d0 d')). unfold recordCutAtomically.
  assert (guar (w_db w) (w_db (interfere w))) as GI by apply HR.
  assert (guar d0 (w_db (interfere w))) as G0 by exact (transitivity Gw GI).
  apply wp_tx; [done|]. apply wp_bind.
  eapply (wp_safe _ _ (w_db (interfere w))); [apply lock_source_safe|reflexivity|].
  intros [u|e] w1 _ G1; [|done]. assert (guar d0 (w_db w1)) as G by exact (transitivity G0 G1).
  apply wp_bind, wp_texec; [done..|]. intros u1 d1 H1.
  assert (∀ u2 d2, insert_remnant_opt (cwo_NewRemnant op) d1 = Ok (u2, d2) → guar d0 d2) as Hins.
  { intros u2 d2 H2. destruct G as [HP HW]. split.
    - etrans; [exact HP|]. by eapply cut_inserts_persist.
    - intros W. eapply cut_inserts_wf; [by apply HW| |done..].
      eapply plan_ok_persists; [exact (transitivity GI G1)|by apply Gw|auto]. }
  apply wp_bind.
  enough (∀ w2 : world InvDB X, guar d0 (w_db w2) → wp (texec "deferred constraints"
     (cut_fk_at_commit (cwo_Record op))) (λ r w3, match r with
       | Ok a => (o_fault (w_step w3) = true → guar d0 (w_db (interfere w)))
                 ∧ (o_fault (w_step w3) = false → guar d0 (w_db w3))
       | Err _ => guar d0 (w_db (interfere w)) end) w2) as Hend.
  - destruct (cwo_NewRemnant op) as [r|] eqn:Er.
    + apply wp_texec; [done..|]. intros u2 d2 H2. exact (Hend (World d2 _ _) (Hins u2 d2 H2)).
    + apply wp_mret. exact (Hend (World d1 _ _) (Hins tt d1 eq_refl)).
  - intros w2 G2. apply wp_texec; [done..|]. intros u3 d3 H3. unfold cut_fk_at_commit in H3.
    by stmt_ok.
Qed.

(** ** RecordCut *)
Definition src_ok (d : InvDB) (in_ : RecordCutInput) (src : cutSource) : Prop :=
  (∀ id at_ p, source_dims d (cut_record id at_ in_ p) = Some (src_Dim src))
  ∧ (∃ s, t_sheets d !! src_ParentBoardID src = Some s
          ∧ FitsInside (src_Dim src) (sh_Dimensions s) = true)
  ∧ dim_int4 (src_Dim src) = true.

Lemma src_ok_persists d d' in_ src : guar d d' → src_ok d in_ src → src_ok d' in_ src.
Proof.
  intros [HP _] (Hs & (s & Hb & Hf) & Hi). split_and!; [|  |done].
  - intros. by eapply source_dims_persists.
  - edestruct sheet_persists as (s' & Hs' & E); [done..|]. exists s'. split; [done|].
    unfold sheet_core in E. congruence.
Qed.

Lemma FitsInside_refl a : FitsInside a a = true.
Proof. unfold FitsInside. by rewrite !Z.leb_refl. Qed.

Lemma overflow_safe : safe GetOverflowStatus.
Proof. unfold GetOverflowStatus, selectOverflowAreas, scan_int64. safe_steps. Qed.

Lemma cut_source_wp in_ d0 w :
  guar d0 (w_db w) →
  wp (cut_source in_) (λ r w', guar d0 (w_db w') ∧
    match r with Ok src => wf d0 → src_ok (w_db w') in_ src | Err _ => True end) w.
Proof.
  intros G. unfold cut_source.
  destruct (rc_SheetID in_) as [sid|] eqn:Es; [|destruct (rc_RemnantID in_) as [rid|] eqn:Er].
  - apply wp_bind. eapply wp_safe; [apply overflow_safe|done|]. intros [o|e] w1 _ G1; [|done].
    apply wp_bind, wp_fail_if; intros _; [done|].
    assert (guar d0 (w_db (interfere w1))) as G2 by exact (transitivity G1 (HR _ _)).
    apply wp_bind, wp_query_row; [done..|]. intros sheet (s & Hs & ->)%fmap_Some_1.
    apply wp_bind, wp_fail_if; intros _; [done|]. apply wp_mret. split; [done|]. intros W.
    set (d1 := w_db (interfere w1)) in *. clearbody d1.
    destruct G2 as [_ HW]. destruct (wf_sheets _ (HW W) sid s Hs) as (Hid & Hi & _).
    assert (sheet_core (sheet_join d1 s) = sheet_core s) as Ej
      by (unfold sheet_join; repeat case_match; done).
    unfold sheet_core in Ej. split_and!; simpl.
    + intros. unfold source_dims. simpl. rewrite Es, Hs. simpl. congruence.
    + exists s. split; [congruence|]. replace (sh_Dimensions (sheet_join _ s)) with (sh_Dimensions s)
        by congruence. apply FitsInside_refl.
    + congruence.
  - assert (guar d0 (w_db (interfere w))) as G2 by exact (transitivity G (HR _ _)).
    apply wp_bind, wp_query_row; [done..|]. intros r Hr.
    apply wp_bind, wp_fail_if; intros _; [done|]. apply wp_mret. split; [done|]. intros W.
    set (d1 := w_db (interfere w)) in *. clearbody d1.
    destruct G2 as [_ HW]. destruct (wf_remnants _ (HW W) rid r Hr) as (_ & Hi & _ & s & Hs & Hf).
    split_and!; simpl; [|by exists s|done].
    intros. unfold source_dims. simpl. rewrite Es, Er. simpl. by rewrite Hr.
  - by apply wp_throw.
Qed.

Lemma leftover_wp in_ src rd d0 (w : world InvDB X) :
  guar d0 (w_db w) →
  wp (leftover in_ src rd) (λ r w', guar d0 (w_db w') ∧
    match r with Ok (Some rem) => ∃ id at_, rem = new_remnant id at_ in_ src rd | _ => True end) w.
Proof.
  intros G. unfold leftover. apply wp_bind, fail_opt_wp; [done|intros _].
  assert (guar d0 (w_db (interfere w))) as G2 by exact (transitivity G (HR _ _)).
  apply wp_bind, wp_query_row; [done..|]. intros [pl pw] _.
  apply wp_if; intros _; [by apply wp_mret|].
  apply wp_bind, wp_new_uuid, wp_bind, wp_now, wp_mret. split; [done|eauto].
Qed.

Lemma afterCut_safe in_ cr : safe (afterCut in_ cr).
Proof. unfold afterCut. safe_steps. Qed.

Lemma cut_barcodes_safe in_ cr : safe (cut_barcodes in_ cr).
Proof. unfold cut_barcodes. safe_steps. Qed.

Lemma cut_input_check_valid in_ :
  cut_input_check in_ = None →
  Dim_Valid (rc_UsedDimension in_) = true
  ∧ (∀ rd, rc_RemnantDimension in_ = Some rd → Dim_Valid rd = true).
Proof.
  unfold cut_input_check. destruct (_ || _); [done|].
  destruct (Dim_Valid (rc_UsedDimension in_)); simpl; [|done]. intros Hchk. split; [done|].
  intros rd E. rewrite E in Hchk. by destruct (Dim_Valid rd).
Qed.

(** The operation handed to the store fits what was read of the source. *)
Lemma cut_plan_ok in_ d src id at_ left :
  cut_input_check in_ = None →
  conservation_check (rc_UsedDimension in_) (rc_RemnantDimension in_) (src_Dim src) = None →
  src_ok d in_ src →
  match left with
  | None => True
  | Some r => ∃ rd, rc_RemnantDimension in_ = Some rd
                    ∧ ∃ id at_, r = new_remnant id at_ in_ src rd
  end →
  plan_ok d (cut_op in_ (cut_record id at_ in_ (rem_ID <$> left)) left).
Proof.
  intros Hin Hck (Hs & (s & Hb & Hf) & Hi) Hl.
  destruct (cut_input_check_valid _ Hin) as [Hv Hvr].
  assert (used_dim (cut_record id at_ in_ (rem_ID <$> left)) = rc_UsedDimension in_) as Eu
    by (unfold used_dim; simpl; by destruct (rc_UsedDimension in_)).
  exists (src_Dim src). simpl. rewrite Eu. split_and!; [apply Hs|done| |done].
  destruct left as [r|]; simpl.
  - destruct Hl as (rd & Erd & id' & at' & ->). rewrite Erd in Hck. simpl. split_and!; eauto.
  - eauto.
Qed.

Theorem RecordCut_safe in_ : safe (RecordCut in_).
Proof.
  intros w. apply (wp_respects guar). unfold RecordCut.
  apply wp_bind, fail_opt_wp; [done|intros Hin].
  apply wp_bind, wp_fail_if; intros _; [done|].
  apply wp_bind. eapply wp_mono; [by apply (cut_source_wp in_ (w_db w) w)|].
  intros [src|e] w1 [G1 Hsrc]; [|done].
  apply wp_bind, fail_opt_wp; [done|intros Hck].
  apply wp_bind, wp_new_uuid, wp_bind, wp_now, wp_bind.
  set (id := o_uuid _). set (at_ := o_time _). clearbody id at_.
  apply (wp_mono _ (λ r w', guar (w_db w) (w_db w') ∧ guar (w_db w1) (w_db w') ∧
    match r with
    | Ok (Some r) => ∃ rd, rc_RemnantDimension in_ = Some rd
                           ∧ ∃ id at_, r = new_remnant id at_ in_ src rd
    | _ => True end)).
  { destruct (rc_RemnantDimension in_) as [rd|] eqn:Erd; [|by apply wp_mret].
    eapply wp_mono; [by apply (leftover_wp in_ src rd (w_db w1))|].
    intros r w' [G Hr]. split_and!; [by etrans|done|]. destruct r as [[r|]|]; eauto. }
  intros [left|e] w2 (G2 & G12 & Hl); [|done].
  assert (∀ cr, cr = cut_record id at_ in_ (rem_ID <$> left) →
    guar (w_db w) (w_db (snd (recordCutAtomically (cut_op in_ cr left) w2)))) as Hrec.
  { intros cr ->. apply recordCutAtomically_safe; [done|]. intros W.
    eapply cut_plan_ok; [done|done| |by destruct left].
    eapply src_ok_persists; [exact G12|]. auto. }
  assert (∀ {A} cr (k : M A), cr = cut_record id at_ in_ (rem_ID <$> left) → safe k →
    wp (recordCutAtomically (cut_op in_ cr left);; k) (λ _ w', guar (w_db w) (w_db w')) w2) as Hk.
  { intros A cr k E Hk. apply wp_bind. specialize (Hrec cr E). unfold wp at 1.
    destruct (recordCutAtomically _ w2) as [[u|e] w3]; simpl in *; [|done].
    eapply (wp_safe k _ _ w3); [done|exact Hrec|by intros]. }
  destruct (rc_RemnantDimension in_) as [rd|], left as [r|]; apply Hk; try done;
    repeat first [apply afterCut_safe|apply cut_barcodes_safe|safe_step].
Qed.

(** ** The other handlers *)
Lemma new_sheets_valid n in_ lotID w shs w' :
  Dim_Valid (rs_Dimensions in_) = true →
  new_sheets (X:=X) n in_ lotID w = (Ok shs, w') →
  Forall (λ sh, Dim_Valid (sh_Dimensions sh) = true) shs.
Proof.
  intros Hv. revert w shs w'. induction n as [|n IH]; intros w shs w' E.
  - by injection E as <- <-.
  - simpl in E. unfold mbind, M_bind, new_uuid in E.
    destruct (new_sheets n in_ lotID (bump w)) as [[rest|e] w1] eqn:En; [|done].
    injection E as <- <-. constructor; [done|]. by eapply IH.
Qed.

Lemma new_sheets_safe n in_ lotID : safe (new_sheets n in_ lotID).
Proof. induction n; simpl; safe_steps; done. Qed.

Lemma ReceiveStock_safe in_ : safe (ReceiveStock in_).
Proof.
  intros w. apply (wp_respects guar). unfold ReceiveStock.
  apply wp_bind, wp_fail_if; intros _; [done|].
  apply wp_bind, wp_fail_if; intros Hv; [done|]. bool_hyps.
  apply wp_bind, wp_new_uuid, wp_bind, wp_now. cbv zeta.
  apply wp_bind. eapply wp_safe; [|reflexivity|].
  { unfold insertLot. safe_steps. stmt_guar. }
  intros [u|e] w1 _ G1; [|done]. apply wp_bind.
  eapply wp_safe; [apply new_sheets_safe|exact G1|]. intros [shs|e] w2 En G2; [|done].
  apply wp_bind. eapply wp_safe; [|exact G2|].
  { unfold insertSheets. safe_steps. eapply sheets_insert_guar; [|eassumption].
    by eapply new_sheets_valid. }
  intros [u'|e] w3 _ G3; [|done]. by apply wp_mret.
Qed.

Lemma DeactivateLot_safe id : safe (DeactivateLot id).
Proof. unfold DeactivateLot, deactivateLot. safe_steps. stmt_guar. Qed.

Lemma PreAssignSheet_safe in_ : safe (PreAssignSheet in_).
Proof.
  unfold PreAssignSheet, GetOverflowStatus, selectOverflowAreas, scan_int64, insertAuditLog,
    preAssignSheet.
  safe_steps; stmt_guar.
Qed.

Lemma AllocateRemnant_safe id wo : safe (AllocateRemnant id wo).
Proof. unfold AllocateRemnant, allocateRemnantAtomically, selectRemnantByID. safe_steps; stmt_guar. Qed.

Lemma MarkRemnantWaste_safe id : safe (MarkRemnantWaste id).
Proof. unfold MarkRemnantWaste, markRemnantWasteAtomically, selectRemnantByID. safe_steps; stmt_guar. Qed.

Lemma StockRemnant_safe id bc : safe (StockRemnant id bc).
Proof.
  unfold StockRemnant, selectStorageLocationByBarcode, updateRemnantBinLocation.
  safe_steps; stmt_guar.
Qed.

Lemma ReleaseExpiredAllocations_safe before : safe (ReleaseExpiredAllocations before).
Proof. unfold ReleaseExpiredAllocations, releaseExpiredAllocations. safe_steps; stmt_guar. Qed.

Lemma ExpireStaleRemnants_safe n : safe (ExpireStaleRemnants n).
Proof. unfold ExpireStaleRemnants, expireStaleRemnants. safe_steps. stmt_ok. stmt_guar. Qed.

Lemma Transfer_safe in_ : safe (Transfer in_).
Proof.
  unfold Transfer, selectStorageLocationByBarcode, selectRemnantByID, updateRemnantBinLocation,
    selectSheetByID, updateSheetBinLocation, insertAuditLog.
  safe_steps; stmt_guar.
Qed.

Lemma LogRemnantBypass_safe in_ : safe (LogRemnantBypass in_).
Proof. unfold LogRemnantBypass, insertAuditLog. safe_steps; stmt_guar. Qed.

Lemma CreateCycleCountSession_safe in_ : safe (CreateCycleCountSession in_).
Proof.
  unfold CreateCycleCountSession, insertCycleCountSession. safe_steps. stmt_ok.
  by apply sessions_insert_guar.
Qed.

Lemma AddCycleCountLine_safe in_ : safe (AddCycleCountLine in_).
Proof.
  unfold AddCycleCountLine, selectCycleCountSessionByID, selectRemnantByID, selectSheetByID,
    insertCycleCountLine.
  safe_steps; stmt_ok; destruct (is_some _) eqn:E; simpl in *; try done;
    destruct (existsb _ _); try done; stmt_ok; apply lines_insert_guar;
    unfold is_some, is_none in E; by destruct (t_lines _ !! _).
Qed.

Lemma PostCycleCount_safe in_ : safe (PostCycleCount in_).
Proof.
  unfold PostCycleCount, selectCycleCountSessionByID, selectCycleCountLinesBySession, count_diff,
    selectRemnantByID, selectSheetByID, postCycleCountAtomically, apply_adjustment.
  safe_steps; stmt_guar.
Qed.

Lemma CancelCycleCountSession_safe id actor : safe (CancelCycleCountSession id actor).
Proof.
  unfold CancelCycleCountSession, selectCycleCountSessionByID, updateCycleCountSessionStatus.
  safe_steps; stmt_guar.
Qed.

Lemma QCPassLot_safe id actor : safe (QCPassLot id actor).
Proof. unfold QCPassLot, qcPassLotAtomically, insertAuditLog. safe_steps; stmt_guar. Qed.

Lemma RejectLot_safe in_ : safe (RejectLot in_).
Proof.
  unfold RejectLot, rejectLotAtomically, insertAuditLog, selectLotByID.
  safe_steps; try stmt_guar; unfold reject_sheets in *; stmt_ok; apply sheets_fmap_guar;
    intros; by case_bool_decide.
Qed.

Lemma UpdateRejectionClaim_safe in_ : safe (UpdateRejectionClaim in_).
Proof.
  unfold UpdateRejectionClaim, updateRejectionClaim, selectRejectionByID, insertAuditLog, fail_opt.
  safe_steps; try stmt_guar; stmt_ok;
    match goal with E : (let (_, _) := ?p in Ok _) = Ok _ |- _ =>
      rewrite (surjective_pairing p) in E; injection E as <- <- end;
    by apply rejections_update_guar.
Qed.
End safety.
