(* ===== verification/InventoryProps.v ===== *)
(** * Inventory: correctness properties

    What the handlers guarantee, with a concrete run as witness for each
    property that has hypotheses. *)

From S2P Require Import Prelude Domain Effects HttpKit Sql InventoryData InventoryStore InventoryService InventoryLaws.
From S2P Require Import InventorySafety.
From stdpp Require Import base gmap strings list.
From Stdlib Require Import ZArith Lia SpecFloat.

Open Scope string_scope.

(** ** The module as a state machine *)
Inductive inv_call : Type :=
  | CallReceiveStock (in_ : ReceiveStockInput)
  | CallDeactivateLot (lotID : uuid)
  | CallPreAssignSheet (in_ : PreAssignSheetInput)
  | CallRecordCut (in_ : RecordCutInput)
  | CallAllocateRemnant (remnantID workOrderID : uuid)
  | CallMarkRemnantWaste (remnantID : uuid)
  | CallStockRemnant (remnantID : uuid) (barcode : string)
  | CallReleaseExpiredAllocations (before : instant)
  | CallExpireStaleRemnants (ageDays : Z)
  | CallTransfer (in_ : TransferInput)
  | CallLogRemnantBypass (in_ : LogRemnantBypassInput)
  | CallCreateCycleCountSession (in_ : CreateCycleCountInput)
  | CallAddCycleCountLine (in_ : AddCountLineInput)
  | CallPostCycleCount (in_ : PostCycleCountInput)
  | CallCancelCycleCountSession (sessionID actorID : uuid)
  | CallQCPassLot (lotID actorID : uuid)
  | CallRejectLot (in_ : RejectLotInput)
  | CallUpdateRejectionClaim (in_ : UpdateClaimInput).

Section machine.
Context {X : Type} `{!Oracle InvDB} `{!Schema} `{!InventoryDeps X}.
Local Abbreviation M := (M InvDB X).

(** A request whose outcome, result or error, goes back to the client. *)
Definition serve (c : inv_call) : M unit :=
  match c with
  | CallReceiveStock i => best_effort (ReceiveStock i)
  | CallDeactivateLot l => best_effort (DeactivateLot l)
  | CallPreAssignSheet i => best_effort (PreAssignSheet i)
  | CallRecordCut i => best_effort (RecordCut i)
  | CallAllocateRemnant r w => best_effort (AllocateRemnant r w)
  | CallMarkRemnantWaste r => best_effort (MarkRemnantWaste r)
  | CallStockRemnant r b => best_effort (StockRemnant r b)
  | CallReleaseExpiredAllocations t => best_effort (ReleaseExpiredAllocations t)
  | CallExpireStaleRemnants n => best_effort (ExpireStaleRemnants n)
  | CallTransfer i => best_effort (Transfer i)
  | CallLogRemnantBypass i => best_effort (LogRemnantBypass i)
  | CallCreateCycleCountSession i => best_effort (CreateCycleCountSession i)
  | CallAddCycleCountLine i => best_effort (AddCycleCountLine i)
  | CallPostCycleCount i => best_effort (PostCycleCount i)
  | CallCancelCycleCountSession s a => best_effort (CancelCycleCountSession s a)
  | CallQCPassLot l a => best_effort (QCPassLot l a)
  | CallRejectLot i => best_effort (RejectLot i)
  | CallUpdateRejectionClaim i => best_effort (UpdateRejectionClaim i)
  end.

Definition serve_all (cs : list inv_call) : M unit := mfor (λ _ c, serve c) cs tt.

Lemma serve_safe (HR : rely guar) c : respects guar (serve c).
Proof.
  destruct c; apply respects_best_effort;
    first [ by apply ReceiveStock_safe | by apply DeactivateLot_safe | by apply PreAssignSheet_safe
          | by apply RecordCut_safe | by apply AllocateRemnant_safe | by apply MarkRemnantWaste_safe
          | by apply StockRemnant_safe | by apply ReleaseExpiredAllocations_safe
          | by apply ExpireStaleRemnants_safe | by apply Transfer_safe | by apply LogRemnantBypass_safe
          | by apply CreateCycleCountSession_safe | by apply AddCycleCountLine_safe
          | by apply PostCycleCount_safe | by apply CancelCycleCountSession_safe
          | by apply QCPassLot_safe | by apply RejectLot_safe | by apply UpdateRejectionClaim_safe ].
Qed.

Lemma serve_all_safe (HR : rely guar) cs : respects guar (serve_all cs).
Proof. apply respects_mfor; [apply _|intros; by apply serve_safe]. Qed.
End machine.

(** ** A concrete factory floor *)
Module Floor.
(** Ids are drawn as 1000, 1001, ... in step order; time is the step counter. *)
Definition oracle : Oracle InvDB := {|
  o_uuid k := N.of_nat (1000 + k);
  o_time k := Z.of_nat k;
  o_fault _ := false;
  o_interf _ d := d
|}.

Definition deferred : Schema := {| produced_fk := AtCommit; int_as_text := true |}.
Definition immediate : Schema := {| produced_fk := AtStatement; int_as_text := true |}.

Definition deps : InventoryDeps unit := {|
  woa := None; bcg := None; notifier := None; prCreator := None;
  overflowThresholdPct := f64_of_int 15
|}.

Definition lot : InventoryLot := {|
  lot_ID := 1; lot_MaterialID := 2; lot_Quantity := 3; lot_CostPerSheet := VND 900000;
  lot_SupplierRef := "S-1"; lot_IsActive := true; lot_ReceivedAt := 0
|}.

Definition sheet (id : uuid) (st : string) : BoardSheet := {|
  sh_ID := id; sh_LotID := 1; sh_MaterialID := uuid_Nil; sh_MaterialName := "";
  sh_Dimensions := mkDim 2440 1220; sh_CostPerSheet := VND 900000; sh_Status := st;
  sh_IssuedToWorkOrderID := None; sh_SupplierCode := None; sh_LotBatch := Some "S-1";
  sh_GrainPattern := None; sh_QualityGrade := None; sh_BinLocationID := None
|}.

Definition db : InvDB := mkInvDB
  {[1%N := lot]}
  (<[10%N := sheet 10 "AVAILABLE"]> (<[11%N := sheet 11 "PENDING_QC"]>
    (<[12%N := sheet 12 "PENDING_QC"]> ∅)))
  ∅ ∅ ∅ ∅ ∅ ∅ ∅
  {[2%N := {| mat_Name := "MDF"; mat_MinRemnantLengthMM := 300; mat_MinRemnantWidthMM := 300 |}]}
  {[7%N]}.

Definition world0 : world InvDB unit := World db tt 0.

Definition cut (used : Dimension) (rem : option Dimension) : RecordCutInput := {|
  rc_SheetID := Some 10%N; rc_RemnantID := None; rc_WorkOrderID := 77; rc_SKUID := 5;
  rc_UsedDimension := used; rc_RemnantDimension := rem; rc_IsWaste := is_none rem;
  rc_BoundingBoxLengthMM := None; rc_BoundingBoxWidthMM := None; rc_ShapeType := ""
|}.

Definition cut_kept : RecordCutInput := cut (mkDim 1440 1220) (Some (mkDim 1000 1220)).

Lemma rely_quiet (R : relation InvDB) `{!Reflexive R} : @rely InvDB oracle R.
Proof. intros k d. simpl. reflexivity. Qed.

Lemma db_wf : wf db.
Proof.
  split.
  - repeat apply map_Forall_insert_2; [repeat split; reflexivity..|apply map_Forall_empty].
  - apply map_Forall_empty.
  - apply map_Forall_empty.
Qed.
End Floor.

(** ** Reachable states *)
Section claims.
Context {X : Type} `{!Oracle InvDB} `{!Schema} `{!InventoryDeps X}.

(** [C1] Whatever requests the module serves, in whatever order, with any
    database faults and beside any sessions that keep to the same guarantee,
    a well-formed inventory stays well formed - every cutting record accounts
    for no more area than its source had, every remnant fits the board it came
    from and names it - and no row ever disappears or changes its physical
    columns. *)
Theorem inventory_invariant (cs : list inv_call) (w : world InvDB X) :
  rely guar → wf (w_db w) →
  wf (w_db (snd (serve_all cs w))) ∧ inv_persist (w_db w) (w_db (snd (serve_all cs w))).
Proof. intros HR W. destruct (serve_all_safe HR cs w) as [HP HW]. auto. Qed.
End claims.

Lemma inventory_invariant_witness :
  let _ := Floor.oracle in let _ := Floor.deferred in let _ := Floor.deps in
  wf (w_db (snd (serve_all [CallRecordCut Floor.cut_kept; CallQCPassLot 1 7] Floor.world0))).
Proof.
  intros. apply (inventory_invariant [CallRecordCut Floor.cut_kept; CallQCPassLot 1 7] Floor.world0).
  - apply Floor.rely_quiet. apply _.
  - apply Floor.db_wf.
Defined.
