(* ===== verification/InventoryCut.v ===== *)
(** * Inventory: cutting

    The transaction of a cut against its specification - a guard on the locked
    source and one update of the tables - and what that gives [RecordCut]. *)

From S2P Require Import Prelude Domain Effects HttpKit Sql InventoryData InventoryStore InventoryService InventoryLaws.
From S2P Require Import InventorySafety InventoryProps.
From stdpp Require Import base gmap strings list.
From Stdlib Require Import ZArith Lia SpecFloat.

Open Scope string_scope.

(** ** Specification of one cut *)
Definition cuttable_remnant (st : string) : bool := (st =s RemnantAvailable) || (st =s RemnantAllocated).

(** The locked source exists and may be cut. *)
Definition cut_enabled (op : cutWriteOp) (d : InvDB) : Prop :=
  match cwo_SheetUpdate op, cwo_RemnantUpdate op with
  | Some u, _ => ∃ s, t_sheets d !! ssu_ID u = Some s ∧ sh_Status s = "AVAILABLE"
  | None, Some u => ∃ r, t_remnants d !! rsu_ID u = Some r ∧ cuttable_remnant (rem_Status r) = true
  | None, None => True
  end.

Definition consume_source (op : cutWriteOp) (d : InvDB) : InvDB :=
  match cwo_SheetUpdate op, cwo_RemnantUpdate op with
  | Some u, _ => set_sheets (snd (sql_update (ssu_ID u)
                   (sheet_set_status (ssu_Status u) (ssu_IssuedToWO u)) (t_sheets d))) d
  | None, Some u => set_remnants (snd (sql_update (rsu_ID u) (λ r,
                   remnant_set_status (rsu_Status u) None (rem_AllocatedAt r) r) (t_remnants d))) d
  | None, None => d
  end.

Definition add_cut (cr : CuttingRecord) (d : InvDB) : InvDB := set_cuts (<[cut_ID cr := cr]> (t_cuts d)) d.

Definition add_remnant (o : option Remnant) (d : InvDB) : InvDB :=
  match o with None => d | Some r => set_remnants (<[rem_ID r := r]> (t_remnants d)) d end.

Definition cut_effect (op : cutWriteOp) (d : InvDB) : InvDB :=
  add_remnant (cwo_NewRemnant op) (add_cut (cwo_Record op) (consume_source op d)).

(** ** Ends of a transaction's paths *)
Ltac leaf := first [done | by left | by right; eauto].

Section refine.
Context {X : Type} `{!Oracle InvDB} `{!Schema}.
Local Abbreviation M := (M InvDB X).

Lemma lock_source_wp (op : cutWriteOp) (w : world InvDB X) :
  wp (lock_source op) (λ r w', match r with
    | Ok _ => cut_enabled op (w_db w) ∧ w_db w' = consume_source op (w_db w)
    | Err _ => True end) w.
Proof.
  unfold lock_source, cut_enabled, consume_source, lock_sheet, lock_remnant, cuttable_remnant.
  destruct (cwo_SheetUpdate op) as [u|]; [|destruct (cwo_RemnantUpdate op) as [u|]].
  - apply wp_bind, wp_tquery_row; [done..|]. intros st (s & Hs & ->)%fmap_Some_1.
    apply wp_bind, wp_fail_if; intros Hst; [done|]. bool_hyps.
    apply wp_bind, wp_texec; [done..|]. intros n d'. unfold sheet_update. simpl.
    destruct (sql_update _ _ _) as [n' t]. intros [= <- <-].
    apply wp_fail_if; intros _; [done|]. eauto.
  - apply wp_bind, wp_tquery_row; [done..|]. intros st (r & Hr & ->)%fmap_Some_1.
    apply wp_bind, wp_fail_if; intros Hst; [done|]. apply andb_false_iff in Hst.
    apply wp_bind, wp_texec; [done..|]. intros n d'. unfold remnant_update. simpl.
    destruct (sql_update _ _ _) as [n' t]. intros [= <- <-].
    apply wp_fail_if; intros _; [done|]. split; [|done]. exists r. split; [done|].
    rewrite orb_true_iff. destruct Hst as [Hx%negb_false_iff|Hx%negb_false_iff]; auto.
  - by apply wp_mret.
Qed.

Lemma cut_insert_ok cr d u d' : cut_insert cr d = Ok (u, d') → d' = add_cut cr d.
Proof. unfold cut_insert, add_cut. intros. by stmt_ok. Qed.

Lemma insert_remnant_opt_eq o d u d' : insert_remnant_opt o d = Ok (u, d') → d' = add_remnant o d.
Proof. intros Hx. pose proof (insert_remnant_opt_ok _ _ _ _ Hx) as Hy. by destruct o; [destruct Hy as (_ & -> & _)|subst]. Qed.

(** What a committed cut went through: the source was lockable and both
    inserts met their constraints. *)
Definition cut_commits (op : cutWriteOp) (d d' : InvDB) : Prop :=
  cut_enabled op d ∧ d' = cut_effect op d
  ∧ ∃ u1 d1 u2, cut_insert (cwo_Record op) (consume_source op d) = Ok (u1, d1)
                ∧ insert_remnant_opt (cwo_NewRemnant op) d1 = Ok (u2, d').

Lemma recordCutAtomically_wp (op : cutWriteOp) (w : world InvDB X) :
  wp (recordCutAtomically op) (λ r w', match r with
    | Ok _ => cut_commits op (w_db (interfere w)) (w_db w')
    | Err _ => w_db w' = w_db (interfere w) end) w.
Proof.
  unfold recordCutAtomically. apply wp_tx; [done|].
  apply wp_bind. eapply wp_mono; [apply lock_source_wp|].
  intros [u|e] w1 Hl; [|done]. destruct Hl as [Hen Hd1].
  apply wp_bind, wp_texec; [done..|]. intros u1 d1 H1. rewrite Hd1 in H1.
  enough (∀ w2 : world InvDB X,
    (∃ u2, insert_remnant_opt (cwo_NewRemnant op) d1 = Ok (u2, w_db w2)) →
    wp (texec "deferred constraints" (cut_fk_at_commit (cwo_Record op))) (λ r w3, match r with
      | Ok _ => (o_fault (w_step w3) = true → w_db (interfere w) = w_db (interfere w))
                ∧ (o_fault (w_step w3) = false → cut_commits op (w_db (interfere w)) (w_db w3))
      | Err _ => w_db (interfere w) = w_db (interfere w) end) w2) as Hend.
  { apply wp_bind. destruct (cwo_NewRemnant op) as [r|] eqn:Er.
    - apply wp_texec; [done..|]. intros u2 d2 H2. apply Hend. by exists u2.
    - apply wp_mret, Hend. by exists tt. }
  intros w2 [u2 H2]. apply wp_texec; [done..|]. intros u3 d3 H3. unfold cut_fk_at_commit in H3.
  stmt_ok. split; [done|]. intros _. split_and!; [done| |by eauto 10].
  apply insert_remnant_opt_eq in H2. apply cut_insert_ok in H1. by subst d1.
Qed.

(** [C6] The cut transaction refines its specification.  Committed, it found
    the source row locked in a state that allows the cut and its effect is
    [cut_effect]: the source consumed, the record and the new remnant added.
    Otherwise the tables are those it began with.  This holds for every fault
    and every interleaving of other sessions before the lock. *)
Theorem recordCutAtomically_refines (op : cutWriteOp) (w : world InvDB X) :
  let d := w_db (interfere w) in
  match recordCutAtomically op w with
  | (Ok _, w') => cut_enabled op d ∧ w_db w' = cut_effect op d
  | (Err _, w') => w_db w' = d
  end.
Proof.
  pose proof (recordCutAtomically_wp op w) as Hwp. unfold wp in Hwp. cbv zeta.
  destruct (recordCutAtomically op w) as [[u|e] w']; [|done].
  destruct Hwp as (? & ? & _). done.
Qed.
End refine.

(** ** The course of a whole cut *)

(** What [RecordCut] read of its source, at the instant it read it. *)
Definition source_read (in_ : RecordCutInput) (d : InvDB) (src : cutSource) : Prop :=
  match rc_SheetID in_, rc_RemnantID in_ with
  | Some sid, _ => ∃ s, t_sheets d !! sid = Some s ∧ sh_Status s = "AVAILABLE"
                        ∧ src = sheet_source (sheet_join d s)
  | None, Some rid => ∃ r, t_remnants d !! rid = Some r ∧ cuttable_remnant (rem_Status r) = true
                           ∧ src = remnant_source r
  | None, None => False
  end.

(** The remnant a cut leaves under the policy read at [d]. *)
Definition leftover_of (in_ : RecordCutInput) (src : cutSource) (d : InvDB) (lo : option Remnant)
    : Prop :=
  match rc_RemnantDimension in_ with
  | None => lo = None
  | Some rd => bounding_box_check in_ rd = None
      ∧ ∃ pl pw, min_policy d (src_ParentBoardID src) = Some (pl, pw)
          ∧ if drop_by_policy pl pw rd then lo = None
            else ∃ id at_, lo = Some (new_remnant id at_ in_ src rd)
  end.

(** A successful request: it read its source at [ds] and the policy at [dp],
    committed over [d1], and other sessions moved the tables along [R] in
    between. *)
Inductive cut_path `{!Schema} (R : relation InvDB) (in_ : RecordCutInput) (d0 : InvDB)
    (res : CutResult) (d' : InvDB) : Prop :=
  | CutPath (ds dp d1 : InvDB) (src : cutSource) (at_ : instant) (lo : option Remnant) :
      cut_input_check in_ = None →
      R d0 ds → source_read in_ ds src →
      conservation_check (rc_UsedDimension in_) (rc_RemnantDimension in_) (src_Dim src) = None →
      R ds dp → leftover_of in_ src dp lo →
      R dp d1 →
      cut_commits (cut_op in_ (cut_record (cut_CuttingRecordID res) at_ in_ (rem_ID <$> lo)) lo) d1 d' →
      cut_RemnantID res = rem_ID <$> lo →
      cut_DroppedRemnantCount res
        = (if is_some (rc_RemnantDimension in_) && is_none lo then 1 else 0)%Z →
      cut_path R in_ d0 res d'.

Section path.
Context {X : Type} `{!Oracle InvDB} `{!Schema} `{!InventoryDeps X}.
Context (R : relation InvDB) `{!PreOrder R} (HR : rely R).
Local Abbreviation M := (M InvDB X).

(** Reads may be interleaved, and only that. *)
Lemma wp_reads {A} (m : M A) Q (w : world InvDB X) d0 :
  respects R m → R d0 (w_db w) →
  (∀ r w', R d0 (w_db w') → Q r w') → wp m Q w.
Proof. intros Hm G HQ. unfold wp. apply HQ. exact (transitivity G (Hm w)). Qed.

Lemma rely_step d0 (w : world InvDB X) : R d0 (w_db w) → R d0 (w_db (interfere w)).
Proof. intros G. exact (transitivity G (HR _ _)). Qed.

Lemma overflow_reads : respects R GetOverflowStatus.
Proof.
  unfold GetOverflowStatus, selectOverflowAreas, scan_int64.
  repeat first [apply respects_bind; [apply _| |intros]|apply respects_query; [apply _|done]
               |apply respects_mret; apply _|apply respects_throw; apply _|case_match].
Qed.

Lemma cut_source_reads in_ (w : world InvDB X) :
  wp (cut_source in_) (λ r w', R (w_db w) (w_db w') ∧
    match r with Ok src => source_read in_ (w_db w') src | Err _ => True end) w.
Proof.
  unfold cut_source, source_read.
  destruct (rc_SheetID in_) as [sid|]; [|destruct (rc_RemnantID in_) as [rid|]].
  - apply wp_bind. eapply (wp_reads _ _ _ (w_db w)); [apply overflow_reads|done|].
    intros [o|e] w1 G1; [|done]. apply wp_bind, wp_fail_if; intros _; [done|].
    pose proof (rely_step _ _ G1) as G2.
    apply wp_bind, wp_query_row; [done..|]. intros sheet (s & Hs & ->)%fmap_Some_1.
    apply wp_bind, wp_fail_if; intros Hst; [done|]. apply wp_mret. split; [done|]. bool_hyps.
    exists s. split_and!; [done| |done]. revert Hst. unfold sheet_join. by repeat case_match.
  - pose proof (rely_step (w_db w) w (reflexivity _)) as G2.
    apply wp_bind, wp_query_row; [done..|]. intros r Hr.
    apply wp_bind, wp_fail_if; intros Hst; [done|]. apply wp_mret. split; [done|].
    exists r. split_and!; [done| |done]. unfold cuttable_remnant.
    apply andb_false_iff in Hst. rewrite !negb_false_iff in Hst. by apply orb_true_iff.
  - by apply wp_throw.
Qed.

Lemma leftover_reads in_ src rd (w : world InvDB X) :
  rc_RemnantDimension in_ = Some rd →
  wp (leftover in_ src rd) (λ r w', R (w_db w) (w_db w') ∧
    match r with Ok lo => leftover_of in_ src (w_db w') lo | Err _ => True end) w.
Proof.
  intros E. unfold leftover, leftover_of. rewrite E.
  apply wp_bind, fail_opt_wp; [done|intros Hbb].
  pose proof (rely_step (w_db w) w (reflexivity _)) as G2.
  apply wp_bind, wp_query_row; [done..|]. intros [pl pw] Hp.
  apply wp_if; intros Hd.
  - apply wp_mret. split_and!; [done..|]. exists pl, pw. by rewrite Hd.
  - apply wp_bind, wp_new_uuid, wp_bind, wp_now, wp_mret. split_and!; [done..|].
    exists pl, pw. rewrite Hd. eauto.
Qed.

Lemma afterCut_wp in_ cr Q (w : world InvDB X) :
  (∀ w', w_db w' = w_db w → Q (Ok tt) w') → wp (afterCut in_ cr) Q w.
Proof.
  intros HQ. unfold afterCut. apply wp_bind.
  assert (∀ w1 : world InvDB X, w_db w1 = w_db w → wp (match notifier with
    | Some notify => best_effort (call_dep (notify (rc_WorkOrderID in_) (cut_ID cr)))
    | None => mret tt end) Q w1) as Hk.
  { intros w1 E. destruct notifier; [|by apply HQ].
    apply wp_best_effort, wp_call_dep. intros. by apply HQ. }
  destruct woa; [|by apply Hk]. apply wp_best_effort, wp_call_dep. intros. by apply Hk.
Qed.

Lemma cut_barcodes_wp in_ cr Q (w : world InvDB X) :
  (∀ l w', w_db w' = w_db w → Q (Ok l) w') → wp (cut_barcodes in_ cr) Q w.
Proof.
  intros HQ. unfold cut_barcodes. destruct bcg as [g|]; [|by apply HQ].
  apply wp_bind, wp_call_dep. intros r x'. destruct (g _ _ _) as [[out e] x1].
  intros [= <- <-]. by apply wp_mret, HQ.
Qed.

(** Every run of [RecordCut]: an error leaves the tables to the other
    sessions, a success is a [cut_path]. *)
Lemma RecordCut_wp in_ (w : world InvDB X) :
  wp (RecordCut in_) (λ r w', match r with
    | Ok res => cut_path R in_ (w_db w) res (w_db w')
    | Err _ => R (w_db w) (w_db w') end) w.
Proof.
  unfold RecordCut. apply wp_bind, fail_opt_wp; [done|intros Hin].
  apply wp_bind, wp_fail_if; intros _; [done|].
  apply wp_bind. eapply wp_mono; [apply cut_source_reads|].
  intros [src|e] w1 [G1 Hsrc]; [|done].
  apply wp_bind, fail_opt_wp; [done|intros Hck].
  apply wp_bind, wp_new_uuid, wp_bind, wp_now, wp_bind.
  set (id := o_uuid _). set (at_ := o_time _). clearbody id at_.
  apply (wp_mono _ (λ r w2, R (w_db w1) (w_db w2) ∧
    match r with Ok lo => leftover_of in_ src (w_db w2) lo | Err _ => True end)).
  { destruct (rc_RemnantDimension in_) as [rd|] eqn:Erd; [by apply (leftover_reads in_ src rd (bump (bump w1)))|].
    apply wp_mret. split; [done|]. unfold leftover_of. by rewrite Erd. }
  intros [lo|e] w2 [G2 Hl]; [|exact (transitivity G1 G2)].
  pose proof (rely_step _ _ G2) as G3.
  set (op := cut_op in_ (cut_record id at_ in_ (rem_ID <$> lo)) lo).
  assert (∀ (k : M CutResult),
    (∀ w3 : world InvDB X, cut_commits op (w_db (interfere w2)) (w_db w3) →
       wp k (λ r w4, match r with
         | Ok res => w_db w4 = w_db w3 ∧ cut_CuttingRecordID res = id
             ∧ cut_RemnantID res = rem_ID <$> lo
             ∧ cut_DroppedRemnantCount res
               = (if is_some (rc_RemnantDimension in_) && is_none lo then 1 else 0)%Z
         | Err _ => False end) w3) →
    wp (recordCutAtomically op;; k) (λ r w', match r with
      | Ok res => cut_path R in_ (w_db w) res (w_db w')
      | Err _ => R (w_db w) (w_db w') end) w2) as Hk.
  { intros k Hk. apply wp_bind. eapply wp_mono; [apply recordCutAtomically_wp|].
    intros [u|e] w3 H3; [|rewrite H3; exact (transitivity G1 G3)].
    eapply wp_mono; [by apply Hk|]. intros [res|e] w4 H4; [|done].
    destruct H4 as (E & Ei & Er & Ed). subst id.
    rewrite E. apply (CutPath R in_ _ _ _ (w_db w1) (w_db w2) (w_db (interfere w2)) src at_ lo);
      try done. exact (HR _ _). }
  destruct (rc_RemnantDimension in_) as [rd|] eqn:Erd, lo as [r|]; apply Hk; intros w3 _;
    first [apply wp_bind, afterCut_wp; intros w4 E; by apply wp_mret
          |apply wp_bind, cut_barcodes_wp; intros l w4 E;
           apply wp_bind, afterCut_wp; intros w5 E'; apply wp_mret; split_and!; [congruence|done..]].
Qed.
End path.

(** ** The tables after a commit *)
Definition source_spent (in_ : RecordCutInput) (d : InvDB) : Prop :=
  match rc_SheetID in_, rc_RemnantID in_ with
  | Some sid, _ => ∃ s, t_sheets d !! sid = Some s ∧ sh_Status s = SheetStatusIssued
                        ∧ sh_IssuedToWorkOrderID s = Some (rc_WorkOrderID in_)
  | None, Some rid => ∃ r, t_remnants d !! rid = Some r ∧ rem_Status r = RemnantConsumed
                           ∧ rem_AllocatedToWO r = None
  | None, None => False
  end.

Definition stored_remnant (d : InvDB) (rd : Dimension) (rid : uuid) : Prop :=
  ∃ r, t_remnants d !! rid = Some r ∧ rem_Dimensions r = rd ∧ rem_Status r = RemnantAvailable
       ∧ rem_AllocatedToWO r = None.

(** The record of a cut request, as the tables hold it. *)
Definition records_cut (in_ : RecordCutInput) (res : CutResult) (c : CuttingRecord) : Prop :=
  cut_WorkOrderID c = rc_WorkOrderID in_ ∧ cut_SKUID c = rc_SKUID in_
  ∧ used_dim c = rc_UsedDimension in_
  ∧ cut_SheetID c = rc_SheetID in_
  ∧ (rc_SheetID in_ = None → cut_RemnantSourceID c = rc_RemnantID in_)
  ∧ cut_ProducedRemnantID c = cut_RemnantID res.

Lemma sql_update_hit {A} k (f : A → A) (t : gmap uuid A) r :
  t !! k = Some r → snd (sql_update k f t) !! k = Some (f r).
Proof. intros E. rewrite sql_update_lookup, decide_True by done. by rewrite E. Qed.

Section commit.
Context `{!Schema}.
Implicit Types (op : cutWriteOp) (d : InvDB).

Lemma consume_cuts op d : t_cuts (consume_source op d) = t_cuts d.
Proof. unfold consume_source. by repeat case_match. Qed.

Lemma commits_record op d d' :
  cut_commits op d d' → t_cuts d' !! cut_ID (cwo_Record op) = Some (cwo_Record op).
Proof.
  intros (_ & -> & _). unfold cut_effect, add_cut, add_remnant.
  destruct (cwo_NewRemnant op); simpl; apply lookup_insert_eq.
Qed.

Lemma commits_fresh op d d' :
  cut_commits op d d' → t_cuts d !! cut_ID (cwo_Record op) = None.
Proof.
  intros (_ & _ & u1 & d1 & u2 & H1 & _). unfold cut_insert in H1. stmt_ok.
  by rewrite consume_cuts in *.
Qed.

Lemma commits_remnant op d d' r :
  cut_commits op d d' → cwo_NewRemnant op = Some r →
  t_remnants d' !! rem_ID r = Some r ∧ t_remnants (consume_source op d) !! rem_ID r = None.
Proof.
  intros (_ & -> & u1 & d1 & u2 & H1 & H2) Er.
  pose proof (insert_remnant_opt_ok _ _ _ _ H2) as H3. rewrite Er in H3. apply cut_insert_ok in H1.
  destruct H3 as (Hn & _ & _). subst d1. split; [|done].
  unfold cut_effect. rewrite Er. simpl. apply lookup_insert_eq.
Qed.

(** The foreign key on the produced remnant, checked at the statement, is
    checked before the row it refers to exists. *)
Lemma commits_statement_fk op d d' r :
  produced_fk = AtStatement → cut_commits op d d' → cwo_NewRemnant op = Some r →
  cut_ProducedRemnantID (cwo_Record op) = Some (rem_ID r) → False.
Proof.
  intros Hfk Hc Er Ep. destruct (commits_remnant _ _ _ _ Hc Er) as [_ Hn].
  destruct Hc as (_ & _ & u1 & d1 & u2 & H1 & _). unfold cut_insert in H1.
  rewrite Hfk, Ep in H1. stmt_ok. simpl in *.
  match goal with Hx : fk_ok (rem_ID r) _ = true |- _ => apply fk_ok_spec in Hx as [? ?] end.
  congruence.
Qed.

Lemma commits_source_spent in_ cr lo d d' :
  cut_commits (cut_op in_ cr lo) d d' → (is_some (rc_SheetID in_) || is_some (rc_RemnantID in_)) = true →
  source_spent in_ d'.
Proof.
  intros Hc Hin. pose proof Hc as (Hen & E & _).
  unfold source_spent, cut_enabled, cut_op in *. simpl in *.
  destruct (rc_SheetID in_) as [sid|] eqn:Es; [|destruct (rc_RemnantID in_) as [rid|] eqn:Er; [|done]].
  - destruct Hen as (s & Hs & _). simpl in Hs.
    exists (sheet_set_status "ISSUED" (Some (rc_WorkOrderID in_)) s). split_and!; [|done..].
    rewrite E. unfold cut_effect, consume_source.
    destruct lo; simpl; by apply sql_update_hit.
  - destruct Hen as (r & Hr & _). simpl in Hr.
    exists (remnant_set_status RemnantConsumed None (rem_AllocatedAt r) r). split_and!; [|done..].
    destruct lo as [r'|]; rewrite E; unfold cut_effect; simpl.
    + destruct (commits_remnant _ _ _ r' Hc eq_refl) as [_ Hn]. revert Hn.
      unfold consume_source. simpl. intros Hn.
      rewrite lookup_insert_ne; [by apply (sql_update_hit rid (λ r, remnant_set_status
        RemnantConsumed None (rem_AllocatedAt r) r))|].
      intros Eid. rewrite Eid, sql_update_lookup, decide_True, Hr in Hn; done.
    + by apply (sql_update_hit rid (λ r, remnant_set_status
        RemnantConsumed None (rem_AllocatedAt r) r)).
Qed.
End commit.

Lemma input_has_source in_ :
  cut_input_check in_ = None → (is_some (rc_SheetID in_) || is_some (rc_RemnantID in_)) = true.
Proof. unfold cut_input_check. by destruct (rc_SheetID in_), (rc_RemnantID in_). Qed.

Lemma cut_op_sheet_first in_ : cut_input_check in_ = None → rc_SheetID in_ = None →
  is_some (rc_RemnantID in_) = true.
Proof. intros Hin%input_has_source E. by rewrite E in Hin. Qed.

(** ** The policy on leftovers *)

(** The board a request cuts: the sheet, or the one its remnant came from. *)
Definition cuts_board (in_ : RecordCutInput) (d : InvDB) (board : uuid) : Prop :=
  match rc_SheetID in_, rc_RemnantID in_ with
  | Some sid, _ => board = sid
  | None, Some rid => ∃ r, t_remnants d !! rid = Some r ∧ board = rem_ParentBoardID r
  | None, None => False
  end.

Definition material_minimum (d : InvDB) (board : uuid) (minLen minWid : Z) : Prop :=
  ∃ s l m, t_sheets d !! board = Some s ∧ t_lots d !! sh_LotID s = Some l
    ∧ t_materials d !! lot_MaterialID l = Some m
    ∧ minLen = mat_MinRemnantLengthMM m ∧ minWid = mat_MinRemnantWidthMM m.

Definition reaches (minimum side : Z) : Prop := (minimum <= 0 ∨ minimum <= side)%Z.

#[export] Instance reaches_dec minimum side : Decision (reaches minimum side).
Proof. unfold reaches. apply _. Defined.

Lemma drop_by_policy_spec pl pw rd :
  drop_by_policy pl pw rd = true ↔ ¬ (reaches pl (LengthMM rd) ∧ reaches pw (WidthMM rd)).
Proof. unfold drop_by_policy, reaches. rewrite orb_true_iff, !andb_true_iff, !Z.ltb_lt. lia. Qed.

Lemma min_policy_material d b pl pw : min_policy d b = Some (pl, pw) → material_minimum d b pl pw.
Proof.
  unfold min_policy, material_minimum. intros E.
  destruct (t_sheets d !! b) as [s|]; simpl in E; [|done].
  destruct (t_lots d !! sh_LotID s) as [l|] eqn:El; simpl in E; [|done].
  destruct (t_materials d !! lot_MaterialID l) as [m|] eqn:Em; simpl in E; [|done].
  injection E as <- <-. by exists s, l, m.
Qed.

Lemma source_board in_ d src : wf d → source_read in_ d src → cuts_board in_ d (src_ParentBoardID src).
Proof.
  intros W Hs. unfold source_read, cuts_board in *.
  destruct (rc_SheetID in_) as [sid|]; [|destruct (rc_RemnantID in_) as [rid|]; [|done]].
  - destruct Hs as (s & Hs & _ & ->). destruct (wf_sheets _ W _ _ Hs) as [Hid _].
    rewrite <- Hid. simpl. unfold sheet_join. by repeat case_match.
  - destruct Hs as (r & Hr & _ & ->). eauto.
Qed.

Lemma sql_update_dom {A} k (f : A → A) (t : gmap uuid A) : dom (snd (sql_update k f t)) = dom t.
Proof.
  apply set_eq. intros i. rewrite !elem_of_dom, sql_update_lookup. case_decide; [|done].
  by rewrite fmap_is_Some.
Qed.

(** A cut that keeps nothing adds no remnant. *)
Lemma cut_effect_remnants in_ cr d :
  dom (t_remnants (cut_effect (cut_op in_ cr None) d)) = dom (t_remnants d).
Proof.
  unfold cut_effect, consume_source. simpl.
  destruct (rc_SheetID in_); [done|]. destruct (rc_RemnantID in_); [apply sql_update_dom|done].
Qed.

Section cut_claims.
Context {X : Type} `{!Oracle InvDB} `{!Schema} `{!InventoryDeps X}.

Lemma path_record R in_ d0 res d' :
  cut_path R in_ d0 res d' →
  ∃ c, t_cuts d' !! cut_CuttingRecordID res = Some c ∧ records_cut in_ res c.
Proof.
  intros [ds dp d1 src at_ lo Hin _ _ _ _ _ _ Hc Er _].
  pose proof (commits_record _ _ _ Hc) as Hrec.
  eexists. split; [exact Hrec|]. unfold records_cut. simpl. split_and!; try done.
  - unfold used_dim. simpl. by destruct (rc_UsedDimension in_).
  - by intros ->.
Qed.

(** [C3] A successful cut does what was asked: whatever other sessions do
    meanwhile, when [RecordCut] returns, the cutting record it names is stored
    with the request's source, order, product and used dimension, its area
    account balances against the source, the source is spent (sheet ISSUED to
    the order, remnant CONSUMED) and a returned remnant is stored AVAILABLE
    with the requested dimension. *)
Theorem RecordCut_stores (in_ : RecordCutInput) (res : CutResult) (w w' : world InvDB X) :
  rely guar → wf (w_db w) → RecordCut in_ w = (Ok res, w') →
  (∃ c, t_cuts (w_db w') !! cut_CuttingRecordID res = Some c ∧ records_cut in_ res c
        ∧ cut_conserves (w_db w') c)
  ∧ source_spent in_ (w_db w')
  ∧ (∀ rid, cut_RemnantID res = Some rid →
       ∃ rd, rc_RemnantDimension in_ = Some rd ∧ stored_remnant (w_db w') rd rid).
Proof.
  intros HR W E. pose proof (wp_run _ _ _ _ _ E (RecordCut_wp guar HR in_ w)) as HP.
  pose proof (RecordCut_safe HR in_ w) as HS. rewrite E in HS. destruct HS as [_ HS].
  destruct (path_record _ _ _ _ _ HP) as (c & Hc & Hrec). split_and!.
  - exists c. split_and!; [done..|]. by apply (wf_cuts _ (HS W) _ _ Hc).
  - destruct HP as [ds dp d1 src at_ lo Hin _ _ _ _ _ _ Hcm _ _].
    eapply commits_source_spent; [exact Hcm|by apply input_has_source].
  - destruct HP as [ds dp d1 src at_ lo _ _ _ _ _ Hl _ Hcm Er _]. intros rid Erid.
    rewrite Er in Erid. destruct lo as [r|]; simplify_eq/=. unfold leftover_of in Hl.
    destruct (rc_RemnantDimension in_) as [rd|]; [|done].
    destruct Hl as (_ & pl & pw & _ & Hl). destruct (drop_by_policy pl pw rd); [done|].
    destruct Hl as (id & at' & [= ->]).
    destruct (commits_remnant _ _ _ _ Hcm eq_refl) as [Hst _].
    exists rd. split; [done|]. eexists. split_and!; [exact Hst|done..].
Qed.

(** [C10] All or nothing: when no other session interferes, a [RecordCut] that
    reports an error - invalid input, a refused source, a failed constraint,
    a driver fault at any statement or at commit - leaves every table as it
    found it. *)
Theorem RecordCut_error_atomic (in_ : RecordCutInput) (e : error) (w w' : world InvDB X) :
  (∀ k d, o_interf k d = d) → RecordCut in_ w = (Err e, w') → w_db w' = w_db w.
Proof.
  intros HR E. symmetry. refine (wp_run _ _ _ _ _ E (RecordCut_wp eq _ in_ w)).
  intros k d. by rewrite HR.
Qed.

(** [C30] Under the foreign key as migration 00037 declares it - checked at the
    statement - no cut ever stores a remnant: every successful cut is a waste
    cut or one whose remnant the policy dropped. *)
Theorem RecordCut_never_keeps (in_ : RecordCutInput) (res : CutResult) (w w' : world InvDB X) :
  produced_fk = AtStatement → RecordCut in_ w = (Ok res, w') → cut_RemnantID res = None.
Proof.
  intros Hfk E. assert (PreOrder (λ _ _ : InvDB, True)) as HPO by done.
  pose proof (wp_run _ _ _ _ _ E (RecordCut_wp (λ _ _, True) (λ _ _, I) in_ w)) as HP.
  destruct HP as [ds dp d1 src at_ lo _ _ _ _ _ _ _ Hcm Er _]. rewrite Er.
  destruct lo as [r|]; [|done]. destruct (commits_statement_fk _ _ _ r Hfk Hcm); done.
Qed.

(** [C28] BR-K06/K07.  The minimum sides are those of the material the cut board
    is made of: of the sheet cut, or of the board the cut remnant came from.  A
    leftover is kept exactly when each side reaches its minimum, a minimum of
    zero or less asking for nothing; a kept one is stored under that board with
    the requested dimension, a dropped one is counted in the result and no
    remnant is added. *)
Theorem RecordCut_policy (in_ : RecordCutInput) (res : CutResult) (rd : Dimension)
    (w w' : world InvDB X) :
  serial (D:=InvDB) → wf (w_db w) → RecordCut in_ w = (Ok res, w') → rc_RemnantDimension in_ = Some rd →
  ∃ board minLen minWid, cuts_board in_ (w_db w) board ∧ material_minimum (w_db w) board minLen minWid
    ∧ match cut_RemnantID res with
      | Some rid => reaches minLen (LengthMM rd) ∧ reaches minWid (WidthMM rd)
          ∧ cut_DroppedRemnantCount res = 0%Z
          ∧ ∃ r, t_remnants (w_db w') !! rid = Some r ∧ rem_ParentBoardID r = board ∧ rem_Dimensions r = rd
      | None => ¬ (reaches minLen (LengthMM rd) ∧ reaches minWid (WidthMM rd))
          ∧ cut_DroppedRemnantCount res = 1%Z ∧ dom (t_remnants (w_db w')) = dom (t_remnants (w_db w))
      end.
Proof.
  intros HS W E Erd. assert (rely (D:=InvDB) eq) as HR' by (intros k d; by rewrite HS).
  destruct (wp_run _ _ _ _ _ E (RecordCut_wp eq HR' in_ w))
    as [ds dp d1 src at_ lo _ <- Hsrc _ <- Hl <- Hc Er Ed].
  unfold leftover_of in Hl. rewrite Erd in Hl, Ed. destruct Hl as (_ & pl & pw & Hp & Hl).
  exists (src_ParentBoardID src), pl, pw. split_and!.
  - by eapply source_board.
  - by apply min_policy_material.
  - pose proof (drop_by_policy_spec pl pw rd) as Hdrop. rewrite Er, Ed.
    destruct (drop_by_policy pl pw rd).
    + subst lo. simpl. split_and!; [by apply Hdrop|done|].
      destruct Hc as (_ & -> & _). apply cut_effect_remnants.
    + destruct Hl as (id & at' & ->). simpl. destruct (commits_remnant _ _ _ _ Hc eq_refl) as [Hr _].
      destruct (decide (reaches pl (LengthMM rd) ∧ reaches pw (WidthMM rd))) as [[H1 H2]|Hn];
        [|by apply Hdrop in Hn]. split_and!; [done..|]. eexists. split_and!; [exact Hr|done..].
Qed.
End cut_claims.

(** ** Witnesses *)
Lemma RecordCut_stores_witness :
  let _ := Floor.oracle in let _ := Floor.deferred in let _ := Floor.deps in
  ∃ res w', RecordCut Floor.cut_kept Floor.world0 = (Ok res, w')
            ∧ source_spent Floor.cut_kept (w_db w') ∧ cut_RemnantID res = Some 1006%N.
Proof.
  intros. destruct (RecordCut Floor.cut_kept Floor.world0) as [[res|e] w'] eqn:E.
  - exists res, w'. split; [done|]. split.
    + refine (proj1 (proj2 (RecordCut_stores _ _ _ _ _ _ E))).
      * apply Floor.rely_quiet. apply _.
      * apply Floor.db_wf.
    + vm_compute in E. by simplify_eq.
  - vm_compute in E. discriminate E.
Defined.

Lemma RecordCut_error_atomic_witness :
  let _ := Floor.oracle in let _ := Floor.deferred in let _ := Floor.deps in
  ∃ e w', RecordCut (Floor.cut (mkDim 2440 1220) (Some (mkDim 1000 1220))) Floor.world0 = (Err e, w')
          ∧ errors_Is e ErrAreaConservation = true ∧ w_db w' = Floor.db.
Proof.
  intros. destruct (RecordCut (Floor.cut (mkDim 2440 1220) (Some (mkDim 1000 1220))) Floor.world0)
    as [[res|e] w'] eqn:E.
  - vm_compute in E. discriminate E.
  - exists e, w'. split_and!; [done| |exact (RecordCut_error_atomic _ _ _ _ (λ _ _, eq_refl) E)].
    vm_compute in E. by simplify_eq.
Defined.

Lemma RecordCut_never_keeps_witness :
  let _ := Floor.oracle in let _ := Floor.immediate in let _ := Floor.deps in
  ∃ res w', RecordCut (Floor.cut (mkDim 1440 1220) None) Floor.world0 = (Ok res, w')
            ∧ cut_RemnantID res = None
            ∧ fst (RecordCut Floor.cut_kept Floor.world0) = Err pg_fk_violation.
Proof.
  intros. destruct (RecordCut (Floor.cut (mkDim 1440 1220) None) Floor.world0) as [[res|e] w'] eqn:E.
  - exists res, w'. split_and!; [done|exact (RecordCut_never_keeps _ _ _ _ eq_refl E)|].
    by vm_compute.
  - vm_compute in E. discriminate E.
Defined.

Lemma RecordCut_policy_witness :
  let _ := Floor.oracle in let _ := Floor.deferred in let _ := Floor.deps in
  (∃ res w', RecordCut (Floor.cut (mkDim 2140 1220) (Some (mkDim 300 1220))) Floor.world0 = (Ok res, w')
     ∧ material_minimum Floor.db 10 300 300 ∧ cut_RemnantID res = Some 1006%N)
  ∧ (∃ res w', RecordCut (Floor.cut (mkDim 1440 1220) (Some (mkDim 1000 299))) Floor.world0 = (Ok res, w')
     ∧ ¬ (reaches 300 1000 ∧ reaches 300 299) ∧ cut_DroppedRemnantCount res = 1%Z).
Proof.
  intros. assert (@serial InvDB Floor.oracle) as HS by done. split.
  - destruct (RecordCut (Floor.cut (mkDim 2140 1220) (Some (mkDim 300 1220))) Floor.world0) as [[res|e] w'] eqn:E;
      [|vm_compute in E; discriminate E].
    destruct (RecordCut_policy _ _ _ Floor.world0 _ HS Floor.db_wf E eq_refl) as (b & pl & pw & Hb & Hm & _).
    exists res, w'. split_and!; [done| |vm_compute in E; by simplify_eq].
    change (b = 10%N) in Hb. subst b. pose proof Hm as (s & l & m & Hs & Hl & Hmat & -> & ->).
    vm_compute in Hs. injection Hs as <-. vm_compute in Hl. injection Hl as <-.
    vm_compute in Hmat. by injection Hmat as <-.
  - destruct (RecordCut (Floor.cut (mkDim 1440 1220) (Some (mkDim 1000 299))) Floor.world0) as [[res|e] w'] eqn:E;
      [|vm_compute in E; discriminate E].
    destruct (RecordCut_policy _ _ _ Floor.world0 _ HS Floor.db_wf E eq_refl) as (b & pl & pw & _ & _ & Hc).
    exists res, w'. split_and!; [done| |].
    + unfold reaches. lia.
    + assert (cut_RemnantID res = None) as Hn by (vm_compute in E; by simplify_eq).
      rewrite Hn in Hc. apply Hc.
Defined.
