(* ===== verification/InventoryLife.v ===== *)
(** * Inventory: lifecycles and the material balance

    The status of a board sheet or a remnant moves along a fixed graph, and the
    area of every board bounds what was cut out of it, what is left of it as
    remnants and the board itself while uncut.  Both hold for every handler but
    [PostCycleCount], which writes whatever status was counted. *)

From S2P Require Import Prelude Domain Effects HttpKit Sql InventoryData InventoryStore InventoryService InventoryLaws.
From S2P Require Import InventorySafety InventoryProps InventoryCut.
From stdpp Require Import base gmap strings list relations.
From Stdlib Require Import ZArith Lia.

Open Scope string_scope.

(** ** The two lifecycles *)
Inductive sheet_step : string → string → Prop :=
  | sheet_passed : sheet_step SheetStatusPendingQC SheetStatusAvailable
  | sheet_rejected : sheet_step SheetStatusPendingQC SheetStatusRejected
  | sheet_issued : sheet_step SheetStatusAvailable SheetStatusIssued.

Inductive remnant_step : string → string → Prop :=
  | remnant_allocated : remnant_step RemnantAvailable RemnantAllocated
  | remnant_released : remnant_step RemnantAllocated RemnantAvailable
  | remnant_expired : remnant_step RemnantAvailable RemnantExpired
  | remnant_consumed st : cuttable_remnant st = true → remnant_step st RemnantConsumed
  | remnant_wasted st : cuttable_remnant st = true → remnant_step st RemnantWaste.

Lemma issued_final st : rtc sheet_step SheetStatusIssued st → st = SheetStatusIssued.
Proof. intros Hs. inversion Hs as [|? ? ? Hstep]; [done|inversion Hstep]. Qed.

Lemma consumed_final st : rtc remnant_step RemnantConsumed st → st = RemnantConsumed.
Proof.
  intros Hs. inversion Hs as [|? ? ? Hstep]; [done|].
  inversion Hstep as [| | |? Hc|? Hc]; vm_compute in Hc; done.
Qed.

Record life (d d' : InvDB) : Prop := {
  life_sheets k s : t_sheets d !! k = Some s →
    ∃ s', t_sheets d' !! k = Some s' ∧ rtc sheet_step (sh_Status s) (sh_Status s');
  life_remnants k r : t_remnants d !! k = Some r →
    ∃ r', t_remnants d' !! k = Some r' ∧ rtc remnant_step (rem_Status r) (rem_Status r')
}.

#[export] Instance life_preorder : PreOrder life.
Proof.
  split.
  - intros d. split; intros; eauto using rtc_refl.
  - intros d1 d2 d3 [S1 R1] [S2 R2]. split.
    + intros k s Hs. destruct (S1 k s Hs) as (s2 & H2 & ?), (S2 k s2 H2) as (s3 & ? & ?).
      eexists. split; [done|by etrans].
    + intros k r Hr. destruct (R1 k r Hr) as (r2 & H2 & ?), (R2 k r2 H2) as (r3 & ? & ?).
      eexists. split; [done|by etrans].
Qed.

(** ** The material of a board *)
Definition live (r : Remnant) : bool := rem_Status r <>s RemnantConsumed.
Definition uncut (s : BoardSheet) : bool := sh_Status s <>s SheetStatusIssued.

(** The board a cut was made from, directly or through a remnant. *)
Definition cut_board (d : InvDB) (c : CuttingRecord) : option uuid :=
  match cut_SheetID c with
  | Some sid => Some sid
  | None => rid ← cut_RemnantSourceID c; rem_ParentBoardID <$> t_remnants d !! rid
  end.

Definition cut_share (d : InvDB) (b : uuid) (c : CuttingRecord) : Z :=
  if opt_eqb (cut_board d c) (Some b) then area (used_dim c) else 0%Z.

Definition remnant_share (b : uuid) (r : Remnant) : Z :=
  if (rem_ParentBoardID r =? b)%N && live r then area (rem_Dimensions r) else 0%Z.

Definition sheet_share (s : BoardSheet) : Z := if uncut s then area (sh_Dimensions s) else 0%Z.

(** What the books say board [b] turned into: parts, unconsumed remnants, and
    the board itself while uncut. *)
Definition material (d : InvDB) (b : uuid) (s : BoardSheet) : Z :=
  (table_sum (cut_share d b) (t_cuts d) + table_sum (remnant_share b) (t_remnants d) + sheet_share s)%Z.

Definition balanced (d : InvDB) : Prop :=
  ∀ b s, t_sheets d !! b = Some s → (material d b s <= area (sh_Dimensions s))%Z.

Definition guar_life (d d' : InvDB) : Prop :=
  guar d d' ∧ (wf d → life d d' ∧ (balanced d → balanced d')).

#[export] Instance guar_life_preorder : PreOrder guar_life.
Proof.
  split.
  - intros d. split; [reflexivity|]. intros _. split; [reflexivity|done].
  - intros d1 d2 d3 [G1 L1] [G2 L2]. split; [by etrans|]. intros W.
    destruct (L1 W) as [L1' B1], (L2 (proj2 G1 W)) as [L2' B2]. split; [by etrans|auto].
Qed.

(** ** Shares are stable *)
Lemma cut_board_wf d k c : wf d → t_cuts d !! k = Some c →
  ∃ b s, cut_board d c = Some b ∧ t_sheets d !! b = Some s.
Proof.
  intros W Hk. destruct (wf_cuts _ W k c Hk) as (_ & _ & src & p & Hs & _).
  unfold source_dims, cut_board in *. destruct (cut_SheetID c) as [sid|].
  - apply fmap_Some_1 in Hs as (s & ? & _). eauto.
  - destruct (cut_RemnantSourceID c) as [rid|]; simpl in *; [|done].
    apply fmap_Some_1 in Hs as (r & Hr & _). rewrite Hr.
    destruct (wf_remnants _ W rid r Hr) as (_ & _ & _ & s & ? & _). simpl. eauto.
Qed.

Lemma cut_share_persists d d' b k c : wf d → inv_persist d d' → t_cuts d !! k = Some c →
  cut_share d' b c = cut_share d b c.
Proof.
  intros W HP Hk. destruct (cut_board_wf d k c W Hk) as (b' & s & Hb & _).
  unfold cut_share. replace (cut_board d' c) with (cut_board d c); [done|].
  unfold cut_board in *. destruct (cut_SheetID c); [done|].
  destruct (cut_RemnantSourceID c) as [rid|]; simpl in *; [|done].
  apply fmap_Some_1 in Hb as (r & Hr & ->).
  destruct (remnant_persists d d' rid r HP Hr) as (r' & -> & E). rewrite Hr. simpl.
  unfold remnant_core in E. congruence.
Qed.

Lemma cut_share_nonneg d d' b : wf d → ∀ k c, t_cuts d !! k = Some c → (0 <= cut_share d' b c)%Z.
Proof.
  intros W k c Hk. destruct (wf_cuts _ W k c Hk) as (_ & Hv & _). unfold cut_share.
  destruct (opt_eqb _ _); [|done]. apply area_nonneg in Hv. lia.
Qed.

Lemma remnant_share_nonneg d b : wf d → ∀ k r, t_remnants d !! k = Some r → (0 <= remnant_share b r)%Z.
Proof.
  intros W k r Hk. destruct (wf_remnants _ W k r Hk) as (_ & _ & Hv & _). unfold remnant_share.
  destruct (_ && _); [|done]. apply area_nonneg in Hv. lia.
Qed.

Lemma remnant_share_live b r r' :
  remnant_core r' = remnant_core r → rtc remnant_step (rem_Status r) (rem_Status r') →
  (0 <= area (rem_Dimensions r))%Z → (remnant_share b r' <= remnant_share b r)%Z.
Proof.
  unfold remnant_core, remnant_share, live. intros E Hs Ha.
  replace (rem_ParentBoardID r') with (rem_ParentBoardID r) by congruence.
  replace (rem_Dimensions r') with (rem_Dimensions r) by congruence.
  destruct (rem_ParentBoardID r =? b)%N; simpl; [|done].
  destruct (String.eqb_spec (rem_Status r) RemnantConsumed) as [Ec|]; simpl.
  - rewrite Ec in Hs. apply consumed_final in Hs. by rewrite Hs.
  - by case_match.
Qed.

Lemma sheet_share_live s s' :
  sheet_core s' = sheet_core s → rtc sheet_step (sh_Status s) (sh_Status s') →
  (0 <= area (sh_Dimensions s))%Z → (sheet_share s' <= sheet_share s)%Z.
Proof.
  unfold sheet_core, sheet_share, uncut. intros E Hs Ha.
  replace (sh_Dimensions s') with (sh_Dimensions s) by congruence.
  destruct (String.eqb_spec (sh_Status s) SheetStatusIssued) as [Ec|]; simpl.
  - rewrite Ec in Hs. apply issued_final in Hs. by rewrite Hs.
  - by case_match.
Qed.

(** Statements that add no row and move statuses along the lifecycles. *)
Lemma guar_life_in_place d d' :
  guar d d' → life d d' →
  sheet_core <$> t_sheets d' = sheet_core <$> t_sheets d →
  remnant_core <$> t_remnants d' = remnant_core <$> t_remnants d →
  t_cuts d' = t_cuts d →
  guar_life d d'.
Proof.
  intros G L Es Er Ec. split; [done|]. intros W. split; [done|]. intros B b s' Hs'.
  destruct (core_lookup_eq sheet_core _ _ b s' (symmetry Es) Hs') as (s & Hs & E).
  destruct (wf_sheets _ W b s Hs) as (_ & _ & Hv%area_nonneg). specialize (B b s Hs).
  destruct (life_sheets _ _ L b s Hs) as (s'' & Hs'' & Hst).
  assert (s'' = s') as -> by congruence.
  replace (sh_Dimensions s') with (sh_Dimensions s) by (unfold sheet_core in E; congruence).
  etrans; [|exact B]. unfold material.
  pose proof (sheet_share_live s s' (symmetry E) Hst). rewrite Ec.
  rewrite (table_sum_ext _ (cut_share d b)) by (intros; by eapply cut_share_persists; [|apply G|]).
  enough (table_sum (remnant_share b) (t_remnants d') <= table_sum (remnant_share b) (t_remnants d))%Z
    by lia.
  apply table_sum_le; [|by apply remnant_share_nonneg]. intros k r' Hr'.
  destruct (core_lookup_eq remnant_core _ _ k r' (symmetry Er) Hr') as (r & Hr & E').
  destruct (life_remnants _ _ L k r Hr) as (r'' & Hr'' & Hrt).
  assert (r'' = r') as -> by congruence.
  exists r. split; [done|]. apply remnant_share_live; [done..|].
  destruct (wf_remnants _ W k r Hr) as (_ & _ & Hv'%area_nonneg & _). lia.
Qed.

(** ** New rows *)
Lemma life_grow d d' : t_sheets d ⊆ t_sheets d' → t_remnants d ⊆ t_remnants d' → life d d'.
Proof. intros Hs Hr. split; intros; eexists; (split; [by eapply lookup_weaken|done]). Qed.

Lemma guar_life_same d d' :
  guar d d' → t_sheets d' = t_sheets d → t_remnants d' = t_remnants d → t_cuts d' = t_cuts d →
  guar_life d d'.
Proof.
  intros G Es Er Ec. apply guar_life_in_place; [done| |by rewrite Es|by rewrite Er|done].
  apply life_grow; [by rewrite Es|by rewrite Er].
Qed.

Lemma sheet_insert_guar_life sh d u d' :
  Dim_Valid (sh_Dimensions sh) = true → sheet_insert sh d = Ok (u, d') → guar_life d d'.
Proof.
  intros Hv Hi. pose proof (sheet_insert_guar _ _ _ _ Hv Hi) as G.
  unfold sheet_insert in Hi. stmt_ok.
  split; [done|]. intros W. split; [apply life_grow; simpl; [by apply insert_subseteq|done]|].
  intros B b s. simpl. destruct (decide (b = sh_ID sh)) as [->|Hne].
  - rewrite lookup_insert_eq. intros [= <-]. unfold material. simpl.
    rewrite (table_sum_zero (cut_share _ _)), (table_sum_zero (remnant_share _)).
    + unfold sheet_share. pose proof (area_nonneg _ Hv). case_match; lia.
    + intros k r Hr. destruct (wf_remnants _ W k r Hr) as (_ & _ & _ & s & Hs & _).
      unfold remnant_share. destruct (N.eqb_spec (rem_ParentBoardID r) (sh_ID sh)); [congruence|done].
    + intros k c Hc. rewrite (cut_share_persists d _ _ k c W (proj1 G) Hc).
      destruct (cut_board_wf d k c W Hc) as (b & s & Hb & Hs). unfold cut_share, opt_eqb.
      rewrite Hb, bool_decide_eq_false_2; congruence.
  - rewrite lookup_insert_ne by done. intros Hs. specialize (B b s Hs).
    etrans; [|exact B]. unfold material. simpl.
    rewrite (table_sum_ext _ (cut_share d b)); [done|]. intros. by eapply cut_share_persists; [|apply G|].
Qed.

Lemma sheets_insert_guar_life shs d u d' :
  Forall (λ sh, Dim_Valid (sh_Dimensions sh) = true) shs → sheets_insert shs d = Ok (u, d') →
  guar_life d d'.
Proof.
  intros HF. revert d. induction HF as [|sh shs Hv _ IH]; simpl; intros d Hi; stmt_ok; [reflexivity|].
  destruct a as [[] d1]. stmt_ok. etrans; [by eapply sheet_insert_guar_life|]. by apply IH.
Qed.

(** ** In-place updates *)
Lemma sheet_update_guar_life id f d n d' :
  (∀ s, sheet_core (f s) = sheet_core s) →
  (∀ s, t_sheets d !! id = Some s → rtc sheet_step (sh_Status s) (sh_Status (f s))) →
  sheet_update id f d = Ok (n, d') → guar_life d d'.
Proof.
  intros Hf Hst Hu. pose proof (sheet_update_guar _ _ _ _ _ Hf Hu) as G.
  unfold sheet_update in Hu. pose proof (core_update sheet_core id f (t_sheets d) Hf) as Ec.
  pose proof (λ i, sql_update_lookup id f (t_sheets d) i) as El.
  destruct (sql_update id f (t_sheets d)) as [m t]. simpl in *. stmt_ok.
  apply guar_life_in_place; try done. split; simpl; [|intros; eauto using rtc_refl].
  intros k s Hk. rewrite El. case_decide; [subst k|eauto using rtc_refl].
  rewrite Hk. simpl. eauto.
Qed.

Lemma remnant_update_guar_life id f d n d' :
  (∀ r, remnant_core (f r) = remnant_core r) →
  (∀ r, t_remnants d !! id = Some r → rtc remnant_step (rem_Status r) (rem_Status (f r))) →
  remnant_update id f d = Ok (n, d') → guar_life d d'.
Proof.
  intros Hf Hst Hu. pose proof (remnant_update_guar _ _ _ _ _ Hf Hu) as G.
  unfold remnant_update in Hu. pose proof (core_update remnant_core id f (t_remnants d) Hf) as Ec.
  pose proof (λ i, sql_update_lookup id f (t_remnants d) i) as El.
  destruct (sql_update id f (t_remnants d)) as [m t]. simpl in *. stmt_ok.
  apply guar_life_in_place; try done. split; simpl; [intros; eauto using rtc_refl|].
  intros k r Hk. rewrite El. case_decide; [subst k|eauto using rtc_refl].
  rewrite Hk. simpl. eauto.
Qed.

Lemma sheets_fmap_guar_life (f : BoardSheet → BoardSheet) d :
  (∀ s, sheet_core (f s) = sheet_core s) →
  (∀ k s, t_sheets d !! k = Some s → rtc sheet_step (sh_Status s) (sh_Status (f s))) →
  guar_life d (set_sheets (f <$> t_sheets d) d).
Proof.
  intros Hf Hst. apply guar_life_in_place; [by apply sheets_fmap_guar| |by apply core_fmap|done..].
  split; simpl; [|intros; eauto using rtc_refl]. intros k s Hk. rewrite lookup_fmap, Hk. simpl. eauto.
Qed.

Lemma remnants_update_where_guar_life p f d :
  (∀ r, remnant_core (f r) = remnant_core r) →
  (∀ r, p r = true → rtc remnant_step (rem_Status r) (rem_Status (f r))) →
  guar_life d (set_remnants (snd (sql_update_where p f (t_remnants d))) d).
Proof.
  intros Hf Hst. apply guar_life_in_place; [by apply remnants_update_where_guar| |done|
    by apply core_update_where|done].
  split; cbn [t_sheets t_remnants set_remnants]; [intros; eauto using rtc_refl|].
  intros k r Hk. rewrite sql_update_where_lookup, Hk. cbn. eexists. split; [done|].
  destruct (p r) eqn:E; [by apply Hst|done].
Qed.

Lemma sheets_update_where_guar_life p f d :
  (∀ s, sheet_core (f s) = sheet_core s) →
  (∀ s, p s = true → rtc sheet_step (sh_Status s) (sh_Status (f s))) →
  guar_life d (set_sheets (snd (sql_update_where p f (t_sheets d))) d).
Proof.
  intros Hf Hst. apply guar_life_in_place; [by apply sheets_update_where_guar| |
    by apply core_update_where|done..].
  split; cbn [t_sheets t_remnants set_sheets]; [|intros; eauto using rtc_refl].
  intros k s Hk. rewrite sql_update_where_lookup, Hk. cbn. eexists. split; [done|].
  destruct (p s) eqn:E; [by apply Hst|done].
Qed.

(** ** The commit of a cut *)
Section commit_life.
Context `{!Schema}.
Context (in_ : RecordCutInput) (id : uuid) (at_ : instant) (lo : option Remnant) (d d' : InvDB).
Let cr := cut_record id at_ in_ (rem_ID <$> lo).
Let op := cut_op in_ cr lo.
Context (Hcm : cut_commits op d d') (G : guar d d').
Context (Hin : cut_input_check in_ = None).
Context (Hpar : ∀ r, lo = Some r → cut_board d cr = Some (rem_ParentBoardID r)).

(** The row a cut takes its material from. *)
Inductive cut_from : Prop :=
  | FromSheet sid s : rc_SheetID in_ = Some sid → t_sheets d !! sid = Some s →
      sh_Status s = SheetStatusAvailable →
      consume_source op d
        = set_sheets (<[sid := sheet_set_status "ISSUED" (Some (rc_WorkOrderID in_)) s]> (t_sheets d)) d →
      cut_from
  | FromRemnant rid r : rc_SheetID in_ = None → rc_RemnantID in_ = Some rid →
      t_remnants d !! rid = Some r → cuttable_remnant (rem_Status r) = true →
      consume_source op d
        = set_remnants (<[rid := remnant_set_status RemnantConsumed None (rem_AllocatedAt r) r]>
                          (t_remnants d)) d →
      cut_from.

Lemma commit_from : cut_from.
Proof using Hcm Hin.
  clear G Hpar.
  pose proof (input_has_source _ Hin) as Hs. destruct Hcm as (Hen & _).
  unfold cut_enabled, op, cut_op in Hen. simpl in Hen.
  destruct (rc_SheetID in_) as [sid|] eqn:Es; [|destruct (rc_RemnantID in_) as [rid|] eqn:Er; [|done]].
  - destruct Hen as (s & Hr & Hst). simpl in Hr. eapply FromSheet; [done..|].
    unfold consume_source, op, cut_op. simpl. rewrite Es. simpl. unfold sql_update. by rewrite Hr.
  - destruct Hen as (r & Hr & Hst). simpl in Hr. eapply FromRemnant; [done..|].
    unfold consume_source, op, cut_op. simpl. rewrite Es, Er. simpl. unfold sql_update. by rewrite Hr.
Qed.

Lemma commit_tables :
  t_sheets d' = t_sheets (consume_source op d)
  ∧ t_cuts d' = <[id := cr]> (t_cuts d)
  ∧ t_remnants d' = match lo with
                    | Some r => <[rem_ID r := r]> (t_remnants (consume_source op d))
                    | None => t_remnants (consume_source op d) end.
Proof using Hcm.
  clear G Hpar Hin.
  destruct Hcm as (_ & -> & _). unfold cut_effect, op, add_cut, add_remnant. simpl.
  rewrite <- (consume_cuts op d). unfold op. by destruct lo.
Qed.

Lemma commit_life : life d d'.
Proof using Hcm Hin.
  clear G Hpar.
  destruct commit_tables as (Es & _ & Er). trans (consume_source op d).
  - destruct commit_from as [sid s _ Hs Hst ->|rid r _ _ Hr Hst ->]; split; simpl;
      try (intros; by eauto using rtc_refl); intros k x Hx.
    + destruct (decide (sid = k)) as [<-|].
      * rewrite lookup_insert_eq. assert (x = s) as -> by congruence. eexists. split; [done|].
        rewrite Hst. apply rtc_once, sheet_issued.
      * rewrite lookup_insert_ne by done. eauto using rtc_refl.
    + destruct (decide (rid = k)) as [<-|].
      * rewrite lookup_insert_eq. assert (x = r) as -> by congruence. eexists. split; [done|].
        by apply rtc_once, remnant_consumed.
      * rewrite lookup_insert_ne by done. eauto using rtc_refl.
  - apply life_grow; [by rewrite Es|]. rewrite Er. destruct lo as [r|] eqn:El; [|done].
    apply insert_subseteq. by apply (commits_remnant op d d' r).
Qed.

Definition lo_share (b : uuid) : Z := match lo with Some r => remnant_share b r | None => 0 end.

Lemma commit_cut_sum b : wf d →
  table_sum (cut_share d' b) (t_cuts d')
  = (cut_share d' b cr + table_sum (cut_share d b) (t_cuts d))%Z.
Proof.
  intros W. destruct commit_tables as (_ & -> & _).
  rewrite table_sum_insert_new by by apply (commits_fresh op d d'). f_equal.
  apply table_sum_ext. intros. by eapply cut_share_persists; [|apply G|].
Qed.

Lemma commit_remnant_sum b :
  table_sum (remnant_share b) (t_remnants d')
  = (lo_share b + table_sum (remnant_share b) (t_remnants (consume_source op d)))%Z.
Proof.
  destruct commit_tables as (_ & _ & ->). unfold lo_share. destruct lo as [r|] eqn:El; [|done].
  rewrite table_sum_insert_new; [done|]. by apply (commits_remnant op d d' r).
Qed.

Lemma commit_board : cut_board d' cr = cut_board d cr.
Proof.
  unfold cut_board, cr. simpl.
  destruct commit_from as [sid s -> _ _ _|rid r -> -> Hr _ _]; [done|]. simpl.
  destruct (remnant_persists d d' rid r (proj1 G) Hr) as (r' & -> & E). rewrite Hr. simpl.
  unfold remnant_core in E. congruence.
Qed.

(** What a cut adds to its board's books is covered by its source. *)
Lemma commit_shares b src : wf d → source_dims d cr = Some src →
  (cut_share d' b cr + lo_share b <= if opt_eqb (cut_board d cr) (Some b) then area src else 0)%Z.
Proof.
  intros W Hsrc. destruct G as [HP HW]. destruct commit_tables as (_ & Ec & _).
  destruct (wf_cuts _ (HW W) id cr) as (_ & _ & src' & p & Hs' & Hp & Hle);
    [rewrite Ec; apply lookup_insert_eq|].
  rewrite (source_dims_persists _ _ _ _ HP Hsrc) in Hs'. injection Hs' as <-.
  unfold cut_share, lo_share. rewrite commit_board.
  unfold produced_area, cr in Hp. simpl in Hp. destruct lo as [r|] eqn:El; simpl in Hp.
  - destruct (commits_remnant op d d' r Hcm) as [Hr _]; [done|]. rewrite Hr in Hp.
    injection Hp as <-. specialize (Hpar r eq_refl). rewrite Hpar. unfold opt_eqb, remnant_share.
    destruct (N.eqb_spec (rem_ParentBoardID r) b) as [->|Hne]; simpl.
    + rewrite bool_decide_eq_true_2 by done.
      pose proof (wf_remnants _ (HW W) _ _ Hr) as (_ & _ & Hv%area_nonneg & _). case_match; lia.
    + rewrite bool_decide_eq_false_2 by congruence. lia.
  - injection Hp as <-. case_match; lia.
Qed.

Lemma commit_balance : wf d → balanced d → balanced d'.
Proof.
  intros W B b s' Hs'. destruct commit_tables as (Es & _ & _). rewrite Es in Hs'.
  unfold material. rewrite (commit_cut_sum b W), (commit_remnant_sum b).
  destruct commit_from as [sid s Ei Hs Hst Econs|rid r Ei Er Hr Hst Econs]; rewrite Econs in *; simpl in *.
  - pose proof (commit_shares b (sh_Dimensions s) W) as Hsh.
    unfold cut_board, source_dims, opt_eqb in Hsh. unfold cr in Hsh at 1 3. simpl in Hsh.
    rewrite Ei, Hs in Hsh. specialize (Hsh eq_refl). fold cr in Hsh.
    destruct (decide (sid = b)) as [<-|Hne].
    + rewrite lookup_insert_eq in Hs'. injection Hs' as <-. simpl.
      rewrite bool_decide_eq_true_2 in Hsh by done. specialize (B sid s Hs). unfold material in B.
      unfold sheet_share, uncut in *. rewrite Hst in B. simpl in *. lia.
    + rewrite lookup_insert_ne in Hs' by done. rewrite bool_decide_eq_false_2 in Hsh by congruence.
      specialize (B b s' Hs'). unfold material in B. lia.
  - pose proof (commit_shares b (rem_Dimensions r) W) as Hsh.
    unfold cut_board, source_dims, opt_eqb in Hsh. unfold cr in Hsh at 1 3. simpl in Hsh.
    rewrite Ei, Er in Hsh. simpl in Hsh. rewrite Hr in Hsh. specialize (Hsh eq_refl). fold cr in Hsh.
    rewrite (table_sum_insert _ _ r) by done. specialize (B b s' Hs'). unfold material in B.
    set (r' := remnant_set_status _ _ _ _).
    assert (remnant_share b r' = 0%Z) as -> by (unfold remnant_share, live; simpl; by rewrite andb_false_r).
    assert (remnant_share b r = if bool_decide (Some (rem_ParentBoardID r) = Some b)
                                then area (rem_Dimensions r) else 0%Z) as Hr0.
    { unfold remnant_share, live. destruct (N.eqb_spec (rem_ParentBoardID r) b) as [->|Hne].
      - rewrite bool_decide_eq_true_2 by done. unfold cuttable_remnant in Hst.
        apply orb_true_iff in Hst as [->%String.eqb_eq| ->%String.eqb_eq]; done.
      - by rewrite bool_decide_eq_false_2 by congruence. }
    simpl in Hsh. lia.
Qed.

Lemma commit_guar_life : guar_life d d'.
Proof. split; [done|]. intros W. split; [apply commit_life|by apply commit_balance]. Qed.
End commit_life.

Lemma consume_guar op d : guar d (consume_source op d).
Proof.
  unfold consume_source. destruct (cwo_SheetUpdate op); [|destruct (cwo_RemnantUpdate op); [|done]].
  - apply guar_sheets. by apply (core_update sheet_core).
  - apply guar_remnants. by apply (core_update remnant_core).
Qed.

Lemma commits_persist `{!Schema} op d d' : cut_commits op d d' → inv_persist d d'.
Proof.
  intros (_ & _ & u1 & d1 & u2 & H1 & H2). trans (consume_source op d).
  - apply consume_guar.
  - by eapply cut_inserts_persist.
Qed.

Lemma sheet_join_id d s : sh_ID (sheet_join d s) = sh_ID s.
Proof. unfold sheet_join. by repeat case_match. Qed.

(** The board a new remnant names is the board of its cut. *)
Lemma path_board in_ id at_ p ds d src :
  wf ds → inv_persist ds d → source_read in_ ds src →
  cut_board d (cut_record id at_ in_ p) = Some (src_ParentBoardID src).
Proof.
  intros W HP Hsrc. unfold source_read, cut_board in *. simpl.
  destruct (rc_SheetID in_) as [sid|].
  - destruct Hsrc as (s & Hs & _ & ->). simpl. rewrite sheet_join_id.
    by destruct (wf_sheets _ W sid s Hs) as (-> & _).
  - destruct (rc_RemnantID in_) as [rid|]; [|done]. destruct Hsrc as (r & Hr & _ & ->). simpl.
    destruct (remnant_persists ds d rid r HP Hr) as (r' & -> & E). simpl.
    unfold remnant_core in E. congruence.
Qed.

Section life_safety.
Context {X : Type} `{!Oracle InvDB} `{!Schema} `{!InventoryDeps X}.
Context (HR : rely guar_life).
Local Abbreviation M := (M InvDB X).
Local Abbreviation safe m := (respects (X:=X) guar_life m).

Lemma rely_guar : rely guar.
Proof using HR. intros k d. apply HR. Qed.

Lemma RecordCut_life in_ : safe (RecordCut in_).
Proof using HR.
  intros w. pose proof (RecordCut_wp guar_life HR in_ w) as Hp. unfold wp in Hp.
  pose proof (RecordCut_safe rely_guar in_ w) as Hg.
  destruct (RecordCut in_ w) as [[res|e] w'] eqn:E; [|exact Hp]. simpl in *.
  destruct Hp as [ds dp d1 src at_ lo Hin G0 Hsrc _ G1 Hl G2 Hcm _ _].
  pose proof (transitivity G1 G2) as G3. pose proof (transitivity G0 G3) as G01.
  assert (life d1 (w_db w')) as L by (eapply commit_life; [exact Hcm|exact Hin]).
  split; [exact Hg|]. intros W. destruct G01 as [Gg G01], (G01 W) as [L01 B01].
  split; [exact (transitivity L01 L)|]. intros B.
  assert (guar d1 (w_db w')) as G
    by (split; [by eapply commits_persist|intros _; by apply Hg]).
  eapply commit_balance; [exact Hcm|exact G|exact Hin| | |].
  - intros r ->. rewrite (path_board _ _ _ _ ds d1 src); [|by apply G0|apply G3|done].
    unfold leftover_of in Hl. destruct (rc_RemnantDimension in_) as [rd|]; [|done].
    destruct Hl as (_ & pl & pw & _ & Hl). destruct (drop_by_policy pl pw rd); [done|].
    by destruct Hl as (id' & at' & [= ->]).
  - by apply Gg.
  - by apply B01.
Qed.

(** A row locked in a state that allows the step. *)
Lemma locked_remnant_life id (ok : string → bool) (f : Remnant → Remnant) e d (w : world InvDB X) :
  w_db w = d →
  (∀ r, remnant_core (f r) = remnant_core r) →
  (∀ r, ok (rem_Status r) = true → rtc remnant_step (rem_Status r) (rem_Status (f r))) →
  ∀ r, t_remnants d !! id = Some r → ok (rem_Status r) = true →
  wp (n ← texec "update remnant status" (remnant_update id f);
      fail_if (n =? 0)%Z e) (λ r' w', is_ok r' = true → guar_life d (w_db w')) w.
Proof.
  intros <- Hf Hok r Hr Hst. apply wp_bind, wp_texec; [done..|]. intros n d' Hu.
  assert (guar_life (w_db w) d') as G.
  { eapply remnant_update_guar_life; [done| |exact Hu]. intros r' Hr'.
    assert (r' = r) as -> by congruence. auto. }
  apply wp_fail_if; intros _ _; exact G.
Qed.

Lemma tx_life {A} (body : M A) :
  (∀ w, wp body (λ r w', is_ok r = true → guar_life (w_db w) (w_db w')) w) → safe (tx body).
Proof using HR.
  intros Hb. apply respects_tx_ok; [apply _|exact HR|]. intros w a w1 E.
  exact (wp_run _ _ _ _ _ E (Hb w) eq_refl).
Qed.

Lemma allocateRemnantAtomically_life id wo : safe (allocateRemnantAtomically id wo).
Proof using HR.
  apply tx_life. intros w.
  apply wp_bind, wp_tquery_row; [done..|]. intros st (r & Hr & ->)%fmap_Some_1.
  apply wp_bind, wp_fail_if; intros Hst; [done|]. apply wp_bind, wp_now.
  eapply (locked_remnant_life id (String.eqb RemnantAvailable)); [done..| |exact Hr|].
  - intros r' <-%String.eqb_eq. apply rtc_once. constructor.
  - bool_hyps. by rewrite Hst.
Qed.

Lemma markRemnantWasteAtomically_life id : safe (markRemnantWasteAtomically id).
Proof using HR.
  apply tx_life. intros w.
  apply wp_bind, wp_tquery_row; [done..|]. intros st (r & Hr & ->)%fmap_Some_1.
  apply wp_bind, wp_fail_if; intros Hst; [done|].
  eapply (locked_remnant_life id cuttable_remnant); [done..| |exact Hr|].
  - intros r' Hr'. apply rtc_once. by constructor.
  - unfold cuttable_remnant. apply andb_false_iff in Hst. rewrite !negb_false_iff in Hst.
    by apply orb_true_iff.
Qed.

Lemma pending_ids_spec d lotID qty id : wf d → id ∈ pending_ids lotID qty d →
  ∃ s, t_sheets d !! id = Some s ∧ pending_of_lot lotID s = true.
Proof.
  intros W (s & -> & Hs)%list_elem_of_fmap.
  apply (subseteq_take _ (sql_order (λ _, 0%Z) sh_ID (sql_where (pending_of_lot lotID) (t_sheets d)))) in Hs.
  rewrite sql_order_perm in Hs. apply sql_where_elem in Hs as (Hp & k & Hk).
  destruct (wf_sheets _ W k s Hk) as (-> & _). eauto.
Qed.

Lemma rejectLotAtomically_life op : safe (rejectLotAtomically op).
Proof using HR.
  apply tx_life. intros w. apply wp_bind, wp_tquery; [done|].
  set (ids := pending_ids _ _ _). apply wp_bind, wp_fail_if; intros _; [done|].
  apply wp_bind, wp_texec; [done..|]. intros u d1 Hu. unfold reject_sheets in Hu.
  injection Hu as _ <-. set (f := λ s, if bool_decide (sh_ID s ∈ ids) then _ else s).
  assert (guar_life (w_db w) (set_sheets (f <$> t_sheets (w_db w)) (w_db w))) as G1.
  { split; [apply sheets_fmap_guar; intros; unfold f; by case_bool_decide|]. intros W.
    eapply sheets_fmap_guar_life; [intros; unfold f; by case_bool_decide| |done].
    intros k s Hk. unfold f. case_bool_decide as Hid; [|done].
    destruct (pending_ids_spec _ _ _ _ W Hid) as (s' & Hs' & Hp).
    destruct (wf_sheets _ W k s Hk) as (Ek & _). rewrite Ek in Hs'.
    assert (s' = s) as -> by congruence. unfold pending_of_lot in Hp. bool_hyps.
    match goal with Hst : sh_Status s = _ |- _ => rewrite Hst end. apply rtc_once, sheet_rejected. }
  apply wp_bind, wp_texec; [done..|]. intros u2 d2 Hi.
  apply wp_mret. intros _. refine (transitivity G1 _).
  pose proof (rejection_insert_guar _ _ _ _ Hi). unfold rejection_insert in Hi. stmt_ok.
  by apply guar_life_same.
Qed.

(** ** The other handlers *)

(** A statement stays within [guar_life]: it leaves the three tables alone, or
    its statement lemma applies. *)
Ltac stmt_same :=
  match goal with
  | Hx : lot_insert _ _ = Ok _ |- _ => pose proof (lot_insert_guar _ _ _ _ Hx); unfold lot_insert in Hx
  | Hx : audit_insert _ _ = Ok _ |- _ => pose proof (audit_insert_guar _ _ _ _ Hx); unfold audit_insert in Hx
  end; stmt_ok; by apply guar_life_same.

Ltac status_kept := intros; simpl; reflexivity.

Lemma sheet_update_bin_guar_life id bin f d n d' :
  (∀ s, sheet_core (f s) = sheet_core s) → (∀ s, sh_Status (f s) = sh_Status s) →
  sheet_update_bin id bin f d = Ok (n, d') → guar_life d d'.
Proof.
  unfold sheet_update_bin. intros Hf Hst Hu. stmt_ok.
  eapply sheet_update_guar_life; [exact Hf| |eassumption]. intros s _. by rewrite Hst.
Qed.

Lemma remnant_update_bin_guar_life id bin f d n d' :
  (∀ r, remnant_core (f r) = remnant_core r) → (∀ r, rem_Status (f r) = rem_Status r) →
  remnant_update_bin id bin f d = Ok (n, d') → guar_life d d'.
Proof.
  unfold remnant_update_bin. intros Hf Hst Hu. stmt_ok.
  eapply remnant_update_guar_life; [exact Hf| |eassumption]. intros s _. by rewrite Hst.
Qed.

Ltac stmt_life :=
  first
  [ stmt_same
  | reflexivity
  | eapply sheet_update_guar_life; [| |eassumption]; first [status_kept|intros; apply rtc_refl]
  | eapply sheet_update_bin_guar_life; [| |eassumption]; status_kept
  | eapply remnant_update_bin_guar_life; [| |eassumption]; status_kept ].

Ltac life_steps := resp_steps HR.

Lemma audit_life e : safe (insertAuditLog e).
Proof using HR. unfold insertAuditLog. life_steps. stmt_life. Qed.

Lemma ReceiveStock_life in_ : safe (ReceiveStock in_).
Proof using HR.
  intros w. apply (wp_respects guar_life). unfold ReceiveStock.
  apply wp_bind, wp_fail_if; intros _; [done|].
  apply wp_bind, wp_fail_if; intros Hv; [done|]. bool_hyps.
  apply wp_bind, wp_new_uuid, wp_bind, wp_now. cbv zeta.
  assert (∀ l, safe (insertLot l)) as HL by (intros l; unfold insertLot; life_steps; stmt_life).
  assert (∀ n lid, safe (new_sheets n in_ lid)) as HN
    by (intros n lid; induction n; simpl; life_steps; done).
  apply wp_bind. eapply (wp_reads guar_life); [apply HL|reflexivity|].
  intros [u|e] w1 G1; [|done]. apply wp_bind. unfold wp at 1.
  pose proof (HN (Z.to_nat (rs_Quantity in_)) (o_uuid (w_step w)) w1) as G2. simpl in G1 |- *.
  destruct (new_sheets _ _ _ w1) as [[shs|e] w2] eqn:En; simpl in *; [|exact (transitivity G1 G2)].
  pose proof (transitivity G1 G2) as G3.
  apply wp_bind. eapply (wp_reads guar_life _ _ _ (w_db w)); [|exact G3|].
  - unfold insertSheets. life_steps. eapply sheets_insert_guar_life; [|eassumption].
    by eapply new_sheets_valid.
  - intros [u'|e] w3 G4; [|done]. by apply wp_mret.
Qed.

Lemma DeactivateLot_life id : safe (DeactivateLot id).
Proof using HR.
  unfold DeactivateLot, deactivateLot. life_steps.
  match goal with E : (let (_, _) := ?p in Ok _) = Ok _ |- _ =>
    rewrite (surjective_pairing p) in E; injection E as <- <- end.
  apply guar_life_same; [by apply lots_update_guar|done..].
Qed.

Lemma PreAssignSheet_life in_ : safe (PreAssignSheet in_).
Proof using HR.
  unfold PreAssignSheet. apply respects_bind; [apply _|by apply overflow_reads; [apply _|]|intros o].
  unfold preAssignSheet.
  life_steps; first [apply audit_life|stmt_life].
Qed.

Lemma AllocateRemnant_life id wo : safe (AllocateRemnant id wo).
Proof using HR. unfold AllocateRemnant, selectRemnantByID. life_steps. apply allocateRemnantAtomically_life. Qed.

Lemma MarkRemnantWaste_life id : safe (MarkRemnantWaste id).
Proof using HR. unfold MarkRemnantWaste, selectRemnantByID. life_steps. apply markRemnantWasteAtomically_life. Qed.

Lemma StockRemnant_life id bc : safe (StockRemnant id bc).
Proof using HR.
  unfold StockRemnant, selectStorageLocationByBarcode, updateRemnantBinLocation.
  life_steps; stmt_life.
Qed.

Ltac where_ok :=
  match goal with E : (let (_, _) := ?p in Ok _) = Ok _ |- _ =>
    rewrite (surjective_pairing p) in E; injection E as <- <- end.

Lemma ReleaseExpiredAllocations_life before : safe (ReleaseExpiredAllocations before).
Proof using HR.
  unfold ReleaseExpiredAllocations, releaseExpiredAllocations. life_steps. where_ok.
  apply remnants_update_where_guar_life; [done|]. unfold release_expired. intros r Hr. bool_hyps.
  match goal with E : rem_Status r = _ |- _ => rewrite E end. apply rtc_once, remnant_released.
Qed.

Lemma ExpireStaleRemnants_life n : safe (ExpireStaleRemnants n).
Proof using HR.
  unfold ExpireStaleRemnants, expireStaleRemnants. life_steps. stmt_ok. where_ok.
  apply remnants_update_where_guar_life; [done|]. intros r Hr. bool_hyps.
  match goal with E : rem_Status r = _ |- _ => rewrite E end. apply rtc_once, remnant_expired.
Qed.

Lemma Transfer_life in_ : safe (Transfer in_).
Proof using HR.
  unfold Transfer, selectStorageLocationByBarcode, selectRemnantByID, updateRemnantBinLocation,
    selectSheetByID, updateSheetBinLocation.
  life_steps; first [apply audit_life|stmt_life].
Qed.

Lemma LogRemnantBypass_life in_ : safe (LogRemnantBypass in_).
Proof using HR. unfold LogRemnantBypass. life_steps. apply audit_life. Qed.

Lemma CreateCycleCountSession_life in_ : safe (CreateCycleCountSession in_).
Proof using HR.
  unfold CreateCycleCountSession, insertCycleCountSession. life_steps. stmt_ok.
  apply guar_life_same; [by apply sessions_insert_guar|done..].
Qed.

Lemma AddCycleCountLine_life in_ : safe (AddCycleCountLine in_).
Proof using HR.
  unfold AddCycleCountLine, selectCycleCountSessionByID, selectRemnantByID, selectSheetByID,
    insertCycleCountLine.
  life_steps; stmt_ok; destruct (is_some _) eqn:E; simpl in *; try done;
    destruct (existsb _ _); try done; stmt_ok;
    (apply guar_life_same; [apply lines_insert_guar|done..]);
    unfold is_some, is_none in E; by destruct (t_lines _ !! _).
Qed.

Lemma CancelCycleCountSession_life id actor : safe (CancelCycleCountSession id actor).
Proof using HR.
  unfold CancelCycleCountSession, selectCycleCountSessionByID, updateCycleCountSessionStatus.
  life_steps.
  match goal with Hx : session_update _ _ _ = Ok _ |- _ =>
    pose proof Hx as Hg; eapply session_update_guar in Hg; [|by intros]; unfold session_update in Hx end.
  destruct (sql_update _ _ _). stmt_ok. by apply guar_life_same.
Qed.

Lemma QCPassLot_life id actor : safe (QCPassLot id actor).
Proof using HR.
  unfold QCPassLot, qcPassLotAtomically. life_steps; try apply audit_life. where_ok.
  apply sheets_update_where_guar_life; [done|]. unfold pending_of_lot. intros s Hs. bool_hyps.
  match goal with E : sh_Status s = _ |- _ => rewrite E end. apply rtc_once, sheet_passed.
Qed.

Lemma RejectLot_life in_ : safe (RejectLot in_).
Proof using HR.
  unfold RejectLot, selectLotByID.
  life_steps; first [apply audit_life|apply rejectLotAtomically_life].
Qed.

Lemma UpdateRejectionClaim_life in_ : safe (UpdateRejectionClaim in_).
Proof using HR.
  unfold UpdateRejectionClaim, updateRejectionClaim, selectRejectionByID, fail_opt.
  life_steps; try apply audit_life; stmt_ok; where_ok;
    (apply guar_life_same; [by apply rejections_update_guar|done..]).
Qed.
End life_safety.

(** ** Reachable states *)
Definition is_count_posting (c : inv_call) : bool :=
  match c with CallPostCycleCount _ => true | _ => false end.

Lemma balanced_fresh d : wf d → t_cuts d = ∅ → t_remnants d = ∅ → balanced d.
Proof.
  intros W Ec Er b s Hs. unfold material. rewrite Ec, Er.
  destruct (wf_sheets _ W b s Hs) as (_ & _ & Hv%area_nonneg).
  change (table_sum _ ∅) with 0%Z. unfold sheet_share. case_match; lia.
Qed.

Section life_claims.
Context {X : Type} `{!Oracle InvDB} `{!Schema} `{!InventoryDeps X}.

Lemma serve_life (HR : rely guar_life) c :
  is_count_posting c = false → respects (X:=X) guar_life (serve c).
Proof.
  intros Hc. destruct c; try discriminate Hc; apply respects_best_effort;
    first [ by apply ReceiveStock_life | by apply DeactivateLot_life | by apply PreAssignSheet_life
          | by apply RecordCut_life | by apply AllocateRemnant_life | by apply MarkRemnantWaste_life
          | by apply StockRemnant_life | by apply ReleaseExpiredAllocations_life
          | by apply ExpireStaleRemnants_life | by apply Transfer_life | by apply LogRemnantBypass_life
          | by apply CreateCycleCountSession_life | by apply AddCycleCountLine_life
          | by apply CancelCycleCountSession_life
          | by apply QCPassLot_life | by apply RejectLot_life | by apply UpdateRejectionClaim_life ].
Qed.

Lemma serve_all_life (HR : rely guar_life) cs :
  Forall (λ c, is_count_posting c = false) cs → respects (X:=X) guar_life (serve_all cs).
Proof.
  intros Hcs. unfold serve_all. induction Hcs as [|c cs Hc _ IH]; simpl.
  - apply respects_mret; apply _.
  - apply respects_bind; [apply _|by apply serve_life|intros []; exact IH].
Qed.

(** [C9] Statuses only ever move along the lifecycles - a sheet from PENDING_QC
    to AVAILABLE or REJECTED and from AVAILABLE to ISSUED, a remnant between
    AVAILABLE and ALLOCATED and from there to CONSUMED, WASTE or, if
    AVAILABLE, EXPIRED - for every sequence of requests other than the posting
    of a cycle count, under any faults and beside sessions that do the same. *)
Theorem status_lifecycle (cs : list inv_call) (w : world InvDB X) :
  rely guar_life → wf (w_db w) → Forall (λ c, is_count_posting c = false) cs →
  life (w_db w) (w_db (snd (serve_all cs w))).
Proof. intros HR W Hcs. by apply (serve_all_life HR cs Hcs w). Qed.

(** [C2] Material conservation per board: for every board the area of all parts
    ever cut from it, directly or through its remnants, plus the area of its
    unconsumed remnants, plus its own area while uncut, never exceeds the
    area of the board.  In particular no two sessions can cut the same sheet
    or the same remnant. *)
Theorem material_balance (cs : list inv_call) (w : world InvDB X) :
  rely guar_life → wf (w_db w) → Forall (λ c, is_count_posting c = false) cs →
  balanced (w_db w) → balanced (w_db (snd (serve_all cs w))).
Proof. intros HR W Hcs. by apply (serve_all_life HR cs Hcs w). Qed.
End life_claims.

Definition floor_day : list inv_call :=
  [CallQCPassLot 1 7; CallRecordCut Floor.cut_kept; CallAllocateRemnant 1012 77;
   CallMarkRemnantWaste 1012].

Lemma status_lifecycle_witness :
  let _ := Floor.oracle in let _ := Floor.deferred in let _ := Floor.deps in
  life Floor.db (w_db (snd (serve_all floor_day Floor.world0))).
Proof.
  intros. apply (status_lifecycle floor_day Floor.world0).
  - apply Floor.rely_quiet. apply _.
  - apply Floor.db_wf.
  - by repeat constructor.
Defined.

Lemma material_balance_witness :
  let _ := Floor.oracle in let _ := Floor.deferred in let _ := Floor.deps in
  balanced (w_db (snd (serve_all floor_day Floor.world0))).
Proof.
  intros. apply (material_balance floor_day Floor.world0).
  - apply Floor.rely_quiet. apply _.
  - apply Floor.db_wf.
  - by repeat constructor.
  - by apply balanced_fresh; [apply Floor.db_wf|..].
Defined.
