(* ===== verification/InventoryFlow.v ===== *)
(** * Inventory: what each remaining handler does

    Functional behaviour of quality control, supplier claims, the overflow
    gate, allocations and aging, and the race of two updates of a claim.
    [serial] says that no other session commits between the statements of the
    request; driver faults stay possible.  The allocation is stated under any
    interference. *)

From S2P Require Import Prelude Domain Effects HttpKit Sql InventoryData InventoryStore InventoryService InventoryLaws.
From S2P Require Import InventorySafety InventoryProps.
From stdpp Require Import base gmap strings list sorting.
From Stdlib Require Import ZArith Lia SpecFloat.

Open Scope string_scope.

Section flow.
Context {X : Type} `{!Oracle InvDB} `{!Schema} `{!InventoryDeps X}.
Local Abbreviation M := (M InvDB X).
Implicit Types (w : world InvDB X) (d : InvDB).

(** A best-effort audit entry touches the audit log only. *)
Definition same_but_audit d d' : Prop := ∃ t, d' = set_audit t d.

Lemma same_but_audit_refl d : same_but_audit d d.
Proof. exists (t_audit d). by destruct d. Qed.

Lemma insertAuditLog_wp (HS : serial) e Q w :
  (∀ r w', same_but_audit (w_db w) (w_db w') →
     (is_ok r = true → t_audit (w_db w') !! al_ID e = Some e) → Q r w') →
  wp (insertAuditLog e) Q w.
Proof using.
  intros HQ. assert (same_but_audit (w_db w) (w_db (interfere w))) as Hid
    by (simpl; rewrite !HS; apply same_but_audit_refl).
  apply wp_exec; [intros _|intros e' _|intros u d' Hi]; [by apply HQ..|].
  simpl in Hi. rewrite !HS in Hi. unfold audit_insert in Hi. stmt_ok. apply HQ; simpl.
  - by eexists.
  - intros _. apply lookup_insert_eq.
Qed.

(** ** Quality control *)
Definition pass_sheet (lotID : uuid) (s : BoardSheet) : BoardSheet :=
  if pending_of_lot lotID s
  then sheet_set_status SheetStatusAvailable (sh_IssuedToWorkOrderID s) s else s.

Lemma qcPass_wp (HS : serial) lotID w :
  wp (qcPassLotAtomically lotID) (λ r w', match r with
    | Ok n => w_db w' = set_sheets (pass_sheet lotID <$> t_sheets (w_db w)) (w_db w)
              ∧ n = Z.of_nat (size (filter (λ kv, pending_of_lot lotID kv.2 = true) (t_sheets (w_db w))))
    | Err _ => w_db w' = w_db w end) w.
Proof using.
  unfold qcPassLotAtomically. apply wp_tx; [intros _; simpl; apply HS|].
  apply wp_texec; [intros _; simpl; apply HS|done|]. intros n d'. simpl. rewrite !HS. intros [= <- <-].
  split; intros _; [done|]. done.
Qed.

(** [C19] QC pass: it succeeds exactly when the lot has a PENDING_QC sheet, makes
    every such sheet AVAILABLE and changes nothing else but the audit log;
    when it fails the tables are untouched, and an audit entry that cannot be
    written does not fail it. *)
Theorem QCPassLot_passes (HS : serial) (lotID actorID : uuid) (r : result unit) w w' :
  QCPassLot lotID actorID w = (r, w') →
  match r with
  | Ok _ => (∃ k s, t_sheets (w_db w) !! k = Some s ∧ pending_of_lot lotID s = true)
            ∧ same_but_audit (set_sheets (pass_sheet lotID <$> t_sheets (w_db w)) (w_db w)) (w_db w')
  | Err e => w_db w' = w_db w
  end.
Proof.
  intros E. run_wp E. unfold QCPassLot.
  apply wp_bind, wp_fail_if; intros _; [done|]. apply wp_bind, wp_fail_if; intros _; [done|].
  apply wp_bind. eapply wp_mono; [by apply qcPass_wp|].
  intros [n|e] w1 Hq; [|done]. destruct Hq as [Hd Hn].
  apply wp_bind, wp_fail_if; intros Hz; bool_hyps.
  - rewrite Hd. assert (filter (λ kv, pending_of_lot lotID kv.2 = true) (t_sheets (w_db w)) = ∅) as He
      by (apply map_size_empty_inv; lia).
    assert (pass_sheet lotID <$> t_sheets (w_db w) = t_sheets (w_db w)) as ->; [|by destruct (w_db w)].
    apply map_eq. intros k. rewrite lookup_fmap. destruct (t_sheets (w_db w) !! k) as [s|] eqn:Hk; [|done].
    simpl. unfold pass_sheet. destruct (pending_of_lot lotID s) eqn:Hp; [|done].
    exfalso. eapply (map_filter_empty_not_lookup _ _ k s He); [exact Hp|done].
  - apply wp_bind, wp_new_uuid, wp_bind, wp_now, wp_best_effort.
    apply insertAuditLog_wp; [done|]. intros ra w2 Ha _. simpl in Ha. rewrite Hd in Ha.
    split; [|done].
    destruct (map_choose (filter (λ kv, pending_of_lot lotID kv.2 = true) (t_sheets (w_db w))))
      as (k & s & Hk).
    + intros He. rewrite He, map_size_empty in Hn. lia.
    + apply map_lookup_filter_Some in Hk as [Hk Hp]. eauto.
Qed.

(** ** Rejection of part of a lot *)
Definition reject_among (ids : list uuid) (s : BoardSheet) : BoardSheet :=
  if bool_decide (sh_ID s ∈ ids)
  then sheet_set_status SheetStatusRejected (sh_IssuedToWorkOrderID s) s else s.

Lemma rejectLot_wp (HS : serial) op w :
  wp (rejectLotAtomically op) (λ r w', match r with
    | Ok ids => ids = pending_ids (rlo_LotID op) (rlo_Qty op) (w_db w) ∧ (rlo_Qty op <= zlen ids)%Z
        ∧ w_db w' = set_rejections (<[mr_ID (rlo_Rejection op) := rlo_Rejection op]> (t_rejections (w_db w)))
                      (set_sheets (reject_among ids <$> t_sheets (w_db w)) (w_db w))
    | Err _ => w_db w' = w_db w end) w.
Proof using.
  unfold rejectLotAtomically. apply wp_tx; [intros _; simpl; apply HS|].
  apply wp_bind, wp_tquery; [intros _; simpl; apply HS|]. simpl. rewrite !HS.
  apply wp_bind, wp_fail_if; intros Hq; [by rewrite ?HS|]. bool_hyps.
  apply wp_bind, wp_texec; [intros _; simpl; by rewrite ?HS|done|]. intros u d1. unfold reject_sheets.
  simpl. rewrite !HS. intros [= _ <-].
  apply wp_bind, wp_texec; [intros _; simpl; by rewrite ?HS|intros; simpl; by rewrite ?HS|].
  intros u2 d2 Hi. unfold rejection_insert in Hi. simpl in Hi. stmt_ok.
  apply wp_mret. simpl in *. rewrite ?HS in *. done.
Qed.

Definition rejected_by (in_ : RejectLotInput) (res : RejectLotResult) d d' : Prop :=
  let ids := rlr_RejectedSheetIDs res in
  zlen ids = rl_RejectedQtySheets in_ ∧ NoDup ids
  ∧ (∀ id, id ∈ ids → ∃ s, t_sheets d !! id = Some s ∧ pending_of_lot (rl_LotID in_) s = true
       ∧ t_sheets d' !! id = Some (sheet_set_status SheetStatusRejected (sh_IssuedToWorkOrderID s) s))
  ∧ (∀ id, id ∉ ids → t_sheets d' !! id = t_sheets d !! id)
  ∧ (∀ id s, t_sheets d !! id = Some s → pending_of_lot (rl_LotID in_) s = true → id ∉ ids →
       Forall (λ i, (i < id)%N) ids)
  ∧ t_rejections d' !! mr_ID (rlr_Rejection res) = Some (rlr_Rejection res)
  ∧ mr_ClaimStatus (rlr_Rejection res) = ClaimStatusOpen
  ∧ mr_RejectedQtySheets (rlr_Rejection res) = rl_RejectedQtySheets in_.

Lemma pending_rows d lotID id s : wf d →
  t_sheets d !! id = Some s → pending_of_lot lotID s = true →
  s ∈ sql_where (pending_of_lot lotID) (t_sheets d).
Proof using. intros W Hs Hp. apply sql_where_elem. eauto. Qed.

Lemma pending_ids_facts d lotID qty : wf d →
  NoDup (pending_ids lotID qty d)
  ∧ (zlen (pending_ids lotID qty d) <= Z.max 0 qty)%Z
  ∧ (∀ id, id ∈ pending_ids lotID qty d →
       ∃ s, t_sheets d !! id = Some s ∧ pending_of_lot lotID s = true)
  ∧ (∀ id s, t_sheets d !! id = Some s → pending_of_lot lotID s = true →
       id ∉ pending_ids lotID qty d → Forall (λ i, (i < id)%N) (pending_ids lotID qty d)).
Proof using.
  intros W. set (rows := sql_where (pending_of_lot lotID) (t_sheets d)).
  assert (∀ k s, t_sheets d !! k = Some s → sh_ID s = k) as Hid
    by (intros k s Hk; by destruct (wf_sheets _ W k s Hk)).
  unfold pending_ids. fold rows. set (l := sql_order (λ _, 0%Z) sh_ID rows).
  assert (∀ s, s ∈ take (Z.to_nat qty) l →
    t_sheets d !! sh_ID s = Some s ∧ pending_of_lot lotID s = true) as Hin.
  { intros s Hs. apply (subseteq_take _ l) in Hs. unfold l in Hs. rewrite sql_order_perm in Hs.
    apply sql_where_elem in Hs as (Hp & k & Hk). by rewrite (Hid k s Hk). }
  split_and!.
  - apply (sublist_NoDup _ (sh_ID <$> l)); [|apply fmap_sublist, sublist_take].
    unfold l. rewrite sql_order_perm. by apply sql_where_ids_nodup.
  - unfold zlen. rewrite length_fmap, length_take. lia.
  - intros id (s & -> & Hs)%list_elem_of_fmap. exists s. by apply Hin.
  - intros id s Hs Hp Hn. apply Forall_forall. intros i (x & -> & Hx)%list_elem_of_fmap.
    assert (s ∉ take (Z.to_nat qty) l) as Hns.
    { intros Hs'. apply Hn, list_elem_of_fmap. exists s. split; [|done].
      by rewrite (Hid id s Hs). }
    pose proof (sql_limit_least _ _ _ _ _ _ Hx (pending_rows _ _ _ _ W Hs Hp) Hns) as Hb.
    assert (sh_ID x ≠ sh_ID s) as Hne.
    { intros He. destruct (Hin x Hx) as [Hx' _]. rewrite He, (Hid id s Hs), Hs in Hx'. congruence. }
    unfold by_key in Hb. rewrite (Hid id s Hs) in *. lia.
Qed.

(** [C18] Rejecting [n] sheets of a lot rejects exactly [n] PENDING_QC sheets of
    that lot, the lowest-numbered ones, returns their distinct ids, leaves
    every other sheet as it was and opens one claim for [n] sheets - whether
    or not the audit entry and the purchase request can be written. *)
Theorem RejectLot_rejects (HS : serial) (in_ : RejectLotInput) (res : RejectLotResult) w w' :
  wf (w_db w) → RejectLot in_ w = (Ok res, w') → rejected_by in_ res (w_db w) (w_db w').
Proof.
  intros W E.
  enough (wp (RejectLot in_) (λ r w', ∀ res, r = Ok res → rejected_by in_ res (w_db w) (w_db w')) w)
    as Hwp by exact (wp_run _ _ _ _ _ E Hwp res eq_refl).
  clear E. unfold RejectLot.
  apply wp_bind, wp_fail_if; intros _; [done|]. apply wp_bind, wp_fail_if; intros _; [done|].
  apply wp_bind, wp_fail_if; intros _; [done|]. apply wp_bind, wp_fail_if; intros Hq; [done|]. bool_hyps.
  apply wp_bind, wp_new_uuid, wp_bind, wp_now. cbv zeta. set (rej := Build_MaterialRejection _ _ _ _ _ _ _ _ _ _ _ _ _ _).
  apply wp_bind. eapply wp_mono; [by apply rejectLot_wp|]. intros [ids|e] w1 Hr; [|done].
  destruct Hr as (Hids & Hlen & Hd). simpl in Hids, Hlen, Hd.
  destruct (pending_ids_facts (w_db w) (rl_LotID in_) (rl_RejectedQtySheets in_) W)
    as (Hnd & Hle & Hin & Hleast). rewrite <- Hids in *.
  assert (∀ w2, same_but_audit (w_db w1) (w_db w2) → rejected_by in_
    {| rlr_Rejection := rej; rlr_RejectedSheetIDs := ids |} (w_db w) (w_db w2)) as Hend.
  { intros w2 [t Ht]. rewrite Hd in Ht. unfold rejected_by. rewrite Ht. simpl.
    assert (∀ id s, t_sheets (w_db w) !! id = Some s → sh_ID s = id) as Hid
      by (intros k s Hk; by destruct (wf_sheets _ W k s Hk)).
    split_and!; [lia|done| | |done|apply lookup_insert_eq|done..].
    - intros id Hi. destruct (Hin id Hi) as (s & Hs & Hp). exists s. split_and!; [done..|].
      rewrite lookup_fmap, Hs. simpl. unfold reject_among. by rewrite bool_decide_eq_true_2
        by by rewrite (Hid id s Hs).
    - intros id Hi. rewrite lookup_fmap. destruct (t_sheets (w_db w) !! id) as [s|] eqn:Hs; [|done].
      simpl. unfold reject_among. by rewrite bool_decide_eq_false_2 by by rewrite (Hid id s Hs). }
  apply wp_bind, wp_new_uuid, wp_bind, wp_now, wp_bind, wp_best_effort.
  apply insertAuditLog_wp; [done|]. intros ra w2 Ha _. apply wp_bind.
  assert (∀ w3, w_db w3 = w_db w2 → ∀ res, Ok {| rlr_Rejection := rej; rlr_RejectedSheetIDs := ids |} = Ok res →
    rejected_by in_ res (w_db w) (w_db w3)) as Hk.
  { intros w3 Hw res' [= <-]. apply Hend. by rewrite Hw. }
  destruct prCreator as [pr|]; [|by apply wp_mret, wp_mret, Hk].
  apply wp_best_effort, wp_bind. unfold selectLotByID.
  apply wp_query_row_serial; [done|intros e w3 Hw; by apply wp_mret, Hk|].
  intros l w3 _ Hw. apply wp_call_dep. intros r x' _. by apply wp_mret, Hk.
Qed.

(** ** Supplier claims *)
Inductive claim_step : string → string → Prop :=
  | claim_approved : claim_step ClaimStatusOpen ClaimStatusApproved
  | claim_rejected : claim_step ClaimStatusOpen ClaimStatusRejected
  | claim_paid : claim_step ClaimStatusApproved ClaimStatusPaid.

Lemma isAllowedClaimTransition_step from to :
  isAllowedClaimTransition from to = true ↔ claim_step from to.
Proof using.
  unfold isAllowedClaimTransition. split.
  - repeat case_match; intros; bool_hyps; subst; try done.
    + match goal with Hx : _ || _ = true |- _ => apply orb_true_iff in Hx as [->%String.eqb_eq| ->%String.eqb_eq] end; constructor.
    + constructor.
  - by destruct 1.
Qed.

Definition claim_row (in_ : UpdateClaimInput) (at_ : instant) : updateClaimRow :=
  let resolved := uc_ClaimStatus in_ <>s ClaimStatusOpen in
  {| ucr_RejectionID := uc_RejectionID in_;
     ucr_ClaimStatus := uc_ClaimStatus in_; ucr_ClaimAmount := uc_ClaimAmount in_;
     ucr_ClaimCurrency := uc_ClaimCurrency in_; ucr_ResolutionNotes := uc_ResolutionNotes in_;
     ucr_ResolvedBy := if resolved then Some (uc_ActorID in_) else None;
     ucr_ResolvedAt := if resolved then Some at_ else None |}.

Lemma updateRejectionClaim_wp (HS : serial) u w :
  wp (updateRejectionClaim u) (λ r w', ∀ row, r = Ok row →
    ∃ old, t_rejections (w_db w) !! ucr_RejectionID u = Some old ∧ row = claim_update u old
      ∧ w_db w' = set_rejections (<[ucr_RejectionID u := claim_update u old]> (t_rejections (w_db w))) (w_db w)) w.
Proof using.
  unfold updateRejectionClaim. apply wp_bind, wp_exec; [done..|]. intros n d'. simpl. rewrite !HS.
  intros Hi. stmt_ok. unfold sql_update in Hi.
  destruct (t_rejections (w_db w) !! ucr_RejectionID u) as [old|] eqn:Ho; stmt_ok.
  - apply wp_bind, wp_fail_if; [done|]. intros _. unfold selectRejectionByID.
    apply wp_query_row_serial; [done..|]. simpl. intros row w' Hr Hw row' [= <-].
    rewrite lookup_insert_eq in Hr. exists old. split_and!; [done|congruence|done].
  - apply wp_bind, wp_fail_if; done.
Qed.

(** A successful update: the claim it read allows the step, and the row it
    answers is the one change beside the audit log. *)
Definition claim_updated (in_ : UpdateClaimInput) d (res : MaterialRejection) d' : Prop :=
  ∃ old at_, t_rejections d !! uc_RejectionID in_ = Some old
    ∧ isAllowedClaimTransition (mr_ClaimStatus old) (uc_ClaimStatus in_) = true
    ∧ claim_amount_check in_ = None ∧ res = claim_update (claim_row in_ at_) old
    ∧ same_but_audit (set_rejections (<[uc_RejectionID in_ := res]> (t_rejections d)) d) d'.

Lemma UpdateRejectionClaim_wp (HS : serial) in_ w :
  wp (UpdateRejectionClaim in_) (λ r w', ∀ res, r = Ok res → claim_updated in_ (w_db w) res (w_db w')) w.
Proof using.
  unfold UpdateRejectionClaim.
  apply wp_bind, wp_fail_if; intros _; [done|]. apply wp_bind, wp_fail_if; intros _; [done|].
  apply wp_bind, wp_fail_if; intros _; [done|]. apply wp_bind. unfold selectRejectionByID.
  apply wp_query_row_serial; [done..|]. intros old w1 Ho Hw1.
  apply wp_bind, wp_fail_if; intros Ht; [done|]. bool_hyps.
  apply wp_bind, fail_opt_wp; [done|]. intros Ha. apply wp_bind, wp_now. cbv zeta. apply wp_bind.
  eapply wp_mono; [by apply updateRejectionClaim_wp|]. intros [row|e] w2 Hu; [|done].
  destruct (Hu row eq_refl) as (old' & Ho' & Hrow & Hd). simpl in Ho', Hrow, Hd. rewrite Hw1 in Ho', Hd.
  assert (old' = old) as -> by congruence.
  apply wp_bind, wp_new_uuid, wp_bind, wp_best_effort.
  apply insertAuditLog_wp; [done|]. intros ra w3 Hau _. simpl in Hau. rewrite Hd in Hau. apply wp_bind.
  assert (∀ w4 : world InvDB X, w_db w4 = w_db w3 → ∀ res, Ok row = Ok res →
    claim_updated in_ (w_db w) res (w_db w4)) as Hk.
  { intros w4 H4 res' [= <-]. exists old. eexists. split_and!; [done..|exact Hrow|].
    rewrite H4, Hrow. exact Hau. }
  destruct prCreator as [pr|]; [|by apply wp_mret, wp_mret, Hk].
  apply wp_if; intros _; [|by apply wp_mret, wp_mret, Hk].
  apply wp_best_effort, wp_call_dep. intros r x' _. by apply wp_mret, Hk.
Qed.

(** [C20] Claim lifecycle: a successful update moves the claim along
    OPEN to APPROVED or REJECTED, or APPROVED to PAID, writes that one row and
    returns it; an approved or paid claim comes out with a positive amount
    and a currency, and every resolved claim names who resolved it. *)
Theorem UpdateRejectionClaim_lifecycle (HS : serial) (in_ : UpdateClaimInput)
    (res : MaterialRejection) w w' :
  UpdateRejectionClaim in_ w = (Ok res, w') →
  ∃ old, t_rejections (w_db w) !! uc_RejectionID in_ = Some old
    ∧ claim_step (mr_ClaimStatus old) (mr_ClaimStatus res)
    ∧ rejection_core res = rejection_core old
    ∧ t_rejections (w_db w') = <[uc_RejectionID in_ := res]> (t_rejections (w_db w))
    ∧ mr_ResolvedBy res = Some (uc_ActorID in_)
    ∧ (mr_ClaimStatus res ≠ ClaimStatusRejected →
         ∃ a, mr_ClaimAmount res = Some a ∧ (0 < a)%Z ∧ mr_ClaimCurrency res ≠ "").
Proof.
  intros E. destruct (wp_run _ _ _ _ _ E (UpdateRejectionClaim_wp HS in_ w) res eq_refl)
    as (old & at_ & Ho & Ht & Ha & -> & [t Hd]).
  apply isAllowedClaimTransition_step in Ht as Hs. exists old. simpl. split_and!; [done..|by rewrite Hd| |].
  - by destruct Hs.
  - unfold claim_amount_check in Ha. intros Hr.
    assert ((uc_ClaimStatus in_ =s ClaimStatusApproved) || (uc_ClaimStatus in_ =s ClaimStatusPaid) = true)
      as Hap by by destruct Hs.
    rewrite Hap in Ha. destruct (uc_ClaimAmount in_) as [a|]; [|done]. simpl.
    destruct (a <=? 0)%Z eqn:Ez; [done|]. bool_hyps.
    destruct (uc_ClaimCurrency in_ =s "") eqn:Ec; [done|]. unfold coalesce_text. rewrite Ec.
    bool_hyps. eauto.
Qed.

(** ** The overflow gate *)
Definition overflow_red d : bool := of_BlockNewSheetIssue (overflow_of (remnant_area_sum d) (sheet_area_sum d)).

Lemma scan_wp z Q w : (∀ e, Q (Err e) w) → Q (Ok z) w → wp (scan_int64 z) Q w.
Proof using. intros He Ho. unfold scan_int64. apply wp_if; intros _; [by apply wp_mret|by apply wp_throw]. Qed.

Lemma overflow_wp (HS : serial) Q w :
  (∀ e w', w_db w' = w_db w → Q (Err e) w') →
  (∀ w', w_db w' = w_db w →
     Q (Ok (overflow_of (remnant_area_sum (w_db w)) (sheet_area_sum (w_db w)))) w') →
  wp GetOverflowStatus Q w.
Proof using.
  intros He Ho. unfold GetOverflowStatus, selectOverflowAreas. apply wp_bind, wp_bind.
  apply wp_query_serial; [done|auto|]. intros w1 H1. apply wp_bind, scan_wp; [intros; by apply He|].
  apply wp_bind, wp_query_serial; [done|intros e w2 H2; apply He; congruence|]. intros w2 H2.
  assert (w_db w2 = w_db w) as H3 by congruence.
  apply wp_bind, scan_wp; [intros; by apply He|]. rewrite H1. by apply wp_mret, wp_mret, Ho.
Qed.

Definition bypass_logged (in_ : PreAssignSheetInput) d' : Prop :=
  pa_ActorID in_ ≠ uuid_Nil ∧ pa_Reason in_ ≠ "" ∧
  ∃ k e, t_audit d' !! k = Some e ∧ al_Action e = auditActionOverflowBypassed
    ∧ al_EntityID e = pa_SheetID in_ ∧ al_ActorID e = pa_ActorID in_ ∧ al_Reason e = Some (pa_Reason in_).

(** [C16] The overflow gate: a sheet is pre-assigned only while remnants do not
    overflow, or with an explicit bypass that is logged - by actor and reason,
    in the same request - before the sheet is touched; the sheet was
    AVAILABLE, stays so and carries the order. *)
Theorem PreAssignSheet_gate (HS : serial) (in_ : PreAssignSheetInput) (u : unit) w w' :
  PreAssignSheet in_ w = (Ok u, w') →
  (∃ s, t_sheets (w_db w) !! pa_SheetID in_ = Some s ∧ sh_Status s = SheetStatusAvailable
        ∧ t_sheets (w_db w')
          = <[pa_SheetID in_ := sheet_set_status SheetStatusAvailable (Some (pa_WorkOrderID in_)) s]>
              (t_sheets (w_db w)))
  ∧ (overflow_red (w_db w) = true → pa_BypassOverflow in_ = true ∧ bypass_logged in_ (w_db w')).
Proof.
  intros E.
  enough (wp (PreAssignSheet in_) (λ r w', is_ok r = true →
    (∃ s, t_sheets (w_db w) !! pa_SheetID in_ = Some s ∧ sh_Status s = SheetStatusAvailable
          ∧ t_sheets (w_db w')
            = <[pa_SheetID in_ := sheet_set_status SheetStatusAvailable (Some (pa_WorkOrderID in_)) s]>
                (t_sheets (w_db w)))
    ∧ (overflow_red (w_db w) = true → pa_BypassOverflow in_ = true ∧ bypass_logged in_ (w_db w'))) w)
    as Hwp by exact (wp_run _ _ _ _ _ E Hwp eq_refl).
  clear E. unfold PreAssignSheet. apply wp_bind, overflow_wp; [done..|]. intros w1 H1. apply wp_bind.
  assert (∀ w2, same_but_audit (w_db w) (w_db w2) →
    (overflow_red (w_db w) = true → pa_BypassOverflow in_ = true ∧ bypass_logged in_ (w_db w2)) →
    wp (preAssignSheet (pa_SheetID in_) (pa_WorkOrderID in_)) (λ r w', is_ok r = true →
      (∃ s, t_sheets (w_db w) !! pa_SheetID in_ = Some s ∧ sh_Status s = SheetStatusAvailable
            ∧ t_sheets (w_db w')
              = <[pa_SheetID in_ := sheet_set_status SheetStatusAvailable (Some (pa_WorkOrderID in_)) s]>
                  (t_sheets (w_db w)))
      ∧ (overflow_red (w_db w) = true → pa_BypassOverflow in_ = true ∧ bypass_logged in_ (w_db w'))) w2)
    as Hend.
  { intros w2 [t Ht] Hb. unfold preAssignSheet. apply wp_tx; [done|].
    apply wp_bind, wp_tquery_row; [done..|]. simpl. rewrite !HS, Ht. simpl.
    intros st (s & Hs & ->)%fmap_Some_1. apply wp_bind, wp_fail_if; intros Hst; [done|]. bool_hyps.
    apply wp_bind, wp_texec; [done..|]. intros n d'. simpl. rewrite !HS, Ht.
    unfold sheet_update, sql_update. simpl. rewrite Hs. intros [= <- <-]. apply wp_mret.
    split; [done|]. intros _ _. simpl. split.
    - exists s. split_and!; [done..|]. by rewrite Hst.
    - intros Hr. specialize (Hb Hr). by rewrite Ht in Hb. }
  apply wp_if; fold (overflow_red (w_db w)); intros Ho.
  - apply wp_bind, wp_fail_if; intros Hby; [done|]. apply wp_bind, wp_fail_if; intros Hra; [done|].
    apply wp_bind, wp_new_uuid, wp_bind, wp_now, wp_wrap_err. bool_hyps.
    apply insertAuditLog_wp; [done|]. intros [[]|e] w2 Ha Hl; [|done]. simpl in Ha. rewrite H1 in Ha.
    apply Hend; [done|]. intros _. split; [done|]. split_and!; [done..|].
    specialize (Hl eq_refl). do 2 eexists. split_and!; [exact Hl|done..].
  - apply wp_mret, Hend; [rewrite H1; apply same_but_audit_refl|]. rewrite Ho. done.
Qed.

(** ** Allocation *)

(** [C17] A remnant is given to one order only, whatever other sessions do.  Let
    the tables be [d2] when the request takes the lock on the row, after whatever
    other sessions committed before it.  If it succeeds, the row was AVAILABLE
    in [d2] - held by no order - and the one change is that it is ALLOCATED to
    the order, with a timestamp; in particular a remnant another session
    allocated after this request read it AVAILABLE is not taken over.  If it
    fails, the request wrote nothing. *)
Theorem AllocateRemnant_exclusive (remnantID workOrderID : uuid) (r : result unit) w w' :
  AllocateRemnant remnantID workOrderID w = (r, w') →
  let d1 := w_db (interfere w) in let d2 := w_db (interfere (interfere w)) in
  match r with
  | Ok _ => ∃ x at_, t_remnants d2 !! remnantID = Some x ∧ rem_Status x = RemnantAvailable
      ∧ w_db w' = set_remnants (<[remnantID :=
           remnant_set_status RemnantAllocated (Some workOrderID) (Some at_) x]> (t_remnants d2)) d2
  | Err _ => w_db w' = d1 ∨ w_db w' = d2
  end.
Proof.
  intros E. cbv zeta. run_wp E. unfold AllocateRemnant.
  apply wp_bind, wp_query_row; [by left..|]. intros r0 _.
  apply wp_bind, wp_fail_if; intros _; [by left|]. unfold allocateRemnantAtomically.
  apply wp_tx; [by right|]. apply wp_bind, wp_tquery_row; [by right..|]. intros st (x & Hx & ->)%fmap_Some_1.
  apply wp_bind, wp_fail_if; intros Hst; [by right|]. bool_hyps. apply wp_bind, wp_now.
  apply wp_bind, wp_texec; [by right..|]. intros n d'. unfold remnant_update, sql_update. simpl in *.
  rewrite Hx. intros [= <- <-]. apply wp_fail_if; intros _; [by right|]. split; intros _; [by right|].
  by do 2 eexists.
Qed.

(** ** Aging *)
Lemma aging_fold warn exp (rows : list (Remnant * Z)) acc :
  let s := foldl (aging_add warn exp) acc rows in
  ras_Rows s = (ras_Rows acc ++ ((λ r, {| ra_Remnant := r.1; ra_AgeDays := r.2;
                                          ra_Level := aging_level warn exp r.2 |}) <$> rows))%list
  ∧ ras_WarnDays s = ras_WarnDays acc ∧ ras_ExpireDays s = ras_ExpireDays acc.
Proof using.
  revert acc. induction rows as [|r rows IH]; intros acc; simpl; [by rewrite app_nil_r|].
  destruct (IH (aging_add warn exp acc r)) as (-> & -> & ->). simpl. by rewrite <- app_assoc.
Qed.

(** The rows at a level. *)
Definition at_level (lvl : string) (rows : list RemnantAgingRow) : Z :=
  zlen (filter (λ row, (ra_Level row =s lvl) = true) rows).

Lemma aging_totals warn exp (rows : list (Remnant * Z)) acc :
  let s := foldl (aging_add warn exp) acc rows in
  ras_TotalOK acc = at_level "OK" (ras_Rows acc) → ras_TotalAtRisk acc = at_level "AT_RISK" (ras_Rows acc) →
  ras_TotalExpired acc = at_level "EXPIRED" (ras_Rows acc) →
  ras_TotalOK s = at_level "OK" (ras_Rows s) ∧ ras_TotalAtRisk s = at_level "AT_RISK" (ras_Rows s)
  ∧ ras_TotalExpired s = at_level "EXPIRED" (ras_Rows s).
Proof using.
  revert acc. induction rows as [|r rows IH]; intros acc; simpl; [done|]. intros H1 H2 H3.
  apply IH; simpl; unfold at_level, zlen in *; rewrite filter_app, length_app, filter_cons; simpl;
    case_match; simpl; repeat case_match; try congruence; simpl; lia.
Qed.

(** The reading of one row of the report at an instant: whole days of 24 hours
    since the remnant was stored, and the level of that age. *)
Definition aged (warn exp : Z) (at_ : instant) (row : RemnantAgingRow) : Prop :=
  let age := ra_AgeDays row in let since := (at_ - rem_CreatedAt (ra_Remnant row))%Z in
  let a_day := (24 * 60 * 60 * 10 ^ 9)%Z in
  ((0 <= since)%Z → (age * a_day <= since < (age + 1) * a_day)%Z)
  ∧ ((since < 0)%Z → ((age - 1) * a_day < since <= age * a_day)%Z)
  ∧ (ra_Level row = "EXPIRED" ↔ (exp <= age)%Z)
  ∧ (ra_Level row = "AT_RISK" ↔ (warn <= age < exp)%Z)
  ∧ (ra_Level row = "OK" ↔ (age < warn ∧ age < exp)%Z).

Lemma aged_row warn exp at_ r :
  aged warn exp at_ {| ra_Remnant := r; ra_AgeDays := age_days at_ r; ra_Level := aging_level warn exp (age_days at_ r) |}.
Proof using.
  unfold aged. simpl ra_Remnant. simpl ra_AgeDays. simpl ra_Level. cbv zeta.
  replace (24 * 60 * 60 * 10 ^ 9)%Z with day by reflexivity. split_and!.
  - unfold age_days. intros Hsince. rewrite Z.quot_div_nonneg by (unfold day; lia).
    pose proof (Z.mul_div_le (at_ - rem_CreatedAt r) day). pose proof (Z.mul_succ_div_gt (at_ - rem_CreatedAt r) day).
    unfold day in *. lia.
  - unfold age_days. intros Hsince.
    replace (Z.quot (at_ - rem_CreatedAt r) day) with (- ((rem_CreatedAt r - at_) / day))%Z.
    + pose proof (Z.mul_div_le (rem_CreatedAt r - at_) day). pose proof (Z.mul_succ_div_gt (rem_CreatedAt r - at_) day).
      unfold day in *. lia.
    + rewrite <- Z.quot_div_nonneg, <- Z.quot_opp_l by (unfold day; lia). f_equal. lia.
  - unfold aging_level. generalize (age_days at_ r). intros n. destruct (exp <=? n)%Z eqn:E1; [bool_hyps; done|].
    destruct (warn <=? n)%Z; bool_hyps; split; intros; [done|lia|done|lia].
  - unfold aging_level. generalize (age_days at_ r). intros n. destruct (exp <=? n)%Z eqn:E1, (warn <=? n)%Z eqn:E2;
      bool_hyps; split; intros; try done; lia.
  - unfold aging_level. generalize (age_days at_ r). intros n. destruct (exp <=? n)%Z eqn:E1, (warn <=? n)%Z eqn:E2;
      bool_hyps; split; intros; try done; lia.
Qed.

(** [C29] The aging report lists every AVAILABLE remnant exactly once, oldest
    first.  Each row carries the whole days since the remnant was stored, by the
    clock of the request, and the level of that age under the thresholds of the
    request - sixty and ninety days where it gives none: EXPIRED from the second
    on, AT_RISK from the first on, else OK.  The totals count the rows of each
    level, and the thresholds of an answered request are in order. *)
Theorem GetRemnantAging_partition (HS : serial) (warn exp : Z) (s : RemnantAgingSummary) w w' :
  GetRemnantAging warn exp w = (Ok s, w') →
  let warn' := (if decide (0 < warn) then warn else 60)%Z in
  let exp' := (if decide (0 < exp) then exp else 90)%Z in
  (warn' < exp')%Z ∧ ras_WarnDays s = warn' ∧ ras_ExpireDays s = exp'
  ∧ (ra_Remnant <$> ras_Rows s) ≡ₚ sql_where (λ r, rem_Status r =s "AVAILABLE") (t_remnants (w_db w))
  ∧ StronglySorted (by_key rem_CreatedAt rem_ID) (ra_Remnant <$> ras_Rows s)
  ∧ Forall (aged warn' exp' (o_time (w_step w))) (ras_Rows s)
  ∧ ras_TotalOK s = at_level "OK" (ras_Rows s) ∧ ras_TotalAtRisk s = at_level "AT_RISK" (ras_Rows s)
  ∧ ras_TotalExpired s = at_level "EXPIRED" (ras_Rows s).
Proof.
  set (rows d at_ := (λ r, (r, age_days at_ r)) <$>
    sql_order rem_CreatedAt rem_ID (sql_where (λ r, rem_Status r =s "AVAILABLE") (t_remnants d))).
  intros E. cbv zeta.
  set (wd := if decide (0 < warn)%Z then warn else 60%Z). set (ed := if decide (0 < exp)%Z then exp else 90%Z).
  enough (wp (GetRemnantAging warn exp) (λ r w', ∀ s, r = Ok s → (wd < ed)%Z ∧
    s = foldl (aging_add wd ed) (aging_init wd ed) (rows (w_db w) (o_time (w_step w)))) w) as Hwp.
  - destruct (wp_run _ _ _ _ _ E Hwp s eq_refl) as (Hlt & ->). clear Hwp E.
    destruct (aging_fold wd ed (rows (w_db w) (o_time (w_step w))) (aging_init wd ed)) as (H1 & H2 & H3).
    destruct (aging_totals wd ed (rows (w_db w) (o_time (w_step w))) (aging_init wd ed)) as (H4 & H5 & H6);
      [done..|].
    set (sum := foldl _ _ _) in *. clearbody sum. simpl in H1, H2, H3.
    assert (ra_Remnant <$> ras_Rows sum
      = sql_order rem_CreatedAt rem_ID (sql_where (λ r, rem_Status r =s "AVAILABLE") (t_remnants (w_db w)))) as Hrem.
    { rewrite H1. unfold rows. rewrite <- !list_fmap_compose. apply list_fmap_id. }
    split_and!; [done..| | | |done|done|done].
    + rewrite Hrem. apply sql_order_perm.
    + rewrite Hrem. apply sql_order_sorted.
    + rewrite H1. apply Forall_fmap, Forall_fmap, Forall_true. intros r. apply aged_row.
  - unfold GetRemnantAging, selectRemnantAging.
    assert (∀ n m : Z, (if (n <=? 0)%Z then m else n) = if decide (0 < n)%Z then n else m) as Hd
      by (intros n m; case_decide; destruct (Z.leb_spec n 0); try done; lia).
    rewrite !Hd. fold wd ed.
    apply wp_bind, wp_fail_if; intros Hlt; [done|]. bool_hyps.
    apply wp_bind, wp_bind, wp_now, wp_query; [done|]. simpl. rewrite !HS.
    apply wp_mret. by intros s' [= <-].
Qed.
End flow.

(** ** A yard with a remnant and a claim *)
Module Yard.
Definition remnant_at (id : uuid) (created : instant) : Remnant := {|
  rem_ID := id; rem_ParentBoardID := 11; rem_ParentRemnantID := None;
  rem_Dimensions := mkDim 1000 1220; rem_Status := RemnantAvailable; rem_ShapeType := "rectangle";
  rem_AllocatedToWO := None; rem_AllocatedAt := None; rem_SupplierCode := None; rem_LotBatch := None;
  rem_GrainPattern := None; rem_QualityGrade := None; rem_BoundingBoxLengthMM := Some 1000%Z;
  rem_BoundingBoxWidthMM := Some 1220%Z; rem_BinLocationID := None; rem_CreatedAt := created |}.

Definition remnant : Remnant := remnant_at 20 (- 100 * day).

Definition rejection : MaterialRejection := {|
  mr_ID := 70; mr_LotID := 1; mr_ReasonCode := "CRACK"; mr_ReasonDetail := ""; mr_RejectedQtySheets := 1;
  mr_PhotoURLs := []; mr_ClaimAmount := None; mr_ClaimCurrency := ""; mr_ClaimStatus := "OPEN";
  mr_ResolutionNotes := ""; mr_ReportedBy := 7; mr_ReportedAt := 5; mr_ResolvedBy := None;
  mr_ResolvedAt := None |}.

Definition db : InvDB :=
  set_rejections {[70%N := rejection]} (set_remnants {[20%N := remnant]} Floor.db).

Definition world0 : world InvDB unit := World db tt 0.

(** Stored 100, 90, 70 and 3 days ago. *)
Definition db_old : InvDB :=
  set_remnants (<[20%N := remnant]> (<[21%N := remnant_at 21 (- 90 * day)]>
    (<[22%N := remnant_at 22 (- 70 * day)]> (<[23%N := remnant_at 23 (- 3 * day)]> ∅)))) db.

(** Another session allocates the remnant to order 88 between the read and the
    lock of a request. *)
Definition overtaken : Oracle InvDB := {|
  o_uuid k := N.of_nat (1000 + k);
  o_time k := Z.of_nat k;
  o_fault _ := false;
  o_interf k d := if (k =? 1)%nat then w_db (snd (@AllocateRemnant unit Floor.oracle 20 88 (World d tt 0))) else d
|}.

Definition claim (st : string) (amount : option Z) : UpdateClaimInput := {|
  uc_RejectionID := 70; uc_ClaimStatus := st; uc_ClaimAmount := amount; uc_ClaimCurrency := "VND";
  uc_ResolutionNotes := ""; uc_ActorID := 7 |}.

Definition assign : PreAssignSheetInput := {|
  pa_SheetID := 10; pa_WorkOrderID := 77; pa_BypassOverflow := true; pa_ActorID := 7;
  pa_Reason := "urgent" |}.

Definition reject_one : RejectLotInput := {|
  rl_LotID := 1; rl_ReasonCode := "CRACK"; rl_ReasonDetail := ""; rl_RejectedQtySheets := 1;
  rl_PhotoURLs := []; rl_ActorID := 7 |}.
End Yard.

Lemma QCPassLot_passes_witness :
  let _ := Floor.oracle in let _ := Floor.deferred in let _ := Floor.deps in
  ∃ w', QCPassLot 1 7 Floor.world0 = (Ok tt, w')
        ∧ same_but_audit (set_sheets (pass_sheet 1 <$> t_sheets Floor.db) Floor.db) (w_db w').
Proof.
  intros. destruct (QCPassLot 1 7 Floor.world0) as [[[]|e] w'] eqn:E.
  - exists w'. split; [done|]. exact (proj2 (QCPassLot_passes (λ _ _, eq_refl) 1 7 (Ok tt) _ _ E)).
  - vm_compute in E. discriminate E.
Defined.

Lemma RejectLot_rejects_witness :
  let _ := Floor.oracle in let _ := Floor.deferred in let _ := Floor.deps in
  ∃ res w', RejectLot Yard.reject_one Floor.world0 = (Ok res, w')
            ∧ rejected_by Yard.reject_one res Floor.db (w_db w') ∧ rlr_RejectedSheetIDs res = [11%N].
Proof.
  intros. destruct (RejectLot Yard.reject_one Floor.world0) as [[res|e] w'] eqn:E.
  - exists res, w'. split_and!; [done| |].
    + exact (RejectLot_rejects (λ _ _, eq_refl) _ _ Floor.world0 _ Floor.db_wf E).
    + vm_compute in E. by simplify_eq.
  - vm_compute in E. discriminate E.
Defined.

Lemma UpdateRejectionClaim_lifecycle_witness :
  let _ := Floor.oracle in let _ := Floor.deferred in let _ := Floor.deps in
  ∃ res w', UpdateRejectionClaim (Yard.claim "APPROVED" (Some 500%Z)) Yard.world0 = (Ok res, w')
            ∧ mr_ResolvedBy res = Some 7%N ∧ mr_ClaimStatus res = "APPROVED".
Proof.
  intros. destruct (UpdateRejectionClaim (Yard.claim "APPROVED" (Some 500%Z)) Yard.world0)
    as [[res|e] w'] eqn:E.
  - assert (serial) as HS by done.
    destruct (UpdateRejectionClaim_lifecycle HS _ _ _ _ E) as (old & _ & _ & _ & _ & Hr & _).
    exists res, w'. split_and!; [done|exact Hr|]. vm_compute in E. by simplify_eq.
  - vm_compute in E. discriminate E.
Defined.

Lemma PreAssignSheet_gate_witness :
  let _ := Floor.oracle in let _ := Floor.deferred in let _ := Floor.deps in
  ∃ w', PreAssignSheet Yard.assign Yard.world0 = (Ok tt, w')
        ∧ overflow_red Yard.db = true ∧ bypass_logged Yard.assign (w_db w').
Proof.
  intros. destruct (PreAssignSheet Yard.assign Yard.world0) as [[[]|e] w'] eqn:E.
  - assert (serial) as HS by done. assert (overflow_red (w_db Yard.world0) = true) as Hred by by vm_compute.
    exists w'. split_and!; [done|exact Hred|].
    exact (proj2 (proj2 (PreAssignSheet_gate HS _ _ _ _ E) Hred)).
  - vm_compute in E. discriminate E.
Defined.

Lemma AllocateRemnant_exclusive_witness :
  (∃ w' x at_, @AllocateRemnant unit Floor.oracle 20 77 Yard.world0 = (Ok tt, w')
     ∧ t_remnants (w_db w') !! 20%N = Some (remnant_set_status RemnantAllocated (Some 77%N) (Some at_) x))
  ∧ (∃ e w', @AllocateRemnant unit Yard.overtaken 20 77 Yard.world0 = (Err e, w')
     ∧ (rem_AllocatedToWO <$> t_remnants (w_db w') !! 20%N) ∈ [Some None; Some (Some 88%N)]).
Proof.
  split.
  - destruct (@AllocateRemnant unit Floor.oracle 20 77 Yard.world0) as [[[]|e] w'] eqn:E;
      [|vm_compute in E; discriminate E].
    destruct (@AllocateRemnant_exclusive unit Floor.oracle _ _ _ _ _ E) as (x & at_ & _ & _ & Hd).
    exists w', x, at_. split; [done|]. rewrite Hd. apply lookup_insert_eq.
  - destruct (@AllocateRemnant unit Yard.overtaken 20 77 Yard.world0) as [[[]|e] w'] eqn:E;
      [vm_compute in E; discriminate E|].
    exists e, w'. split; [done|].
    destruct (@AllocateRemnant_exclusive unit Yard.overtaken _ _ _ _ _ E) as [Hd|Hd]; rewrite Hd; vm_compute;
      [by left|by right; left].
Defined.

Lemma GetRemnantAging_partition_witness :
  let _ := Floor.oracle in
  ∃ s w', GetRemnantAging (X:=unit) 0 0 (World Yard.db_old tt 0) = (Ok s, w')
    ∧ ras_WarnDays s = 60%Z ∧ ras_ExpireDays s = 90%Z ∧ Forall (aged 60 90 0) (ras_Rows s)
    ∧ (ras_TotalOK s, ras_TotalAtRisk s, ras_TotalExpired s) = (1, 1, 2)%Z.
Proof.
  intros. destruct (GetRemnantAging (X:=unit) 0 0 (World Yard.db_old tt 0)) as [[s|e] w'] eqn:E.
  - assert (serial) as HS by done.
    destruct (GetRemnantAging_partition HS _ _ _ _ _ E) as (_ & Hw & He & _ & _ & Hr & _).
    exists s, w'. split_and!; [done|exact Hw|exact He|exact Hr|]. vm_compute in E. by simplify_eq.
  - vm_compute in E. discriminate E.
Defined.

(** ** A race on a claim *)
Section race.
Context {X : Type} `{!Schema} (EA : Oracle InvDB) (DA : InventoryDeps X).

(** An approval the handler and the columns have nothing against. *)
Definition approval_ok (in_ : UpdateClaimInput) (d : InvDB) : Prop :=
  uc_RejectionID in_ ≠ uuid_Nil ∧ uc_ActorID in_ ≠ uuid_Nil ∧ uc_ClaimStatus in_ = ClaimStatusApproved
  ∧ claim_amount_check in_ = None ∧ (rune_count (uc_ClaimCurrency in_) <= 3)%Z ∧ uc_ActorID in_ ∈ t_users d.

(** The request reads the claim at step [k]; its UPDATE is statement [k + 2], and
    there other sessions may have moved the tables to [d2]. *)
Lemma approve_over (in_ : UpdateClaimInput) (w : world InvDB X) (d2 : InvDB) old row :
  (∀ n, @o_fault _ EA n = false) →
  (∀ n d, n ≠ S (S (w_step w)) → @o_interf _ EA n d = d) →
  @o_interf _ EA (S (S (w_step w))) (w_db w) = d2 →
  t_rejections (w_db w) !! uc_RejectionID in_ = Some old → mr_ClaimStatus old = ClaimStatusOpen →
  t_rejections d2 !! uc_RejectionID in_ = Some row → approval_ok in_ d2 →
  wp (UpdateRejectionClaim in_) (λ r w', ∃ res, r = Ok res ∧ mr_ClaimStatus res = ClaimStatusApproved
    ∧ t_rejections (w_db w') !! uc_RejectionID in_ = Some res) w.
Proof using.
  intros HF HI HM Ho Hopen Hrow (Hid & Hact & Hst & Hamt & Hcur & Husr).
  set (k := w_step w) in *.
  assert (∀ d, o_interf k d = d) as I0 by (intros; apply HI; lia).
  assert (∀ d, o_interf (S (S (S k))) d = d) as I3 by (intros; apply HI; lia).
  assert (∀ d, o_interf (S (S (S (S (S k))))) d = d) as I5 by (intros; apply HI; lia). clear HI.
  unfold UpdateRejectionClaim, selectRejectionByID.
  apply wp_bind, wp_fail_if; intros Hb; bool_hyps; [done|].
  apply wp_bind, wp_fail_if; intros Hb2; bool_hyps; [done|].
  rewrite Hst. apply wp_bind, wp_fail_if; intros Hb3; [done|].
  apply wp_bind, wp_query_row; simpl; fold k; rewrite ?HF, ?I0, ?Ho; [done..|].
  intros o. intros [= <-].
  apply wp_bind, wp_fail_if; intros Hb4; [by rewrite Hopen in Hb4|].
  rewrite Hamt. apply wp_bind, wp_mret, wp_bind, wp_now. cbv zeta.
  unfold updateRejectionClaim, selectRejectionByID.
  set (cr := {| ucr_RejectionID := _ |}).
  apply wp_bind, wp_bind, wp_exec; simpl; fold k; rewrite ?HF, ?I0, ?HM, ?Hrow; simpl; [done|..].
  - intros e. rewrite (proj2 (Z.leb_le _ _) Hcur), bool_decide_eq_true_2 by done. simpl.
    unfold sql_update. by rewrite Hrow.
  - intros n d' Hu. stmt_ok. unfold sql_update in Hu. rewrite Hrow in Hu. injection Hu as <- <-.
    apply wp_bind, wp_fail_if; [done|]. intros _.
    apply wp_query_row; simpl; fold k; rewrite ?HF, ?I3; simpl; rewrite ?lookup_insert_eq; [done..|].
    intros res [= <-]. apply wp_bind, wp_new_uuid, wp_bind, wp_best_effort. unfold insertAuditLog.
    assert (∀ w4 : world InvDB X, t_rejections (w_db w4) !! uc_RejectionID in_ = Some (claim_update cr row) →
      wp (match prCreator with
          | Some pr => if ClaimStatusApproved =s ClaimStatusApproved
                       then best_effort (call_dep (CancelFromRejection pr (uc_RejectionID in_))) else mret tt
          | None => mret tt end;; mret (claim_update cr row))
        (λ r w', ∃ res, r = Ok res ∧ mr_ClaimStatus res = ClaimStatusApproved
           ∧ t_rejections (w_db w') !! uc_RejectionID in_ = Some res) w4) as Hk.
    { intros w4 H4. apply wp_bind. destruct prCreator as [pr|].
      - apply wp_best_effort, wp_call_dep. intros r x' _. apply wp_mret. by eexists.
      - apply wp_mret, wp_mret. by eexists. }
    apply wp_exec; simpl; fold k; rewrite ?HF, ?I5; [done|..].
    + intros e _. apply Hk. simpl. rewrite I3, I5. apply lookup_insert_eq.
    + intros u d'. unfold audit_insert. intros Hi. stmt_ok. apply Hk. simpl. rewrite ?I3, ?I5. apply lookup_insert_eq.
Qed.
End race.

(** [C34] The check and the update of a claim are separate statements.  Take any
    claim, any approval the handler has nothing against, and a rejection of the
    same claim that another session is granted from the same tables.  If that
    rejection commits just before the UPDATE of the approval, the approval
    succeeds as well, and the claim, answered REJECTED to the one and APPROVED
    to the other, is APPROVED - a step from REJECTED the lifecycle forbids. *)
Theorem claim_race {X X2 : Type} (ES : Schema) (EA EB : Oracle InvDB) (DA : InventoryDeps X) (DB : InventoryDeps X2)
    (approve reject : UpdateClaimInput) (w : world InvDB X) (wb wb' : world InvDB X2) (rejected : MaterialRejection) :
  let k := S (S (w_step w)) in
  (∀ n, @o_fault _ EA n = false) → (∀ n d, n ≠ k → @o_interf _ EA n d = d) →
  @o_interf _ EA k (w_db w) = w_db wb' →
  @serial _ EB → w_db wb = w_db w → @UpdateRejectionClaim X2 EB DB reject wb = (Ok rejected, wb') →
  uc_ClaimStatus reject = ClaimStatusRejected → uc_RejectionID reject = uc_RejectionID approve →
  approval_ok approve (w_db w) →
  mr_ClaimStatus rejected = ClaimStatusRejected
  ∧ t_rejections (w_db wb') !! uc_RejectionID approve = Some rejected
  ∧ ∃ approved w', @UpdateRejectionClaim X EA DA approve w = (Ok approved, w')
      ∧ mr_ClaimStatus approved = ClaimStatusApproved
      ∧ t_rejections (w_db w') !! uc_RejectionID approve = Some approved
      ∧ ¬ claim_step (mr_ClaimStatus rejected) (mr_ClaimStatus approved).
Proof.
  intros k HF HI HM HS Hw EB' Hrej Hid Hok.
  destruct (wp_run _ _ _ _ _ EB' (@UpdateRejectionClaim_wp X2 EB DB HS reject wb) rejected eq_refl)
    as (old & at_ & Ho & Ht & _ & Hres & [t Hd]).
  apply isAllowedClaimTransition_step in Ht. rewrite Hid, ?Hw in *. simpl in Hd.
  assert (mr_ClaimStatus rejected = ClaimStatusRejected) as Hst by by rewrite Hres.
  assert (t_rejections (w_db wb') !! uc_RejectionID approve = Some rejected) as Hrow
    by (rewrite Hd; apply lookup_insert_eq).
  assert (mr_ClaimStatus old = ClaimStatusOpen) as Hopen by (rewrite Hrej in Ht; by inversion Ht).
  assert (approval_ok approve (w_db wb')) as Hok' by (rewrite Hd; exact Hok).
  pose proof (approve_over EA DA approve w (w_db wb') old rejected HF HI HM Ho Hopen Hrow Hok') as Hwp.
  unfold wp in Hwp. destruct (@UpdateRejectionClaim X EA DA approve w) as [r w']. simpl in Hwp.
  destruct Hwp as (res & -> & Hap & Hrow'). split_and!; [done..|]. exists res, w'. split_and!; [done..|].
  rewrite Hst, Hap. intros Hs. inversion Hs.
Qed.

Module Race.
Definition rejecting := @UpdateRejectionClaim unit Floor.oracle Floor.deps (Yard.claim "REJECTED" None).

Definition oracle : Oracle InvDB := {|
  o_uuid k := N.of_nat (2000 + k);
  o_time k := Z.of_nat k;
  o_fault _ := false;
  o_interf k d := if (k =? 2)%nat then w_db (snd (rejecting (World d tt 0))) else d
|}.
End Race.

Lemma claim_race_witness :
  let run := @UpdateRejectionClaim unit Race.oracle Floor.deps (Yard.claim "APPROVED" (Some 500%Z)) in
  ∃ res w', run Yard.world0 = (Ok res, w') ∧ mr_ClaimStatus res = ClaimStatusApproved
    ∧ is_ok (fst (Race.rejecting Yard.world0)) = true.
Proof.
  cbv zeta. destruct (Race.rejecting Yard.world0) as [[rej|e] wb'] eqn:E; [|vm_compute in E; discriminate E].
  destruct (claim_race Floor.deferred Race.oracle Floor.oracle Floor.deps Floor.deps
    (Yard.claim "APPROVED" (Some 500%Z)) (Yard.claim "REJECTED" None) Yard.world0 Yard.world0 wb' rej)
    as (_ & _ & res & w' & H1 & H2 & _).
  - done.
  - intros n d Hn. simpl in *. destruct n as [|[|[|n]]]; done.
  - change (w_db (snd (Race.rejecting Yard.world0)) = w_db wb'). by rewrite E.
  - done.
  - done.
  - exact E.
  - done.
  - done.
  - unfold approval_ok. split_and!; try done.
  - by exists res, w'.
Defined.
