(* ===== verification/InventoryCount.v ===== *)
(** * Inventory: posting a cycle count

    [PostCycleCount] compares every counted line with the row it names and
    applies the differences in one transaction.  After it, every counted entity
    is in the counted state, nothing else moved, and the audit log holds the
    differences.  Nothing asks whether the counted status can be reached, which
    is why the lifecycles of InventoryLife.v leave the posting out. *)

From S2P Require Import Prelude Domain Effects HttpKit Sql InventoryData InventoryStore InventoryService InventoryLaws.
From S2P Require Import InventorySafety InventoryProps InventoryCut InventoryLife InventoryFlow.
From stdpp Require Import base gmap strings list sorting.
From Stdlib Require Import ZArith Lia.

Open Scope string_scope.

(** ** What a count is about: an entity, its status and its place *)
Definition ekey : Type := bool * uuid.

Definition lkey (l : CycleCountLine) : ekey := (cl_EntityType l =s entityTypeRemnant, cl_EntityID l).
Definition akey (a : cycleCountAdjustment) : ekey := (cca_EntityType a =s entityTypeRemnant, cca_EntityID a).

Definition entity_state (d : InvDB) (e : ekey) : option (string * option uuid) :=
  if e.1 then (λ r, (rem_Status r, rem_BinLocationID r)) <$> t_remnants d !! e.2
  else (λ s, (sh_Status s, sh_BinLocationID s)) <$> t_sheets d !! e.2.

Definition counted (l : CycleCountLine) : string * option uuid :=
  (cl_CountedStatus l, cl_CountedLocationID l).

(** The books disagree with the line. *)
Definition off_count (d : InvDB) (l : CycleCountLine) : Prop := entity_state d (lkey l) ≠ Some (counted l).

#[export] Instance off_count_dec d l : Decision (off_count d l).
Proof. unfold off_count. apply _. Defined.

(** The log entry of a difference: who posted which count, of what, why, and
    from which state and place to which. *)
Definition logs_diff (in_ : PostCycleCountInput) (d : InvDB) (l : CycleCountLine) (e : AuditLogEntry) : Prop :=
  al_Action e = "ADJUSTMENT" ∧ al_EntityType e = cl_EntityType l ∧ al_EntityID e = cl_EntityID l
  ∧ al_ActorID e = pcc_ActorID in_ ∧ al_SessionID e = Some (pcc_SessionID in_)
  ∧ al_Reason e = Some (cl_Reason l)
  ∧ (∃ st, al_FromStatus e = Some st ∧ entity_state d (lkey l) = Some (st, al_FromLocation e))
  ∧ al_ToStatus e = Some (cl_CountedStatus l) ∧ al_ToLocation e = cl_CountedLocationID l.

Section diffs.
Context (in_ : PostCycleCountInput) (d : InvDB).

(** The adjustments a list of lines gives rise to. *)
Inductive diffs : list CycleCountLine → list cycleCountAdjustment → Prop :=
  | diffs_nil : diffs [] []
  | diffs_same l ls adjs :
      entity_state d (lkey l) = Some (counted l) → diffs ls adjs → diffs (l :: ls) adjs
  | diffs_moved l ls a adjs :
      is_Some (entity_state d (lkey l)) → akey a = lkey l →
      (cca_NewStatus a, cca_NewLocationID a) = counted l →
      off_count d l → logs_diff in_ d l (cca_AuditEntry a) →
      diffs ls adjs → diffs (l :: ls) (a :: adjs).

Lemma diffs_log ls adjs : diffs ls adjs →
  Forall2 (logs_diff in_ d) (filter (off_count d) ls) (cca_AuditEntry <$> adjs).
Proof.
  induction 1 as [|l ls adjs E _ IH|l ls a adjs _ _ _ Ho Hl _ IH]; simpl; [constructor|..];
    rewrite filter_cons.
  - by rewrite decide_False by by intros [].
  - rewrite decide_True by done. by constructor.
Qed.

Lemma diffs_keys ls adjs : diffs ls adjs → akey <$> adjs ⊆ lkey <$> ls.
Proof. induction 1 as [|l ls adjs _ _ IH|l ls a adjs _ E _ _ _ _ IH]; rewrite ?fmap_cons, ?E;
    [done|by apply list_subseteq_cons|by apply list_subseteq_skip]. Qed.

Lemma diffs_nodup ls adjs : diffs ls adjs → NoDup (lkey <$> ls) → NoDup (akey <$> adjs).
Proof.
  induction 1 as [|l ls adjs _ _ IH|l ls a adjs _ E _ _ _ Hd IH]; simpl; intros Hn;
    [constructor|by apply IH; apply NoDup_cons in Hn as [_ ?]|].
  apply NoDup_cons in Hn as [Hl Hn]. apply NoDup_cons. split; [|by apply IH].
  rewrite E. intros Hi. by apply Hl, (diffs_keys ls adjs Hd).
Qed.

Lemma diffs_line ls adjs l : diffs ls adjs → NoDup (lkey <$> ls) → l ∈ ls →
  (entity_state d (lkey l) = Some (counted l) ∧ lkey l ∉ akey <$> adjs)
  ∨ ∃ a, a ∈ adjs ∧ akey a = lkey l ∧ is_Some (entity_state d (lkey l))
         ∧ (cca_NewStatus a, cca_NewLocationID a) = counted l.
Proof.
  induction 1 as [|x ls adjs Hx Hd IH|x ls a adjs Hs E Hc _ _ Hd IH]; intros Hn Hl;
    [by apply not_elem_of_nil in Hl|..].
  - apply NoDup_cons in Hn as [Hx' Hn]. apply elem_of_cons in Hl as [->|Hl]; [|by apply IH].
    left. split; [done|]. intros Hi. by apply Hx', (diffs_keys ls adjs Hd).
  - apply NoDup_cons in Hn as [Hx' Hn]. apply elem_of_cons in Hl as [->|Hl].
    + right. exists a. split_and!; [by left|done..].
    + destruct (IH Hn Hl) as [[He Hni]|(a' & ? & ?)]; [left|right; exists a'; split; [by right|done]].
      split; [done|]. rewrite fmap_cons, E. intros [Heq|]%elem_of_cons; [|done].
      apply Hx'. rewrite <- Heq. by apply list_elem_of_fmap_2.
Qed.

End diffs.

Lemma uuidPtrEqual_eq a b : uuidPtrEqual a b = true ↔ a = b.
Proof.
  destruct a, b; simpl; rewrite ?N.eqb_eq; split; intros; congruence.
Qed.

Section count.
Context {X : Type} `{!Oracle InvDB} `{!Schema} `{!InventoryDeps X}.
Local Abbreviation M := (M InvDB X).
Implicit Types (w : world InvDB X) (d : InvDB).

(** ** Comparing *)
Lemma entity_read_wp (HS : serial) line Q w :
  (∀ e w', w_db w' = w_db w → Q (Err e) w') →
  (∀ st loc w', entity_state (w_db w) (lkey line) = Some (st, loc) → w_db w' = w_db w →
     Q (Ok (st, loc)) w') →
  wp (if cl_EntityType line =s entityTypeRemnant then
       wrap_err "load remnant" (r ← selectRemnantByID (cl_EntityID line);
                                mret (rem_Status r, rem_BinLocationID r))
     else
       wrap_err "load sheet" (s ← selectSheetByID (cl_EntityID line);
                              mret (sh_Status s, sh_BinLocationID s))) Q w.
Proof using.
  intros He Ho. unfold entity_state, lkey in Ho. simpl in Ho.
  apply wp_if; intros Ht; rewrite Ht in Ho; apply wp_wrap_err, wp_bind;
    unfold selectRemnantByID, selectSheetByID; (apply wp_query_row_serial; [done|by intros; apply He|]).
  - intros r w' Hr Hw. apply wp_mret, Ho; [|done]. by rewrite Hr.
  - intros s w' (s0 & Hs & ->)%fmap_Some_1 Hw. apply wp_mret, Ho; [|done]. rewrite Hs. simpl.
    unfold sheet_join. by repeat case_match.
Qed.

Lemma count_diff_wp (HS : serial) in_ acc line w :
  wp (count_diff in_ acc line) (λ r w', w_db w' = w_db w ∧ ∀ out, r = Ok out →
    ∃ new, out = (acc ++ new)%list ∧ ∀ ls adjs, diffs in_ (w_db w) ls adjs →
           diffs in_ (w_db w) (line :: ls) (new ++ adjs)) w.
Proof using.
  unfold count_diff. apply wp_bind, entity_read_wp; [done..|]. intros st loc w1 Hst Hw1.
  apply wp_if; intros Hch.
  - apply wp_mret. split; [done|]. intros out [= <-]. exists []. rewrite app_nil_r. split; [done|].
    intros ls adjs Hd. simpl. constructor; [|done]. bool_hyps.
    match goal with Hx : uuidPtrEqual _ _ = true |- _ => apply uuidPtrEqual_eq in Hx end.
    rewrite Hst. unfold counted. congruence.
  - apply wp_bind, wp_new_uuid, wp_bind, wp_now. cbv zeta. apply wp_mret. split; [done|].
    intros out [= <-]. eexists. split; [done|]. intros ls adjs Hd. simpl.
    apply diffs_moved; [rewrite Hst; eauto|done..| | |done].
    + unfold off_count. rewrite Hst. unfold counted. intros [= -> ->].
      apply andb_false_iff in Hch as [Hch|Hch]; apply negb_false_iff in Hch.
      * by rewrite String.eqb_refl in Hch.
      * assert (uuidPtrEqual (cl_CountedLocationID line) (cl_CountedLocationID line) = true) as Hr
          by by apply uuidPtrEqual_eq. by rewrite Hr in Hch.
    + unfold logs_diff. simpl. split_and!; [done..| |done|done]. by exists st.
Qed.

Lemma count_all_wp (HS : serial) in_ lines acc w :
  wp (mfor (count_diff in_) lines acc) (λ r w', w_db w' = w_db w ∧ ∀ out, r = Ok out →
    ∃ adjs, out = (acc ++ adjs)%list ∧ diffs in_ (w_db w) lines adjs) w.
Proof using.
  revert acc w. induction lines as [|l ls IH]; intros acc w; simpl.
  - apply wp_mret. split; [done|]. intros out [= <-]. exists []. rewrite app_nil_r. split; [done|constructor].
  - apply wp_bind. eapply wp_mono; [by apply count_diff_wp|]. intros [out|e] w1 [Hw1 Ho]; [|done].
    destruct (Ho out eq_refl) as (new & -> & Hnew). eapply wp_mono; [apply IH|].
    intros r w2 [Hw2 Hr]. split; [congruence|]. intros out2 ->. destruct (Hr out2 eq_refl) as (adjs & -> & Hd).
    exists (new ++ adjs)%list. rewrite app_assoc. split; [done|]. apply Hnew. by rewrite <- Hw1.
Qed.

(** ** Applying *)

(** What adjustments leave of the tables beside the counted entities: the
    entries are added to the log under new identifiers, and that is all. *)
Definition adjusted (es : list AuditLogEntry) d d' : Prop :=
  t_sessions d' = t_sessions d ∧ t_cuts d' = t_cuts d
  ∧ (∀ k s, t_sheets d !! k = Some s → ∃ s', t_sheets d' !! k = Some s' ∧ sh_Dimensions s' = sh_Dimensions s)
  ∧ t_audit d ⊆ t_audit d' ∧ size (t_audit d') = (size (t_audit d) + length es)%nat
  ∧ (∀ e, e ∈ es → t_audit d !! al_ID e = None ∧ t_audit d' !! al_ID e = Some e)
  ∧ (∀ k e, t_audit d' !! k = Some e → t_audit d !! k = Some e ∨ e ∈ es).

Lemma adjusted_nil d : adjusted [] d d.
Proof using.
  split_and!; [done|done|eauto|done|simpl; lia|by intros e ?%not_elem_of_nil|eauto].
Qed.

Lemma adjusted_app es1 es2 d1 d2 d3 :
  adjusted es1 d1 d2 → adjusted es2 d2 d3 → adjusted (es1 ++ es2) d1 d3.
Proof using.
  intros (S1 & C1 & K1 & A1 & Z1 & N1 & O1) (S2 & C2 & K2 & A2 & Z2 & N2 & O2). split_and!; [congruence..| | | | |].
  - intros k s (s2 & H2 & ?)%K1. destruct (K2 k s2 H2) as (s3 & ? & ?). exists s3. split; [done|congruence].
  - by etrans.
  - rewrite Z2, Z1, length_app. lia.
  - intros e [He|He]%elem_of_app.
    + destruct (N1 e He) as [? ?]. split; [done|]. by eapply lookup_weaken.
    + destruct (N2 e He) as [Hn ?]. split; [|done].
      destruct (t_audit d1 !! al_ID e) as [x|] eqn:E; [|done].
      by rewrite (lookup_weaken _ _ _ _ E A1) in Hn.
  - intros k e Hk. rewrite elem_of_app. destruct (O2 k e Hk) as [H2|]; [destruct (O1 k e H2)|]; auto.
Qed.

Lemma adjusted_one e d d' t d1 :
  t_sessions d1 = t_sessions d → t_cuts d1 = t_cuts d → t_audit d1 = t_audit d →
  (∀ k s, t_sheets d !! k = Some s → ∃ s', t_sheets d1 !! k = Some s' ∧ sh_Dimensions s' = sh_Dimensions s) →
  sql_insert (al_ID e) e (t_audit d1) = Ok t → d' = set_audit t d1 → adjusted [e] d d'.
Proof using.
  intros HS HC HA HK [Hn ->]%sql_insert_ok ->. rewrite HA in Hn. unfold adjusted. simpl. rewrite HA.
  split_and!; [done..| | | |].
  - by apply insert_subseteq.
  - rewrite map_size_insert_None by done. lia.
  - intros x ->%list_elem_of_singleton. by rewrite lookup_insert_eq.
  - intros k x [[<- <-]|[_ Hx]]%lookup_insert_Some; [right; by apply list_elem_of_singleton|by left].
Qed.

Lemma apply_adjustment_wp adj w :
  wp (apply_adjustment adj) (λ r w', is_ok r = true →
    adjusted [cca_AuditEntry adj] (w_db w) (w_db w')
    ∧ ∀ e, entity_state (w_db w') e
           = if decide (e = akey adj)
             then (λ _, (cca_NewStatus adj, cca_NewLocationID adj)) <$> entity_state (w_db w) e
             else entity_state (w_db w) e) w.
Proof using.
  unfold apply_adjustment. apply wp_bind.
  assert (∀ w1 : world InvDB X, t_sessions (w_db w1) = t_sessions (w_db w) →
    t_cuts (w_db w1) = t_cuts (w_db w) → t_audit (w_db w1) = t_audit (w_db w) →
    (∀ k s, t_sheets (w_db w) !! k = Some s →
       ∃ s', t_sheets (w_db w1) !! k = Some s' ∧ sh_Dimensions s' = sh_Dimensions s) →
    (∀ e, entity_state (w_db w1) e
           = if decide (e = akey adj)
             then (λ _, (cca_NewStatus adj, cca_NewLocationID adj)) <$> entity_state (w_db w) e
             else entity_state (w_db w) e) →
    wp (texec "insert audit log" (audit_insert (cca_AuditEntry adj))) (λ r w', is_ok r = true →
    adjusted [cca_AuditEntry adj] (w_db w) (w_db w')
    ∧ ∀ e, entity_state (w_db w') e
           = if decide (e = akey adj)
             then (λ _, (cca_NewStatus adj, cca_NewLocationID adj)) <$> entity_state (w_db w) e
             else entity_state (w_db w) e) w1) as Hk.
  { intros w1 H1 H2 H3 H4 H5. apply wp_texec; [done..|]. intros u d' Hi _. unfold audit_insert in Hi.
    apply result_bind_ok in Hi as (t & Ht & [= _ <-]). split; [by eapply adjusted_one|exact H5]. }
  apply wp_if; intros Ht; (apply wp_texec; [done..|]); intros n d';
    unfold remnant_update_bin, sheet_update_bin, remnant_update, sheet_update; intros Hu; stmt_ok;
    match type of Hu with (let (_, _) := sql_update ?i ?f ?t in _) = _ =>
      pose proof (sql_update_lookup i f t) as Hl; destruct (sql_update i f t) as [n' t'] end; stmt_ok;
    (apply Hk; [done..| |]); simpl in *.
  - eauto.
  - intros [b id]; unfold entity_state, akey, entityTypeRemnant; simpl in *; rewrite Ht. destruct b.
    + rewrite Hl. destruct (decide (cca_EntityID adj = id)) as [->|Hne].
      * rewrite decide_True by done. by destruct (t_remnants (w_db w) !! id).
      * rewrite decide_False by congruence. done.
    + rewrite decide_False by congruence. done.
  - intros k s Hs. rewrite Hl. case_decide; subst; rewrite Hs; simpl; eauto.
  - intros [b id]; unfold entity_state, akey, entityTypeRemnant; simpl in *; rewrite Ht. destruct b.
    + rewrite decide_False by congruence. done.
    + rewrite Hl. destruct (decide (cca_EntityID adj = id)) as [->|Hne].
      * rewrite decide_True by done. by destruct (t_sheets (w_db w) !! id).
      * rewrite decide_False by congruence. done.
Qed.

Lemma apply_all_wp adjs w :
  wp (mfor (λ _ adj, apply_adjustment adj) adjs tt) (λ r w', is_ok r = true →
    adjusted (cca_AuditEntry <$> adjs) (w_db w) (w_db w')
    ∧ (∀ e, e ∉ akey <$> adjs → entity_state (w_db w') e = entity_state (w_db w) e)
    ∧ (NoDup (akey <$> adjs) → ∀ a, a ∈ adjs → is_Some (entity_state (w_db w) (akey a)) →
         entity_state (w_db w') (akey a) = Some (cca_NewStatus a, cca_NewLocationID a))) w.
Proof using.
  revert w. induction adjs as [|a adjs IH]; intros w; simpl.
  - apply wp_mret. intros _. split_and!; [apply adjusted_nil|done|].
    intros _ a Ha. by apply not_elem_of_nil in Ha.
  - apply wp_bind. eapply wp_mono; [apply apply_adjustment_wp|]. intros [[]|e] w1 H1; [|done].
    destruct (H1 eq_refl) as [Hs1 He1]. eapply wp_mono; [apply IH|]. intros r w2 H2 Hr.
    destruct (H2 Hr) as (Hs2 & Hn2 & Hy2). split_and!; [by apply (adjusted_app [_] _ _ (w_db w1))| |].
    + intros e Hne. apply not_elem_of_cons in Hne as [Hne1 Hne2].
      rewrite Hn2, He1 by done. by rewrite decide_False.
    + intros Hnd a' Ha' Hsome. apply NoDup_cons in Hnd as [Hni Hnd].
      apply elem_of_cons in Ha' as [->|Ha'].
      * rewrite Hn2, He1 by done. rewrite decide_True by done. destruct Hsome as [x ->]. done.
      * apply Hy2; [done..|]. rewrite He1. case_decide; [|done]. by rewrite fmap_is_Some.
Qed.

(** ** Posting *)
Definition lines_of (sid : uuid) d : list CycleCountLine :=
  sql_order cl_CreatedAt cl_ID (sql_where (λ l, (cl_SessionID l =? sid)%N) (t_lines d)).

(** UNIQUE (session_id, entity_type, entity_id) *)
Definition lines_unique (sid : uuid) d : Prop := NoDup (lkey <$> lines_of sid d).

(** What a posting did, entity by entity. *)
Definition posted (in_ : PostCycleCountInput) (d d' : InvDB) : Prop :=
  ∃ adjs, diffs in_ d (lines_of (pcc_SessionID in_) d) adjs
    ∧ (∀ e, e ∉ akey <$> adjs → entity_state d' e = entity_state d e)
    ∧ (∀ a, a ∈ adjs → is_Some (entity_state d (akey a)) →
         entity_state d' (akey a) = Some (cca_NewStatus a, cca_NewLocationID a))
    ∧ (∃ d1, adjusted (cca_AuditEntry <$> adjs) d d1 ∧ d' = set_sessions (t_sessions d') d1)
    ∧ (∃ s s', t_sessions d !! pcc_SessionID in_ = Some s ∧ cs_Status s = "OPEN"
       ∧ t_sessions d' !! pcc_SessionID in_ = Some s' ∧ cs_Status s' = "POSTED"
       ∧ cs_PostedBy s' = Some (pcc_ActorID in_)).

Lemma PostCycleCount_wp (HS : serial) (in_ : PostCycleCountInput) w :
  lines_unique (pcc_SessionID in_) (w_db w) →
  wp (PostCycleCount in_) (λ r w', is_ok r = true → posted in_ (w_db w) (w_db w')) w.
Proof using.
  intros Hun. unfold PostCycleCount, selectCycleCountSessionByID, selectCycleCountLinesBySession.
  apply wp_bind, wp_query_row_serial; [done..|]. intros s w1 Hs Hw1.
  apply wp_bind, wp_fail_if; intros Hopen; [done|]. bool_hyps.
  apply wp_bind, wp_query_serial; [done..|]. intros w2 Hw2. rewrite Hw1. fold (lines_of (pcc_SessionID in_) (w_db w)).
  apply wp_bind. eapply wp_mono; [by apply count_all_wp|].
  intros [out|e] w3 [Hw3 Ho]; [|done]. destruct (Ho out eq_refl) as (adjs & -> & Hd). simpl.
  assert (w_db w3 = w_db w) as Hw by congruence. rewrite Hw2, Hw1 in Hd.
  unfold postCycleCountAtomically. apply wp_tx; [done|]. simpl.
  apply wp_bind, wp_tquery_row; [done..|]. simpl. rewrite !HS, Hw. intros st (s2 & Hs2 & ->)%fmap_Some_1.
  apply wp_bind, wp_fail_if; intros _; [done|]. apply wp_bind. eapply wp_mono; [apply apply_all_wp|].
  intros [[]|e] w4 Ha; [|done]. destruct (Ha eq_refl) as (Hadj & Hno & Hyes). simpl in Hadj, Hno, Hyes.
  rewrite !HS, Hw in *. apply wp_bind, wp_now, wp_bind, wp_texec; [done..|]. intros n d'.
  unfold session_update, sql_update. simpl. rewrite (proj1 Hadj), Hs2. intros [= <- <-]. apply wp_mret.
  split; [done|]. intros _ _. exists adjs. split_and!; [done|exact Hno| | |].
  - apply Hyes. by eapply diffs_nodup.
  - eexists. split; [exact Hadj|done].
  - exists s2. eexists. split_and!; [done|congruence|apply lookup_insert_eq|done..].
Qed.

Lemma posted_lines in_ d d' l : lines_unique (pcc_SessionID in_) d → posted in_ d d' →
  l ∈ lines_of (pcc_SessionID in_) d → entity_state d' (lkey l) = Some (counted l).
Proof using.
  intros Hun (adjs & Hd & Hno & Hyes & _) Hl.
  destruct (diffs_line _ _ _ _ l Hd Hun Hl) as [[He Hni]|(a & Ha & Hk & Hsome & Hc)].
  - by rewrite Hno.
  - rewrite <- Hk, Hyes; [by rewrite Hc|done|by rewrite Hk].
Qed.

(** Every difference, and nothing else, is in the log once: the new entries are
    as many as the lines the books disagreed with. *)
Definition differences_logged (in_ : PostCycleCountInput) (d d' : InvDB) : Prop :=
  let off := filter (off_count d) (lines_of (pcc_SessionID in_) d) in
  t_audit d ⊆ t_audit d' ∧ size (t_audit d') = (size (t_audit d) + length off)%nat
  ∧ (∀ l, l ∈ off → ∃ k e, t_audit d !! k = None ∧ t_audit d' !! k = Some e ∧ logs_diff in_ d l e)
  ∧ (∀ k e, t_audit d' !! k = Some e → t_audit d !! k = None → ∃ l, l ∈ off ∧ logs_diff in_ d l e).

Lemma posted_logged in_ d d' : posted in_ d d' → differences_logged in_ d d'.
Proof using.
  intros (adjs & Hd%diffs_log & _ & _ & (d1 & (_ & _ & _ & Hsub & Hsz & Hnew & Hold) & ->) & _).
  unfold differences_logged. simpl. split_and!; [done| | |].
  - by rewrite Hsz, (Forall2_length _ _ _ Hd).
  - intros l Hl. apply list_elem_of_lookup in Hl as [i Hi].
    destruct (Forall2_lookup_l _ _ _ _ _ Hd Hi) as (e & He%list_elem_of_lookup_2 & Hlog).
    destruct (Hnew e He) as [? ?]. eauto.
  - intros k e He Hn. destruct (Hold k e He) as [?|Hi]; [congruence|].
    apply list_elem_of_lookup in Hi as [i Hi].
    destruct (Forall2_lookup_r _ _ _ _ _ Hd Hi) as (l & Hl%list_elem_of_lookup_2 & Hlog). eauto.
Qed.

(** [C15] Posting a count makes the books agree with it: every entity of the
    session's lines ends in the counted status and location, every other
    remnant and sheet keeps its own, each line the books disagreed with is in
    the audit log once - with the actor, the session, the reason and both
    states - and nothing else is, the session was OPEN and is POSTED by the
    actor; all in one transaction. *)
Theorem PostCycleCount_applies (HS : serial) (in_ : PostCycleCountInput) (u : unit) w w' :
  lines_unique (pcc_SessionID in_) (w_db w) → PostCycleCount in_ w = (Ok u, w') →
  (∀ l, l ∈ lines_of (pcc_SessionID in_) (w_db w) → entity_state (w_db w') (lkey l) = Some (counted l))
  ∧ (∀ e, e ∉ lkey <$> lines_of (pcc_SessionID in_) (w_db w) →
       entity_state (w_db w') e = entity_state (w_db w) e)
  ∧ differences_logged in_ (w_db w) (w_db w')
  ∧ (∃ s s', t_sessions (w_db w) !! pcc_SessionID in_ = Some s ∧ cs_Status s = "OPEN"
       ∧ t_sessions (w_db w') !! pcc_SessionID in_ = Some s' ∧ cs_Status s' = "POSTED"
       ∧ cs_PostedBy s' = Some (pcc_ActorID in_)).
Proof.
  intros Hun E. pose proof (wp_run _ _ _ _ _ E (PostCycleCount_wp HS in_ w Hun) eq_refl) as Hp. split_and!.
  - intros l. by apply posted_lines.
  - destruct Hp as (adjs & Hd & Hno & _). intros e He. apply Hno. intros Hi.
    by apply He, (diffs_keys _ _ _ _ Hd).
  - by apply posted_logged.
  - by destruct Hp as (? & _ & _ & _ & _ & Hs).
Qed.
(** A cut sheet that is back in stock is more material than the board had. *)
Lemma overdrawn d sid s k c : wf d →
  t_sheets d !! sid = Some s → sh_Status s = SheetStatusAvailable →
  t_cuts d !! k = Some c → cut_SheetID c = Some sid → (area (sh_Dimensions s) < material d sid s)%Z.
Proof using.
  intros W Hs Hst Hc Hsid. unfold material.
  pose proof (table_sum_elem _ _ _ _ (cut_share_nonneg d d sid W) Hc) as Hcut.
  pose proof (table_sum_nonneg _ _ (remnant_share_nonneg d sid W)) as Hrem.
  assert (sheet_share s = area (sh_Dimensions s)) as -> by (unfold sheet_share, uncut; by rewrite Hst).
  assert (cut_share d sid c = area (used_dim c)) as Hsh.
  { unfold cut_share, cut_board, opt_eqb. rewrite Hsid. by rewrite bool_decide_eq_true_2. }
  destruct (wf_cuts _ W k c Hc) as (_ & Hv%area_nonneg & _). lia.
Qed.

(** [C32] Whatever was cut from a sheet, a count of it as AVAILABLE puts it back
    into stock when the count is posted: from every well-formed state, for every
    sheet with a cutting record and every posted session with such a line, the
    sheet is AVAILABLE afterwards with all its records still there, every cut
    of it is enabled again, and the books hold more material of the board than
    its area - the balance is lost. *)
Theorem cycle_count_resurrects (HS : serial) (in_ : PostCycleCountInput) (u : unit) w w'
    (sid k : uuid) (s : BoardSheet) (c : CuttingRecord) (l : CycleCountLine) :
  wf (w_db w) → lines_unique (pcc_SessionID in_) (w_db w) → PostCycleCount in_ w = (Ok u, w') →
  t_sheets (w_db w) !! sid = Some s → t_cuts (w_db w) !! k = Some c → cut_SheetID c = Some sid →
  l ∈ lines_of (pcc_SessionID in_) (w_db w) → lkey l = (false, sid) →
  cl_CountedStatus l = SheetStatusAvailable →
  ∃ s', t_sheets (w_db w') !! sid = Some s' ∧ sh_Status s' = SheetStatusAvailable
    ∧ sh_Dimensions s' = sh_Dimensions s ∧ t_cuts (w_db w') = t_cuts (w_db w)
    ∧ (∀ op up, cwo_SheetUpdate op = Some up → ssu_ID up = sid → cut_enabled op (w_db w'))
    ∧ (area (sh_Dimensions s') < material (w_db w') sid s')%Z ∧ ¬ balanced (w_db w').
Proof.
  intros W Hun E Hs Hc Hsid Hl Hk Hav.
  pose proof (wp_run _ _ _ _ _ E (PostCycleCount_wp HS in_ w Hun) eq_refl) as Hp.
  pose proof (posted_lines _ _ _ l Hun Hp Hl) as Hst. rewrite Hk in Hst.
  destruct Hp as (adjs & _ & _ & _ & (d1 & (_ & Hcuts & Hdims & _) & Hd) & _).
  assert (rely guar) as HR by (intros n d; by rewrite HS).
  pose proof (proj2 (PostCycleCount_safe HR in_ w)) as W'. rewrite E in W'. specialize (W' W). simpl in W'.
  destruct (Hdims sid s Hs) as (s' & Hs' & Hdim). unfold entity_state in Hst. simpl in Hst.
  assert (t_sheets (w_db w') = t_sheets d1) as Es by by rewrite Hd.
  assert (t_cuts (w_db w') = t_cuts (w_db w)) as Ec by (rewrite Hd; exact Hcuts).
  rewrite Es, Hs' in Hst. unfold counted in Hst. rewrite Hav in Hst. injection Hst as Hst _.
  rewrite <- Es in Hs'. exists s'.
  assert (area (sh_Dimensions s') < material (w_db w') sid s')%Z as Hover
    by (eapply overdrawn; [done..| |exact Hsid]; by rewrite Ec).
  split_and!; [done..| |done|].
  - intros op up Hop <-. unfold cut_enabled. rewrite Hop. by exists s'.
  - intros Hb. specialize (Hb sid s' Hs'). lia.
Qed.
End count.

(** ** A count on the floor *)
Module Count.
Definition session : CycleCountSession := {|
  cs_ID := 50; cs_Zone := "A"; cs_Status := "OPEN"; cs_CreatedBy := 7; cs_PostedBy := None;
  cs_CreatedAt := 1; cs_PostedAt := None |}.

Definition line (id e : uuid) (st : string) : CycleCountLine := {|
  cl_ID := id; cl_SessionID := 50; cl_EntityType := entityTypeBoardSheet; cl_EntityID := e;
  cl_CountedStatus := st; cl_CountedLocationID := None; cl_Reason := "count"; cl_CreatedAt := 1 |}.

Definition db : InvDB :=
  set_lines (<[60%N := line 60 10 "ISSUED"]> (<[61%N := line 61 11 "PENDING_QC"]> ∅))
    (set_sessions {[50%N := session]} Floor.db).

Definition world1 : world InvDB unit := World db tt 0.
End Count.

Lemma PostCycleCount_applies_witness :
  let _ := Floor.oracle in let _ := Floor.deferred in let _ := Floor.deps in
  ∃ u w', PostCycleCount {| pcc_SessionID := 50; pcc_ActorID := 7 |} Count.world1 = (Ok u, w')
          ∧ entity_state (w_db w') (false, 10%N) = Some ("ISSUED", None)
          ∧ entity_state (w_db w') (false, 12%N) = Some ("PENDING_QC", None)
          ∧ ∃ k e, t_audit (w_db w') !! k = Some e ∧ logs_diff {| pcc_SessionID := 50; pcc_ActorID := 7 |}
                     Count.db (Count.line 60 10 "ISSUED") e.
Proof.
  intros. destruct (PostCycleCount {| pcc_SessionID := 50; pcc_ActorID := 7 |} Count.world1)
    as [[u|e] w'] eqn:E.
  - assert (serial) as HS by done.
    assert (lines_unique 50 (w_db Count.world1)) as Hun by (apply (bool_decide_unpack _); by vm_compute).
    pose proof (PostCycleCount_applies HS {| pcc_SessionID := 50; pcc_ActorID := 7 |} u Count.world1 w' Hun E) as (H1 & H2 & (_ & _ & H3 & _) & _).
    exists u, w'. split_and!; [done| | |].
    + apply (H1 (Count.line 60 10 "ISSUED")). by vm_compute; left.
    + rewrite H2; [done|]. apply (bool_decide_unpack _). by vm_compute.
    + destruct (H3 (Count.line 60 10 "ISSUED")) as (k & e & _ & Hk & He); [by vm_compute; left|by exists k, e].
  - vm_compute in E. discriminate E.
Defined.

(** A sheet cut to waste, then counted as found on the shelf. *)
Module Found.
Definition line : AddCountLineInput := {|
  acl_SessionID := 1011; acl_EntityType := entityTypeBoardSheet; acl_EntityID := 10;
  acl_CountedStatus := "AVAILABLE"; acl_CountedLocationID := None; acl_Reason := "found on shelf" |}.

Definition day : list inv_call :=
  [CallRecordCut (Floor.cut (mkDim 2440 1220) None);
   CallCreateCycleCountSession {| ccc_Zone := "A"; ccc_ActorID := 7 |}; CallAddCycleCountLine line].

Definition world1 : world InvDB unit :=
  let _ := Floor.oracle in let _ := Floor.deferred in let _ := Floor.deps in
  snd (serve_all day Floor.world0).

Definition post : PostCycleCountInput := {| pcc_SessionID := 1011; pcc_ActorID := 7 |}.

Lemma world1_wf : wf (w_db world1).
Proof.
  assert (@rely InvDB Floor.oracle guar) as HR by (apply Floor.rely_quiet; apply _).
  exact (proj2 (@serve_all_safe unit Floor.oracle Floor.deferred Floor.deps HR day Floor.world0) Floor.db_wf).
Qed.
End Found.

Lemma cycle_count_resurrects_witness :
  let _ := Floor.oracle in let _ := Floor.deferred in let _ := Floor.deps in
  ∃ w', PostCycleCount Found.post Found.world1 = (Ok tt, w')
    ∧ (sh_Status <$> t_sheets (w_db Found.world1) !! 10%N) = Some SheetStatusIssued
    ∧ (∃ s', t_sheets (w_db w') !! 10%N = Some s' ∧ sh_Status s' = SheetStatusAvailable)
    ∧ ¬ balanced (w_db w').
Proof.
  intros. assert (@serial InvDB Floor.oracle) as HS by done.
  assert (lines_unique 1011 (w_db Found.world1)) as Hun by (apply (bool_decide_unpack _); by vm_compute).
  destruct (PostCycleCount Found.post Found.world1) as [[[]|e] w'] eqn:E; [|vm_compute in E; discriminate E].
  destruct (t_sheets (w_db Found.world1) !! 10%N) as [s|] eqn:Hs; [|vm_compute in Hs; discriminate Hs].
  destruct (map_to_list (t_cuts (w_db Found.world1))) as [|[k c] l] eqn:Hc; [vm_compute in Hc; discriminate Hc|].
  assert (t_cuts (w_db Found.world1) !! k = Some c) as Hk
    by (apply elem_of_map_to_list; rewrite Hc; by left).
  destruct (lines_of 1011 (w_db Found.world1)) as [|x xs] eqn:Hl; [vm_compute in Hl; discriminate Hl|].
  destruct (cycle_count_resurrects HS Found.post tt Found.world1 w' 10 k s c x Found.world1_wf Hun E Hs Hk)
    as (s' & H1 & H2 & _ & _ & _ & _ & Hb).
  - vm_compute in Hc. by injection Hc as <- <- _.
  - change (x ∈ lines_of 1011 (w_db Found.world1)). rewrite Hl. by left.
  - vm_compute in Hl. by injection Hl as <- _.
  - vm_compute in Hl. by injection Hl as <- _.
  - exists w'. split; [reflexivity|]. split; [|split; [exists s'; exact (conj H1 H2)|exact Hb]].
    vm_compute in Hs. injection Hs as <-. reflexivity.
Defined.
