(* ===== verification/ProductionData.v ===== *)
(** * Production: data and tables (internal/module/production/iface.go, store.go, deps.go)

    Work orders with their consumption, labour, blocker and audit rows. *)

From S2P Require Import Prelude Domain Effects HttpKit Sql.
From stdpp Require Import base gmap strings list pretty.
From Stdlib Require Import ZArith Lia SpecFloat.

Open Scope string_scope.

(** ** iface.go *)
Record CreateWOInput := {
  cw_PlanID : uuid; cw_SKUID : uuid; cw_Quantity : Z; cw_BypassReason : string;
  cw_CallerID : option uuid; cw_SalesOrderLineID : option uuid
}.

Record WorkOrder := {
  wo_ID : uuid; wo_PlanID : uuid; wo_SKUID : uuid; wo_SKUCode : string; wo_SKUName : string;
  wo_SKUDimensions : Dimension; wo_Quantity : Z; wo_Status : string;
  wo_AssignedTo : option uuid; wo_AssignedAt : option instant;
  wo_EstimatedHours : option spec_float; wo_MachineSlotID : option uuid;
  wo_SalesOrderLineID : option uuid; wo_ActualQty : option Z; wo_ParentWOID : option uuid;
  wo_ShortfallReason : option string; wo_PriorityBoost : bool; wo_QCStatus : option string;
  wo_CreatedAt : instant
}.

Record WorkOrderListFilter := {
  wf_Status : string; wf_PlanID : option uuid; wf_CreatedFrom : option instant;
  wf_CreatedTo : option instant; wf_AssignedNull : bool; wf_AssignedTo : option uuid
}.

Record RecordConsumptionInput := {
  rci_WorkOrderID : uuid; rci_MaterialID : uuid; rci_MaterialType : string;
  rci_Quantity : spec_float; rci_Unit : string
}.

Record ConsumptionRecord := {
  con_ID : uuid; con_WorkOrderID : uuid; con_MaterialID : uuid; con_MaterialType : string;
  con_Quantity : spec_float; con_Unit : string; con_CreatedAt : instant
}.

Record PartialCompleteInput := {
  pci_WorkOrderID : uuid; pci_ActualQty : Z; pci_ShortfallReason : string;
  pci_CarryOver : bool; pci_CarryOverPlanID : option uuid; pci_CallerID : option uuid
}.

Record PartialCompleteResult := {
  pcr_WOUpdated : WorkOrder; pcr_CarryOverWO : option WorkOrder
}.

Record AssignWorkOrderInput := { awo_WorkOrderID : uuid; awo_UserID : uuid }.

Record ReassignWorkOrderInput := {
  rwo_WorkOrderID : uuid; rwo_NewUserID : uuid; rwo_Reason : string; rwo_ActorID : uuid
}.

Record ClaimWorkOrderInput := { clw_WorkOrderID : uuid; clw_UserID : uuid }.

(** [auth.Role] *)
Definition RoleAdmin : string := "admin".
Definition RoleCNC : string := "cnc".

Record AdvanceStatusInput := {
  asi_To : string; asi_SheetID : option uuid; asi_BypassOverflow : bool; asi_BypassReason : string;
  asi_CallerID : option uuid; asi_CallerRole : string
}.

Record SuggestAssignmentResult := { sar_UserID : uuid; sar_InCuttingCount : Z }.

Record RecordLaborEntryInput := {
  rle_WorkOrderID : uuid; rle_Stage : string; rle_Minutes : Z; rle_RatePerHour : Z;
  rle_WorkerID : option uuid; rle_ActorID : uuid
}.

Record LaborEntry := {
  lab_ID : uuid; lab_WorkOrderID : uuid; lab_Stage : string; lab_Minutes : Z; lab_RatePerHour : Z;
  lab_WorkerID : uuid; lab_ActorID : uuid; lab_CreatedAt : instant
}.

Record BoostWOPriorityInput := { bpi_WOID : uuid; bpi_Reason : string; bpi_ActorID : uuid }.
Record BoostWOPriorityResult := { bpr_BoostedAt : instant; bpr_AuditID : uuid }.

Record PreemptWOInput := {
  pwi_ToWOID : uuid; pwi_FromWOID : uuid; pwi_MaterialID : uuid; pwi_Reason : string; pwi_ActorID : uuid
}.
Record PreemptWOResult := { pwr_PreemptedAt : instant; pwr_AuditID : uuid; pwr_FreedQty : Z }.

Definition BlockerMaterialDelayed : string := "MATERIAL_DELAYED".
Definition BlockerMaterialRejected : string := "MATERIAL_REJECTED".
Definition BlockerMachineDown : string := "MACHINE_DOWN".
Definition BlockerOther : string := "OTHER".

Definition BlockerReason_Valid (r : string) : bool :=
  (r =s BlockerMaterialDelayed) || (r =s BlockerMaterialRejected)
  || (r =s BlockerMachineDown) || (r =s BlockerOther).

Record WOBlocker := {
  blk_ID : uuid; blk_WorkOrderID : uuid; blk_Reason : string; blk_Detail : string;
  blk_CreatedBy : uuid; blk_CreatedAt : instant; blk_ResolvedBy : option uuid;
  blk_ResolvedAt : option instant
}.

Record CreateBlockerInput := {
  cbi_WorkOrderID : uuid; cbi_Reason : string; cbi_Detail : string; cbi_CreatedBy : uuid
}.

Record ResolveBlockerInput := { rbi_BlockerID : uuid; rbi_ResolvedBy : uuid }.

(** ** store.go *)
Record partialCompleteOp := {
  pco_WorkOrderID : uuid; pco_ActualQty : Z; pco_ShortfallReason : string;
  pco_CarryOver : option WorkOrder
}.

(** Audit rows of migrations 00064 and 00075. *)
Record ReassignLog := {
  rlg_ID : uuid; rlg_WorkOrderID : uuid; rlg_FromUser : option uuid; rlg_ToUser : uuid;
  rlg_Reason : string; rlg_ActorID : uuid; rlg_CreatedAt : instant
}.

Record BoostLog := {
  blg_ID : uuid; blg_WOID : uuid; blg_Reason : string; blg_ActorID : uuid; blg_CreatedAt : instant
}.

Record PreemptLog := {
  plg_ID : uuid; plg_FromWO : uuid; plg_ToWO : uuid; plg_MaterialID : uuid; plg_FreedQty : Z;
  plg_Reason : string; plg_ActorID : uuid; plg_CreatedAt : instant
}.

(** ** deps.go *)
Record PlanInfo := { pli_ID : uuid; pli_Status : string; pli_SKUIDs : list uuid }.
Record SKUInfo := { ski_ID : uuid; ski_RequiresMetal : bool; ski_Dimensions : Dimension }.
Record UserInfo := { usi_ID : uuid; usi_Role : string; usi_IsActive : bool }.

Record PreAssignSheetRequest := {
  par_SheetID : uuid; par_WorkOrderID : uuid; par_BypassOverflow : bool; par_ActorID : uuid;
  par_Reason : string
}.

Record LogRemnantBypassRequest := {
  lbr_WorkOrderID : uuid; lbr_ActorID : uuid; lbr_SuggestedRemnantIDs : list uuid; lbr_Reason : string
}.

Record WOCompletedEvent := {
  wce_WorkOrderID : uuid; wce_SKUID : uuid; wce_SKUCode : string; wce_SKUName : string;
  wce_Dimensions : string; wce_Quantity : Z; wce_SalesOrderLineID : option uuid;
  wce_ProductionPlanID : uuid; wce_QCPassedBy : uuid
}.

Record CostingChecker (X : Type) := {
  HasCostingRecord : uuid → dep X bool;
  IsCostingFinalized : uuid → dep X bool
}.
Arguments HasCostingRecord {X}. Arguments IsCostingFinalized {X}.

Record RemnantAdvisor (X : Type) := {
  ra_SuggestRemnants : Dimension → dep X (list uuid);
  ra_LogRemnantBypass : LogRemnantBypassRequest → dep X unit
}.
Arguments ra_SuggestRemnants {X}. Arguments ra_LogRemnantBypass {X}.

Record WorkOrderNotifier (X : Type) := {
  NotifyAssignment : uuid → uuid → string → dep X unit;
  NotifyWOStatusChanged : uuid → string → dep X unit
}.
Arguments NotifyAssignment {X}. Arguments NotifyWOStatusChanged {X}.

(** The collaborators of the service; all but the first two may be nil. *)
Class ProductionDeps (X : Type) := {
  pc_GetPlan : uuid → dep X PlanInfo;
  sc_GetSKU : uuid → dep X SKUInfo;
  uc : option (uuid → dep X UserInfo);
  sa : option (PreAssignSheetRequest → dep X unit);
  cc : option (CostingChecker X);
  ra : option (RemnantAdvisor X);
  stk : option (uuid → dep X Z);
  br : option (uuid → dep X (list uuid));
  wo_notifier : option (WorkOrderNotifier X);
  fgHook : option (WOCompletedEvent → dep X unit)
}.

(** ** Row updates *)
Definition wo_set_status (st : string) (w : WorkOrder) : WorkOrder :=
  {| wo_ID := wo_ID w; wo_PlanID := wo_PlanID w; wo_SKUID := wo_SKUID w; wo_SKUCode := wo_SKUCode w;
     wo_SKUName := wo_SKUName w; wo_SKUDimensions := wo_SKUDimensions w; wo_Quantity := wo_Quantity w;
     wo_Status := st; wo_AssignedTo := wo_AssignedTo w; wo_AssignedAt := wo_AssignedAt w;
     wo_EstimatedHours := wo_EstimatedHours w; wo_MachineSlotID := wo_MachineSlotID w;
     wo_SalesOrderLineID := wo_SalesOrderLineID w; wo_ActualQty := wo_ActualQty w;
     wo_ParentWOID := wo_ParentWOID w; wo_ShortfallReason := wo_ShortfallReason w;
     wo_PriorityBoost := wo_PriorityBoost w; wo_QCStatus := wo_QCStatus w;
     wo_CreatedAt := wo_CreatedAt w |}.

Definition wo_set_assignee (u : uuid) (at_ : instant) (w : WorkOrder) : WorkOrder :=
  {| wo_ID := wo_ID w; wo_PlanID := wo_PlanID w; wo_SKUID := wo_SKUID w; wo_SKUCode := wo_SKUCode w;
     wo_SKUName := wo_SKUName w; wo_SKUDimensions := wo_SKUDimensions w; wo_Quantity := wo_Quantity w;
     wo_Status := wo_Status w; wo_AssignedTo := Some u; wo_AssignedAt := Some at_;
     wo_EstimatedHours := wo_EstimatedHours w; wo_MachineSlotID := wo_MachineSlotID w;
     wo_SalesOrderLineID := wo_SalesOrderLineID w; wo_ActualQty := wo_ActualQty w;
     wo_ParentWOID := wo_ParentWOID w; wo_ShortfallReason := wo_ShortfallReason w;
     wo_PriorityBoost := wo_PriorityBoost w; wo_QCStatus := wo_QCStatus w;
     wo_CreatedAt := wo_CreatedAt w |}.

Definition wo_set_partial (actual : Z) (reason : string) (w : WorkOrder) : WorkOrder :=
  {| wo_ID := wo_ID w; wo_PlanID := wo_PlanID w; wo_SKUID := wo_SKUID w; wo_SKUCode := wo_SKUCode w;
     wo_SKUName := wo_SKUName w; wo_SKUDimensions := wo_SKUDimensions w; wo_Quantity := wo_Quantity w;
     wo_Status := WOPartialComplete; wo_AssignedTo := wo_AssignedTo w; wo_AssignedAt := wo_AssignedAt w;
     wo_EstimatedHours := wo_EstimatedHours w; wo_MachineSlotID := wo_MachineSlotID w;
     wo_SalesOrderLineID := wo_SalesOrderLineID w; wo_ActualQty := Some actual;
     wo_ParentWOID := wo_ParentWOID w; wo_ShortfallReason := Some reason;
     wo_PriorityBoost := wo_PriorityBoost w; wo_QCStatus := wo_QCStatus w;
     wo_CreatedAt := wo_CreatedAt w |}.

Definition wo_set_flags (boost : bool) (qc : option string) (w : WorkOrder) : WorkOrder :=
  {| wo_ID := wo_ID w; wo_PlanID := wo_PlanID w; wo_SKUID := wo_SKUID w; wo_SKUCode := wo_SKUCode w;
     wo_SKUName := wo_SKUName w; wo_SKUDimensions := wo_SKUDimensions w; wo_Quantity := wo_Quantity w;
     wo_Status := wo_Status w; wo_AssignedTo := wo_AssignedTo w; wo_AssignedAt := wo_AssignedAt w;
     wo_EstimatedHours := wo_EstimatedHours w; wo_MachineSlotID := wo_MachineSlotID w;
     wo_SalesOrderLineID := wo_SalesOrderLineID w; wo_ActualQty := wo_ActualQty w;
     wo_ParentWOID := wo_ParentWOID w; wo_ShortfallReason := wo_ShortfallReason w;
     wo_PriorityBoost := boost; wo_QCStatus := qc; wo_CreatedAt := wo_CreatedAt w |}.

Definition wo_set_sku (code name : string) (dims : Dimension) (w : WorkOrder) : WorkOrder :=
  {| wo_ID := wo_ID w; wo_PlanID := wo_PlanID w; wo_SKUID := wo_SKUID w; wo_SKUCode := code;
     wo_SKUName := name; wo_SKUDimensions := dims; wo_Quantity := wo_Quantity w;
     wo_Status := wo_Status w; wo_AssignedTo := wo_AssignedTo w; wo_AssignedAt := wo_AssignedAt w;
     wo_EstimatedHours := wo_EstimatedHours w; wo_MachineSlotID := wo_MachineSlotID w;
     wo_SalesOrderLineID := wo_SalesOrderLineID w; wo_ActualQty := wo_ActualQty w;
     wo_ParentWOID := wo_ParentWOID w; wo_ShortfallReason := wo_ShortfallReason w;
     wo_PriorityBoost := wo_PriorityBoost w; wo_QCStatus := wo_QCStatus w;
     wo_CreatedAt := wo_CreatedAt w |}.

Definition blk_resolve (by_ : uuid) (at_ : instant) (b : WOBlocker) : WOBlocker :=
  {| blk_ID := blk_ID b; blk_WorkOrderID := blk_WorkOrderID b; blk_Reason := blk_Reason b;
     blk_Detail := blk_Detail b; blk_CreatedBy := blk_CreatedBy b; blk_CreatedAt := blk_CreatedAt b;
     blk_ResolvedBy := Some by_; blk_ResolvedAt := Some at_ |}.

(** ** The tables: those of the module, then the columns it reads of others *)
Record SKURow := { skr_Code : string; skr_Name : string; skr_Dimensions : Dimension }.

Record ProdDB := mkProdDB {
  p_wos : gmap uuid WorkOrder;
  p_cons : gmap uuid ConsumptionRecord;
  p_labor : gmap uuid LaborEntry;
  p_blockers : gmap uuid WOBlocker;
  p_reassigns : gmap uuid ReassignLog;
  p_boosts : gmap uuid BoostLog;
  p_preempts : gmap uuid PreemptLog;
  p_skus : gmap uuid SKURow;
  p_users : gmap uuid string;
  p_plans : gset uuid;
  p_materials : gset uuid;
  p_so_lines : gset uuid
}.

Definition set_wos m (d : ProdDB) := mkProdDB m (p_cons d) (p_labor d) (p_blockers d)
  (p_reassigns d) (p_boosts d) (p_preempts d) (p_skus d) (p_users d) (p_plans d) (p_materials d) (p_so_lines d).
Definition set_cons m (d : ProdDB) := mkProdDB (p_wos d) m (p_labor d) (p_blockers d)
  (p_reassigns d) (p_boosts d) (p_preempts d) (p_skus d) (p_users d) (p_plans d) (p_materials d) (p_so_lines d).
Definition set_labor m (d : ProdDB) := mkProdDB (p_wos d) (p_cons d) m (p_blockers d)
  (p_reassigns d) (p_boosts d) (p_preempts d) (p_skus d) (p_users d) (p_plans d) (p_materials d) (p_so_lines d).
Definition set_blockers m (d : ProdDB) := mkProdDB (p_wos d) (p_cons d) (p_labor d) m
  (p_reassigns d) (p_boosts d) (p_preempts d) (p_skus d) (p_users d) (p_plans d) (p_materials d) (p_so_lines d).
Definition set_reassigns m (d : ProdDB) := mkProdDB (p_wos d) (p_cons d) (p_labor d) (p_blockers d)
  m (p_boosts d) (p_preempts d) (p_skus d) (p_users d) (p_plans d) (p_materials d) (p_so_lines d).
Definition set_boosts m (d : ProdDB) := mkProdDB (p_wos d) (p_cons d) (p_labor d) (p_blockers d)
  (p_reassigns d) m (p_preempts d) (p_skus d) (p_users d) (p_plans d) (p_materials d) (p_so_lines d).
Definition set_preempts m (d : ProdDB) := mkProdDB (p_wos d) (p_cons d) (p_labor d) (p_blockers d)
  (p_reassigns d) (p_boosts d) m (p_skus d) (p_users d) (p_plans d) (p_materials d) (p_so_lines d).
