(* ===== verification/ProductionStore.v ===== *)
(** * Production: the PostgreSQL store (internal/module/production/pgstore.go)

    Each store method as the statements it issues, with the foreign keys and
    CHECK constraints of migrations/. *)

From S2P Require Import Prelude Domain Effects HttpKit Sql ProductionData.
From stdpp Require Import base gmap strings list sorting.
From Stdlib Require Import ZArith Lia SpecFloat.

Open Scope string_scope.

(** Whether the server locks a row through the nullable side of an outer join.
    PostgreSQL does not: [SELECT ... LEFT JOIN ... FOR UPDATE] fails with 0A000
    unless FOR UPDATE OF names the other side, so there the field is [false]. *)
Class Postgres := { for_update_outer : bool }.

Definition pg_feature_not_supported : error := EOther "0A000 feature_not_supported".

Definition fk_set_opt (k : option uuid) (s : gset uuid) : bool :=
  match k with None => true | Some k => bool_decide (k ∈ s) end.

Definition validShortfallReason (r : string) : bool :=
  (r =s "MATERIAL_SHORTAGE") || (r =s "DEFECT") || (r =s "TIME_SHORTAGE") || (r =s "OTHER").

(** ** Statements *)

(** The columns the INSERT leaves out take their defaults. *)
Definition wo_inserted (wo : WorkOrder) : WorkOrder :=
  {| wo_ID := wo_ID wo; wo_PlanID := wo_PlanID wo; wo_SKUID := wo_SKUID wo; wo_SKUCode := "";
     wo_SKUName := ""; wo_SKUDimensions := mkDim 0 0; wo_Quantity := wo_Quantity wo;
     wo_Status := wo_Status wo; wo_AssignedTo := None; wo_AssignedAt := None;
     wo_EstimatedHours := None; wo_MachineSlotID := None;
     wo_SalesOrderLineID := wo_SalesOrderLineID wo; wo_ActualQty := None;
     wo_ParentWOID := wo_ParentWOID wo; wo_ShortfallReason := None; wo_PriorityBoost := false;
     wo_QCStatus := None; wo_CreatedAt := wo_CreatedAt wo |}.

Definition wo_insert (wo : WorkOrder) : stmt (D:=ProdDB) unit := λ d,
  _ ← require (int4 (wo_Quantity wo)) pg_out_of_range;
  _ ← require (bool_decide (wo_PlanID wo ∈ p_plans d) && fk_ok (wo_SKUID wo) (p_skus d)
               && fk_set_opt (wo_SalesOrderLineID wo) (p_so_lines d)
               && fk_opt_ok (wo_ParentWOID wo) (p_wos d)) pg_fk_violation;
  t ← sql_insert (wo_ID wo) (wo_inserted wo) (p_wos d);
  mret (tt, set_wos t d).

Definition wo_update (id : uuid) (f : WorkOrder → WorkOrder) : stmt (D:=ProdDB) Z := λ d,
  let (n, t) := sql_update id f (p_wos d) in Ok (n, set_wos t d).

(** chk_actual_qty and chk_shortfall_reason *)
Definition wo_update_partial (id : uuid) (actual : Z) (reason : string) : stmt (D:=ProdDB) Z := λ d,
  _ ← require (is_none (p_wos d !! id) || int4 actual) pg_out_of_range;
  _ ← require (match p_wos d !! id with
               | None => true
               | Some w => ((0 <=? actual) && (actual <=? wo_Quantity w))%Z && validShortfallReason reason
               end) pg_check_violation;
  wo_update id (wo_set_partial actual reason) d.

(** [assigned_to] refers to [users]. *)
Definition wo_update_assignee (id : uuid) (u : uuid) (p : WorkOrder → bool) (at_ : instant)
    : stmt (D:=ProdDB) Z := λ d,
  match p_wos d !! id with
  | Some w => if p w then
      _ ← require (fk_ok u (p_users d)) pg_fk_violation;
      wo_update id (wo_set_assignee u at_) d
    else Ok (0%Z, d)
  | None => Ok (0%Z, d)
  end.

Definition con_insert (c : ConsumptionRecord) : stmt (D:=ProdDB) unit := λ d,
  _ ← require (fk_ok (con_WorkOrderID c) (p_wos d) && bool_decide (con_MaterialID c ∈ p_materials d))
        pg_fk_violation;
  t ← sql_insert (con_ID c) c (p_cons d); mret (tt, set_cons t d).

Definition labor_insert (e : LaborEntry) : stmt (D:=ProdDB) unit := λ d,
  _ ← require (int4 (lab_Minutes e)) pg_out_of_range;
  _ ← require (LaborStage_Valid (lab_Stage e) && (0 <? lab_Minutes e)%Z && (0 <=? lab_RatePerHour e)%Z)
        pg_check_violation;
  _ ← require (fk_ok (lab_WorkOrderID e) (p_wos d) && fk_ok (lab_WorkerID e) (p_users d)
               && fk_ok (lab_ActorID e) (p_users d)) pg_fk_violation;
  t ← sql_insert (lab_ID e) e (p_labor d); mret (tt, set_labor t d).

Definition blocker_insert (b : WOBlocker) : stmt (D:=ProdDB) unit := λ d,
  _ ← require (BlockerReason_Valid (blk_Reason b)) pg_check_violation;
  _ ← require (fk_ok (blk_WorkOrderID b) (p_wos d)) pg_fk_violation;
  t ← sql_insert (blk_ID b) b (p_blockers d); mret (tt, set_blockers t d).

Definition reassign_log (l : ReassignLog) : stmt (D:=ProdDB) unit := λ d,
  _ ← require (fk_ok (rlg_WorkOrderID l) (p_wos d)) pg_fk_violation;
  t ← sql_insert (rlg_ID l) l (p_reassigns d); mret (tt, set_reassigns t d).

Definition boost_log (l : BoostLog) : stmt (D:=ProdDB) unit := λ d,
  _ ← require (fk_ok (blg_WOID l) (p_wos d) && fk_ok (blg_ActorID l) (p_users d)) pg_fk_violation;
  t ← sql_insert (blg_ID l) l (p_boosts d); mret (tt, set_boosts t d).

(** freed_qty is NUMERIC(12,3) with a positivity check. *)
Definition preempt_log (l : PreemptLog) : stmt (D:=ProdDB) unit := λ d,
  _ ← require (Z.abs (plg_FreedQty l) <? 10 ^ 9)%Z pg_out_of_range;
  _ ← require (0 <? plg_FreedQty l)%Z pg_check_violation;
  _ ← require (fk_ok (plg_FromWO l) (p_wos d) && fk_ok (plg_ToWO l) (p_wos d)
               && bool_decide (plg_MaterialID l ∈ p_materials d) && fk_ok (plg_ActorID l) (p_users d))
        pg_fk_violation;
  t ← sql_insert (plg_ID l) l (p_preempts d); mret (tt, set_preempts t d).

(** ** Store methods *)
Section store.
Context {X : Type} `{!Oracle ProdDB} `{!Postgres}.
Local Abbreviation M := (M ProdDB X).

Definition insertWorkOrder (wo : WorkOrder) : M unit := exec "insert work order" (wo_insert wo).

(** The projection [selectWOCols]: LEFT JOIN skus. *)
Definition wo_join (d : ProdDB) (w : WorkOrder) : WorkOrder :=
  match p_skus d !! wo_SKUID w with
  | Some s => wo_set_sku (skr_Code s) (skr_Name s) (skr_Dimensions s) w
  | None => wo_set_sku "" "" (mkDim 0 0) w
  end.

Definition selectWorkOrderByID (id : uuid) : M WorkOrder :=
  query_row "select work order" (λ d, wo_join d <$> p_wos d !! id) (ESentinel ErrNotFound).

Definition wo_matches (f : WorkOrderListFilter) (w : WorkOrder) : bool :=
  ((wf_Status f =s "") || (wo_Status w =s wf_Status f))
  && match wf_PlanID f with None => true | Some p => (wo_PlanID w =? p)%N end
  && match wf_CreatedFrom f with None => true | Some t => (t <=? wo_CreatedAt w)%Z end
  && match wf_CreatedTo f with None => true | Some t => (wo_CreatedAt w <? t)%Z end
  && (negb (wf_AssignedNull f) || is_none (wo_AssignedTo w))
  && match wf_AssignedTo f with None => true | Some u => opt_eqb (wo_AssignedTo w) (Some u) end.

Definition wo_key (w : WorkOrder) : Cursor := mkCursor (wo_CreatedAt w) (wo_ID w).

Definition selectWorkOrdersKeyset (f : WorkOrderListFilter) (cur : Cursor) (limit : Z) : M (list WorkOrder) :=
  query "select work orders" (λ d,
    wo_join d <$> keyset_select wo_key (sql_where (wo_matches f) (p_wos d)) cur limit).

Definition selectWorkOrdersByPlan (planID : uuid) : M (list WorkOrder) :=
  query "select work orders by plan" (λ d,
    wo_join d <$> sql_order wo_CreatedAt wo_ID (sql_where (λ w, (wo_PlanID w =? planID)%N) (p_wos d))).

Definition selectWorkOrdersByAssignee (userID : uuid) : M (list WorkOrder) :=
  query "select work orders by assignee" (λ d,
    wo_join d <$> sql_order (λ w, - wo_CreatedAt w)%Z wo_ID
      (sql_where (λ w, opt_eqb (wo_AssignedTo w) (Some userID)) (p_wos d))).

Definition updateWorkOrderStatus (id : uuid) (status : string) : M unit :=
  exec "update work order status" (wo_update id (wo_set_status status));;
  mret tt.

Definition updateWorkOrderAssignment (woID userID : uuid) (assignedAt : instant) : M unit :=
  n ← exec "update work order assignment"
        (wo_update_assignee woID userID (λ w, wo_Status w =s "PLANNED") assignedAt);
  fail_if (n =? 0)%Z (NewBizError ErrPreconditionFailed
    "work order has already started cutting and cannot be reassigned").

(** [SELECT ... LEFT JOIN skus ... FOR UPDATE] *)
Definition lock_joined_wo (woID : uuid) : M WorkOrder :=
  texec "lock work order" (λ d,
    if for_update_outer
    then match p_wos d !! woID with
         | Some w => Ok (wo_join d w, d)
         | None => Err (ESentinel ErrNotFound)
         end
    else Err pg_feature_not_supported).

Definition reassignWorkOrderAtomically (woID newUser : uuid) (reason : string) (actor logID : uuid)
    (at_ : instant) : M WorkOrder :=
  tx (wo ← lock_joined_wo woID;
      fail_if ((wo_Status wo <>s WOInCutting) && (wo_Status wo <>s WOInProcessing))
        (NewBizError ErrPreconditionFailed "work order must be IN_CUTTING or IN_PROCESSING to be reassigned");;
      texec "reassign" (wo_update_assignee woID newUser (λ _, true) at_);;
      texec "insert reassign log" (reassign_log {| rlg_ID := logID; rlg_WorkOrderID := woID;
        rlg_FromUser := wo_AssignedTo wo; rlg_ToUser := newUser; rlg_Reason := reason;
        rlg_ActorID := actor; rlg_CreatedAt := at_ |});;
      mret (wo_set_assignee newUser at_ wo)).

Definition claimWorkOrderAtomically (woID userID : uuid) (at_ : instant) : M WorkOrder :=
  tx (wo ← lock_joined_wo woID;
      fail_if (wo_Status wo <>s WOPlanned)
        (NewBizError ErrPreconditionFailed "work order must be PLANNED to be claimed");;
      fail_if (is_some (wo_AssignedTo wo))
        (NewBizError ErrPreconditionFailed "work order is already claimed by another operator");;
      texec "claim" (wo_update_assignee woID userID (λ _, true) at_);;
      mret (wo_set_assignee userID at_ wo)).

(** CHECK (qc_status IN ('QC_PASSED', 'QC_FAILED')) *)
Definition updateWorkOrderQCStatus (woID : uuid) (status : string) : M unit :=
  exec "update qc status" (λ d,
    _ ← require (is_none (p_wos d !! woID) || (status =s "QC_PASSED") || (status =s "QC_FAILED"))
          pg_check_violation;
    wo_update woID (λ w, wo_set_flags (wo_PriorityBoost w) (Some status) w) d);;
  mret tt.

Definition insertConsumption (c : ConsumptionRecord) : M unit := exec "insert consumption" (con_insert c).

Definition selectConsumptionsByWO (woID : uuid) : M (list ConsumptionRecord) :=
  query "select consumptions" (λ d,
    sql_order con_CreatedAt con_ID (sql_where (λ c, (con_WorkOrderID c =? woID)%N) (p_cons d))).

Definition metal_of (woID : uuid) (d : ProdDB) : bool :=
  existsb (λ c, (con_WorkOrderID c =? woID)%N && (con_MaterialType c =s "METAL")) (table_rows (p_cons d)).

Definition hasMetalConsumption (woID : uuid) : M bool := query "has metal consumption" (metal_of woID).

(** The load of one operator; the map's missing keys read as zero. *)
Definition cutting_load (d : ProdDB) (u : uuid) : Z :=
  zlen (sql_where (λ w, (wo_Status w =s "IN_CUTTING") && opt_eqb (wo_AssignedTo w) (Some u)) (p_wos d)).

Definition selectInCuttingCountByUser : M (uuid → Z) := query "select in-cutting count" cutting_load.

Definition cnc_users (d : ProdDB) : list uuid :=
  merge_sort N.le ((filter (λ kv, (kv.2 =s "cnc") = true) (map_to_list (p_users d))).*1).

Definition selectCNCUserIDs : M (list uuid) := query "select cnc users" cnc_users.

Definition insertLaborEntry (e : LaborEntry) : M unit := exec "insert labor entry" (labor_insert e).

Definition labor_of (woID : uuid) (d : ProdDB) : list LaborEntry :=
  sql_order lab_CreatedAt lab_ID (sql_where (λ e, (lab_WorkOrderID e =? woID)%N) (p_labor d)).

Definition selectLaborEntriesByWO (woID : uuid) : M (list LaborEntry) :=
  query "select labor entries" (labor_of woID).

(** [minutes::bigint * rate_per_hour] must fit a bigint. *)
Definition sumLaborMinuteRateByWO (woID : uuid) : M Z :=
  s ← query "sum labor" (λ d,
    let ps := (λ e, lab_Minutes e * lab_RatePerHour e)%Z <$> labor_of woID d in
    if forallb (λ p, (p <? 2 ^ 63)%Z) ps then Some (zsum id ps) else None);
  match s with Some z => scan_int64 z | None => throw pg_out_of_range end.

Definition listStatusesByPlan (planID : uuid) : M (list string) :=
  query "list statuses" (λ d, wo_Status <$> sql_where (λ w, (wo_PlanID w =? planID)%N) (p_wos d)).

Definition planned_of (planID : uuid) (w : WorkOrder) : bool :=
  (wo_PlanID w =? planID)%N && (wo_Status w =s "PLANNED").

Definition cancelPlannedByPlan (planID : uuid) : M Z :=
  exec "cancel planned" (λ d,
    let (n, t) := sql_update_where (planned_of planID) (wo_set_status "CANCELED") (p_wos d) in
    Ok (n, set_wos t d)).

Definition partialCompleteAtomically (op : partialCompleteOp) : M (WorkOrder * option WorkOrder) :=
  tx (status ← tquery_row "lock work order" (λ d, wo_Status <$> p_wos d !! pco_WorkOrderID op)
        (ESentinel ErrNotFound);
      fail_if (status <>s WOInProcessing)
        (NewBizError ErrInvalidTransition ("partial-complete requires status IN_PROCESSING, current=" ++ status));;
      texec "update wo partial-complete"
        (wo_update_partial (pco_WorkOrderID op) (pco_ActualQty op) (pco_ShortfallReason op));;
      match pco_CarryOver op with
      | Some c => texec "insert carry-over wo" (wo_insert c)
      | None => mret tt
      end);;
  parent ← selectWorkOrderByID (pco_WorkOrderID op);
  match pco_CarryOver op with
  | Some c => carry ← selectWorkOrderByID (wo_ID c); mret (parent, Some carry)
  | None => mret (parent, None)
  end.

Definition setPriorityBoostAtomically (in_ : BoostWOPriorityInput) : M (uuid * instant) :=
  tx (texec "set priority_boost" (wo_update (bpi_WOID in_) (λ w, wo_set_flags true (wo_QCStatus w) w));;
      auditID ← new_uuid;
      at_ ← now;
      texec "insert boost log" (boost_log {| blg_ID := auditID; blg_WOID := bpi_WOID in_;
        blg_Reason := bpi_Reason in_; blg_ActorID := bpi_ActorID in_; blg_CreatedAt := at_ |});;
      mret (auditID, at_)).

Definition preemptAtomically (in_ : PreemptWOInput) : M (uuid * instant * Z) :=
  tx ('(fromStatus, fromQty) ← tquery_row "lock from_wo"
        (λ d, (λ w, (wo_Status w, wo_Quantity w)) <$> p_wos d !! pwi_FromWOID in_) (ESentinel ErrNotFound);
      tquery "lock to_wo" (λ _, tt);;
      fail_if ((fromStatus <>s WOPlanned) && (fromStatus <>s WOInCutting))
        (NewBizError ErrPreconditionFailed ("cannot preempt work order in status " ++ fromStatus
           ++ ": only PLANNED or IN_CUTTING is allowed"));;
      texec "revert from_wo" (wo_update (pwi_FromWOID in_) (wo_set_status WOPlanned));;
      auditID ← new_uuid;
      at_ ← now;
      texec "insert preemption log" (preempt_log {| plg_ID := auditID; plg_FromWO := pwi_FromWOID in_;
        plg_ToWO := pwi_ToWOID in_; plg_MaterialID := pwi_MaterialID in_; plg_FreedQty := fromQty;
        plg_Reason := pwi_Reason in_; plg_ActorID := pwi_ActorID in_; plg_CreatedAt := at_ |});;
      mret (auditID, at_, fromQty)).

Definition insertBlocker (b : WOBlocker) : M unit := exec "insert blocker" (blocker_insert b).

Definition getBlocker (id : uuid) : M WOBlocker :=
  query_row "get blocker" (λ d, p_blockers d !! id) (NewBizError ErrNotFound "blocker not found").

(** [UPDATE ... WHERE id = $1 AND resolved_at IS NULL RETURNING ...] *)
Definition resolveBlocker (id by_ : uuid) (at_ : instant) : M WOBlocker :=
  exec "resolve blocker" (λ d,
    match p_blockers d !! id with
    | Some b => if is_none (blk_ResolvedAt b)
                then Ok (blk_resolve by_ at_ b, set_blockers (<[id := blk_resolve by_ at_ b]> (p_blockers d)) d)
                else Err (NewBizError ErrPreconditionFailed "blocker not found or already resolved")
    | None => Err (NewBizError ErrPreconditionFailed "blocker not found or already resolved")
    end).

Definition listBlockers (woID : uuid) : M (list WOBlocker) :=
  query "list blockers" (λ d,
    sql_order blk_CreatedAt blk_ID (sql_where (λ b, (blk_WorkOrderID b =? woID)%N) (p_blockers d))).

Definition open_blocker (woID : uuid) (b : WOBlocker) : bool :=
  (blk_WorkOrderID b =? woID)%N && is_none (blk_ResolvedAt b).

Definition countOpenBlockers (woID : uuid) : M Z :=
  query "count open blockers" (λ d, zlen (sql_where (open_blocker woID) (p_blockers d))).
End store.
