(* ===== verification/ProductionService.v ===== *)
(** * Production: the service (internal/module/production/service.go)

    The work-order handlers over the store and the collaborators of deps.go.
    Notifications and the finished-goods hook are best effort: their errors are
    logged and dropped.  A nil collaborator is [None]; where the code calls one
    without testing it for nil, the handler panics and returns no row. *)

From S2P Require Import Prelude Domain Effects HttpKit Sql ProductionData ProductionStore.
From stdpp Require Import base gmap strings list pretty.
From Stdlib Require Import ZArith Lia SpecFloat.

Open Scope string_scope.

(** [Dimension.String] *)
Definition Dimension_String (d : Dimension) : string :=
  itoa (LengthMM d) ++ "x" ++ itoa (WidthMM d) ++ "mm".

Definition planContainsSKU (plan : PlanInfo) (skuID : uuid) : bool :=
  existsb (λ id, (id =? skuID)%N) (pli_SKUIDs plan).

Definition nil_dereference : error := EOther "nil pointer dereference".

(** The load of each candidate in turn; a strictly smaller one wins. *)
Fixpoint least_busy (load : uuid → Z) (best : uuid) (bestCount : Z) (l : list uuid)
    : SuggestAssignmentResult :=
  match l with
  | [] => {| sar_UserID := best; sar_InCuttingCount := bestCount |}
  | u :: l' => if (load u <? bestCount)%Z then least_busy load u (load u) l'
               else least_busy load best bestCount l'
  end.

Section service.
Context {X : Type} `{!Oracle ProdDB} `{!Postgres} `{!ProductionDeps X} `{!CursorCodec}.
Local Abbreviation M := (M ProdDB X).

Definition notify_status (id : uuid) (status : string) : M unit :=
  match wo_notifier with
  | Some n => best_effort (call_dep (NotifyWOStatusChanged n id status))
  | None => mret tt
  end.

(** ** Creation and queries *)

(** BR-K01: every sheet material of the BOM has that many sheets in stock. *)
Definition stock_check (skuID : uuid) (quantity : Z) : M unit :=
  match stk, br with
  | Some count, Some bom =>
      reqs ← call_dep (bom skuID);
      mfor (λ _ m,
        n ← call_dep (count m);
        fail_if (n <? quantity)%Z (NewBizError ErrInsufficientStock
          ("không đủ tấm vật tư khả dụng cho work order — cần " ++ itoa quantity ++ ", còn " ++ itoa n)))
        reqs tt
  | _, _ => mret tt
  end.

(** BR-K05: the remnants the planner did not use are logged. *)
Definition log_bypass (woID : uuid) (dims : Dimension) (caller : option uuid) (reason : string) : M unit :=
  match ra, caller with
  | Some a, Some actor =>
      if Dim_Valid dims then
        s ← try (call_dep (ra_SuggestRemnants a dims));
        match s with
        | Ok ((_ :: _) as ids) =>
            best_effort (call_dep (ra_LogRemnantBypass a {| lbr_WorkOrderID := woID;
              lbr_ActorID := actor; lbr_SuggestedRemnantIDs := ids; lbr_Reason := reason |}))
        | _ => mret tt
        end
      else mret tt
  | _, _ => mret tt
  end.

Definition new_wo (id planID skuID : uuid) (qty : Z) (sol parent : option uuid) (at_ : instant) : WorkOrder :=
  {| wo_ID := id; wo_PlanID := planID; wo_SKUID := skuID; wo_SKUCode := ""; wo_SKUName := "";
     wo_SKUDimensions := mkDim 0 0; wo_Quantity := qty; wo_Status := WOPlanned;
     wo_AssignedTo := None; wo_AssignedAt := None; wo_EstimatedHours := None;
     wo_MachineSlotID := None; wo_SalesOrderLineID := sol; wo_ActualQty := None;
     wo_ParentWOID := parent; wo_ShortfallReason := None; wo_PriorityBoost := false;
     wo_QCStatus := None; wo_CreatedAt := at_ |}.

Definition CreateWorkOrder (in_ : CreateWOInput) : M WorkOrder :=
  plan ← call_dep (pc_GetPlan (cw_PlanID in_));
  fail_if (pli_Status plan <>s PlanApproved)
    (NewBizError ErrPreconditionFailed "production plan must be approved");;
  fail_if (negb (planContainsSKU plan (cw_SKUID in_)))
    (NewBizError ErrPreconditionFailed "SKU does not belong to this production plan");;
  fail_if (cw_Quantity in_ <=? 0)%Z
    (NewBizError ErrInvalidInput "quantity must be greater than 0");;
  sku ← call_dep (sc_GetSKU (cw_SKUID in_));
  stock_check (cw_SKUID in_) (cw_Quantity in_);;
  at_ ← now;
  id ← new_uuid;
  let wo := new_wo id (cw_PlanID in_) (cw_SKUID in_) (cw_Quantity in_) (cw_SalesOrderLineID in_) None at_ in
  insertWorkOrder wo;;
  log_bypass id (ski_Dimensions sku) (cw_CallerID in_) (cw_BypassReason in_);;
  mret wo.

Definition GetWorkOrder (woID : uuid) : M WorkOrder := selectWorkOrderByID woID.

Definition ListWorkOrdersKeyset (p : CursorParams) (f : WorkOrderListFilter) : M (CursorResult WorkOrder) :=
  match Decoded p with
  | Err _ => throw (NewBizError ErrInvalidInput "invalid cursor")
  | Ok cur =>
      rows ← selectWorkOrdersKeyset f cur (wrap64 (cp_Limit p + 1));
      mret (NewCursorResult rows (cp_Limit p) wo_key)
  end.

Definition ListWorkOrdersByPlan (planID : uuid) : M (list WorkOrder) := selectWorkOrdersByPlan planID.

Definition ListWorkOrdersByAssignee (userID : uuid) : M (list WorkOrder) := selectWorkOrdersByAssignee userID.

(** ** AdvanceStatus *)

Definition blocker_guard (woID : uuid) : M unit :=
  n ← wrap_err "count open blockers" (countOpenBlockers woID);
  fail_if (0 <? n)%Z (NewBizError ErrPreconditionFailed
    ("work order has " ++ itoa n ++ " open blocker(s); resolve all blockers before advancing")).

(** Spec 5.1; an admin overrides it. *)
Definition assignment_guard (wo : WorkOrder) (in_ : AdvanceStatusInput) : option error :=
  if (asi_To in_ =s WOInCutting) && (asi_CallerRole in_ <>s RoleAdmin) then
    match wo_AssignedTo wo with
    | None => Some (NewBizError ErrPreconditionFailed
                "work order must be assigned to a CNC operator before cutting starts")
    | Some u =>
        match asi_CallerID in_ with
        | Some c => if (c =? u)%N then None else Some (NewBizError ErrPreconditionFailed
                      "only the assigned CNC operator can start cutting this work order")
        | None => None
        end
    end
  else None.

Definition costing_guard (woID : uuid) (in_ : AdvanceStatusInput) : M unit :=
  match cc with
  | Some c =>
      if asi_To in_ =s WOInCutting then
        hasCost ← call_dep (HasCostingRecord c woID);
        fail_if (negb hasCost) (NewBizError ErrPreconditionFailed
          "estimated cost must be computed before cutting starts")
      else mret tt
  | None => mret tt
  end.

Definition metal_guard (wo : WorkOrder) (woID : uuid) (in_ : AdvanceStatusInput) : M unit :=
  if asi_To in_ =s WOCompleted then
    sku ← call_dep (sc_GetSKU (wo_SKUID wo));
    if ski_RequiresMetal sku then
      hasMetal ← hasMetalConsumption woID;
      fail_if (negb hasMetal) (NewBizError ErrPreconditionFailed
        "metal consumption required before completing this work order")
    else mret tt
  else mret tt.

(** The request to the sheet assigner, with the overflow bypass of an admin. *)
Definition assign_request (woID sheetID : uuid) (in_ : AdvanceStatusInput) : result PreAssignSheetRequest :=
  if asi_BypassOverflow in_ then
    if asi_CallerRole in_ <>s RoleAdmin
    then Err (NewBizError ErrPreconditionFailed "only admin may bypass remnant overflow lock")
    else if asi_BypassReason in_ =s ""
    then Err (NewBizError ErrInvalidInput "bypass_reason is required when bypass_overflow=true")
    else Ok {| par_SheetID := sheetID; par_WorkOrderID := woID; par_BypassOverflow := true;
               par_ActorID := default uuid_Nil (asi_CallerID in_); par_Reason := asi_BypassReason in_ |}
  else Ok {| par_SheetID := sheetID; par_WorkOrderID := woID; par_BypassOverflow := false;
             par_ActorID := uuid_Nil; par_Reason := "" |}.

Definition assign_sheet (woID : uuid) (in_ : AdvanceStatusInput) : M unit :=
  match asi_SheetID in_, sa with
  | Some sheetID, Some assign =>
      if asi_To in_ =s WOInCutting then
        req ← of_result (assign_request woID sheetID in_);
        call_dep (assign req)
      else mret tt
  | _, _ => mret tt
  end.

Definition completed_event (wo : WorkOrder) (qty : Z) (actor : uuid) : WOCompletedEvent :=
  {| wce_WorkOrderID := wo_ID wo; wce_SKUID := wo_SKUID wo; wce_SKUCode := wo_SKUCode wo;
     wce_SKUName := wo_SKUName wo; wce_Dimensions := Dimension_String (wo_SKUDimensions wo);
     wce_Quantity := qty; wce_SalesOrderLineID := wo_SalesOrderLineID wo;
     wce_ProductionPlanID := wo_PlanID wo; wce_QCPassedBy := actor |}.

(** The actor is the caller, else the assignee, else the nil identifier. *)
Definition hook_actor (caller assignee : option uuid) : uuid :=
  match caller with Some c => c | None => default uuid_Nil assignee end.

Definition fire_hook (evt : WOCompletedEvent) : M unit :=
  match fgHook with
  | Some h => best_effort (call_dep (h evt))
  | None => mret tt
  end.

Definition AdvanceStatus (woID : uuid) (in_ : AdvanceStatusInput) : M unit :=
  wo ← selectWorkOrderByID woID;
  fail_if (is_some (CanTransitionTo (wo_Status wo) (asi_To in_)))
    (NewBizError ErrInvalidTransition ("invalid transition " ++ wo_Status wo ++ " -> " ++ asi_To in_));;
  blocker_guard woID;;
  fail_opt (assignment_guard wo in_);;
  costing_guard woID in_;;
  metal_guard wo woID in_;;
  assign_sheet woID in_;;
  updateWorkOrderStatus woID (asi_To in_);;
  notify_status woID (asi_To in_);;
  (if asi_To in_ =s WOCompleted
   then fire_hook (completed_event wo (wo_Quantity wo) (hook_actor (asi_CallerID in_) (wo_AssignedTo wo)))
   else mret tt).

(** ** Consumption, assignment, labour *)

Definition RecordConsumption (in_ : RecordConsumptionInput) : M ConsumptionRecord :=
  wo ← selectWorkOrderByID (rci_WorkOrderID in_);
  fail_if ((wo_Status wo <>s WOInProcessing) && (wo_Status wo <>s WOCompleted))
    (NewBizError ErrPreconditionFailed
       "consumption can only be recorded when work order is IN_PROCESSING or COMPLETED");;
  fail_if (f64_leb (rci_Quantity in_) (f64_of_int 0))
    (NewBizError ErrInvalidInput "quantity must be greater than 0");;
  at_ ← now;
  id ← new_uuid;
  let cr := {| con_ID := id; con_WorkOrderID := rci_WorkOrderID in_; con_MaterialID := rci_MaterialID in_;
               con_MaterialType := rci_MaterialType in_; con_Quantity := rci_Quantity in_;
               con_Unit := rci_Unit in_; con_CreatedAt := at_ |} in
  insertConsumption cr;;
  mret cr.

Definition ListConsumptions (woID : uuid) : M (list ConsumptionRecord) :=
  _ ← selectWorkOrderByID woID;
  selectConsumptionsByWO woID.

Definition AssignWorkOrder (in_ : AssignWorkOrderInput) : M WorkOrder :=
  wo ← selectWorkOrderByID (awo_WorkOrderID in_);
  fail_if (wo_Status wo <>s WOPlanned)
    (NewBizError ErrPreconditionFailed "only PLANNED work orders can be assigned");;
  match uc with
  | None => throw nil_dereference
  | Some getUser =>
      u ← call_dep (getUser (awo_UserID in_));
      fail_if (usi_Role u <>s RoleCNC)
        (NewBizError ErrInvalidInput "assigned user must have role 'cnc'");;
      assignedAt ← now;
      updateWorkOrderAssignment (awo_WorkOrderID in_) (awo_UserID in_) assignedAt;;
      match wo_notifier with
      | Some n => best_effort (call_dep (NotifyAssignment n (awo_UserID in_) (wo_ID wo) (wo_SKUCode wo)))
      | None => mret tt
      end;;
      mret (wo_set_assignee (awo_UserID in_) assignedAt wo)
  end.

Definition SuggestAssignment (woID : uuid) : M SuggestAssignmentResult :=
  _ ← selectWorkOrderByID woID;
  cncUsers ← selectCNCUserIDs;
  match cncUsers with
  | [] => throw (NewBizError ErrNotFound "no CNC operators available for assignment")
  | u :: rest =>
      load ← selectInCuttingCountByUser;
      mret (least_busy load u (load u) rest)
  end.

(** The subject of the entry: the recorder unless a worker is named. *)
Definition labor_worker (in_ : RecordLaborEntryInput) : M uuid :=
  match rle_WorkerID in_ with
  | None => mret (rle_ActorID in_)
  | Some w =>
      fail_if (w =? uuid_Nil)%N
        (NewBizError ErrInvalidInput "worker_id must not be empty when provided");;
      match uc with
      | None => throw (NewBizError ErrInvalidInput "worker validation is not configured")
      | Some getUser =>
          r ← try (call_dep (getUser w));
          match r with
          | Err _ => throw (NewBizError ErrInvalidInput "worker_id does not match a known user")
          | Ok worker =>
              fail_if (negb (usi_IsActive worker))
                (NewBizError ErrInvalidInput "worker_id refers to an inactive user");;
              mret w
          end
      end
  end.

Definition labor_input_check (in_ : RecordLaborEntryInput) : option error :=
  if (rle_WorkOrderID in_ =? uuid_Nil)%N
  then Some (NewBizError ErrInvalidInput "work_order_id is required")
  else if negb (LaborStage_Valid (rle_Stage in_))
  then Some (NewBizError ErrInvalidInput "stage must be one of CNC, GRINDING, ASSEMBLY, POLISHING")
  else if (rle_Minutes in_ <=? 0)%Z
  then Some (NewBizError ErrInvalidInput "minutes must be > 0")
  else if (rle_RatePerHour in_ <? 0)%Z
  then Some (NewBizError ErrInvalidInput "rate_per_hour must be >= 0")
  else if (rle_ActorID in_ =? uuid_Nil)%N
  then Some (NewBizError ErrInvalidInput "actor_id is required")
  else None.

(** BR-C04 *)
Definition finalized_guard (woID : uuid) : M unit :=
  match cc with
  | Some c =>
      finalized ← call_dep (IsCostingFinalized c woID);
      fail_if finalized (NewBizError ErrAlreadyFinalized
        "costing for this work order is finalized; labor entries are immutable")
  | None => mret tt
  end.

Definition RecordLaborEntry (in_ : RecordLaborEntryInput) : M LaborEntry :=
  fail_opt (labor_input_check in_);;
  workerID ← labor_worker in_;
  _ ← selectWorkOrderByID (rle_WorkOrderID in_);
  finalized_guard (rle_WorkOrderID in_);;
  id ← new_uuid;
  at_ ← now;
  let entry := {| lab_ID := id; lab_WorkOrderID := rle_WorkOrderID in_; lab_Stage := rle_Stage in_;
                  lab_Minutes := rle_Minutes in_; lab_RatePerHour := rle_RatePerHour in_;
                  lab_WorkerID := workerID; lab_ActorID := rle_ActorID in_; lab_CreatedAt := at_ |} in
  insertLaborEntry entry;;
  mret entry.

Definition ListLaborEntries (woID : uuid) : M (list LaborEntry) :=
  fail_if (woID =? uuid_Nil)%N (NewBizError ErrInvalidInput "work_order_id is required");;
  selectLaborEntriesByWO woID.

(** minutes * (dong per hour) / 60 *)
Definition SumLaborCost (woID : uuid) : M Money :=
  fail_if (woID =? uuid_Nil)%N (NewBizError ErrInvalidInput "work_order_id is required");;
  dongMinutes ← sumLaborMinuteRateByWO woID;
  mret (VND (Z.quot dongMinutes 60)).

(** ** The plan cascade *)

Definition ListStatusesByPlan (planID : uuid) : M (list string) :=
  fail_if (planID =? uuid_Nil)%N (NewBizError ErrInvalidInput "plan_id is required");;
  listStatusesByPlan planID.

Definition CancelPlannedByPlan (planID : uuid) : M Z :=
  fail_if (planID =? uuid_Nil)%N (NewBizError ErrInvalidInput "plan_id is required");;
  cancelPlannedByPlan planID.

(** ** Partial completion *)

(** BR-P07, BR-P08: the shortfall is planned again under the same SKU and
    sales-order line. *)
Definition carry_over_wo (in_ : PartialCompleteInput) (wo : WorkOrder) (id : uuid) (at_ : instant) : WorkOrder :=
  new_wo id (default (wo_PlanID wo) (pci_CarryOverPlanID in_)) (wo_SKUID wo)
    (wrap64 (wo_Quantity wo - pci_ActualQty in_)) (wo_SalesOrderLineID wo) (Some (wo_ID wo)) at_.

Definition PartialComplete (in_ : PartialCompleteInput) : M PartialCompleteResult :=
  fail_if (pci_WorkOrderID in_ =? uuid_Nil)%N (NewBizError ErrInvalidInput "work_order_id is required");;
  fail_if (negb (validShortfallReason (pci_ShortfallReason in_)))
    (NewBizError ErrInvalidInput "shortfall_reason must be one of MATERIAL_SHORTAGE, DEFECT, TIME_SHORTAGE, OTHER");;
  wo ← selectWorkOrderByID (pci_WorkOrderID in_);
  fail_if (wo_Status wo <>s WOInProcessing)
    (NewBizError ErrInvalidTransition
       ("partial-complete requires status IN_PROCESSING, current=" ++ wo_Status wo));;
  fail_if ((pci_ActualQty in_ <? 1) || (wo_Quantity wo <=? pci_ActualQty in_))%Z
    (NewBizError ErrInvalidInput
       ("actual_qty must be in [1, " ++ itoa (wo_Quantity wo) ++ "), got " ++ itoa (pci_ActualQty in_)));;
  carry ← (if pci_CarryOver in_
           then id ← new_uuid; at_ ← now; mret (Some (carry_over_wo in_ wo id at_))
           else mret None);
  '(parentWO, carryWO) ← partialCompleteAtomically
      {| pco_WorkOrderID := wo_ID wo; pco_ActualQty := pci_ActualQty in_;
         pco_ShortfallReason := pci_ShortfallReason in_; pco_CarryOver := carry |};
  notify_status (wo_ID parentWO) WOPartialComplete;;
  fire_hook (completed_event parentWO (pci_ActualQty in_)
               (hook_actor (pci_CallerID in_) (wo_AssignedTo parentWO)));;
  mret {| pcr_WOUpdated := parentWO; pcr_CarryOverWO := carryWO |}.

(** ** Boost, pre-emption, reassignment, claim *)

Definition BoostWOPriority (in_ : BoostWOPriorityInput) : M BoostWOPriorityResult :=
  _ ← selectWorkOrderByID (bpi_WOID in_);
  '(auditID, boostedAt) ← setPriorityBoostAtomically in_;
  mret {| bpr_BoostedAt := boostedAt; bpr_AuditID := auditID |}.

Definition PreemptWO (in_ : PreemptWOInput) : M PreemptWOResult :=
  _ ← wrap_err "to_wo not found" (selectWorkOrderByID (pwi_ToWOID in_));
  '(auditID, preemptedAt, freedQty) ← preemptAtomically in_;
  mret {| pwr_PreemptedAt := preemptedAt; pwr_AuditID := auditID; pwr_FreedQty := freedQty |}.

Definition ReassignWorkOrder (in_ : ReassignWorkOrderInput) : M WorkOrder :=
  fail_if (rwo_Reason in_ =s "")
    (NewBizError ErrInvalidInput "reason is required for work order reassignment");;
  fail_if (rwo_NewUserID in_ =? uuid_Nil)%N (NewBizError ErrInvalidInput "new_user_id is required");;
  at_ ← now;
  logID ← new_uuid;
  reassignWorkOrderAtomically (rwo_WorkOrderID in_) (rwo_NewUserID in_) (rwo_Reason in_)
    (rwo_ActorID in_) logID at_.

Definition ClaimWorkOrder (in_ : ClaimWorkOrderInput) : M WorkOrder :=
  fail_if (clw_UserID in_ =? uuid_Nil)%N (NewBizError ErrInvalidInput "user_id is required");;
  at_ ← now;
  claimWorkOrderAtomically (clw_WorkOrderID in_) (clw_UserID in_) at_.

Definition UpdateQCStatus (woID : uuid) (status : string) : M unit := updateWorkOrderQCStatus woID status.

(** ** Blockers *)

Definition CreateBlocker (in_ : CreateBlockerInput) : M WOBlocker :=
  fail_if (negb (BlockerReason_Valid (cbi_Reason in_)))
    (NewBizError ErrInvalidInput
       "invalid blocker reason; must be MATERIAL_DELAYED, MATERIAL_REJECTED, MACHINE_DOWN, or OTHER");;
  wo ← selectWorkOrderByID (cbi_WorkOrderID in_);
  fail_if ((wo_Status wo =s WOCompleted) || (wo_Status wo =s WOCosted))
    (NewBizError ErrPreconditionFailed ("cannot add blocker to work order in status " ++ wo_Status wo));;
  id ← new_uuid;
  at_ ← now;
  let b := {| blk_ID := id; blk_WorkOrderID := cbi_WorkOrderID in_; blk_Reason := cbi_Reason in_;
              blk_Detail := cbi_Detail in_; blk_CreatedBy := cbi_CreatedBy in_; blk_CreatedAt := at_;
              blk_ResolvedBy := None; blk_ResolvedAt := None |} in
  wrap_err "insert blocker" (insertBlocker b);;
  mret b.

Definition ResolveBlocker (in_ : ResolveBlockerInput) : M WOBlocker :=
  existing ← getBlocker (rbi_BlockerID in_);
  fail_if (is_some (blk_ResolvedAt existing))
    (NewBizError ErrPreconditionFailed "blocker is already resolved");;
  at_ ← now;
  resolveBlocker (rbi_BlockerID in_) (rbi_ResolvedBy in_) at_.

Definition ListBlockers (woID : uuid) : M (list WOBlocker) :=
  _ ← selectWorkOrderByID woID;
  listBlockers woID.
End service.
