(* ===== verification/ProductionSafety.v ===== *)
(** * Production: the invariant and what every handler preserves

    [prod_wf] is the well-formedness of the module's tables, [prod_guar] what a
    handler may do to them: rows stay, identifying columns and audit rows never
    change, a resolved blocker is final, and well-formedness is kept.  Every
    handler stays within [prod_guar] beside any sessions that do. *)

From S2P Require Import Prelude Domain Effects HttpKit Sql ProductionData ProductionStore ProductionService.
From stdpp Require Import base gmap strings list.
From Stdlib Require Import ZArith Lia.

Open Scope string_scope.

(** The columns no statement rewrites. *)
Definition wo_core (w : WorkOrder) :=
  (wo_ID w, wo_PlanID w, wo_SKUID w, wo_Quantity w, wo_SalesOrderLineID w, wo_ParentWOID w, wo_CreatedAt w).

(** ** Well-formed tables *)
Definition wo_status_known (s : string) : bool :=
  (s =s WOPlanned) || (s =s WOInCutting) || (s =s WOInProcessing) || (s =s WOCompleted)
  || (s =s WOPartialComplete) || (s =s WOCosted) || (s =s WOCanceled).

(** A carry-over [w] of the work order [p]. *)
Definition carries (p w : WorkOrder) : Prop :=
  wo_SKUID w = wo_SKUID p ∧ wo_SalesOrderLineID w = wo_SalesOrderLineID p
  ∧ (wo_Quantity w < wo_Quantity p)%Z.

Definition parent_ok (d : ProdDB) (w : WorkOrder) : Prop :=
  match wo_ParentWOID w with
  | None => True
  | Some p => ∃ pw, p_wos d !! p = Some pw ∧ carries pw w
  end.

Definition wo_wf (d : ProdDB) (k : uuid) (w : WorkOrder) : Prop :=
  wo_ID w = k ∧ (0 < wo_Quantity w)%Z ∧ int4 (wo_Quantity w) = true
  ∧ (∀ a, wo_ActualQty w = Some a → 0 <= a <= wo_Quantity w)%Z
  ∧ wo_status_known (wo_Status w) = true ∧ parent_ok d w.

Definition labor_wf (k : uuid) (e : LaborEntry) : Prop :=
  lab_ID e = k ∧ LaborStage_Valid (lab_Stage e) = true
  ∧ (0 < lab_Minutes e)%Z ∧ (0 <= lab_RatePerHour e)%Z.

Record prod_wf (d : ProdDB) : Prop := {
  wf_wos : map_Forall (wo_wf d) (p_wos d);
  wf_labor : map_Forall labor_wf (p_labor d);
  wf_preempts : map_Forall (λ _ l, 0 < plg_FreedQty l)%Z (p_preempts d)
}.

(** ** What stays *)
Definition blocker_kept (t t' : gmap uuid WOBlocker) : Prop :=
  ∀ k b, t !! k = Some b → ∃ b', t' !! k = Some b'
    ∧ (b' = b ∨ blk_ResolvedAt b = None ∧ ∃ u a, b' = blk_resolve u a b).

#[export] Instance blocker_kept_preorder : PreOrder blocker_kept.
Proof.
  split; [intros t k b; eauto|]. intros t1 t2 t3 S1 S2 k b Hk.
  destruct (S1 k b Hk) as (b2 & H2 & E2), (S2 k b2 H2) as (b3 & H3 & E3).
  exists b3. split; [done|]. destruct E2 as [->|(E & u & a & ->)]; [done|].
  destruct E3 as [->|(E' & _)]; [eauto|done].
Qed.

Record prod_persist (d d' : ProdDB) : Prop := {
  keep_wos : wo_core <$> p_wos d ⊆ wo_core <$> p_wos d';
  keep_cons : p_cons d ⊆ p_cons d';
  keep_labor : p_labor d ⊆ p_labor d';
  keep_blockers : blocker_kept (p_blockers d) (p_blockers d');
  keep_reassigns : p_reassigns d ⊆ p_reassigns d';
  keep_boosts : p_boosts d ⊆ p_boosts d';
  keep_preempts : p_preempts d ⊆ p_preempts d'
}.

#[export] Instance prod_persist_preorder : PreOrder prod_persist.
Proof.
  split; [intros d; split; reflexivity|]. intros d1 d2 d3 [] []. split; etrans; eassumption.
Qed.

Definition prod_guar : relation ProdDB := conj_rel prod_persist (keeps prod_wf).

#[export] Instance prod_guar_preorder : PreOrder prod_guar.
Proof. apply _. Qed.

Lemma wo_persists d d' k w : prod_persist d d' → p_wos d !! k = Some w →
  ∃ w', p_wos d' !! k = Some w' ∧ wo_core w' = wo_core w.
Proof. intros HP. by apply core_lookup, keep_wos. Qed.

Lemma carries_core p p' w w' : wo_core p' = wo_core p → wo_core w' = wo_core w →
  carries p w → carries p' w'.
Proof.
  unfold wo_core, carries. intros Ep Ew (? & ? & ?).
  injection Ep as _ _ Ep1 Ep2 Ep3 _ _. injection Ew as _ _ Ew1 Ew2 Ew3 _ _.
  rewrite Ep1, Ep2, Ep3, Ew1, Ew2, Ew3. done.
Qed.

Lemma parent_ok_persists d d' w w' : prod_persist d d' → wo_core w' = wo_core w →
  parent_ok d w → parent_ok d' w'.
Proof.
  unfold parent_ok. intros HP E. assert (wo_ParentWOID w' = wo_ParentWOID w) as -> by
    (unfold wo_core in E; congruence). destruct (wo_ParentWOID w) as [p|]; [|done].
  intros (pw & Hp & Hc). destruct (wo_persists _ _ _ _ HP Hp) as (pw' & Hp' & E').
  exists pw'. split; [done|]. by eapply carries_core.
Qed.

(** ** Changes to the work-order table *)

(** Rows are updated in place, keeping their core. *)
Lemma wos_change_guar d t :
  wo_core <$> t = wo_core <$> p_wos d →
  (∀ k w w', p_wos d !! k = Some w → t !! k = Some w' → wo_wf d k w →
     (∀ a, wo_ActualQty w' = Some a → 0 <= a <= wo_Quantity w')%Z
     ∧ wo_status_known (wo_Status w') = true) →
  prod_guar d (set_wos t d).
Proof.
  intros Ec Hk. assert (prod_persist d (set_wos t d)) as HP
    by (split; simpl; [by rewrite Ec|reflexivity..]).
  split; [done|]. intros [W L P]. split; [|done..]. intros k w' Hw'. simpl in Hw'.
  destruct (core_lookup_eq wo_core _ _ _ _ (symmetry Ec) Hw') as (w & Hw & E).
  destruct (W k w Hw) as (? & ? & ? & ? & ? & ?).
  destruct (Hk k w w' Hw Hw' (W k w Hw)) as [Ha Hs].
  assert (wo_ID w' = wo_ID w ∧ wo_Quantity w' = wo_Quantity w) as [Ei Eq]
    by (unfold wo_core in E; split; congruence).
  unfold wo_wf. rewrite Ei, Eq. rewrite Eq in Ha. split_and!; [done..|].
  by eapply parent_ok_persists.
Qed.

Lemma wo_update_set id f d n d' : wo_update id f d = Ok (n, d') →
  d' = set_wos (snd (sql_update id f (p_wos d))) d.
Proof. unfold wo_update. destruct (sql_update id f (p_wos d)). by intros [= _ <-]. Qed.

Lemma wo_update_guar id f d n d' :
  (∀ w, wo_core (f w) = wo_core w) →
  (∀ w, p_wos d !! id = Some w → wo_wf d id w →
     (∀ a, wo_ActualQty (f w) = Some a → 0 <= a <= wo_Quantity (f w))%Z
     ∧ wo_status_known (wo_Status (f w)) = true) →
  wo_update id f d = Ok (n, d') → prod_guar d d'.
Proof.
  intros Hf Hw ->%wo_update_set. apply wos_change_guar; [by apply core_update|].
  intros k w w' Hk. rewrite sql_update_lookup. case_decide; [subst k|].
  - rewrite Hk. intros [= <-]. eauto.
  - rewrite Hk. intros [= <-] (? & ? & ? & ? & ? & ?). done.
Qed.

Lemma wo_update_status_guar id st d n d' :
  wo_status_known st = true → wo_update id (wo_set_status st) d = Ok (n, d') → prod_guar d d'.
Proof.
  intros Hs. apply wo_update_guar; [done|]. intros w _ (? & ? & ? & ? & ? & ?). done.
Qed.

Lemma wo_update_keep_guar id f d n d' :
  (∀ w, wo_core (f w) = wo_core w ∧ wo_ActualQty (f w) = wo_ActualQty w ∧ wo_Status (f w) = wo_Status w) →
  wo_update id f d = Ok (n, d') → prod_guar d d'.
Proof.
  intros Hf. apply wo_update_guar; [intros; apply Hf|].
  intros w _ (? & ? & ? & ? & ? & ?). destruct (Hf w) as (E & -> & ->).
  assert (wo_Quantity (f w) = wo_Quantity w) as -> by (unfold wo_core in E; congruence). done.
Qed.

Lemma wo_update_assignee_guar id u p at_ d n d' :
  wo_update_assignee id u p at_ d = Ok (n, d') → prod_guar d d'.
Proof.
  unfold wo_update_assignee. destruct (p_wos d !! id) as [w|] eqn:E; [destruct (p w)|];
    intros; stmt_ok; try reflexivity.
  eapply wo_update_keep_guar; [|eassumption]. intros w'. by split_and!.
Qed.

Lemma wo_update_partial_guar id a r d n d' :
  wo_update_partial id a r d = Ok (n, d') → prod_guar d d'.
Proof.
  unfold wo_update_partial. intros. stmt_ok. eapply wo_update_guar; [| |done]; [done|].
  intros w Hw _. simpl. split; [|done]. intros a' [= <-].
  match goal with Hm : match _ with Some _ => _ | None => _ end = true |- _ => rewrite Hw in Hm end.
  bool_hyps. done.
Qed.

Lemma wo_insert_guar wo d u d' :
  (prod_wf d → (0 < wo_Quantity wo)%Z ∧ wo_status_known (wo_Status wo) = true ∧ parent_ok d wo) →
  wo_insert wo d = Ok (u, d') → prod_guar d d'.
Proof.
  unfold wo_insert. intros Hok Hi. stmt_ok.
  assert (prod_persist d (set_wos (<[wo_ID wo := wo_inserted wo]> (p_wos d)) d)) as HP
    by (split; simpl; [by apply core_insert|reflexivity..]).
  split; [done|]. intros WF. destruct (Hok WF) as (Hq & Hs & Hp). destruct WF as [W L P].
  split; [|done..]. simpl. apply map_Forall_insert_2.
  - unfold wo_wf. simpl. split_and!; [done..|]. by eapply parent_ok_persists.
  - intros k w Hk. destruct (W k w Hk) as (? & ? & ? & ? & ? & ?). unfold wo_wf.
    split_and!; [done..|]. by eapply parent_ok_persists.
Qed.

Lemma cancel_planned_guar planID d :
  prod_guar d (set_wos (snd (sql_update_where (planned_of planID) (wo_set_status "CANCELED") (p_wos d))) d).
Proof.
  apply wos_change_guar; [by apply core_update_where|].
  intros k w w' Hk. rewrite sql_update_where_lookup, Hk. intros [= <-] (? & ? & ? & ? & ? & ?).
  by destruct (planned_of planID w).
Qed.

(** ** Changes to the other tables *)
Lemma con_insert_guar c d u d' : con_insert c d = Ok (u, d') → prod_guar d d'.
Proof.
  unfold con_insert. intros. stmt_ok.
  split; [split; simpl; try reflexivity; by apply insert_subseteq|]. intros [W L P]. by split.
Qed.

Lemma labor_insert_guar e d u d' : labor_insert e d = Ok (u, d') → prod_guar d d'.
Proof.
  unfold labor_insert. intros. stmt_ok.
  split; [split; simpl; try reflexivity; by apply insert_subseteq|]. intros [W L P].
  split; [done| |done]. simpl. apply map_Forall_insert_2; [|done]. bool_hyps. by split_and!.
Qed.

Lemma blocker_insert_guar b d u d' : blocker_insert b d = Ok (u, d') → prod_guar d d'.
Proof.
  unfold blocker_insert. intros. stmt_ok.
  split; [split; simpl; try reflexivity|intros [W L P]; by split].
  intros k x Hk. exists x. split; [|by left]. rewrite lookup_insert_ne; [done|congruence].
Qed.

Lemma reassign_log_guar l d u d' : reassign_log l d = Ok (u, d') → prod_guar d d'.
Proof.
  unfold reassign_log. intros. stmt_ok.
  split; [split; simpl; try reflexivity; by apply insert_subseteq|]. intros [W L P]. by split.
Qed.

Lemma boost_log_guar l d u d' : boost_log l d = Ok (u, d') → prod_guar d d'.
Proof.
  unfold boost_log. intros. stmt_ok.
  split; [split; simpl; try reflexivity; by apply insert_subseteq|]. intros [W L P]. by split.
Qed.

Lemma preempt_log_guar l d u d' : preempt_log l d = Ok (u, d') → prod_guar d d'.
Proof.
  unfold preempt_log. intros. stmt_ok.
  split; [split; simpl; try reflexivity; by apply insert_subseteq|]. intros [W L P].
  split; [done..|]. simpl. apply map_Forall_insert_2; [|done]. bool_hyps. done.
Qed.

Lemma resolve_stmt_guar id by_ at_ d b' d' :
  match p_blockers d !! id with
  | Some b => if is_none (blk_ResolvedAt b)
              then Ok (blk_resolve by_ at_ b, set_blockers (<[id := blk_resolve by_ at_ b]> (p_blockers d)) d)
              else Err (NewBizError ErrPreconditionFailed "blocker not found or already resolved")
  | None => Err (NewBizError ErrPreconditionFailed "blocker not found or already resolved")
  end = Ok (b', d') → prod_guar d d'.
Proof.
  destruct (p_blockers d !! id) as [b|] eqn:E; [|done].
  destruct (is_none (blk_ResolvedAt b)) eqn:En; [|done]. intros. stmt_ok.
  split; [split; simpl; try reflexivity|intros [W L P]; by split].
  intros k x Hk. destruct (decide (k = id)) as [->|].
  - rewrite lookup_insert_eq. eexists. split; [done|]. right.
    assert (x = b) as -> by congruence. destruct (blk_ResolvedAt b); [done|]. eauto.
  - rewrite lookup_insert_ne by done. eauto.
Qed.

(** ** The handlers *)
Section safety.
Context {X : Type} `{!Oracle ProdDB} `{!Postgres} `{!ProductionDeps X} `{!CursorCodec}.
Context (HR : rely prod_guar).
Local Abbreviation M := (M ProdDB X).
Local Abbreviation safe m := (respects (X:=X) prod_guar m).

Ltac safe_steps := resp_steps HR.

(** A statement stays within [prod_guar] by its lemma. *)
Ltac stmt_guar :=
  first
  [ by eapply wo_update_assignee_guar; eassumption
  | by eapply wo_update_partial_guar; eassumption
  | eapply wo_update_keep_guar; [|eassumption]; intros; by split_and!
  | eapply wo_update_status_guar; [|eassumption]; reflexivity
  | by eapply con_insert_guar; eassumption
  | by eapply labor_insert_guar; eassumption
  | by eapply blocker_insert_guar; eassumption
  | by eapply reassign_log_guar; eassumption
  | by eapply boost_log_guar; eassumption
  | by eapply preempt_log_guar; eassumption ].

Lemma wp_prod_safe {A} (m : M A) (Q : result A → world ProdDB X → Prop) d0 w :
  safe m → prod_guar d0 (w_db w) →
  (∀ r w', m w = (r, w') → prod_guar d0 (w_db w') → Q r w') → wp m Q w.
Proof. apply wp_keeps, _. Qed.

Lemma lock_joined_wo_safe id : safe (lock_joined_wo id).
Proof.
  unfold lock_joined_wo. safe_steps. destruct for_update_outer; [|done].
  case_match; simplify_eq. reflexivity.
Qed.

Lemma stock_check_safe k q : safe (stock_check k q).
Proof. unfold stock_check. safe_steps. Qed.

Lemma log_bypass_safe id dims caller r : safe (log_bypass id dims caller r).
Proof. unfold log_bypass. safe_steps. Qed.

Lemma notify_status_safe id st : safe (notify_status id st).
Proof. unfold notify_status. safe_steps. Qed.

Lemma fire_hook_safe evt : safe (fire_hook evt).
Proof. unfold fire_hook. safe_steps. Qed.

Lemma CreateWorkOrder_safe in_ : safe (CreateWorkOrder in_).
Proof.
  intros w. apply (wp_respects prod_guar). unfold CreateWorkOrder.
  apply wp_bind. eapply wp_prod_safe; [apply respects_call_dep, _|reflexivity|].
  intros [plan|e] w1 _ G1; [|done]. do 2 (apply wp_bind, wp_fail_if; intros _; [done|]).
  apply wp_bind, wp_fail_if; intros Hq; [done|]. bool_hyps.
  apply wp_bind. eapply wp_prod_safe; [apply respects_call_dep, _|exact G1|].
  intros [sku|e] w2 _ G2; [|done].
  apply wp_bind. eapply wp_prod_safe; [apply stock_check_safe|exact G2|].
  intros [[]|e] w3 _ G3; [|done]. apply wp_bind, wp_now, wp_bind, wp_new_uuid. cbv zeta.
  eapply wp_prod_safe; [ |exact G3|by intros].
  apply respects_bind; [apply _| |intros _].
  - unfold insertWorkOrder. safe_steps. by eapply wo_insert_guar; [|eassumption].
  - apply respects_bind; [apply _|apply log_bypass_safe|intros _]. safe_steps.
Qed.

Lemma AdvanceStatus_safe woID in_ : safe (AdvanceStatus woID in_).
Proof.
  intros w. apply (wp_respects prod_guar). unfold AdvanceStatus.
  apply wp_bind, wp_query_row; [intros _; apply HR..|]. intros wo _.
  apply wp_bind, wp_fail_if; intros Ht; [apply HR|].
  assert (wo_status_known (asi_To in_) = true) as Hk.
  { destruct (CanTransitionTo _ _) eqn:E; [done|]. apply CanTransitionTo_step in E. by inversion E. }
  eapply wp_prod_safe; [ |apply HR|by intros]. clear Ht.
  unfold blocker_guard, countOpenBlockers, fail_opt, costing_guard, metal_guard, hasMetalConsumption,
    assign_sheet, of_result, updateWorkOrderStatus, notify_status, fire_hook.
  safe_steps; by eapply wo_update_status_guar.
Qed.

Lemma RecordConsumption_safe in_ : safe (RecordConsumption in_).
Proof. unfold RecordConsumption, selectWorkOrderByID, insertConsumption. safe_steps; stmt_guar. Qed.

Lemma AssignWorkOrder_safe in_ : safe (AssignWorkOrder in_).
Proof.
  unfold AssignWorkOrder, selectWorkOrderByID, updateWorkOrderAssignment. safe_steps; stmt_guar.
Qed.

Lemma RecordLaborEntry_safe in_ : safe (RecordLaborEntry in_).
Proof.
  unfold RecordLaborEntry, labor_worker, finalized_guard, fail_opt, selectWorkOrderByID, insertLaborEntry.
  safe_steps; stmt_guar.
Qed.

Lemma CancelPlannedByPlan_safe planID : safe (CancelPlannedByPlan planID).
Proof.
  unfold CancelPlannedByPlan, cancelPlannedByPlan. safe_steps.
  pose proof (cancel_planned_guar planID d) as G. destruct (sql_update_where _ _ _). by stmt_ok.
Qed.

(** What the carry-over of a partial completion must be to its parent. *)
Definition carry_ok (d : ProdDB) (op : partialCompleteOp) : Prop :=
  ∀ c, pco_CarryOver op = Some c →
    wo_Status c = WOPlanned ∧ wo_ParentWOID c = Some (pco_WorkOrderID op) ∧ (0 < wo_Quantity c)%Z
    ∧ ∃ pw, p_wos d !! pco_WorkOrderID op = Some pw ∧ carries pw c
            ∧ (pco_ActualQty op + wo_Quantity c = wo_Quantity pw)%Z.

Lemma carry_ok_persists d d' op : prod_persist d d' → carry_ok d op → carry_ok d' op.
Proof.
  intros HP Hc c E. destruct (Hc c E) as (? & ? & ? & pw & Hp & ? & Hq).
  destruct (wo_persists _ _ _ _ HP Hp) as (pw' & ? & Ec). split_and!; [done..|].
  exists pw'. split; [done|]. split; [by eapply carries_core|].
  rewrite Hq. unfold wo_core in Ec. congruence.
Qed.

Lemma carry_insert_guar d op c u d' :
  carry_ok d op → pco_CarryOver op = Some c → wo_insert c d = Ok (u, d') → prod_guar d d'.
Proof.
  intros Hc E. apply wo_insert_guar. intros W. destruct (Hc c E) as (-> & Hp & Hq & pw & Hpw & Hca & _).
  split_and!; [done..|]. unfold parent_ok. rewrite Hp. eauto.
Qed.

(** The two writes of a partial completion that carries over. *)
Lemma carry_step_guar d0 d d1 d2 op n c u :
  prod_guar d0 d → (prod_wf d0 → carry_ok d op) → pco_CarryOver op = Some c →
  wo_update_partial (pco_WorkOrderID op) (pco_ActualQty op) (pco_ShortfallReason op) d = Ok (n, d1) →
  wo_insert c d1 = Ok (u, d2) → prod_guar d0 d2.
Proof.
  intros G Hc E H1%wo_update_partial_guar H2. split.
  - etrans; [apply G|]. etrans; [apply H1|]. unfold wo_insert in H2. stmt_ok.
    split; simpl; [by apply core_insert|reflexivity..].
  - intros W. apply (carry_insert_guar d1 op c u d2); [|done..|].
    + eapply carry_ok_persists; [apply H1|auto].
    + by apply H1, G.
Qed.

Lemma partial_tail_safe op :
  safe (parent ← selectWorkOrderByID (pco_WorkOrderID op);
        match pco_CarryOver op with
        | Some c => carry ← selectWorkOrderByID (wo_ID c); mret (parent, Some carry)
        | None => mret (parent, None)
        end).
Proof. unfold selectWorkOrderByID. safe_steps. Qed.

Lemma partialCompleteAtomically_safe op d0 w :
  prod_guar d0 (w_db w) → (prod_wf d0 → carry_ok (w_db w) op) →
  prod_guar d0 (w_db (snd (partialCompleteAtomically (X:=X) op w))).
Proof.
  intros G0 Hc. apply (wp_respects (λ _, prod_guar d0)). unfold partialCompleteAtomically.
  assert (prod_guar (w_db w) (w_db (interfere w))) as GI by apply HR.
  assert (prod_guar d0 (w_db (interfere w))) as G1 by exact (transitivity G0 GI).
  apply wp_bind, wp_tx; [done|].
  assert (prod_wf d0 → carry_ok (w_db (interfere w)) op) as Hc1.
  { intros W. eapply carry_ok_persists; [apply GI|auto]. }
  set (w0 := interfere w) in *. clearbody w0. clear Hc GI G0.
  apply wp_bind, wp_tquery_row; [done..|]. intros st _.
  apply wp_bind, wp_fail_if; intros _; [done|].
  apply wp_bind, wp_texec; [done..|]. intros n d1 H1.
  assert (prod_guar d0 d1) as G2
    by (etrans; [exact G1|]; by eapply wo_update_partial_guar).
  assert (∀ (w' : world ProdDB X), prod_guar d0 (w_db w') →
    wp (parent ← selectWorkOrderByID (pco_WorkOrderID op);
        match pco_CarryOver op with
        | Some c => carry ← selectWorkOrderByID (wo_ID c); mret (parent, Some carry)
        | None => mret (parent, None)
        end) (λ _ w', prod_guar d0 (w_db w')) w') as Hread.
  { intros w' G. eapply wp_prod_safe; [apply partial_tail_safe|exact G|by intros]. }
  assert (∀ c, pco_CarryOver op = Some c → ∀ u d2, wo_insert c d1 = Ok (u, d2) → prod_guar d0 d2) as Hins
    by (intros c E u d2 H2; by apply (carry_step_guar d0 (w_db w0) d1 d2 op n c u)).
  destruct (pco_CarryOver op) as [c|] eqn:E.
  - apply wp_texec; [done..|]. intros u d2 H2%(Hins c eq_refl).
    split; intros _; [done|]. by apply Hread.
  - apply wp_mret. split; intros _; [done|]. by apply Hread.
Qed.

Lemma carry_over_ok in_ wo w d id at_ op :
  prod_wf d → p_wos d !! pci_WorkOrderID in_ = Some w → wo_core wo = wo_core w →
  pco_WorkOrderID op = wo_ID wo → pco_ActualQty op = pci_ActualQty in_ →
  pco_CarryOver op = Some (carry_over_wo in_ wo id at_) →
  (1 <= pci_ActualQty in_ < wo_Quantity wo)%Z → carry_ok d op.
Proof.
  intros W Hw E Eo Eq Ec Ha c Hc. rewrite Ec in Hc. injection Hc as <-.
  destruct (wf_wos _ W _ _ Hw) as (Hid & Hq & Hi%int4_spec & _).
  assert (wo_ID wo = pci_WorkOrderID in_ ∧ wo_Quantity wo = wo_Quantity w
    ∧ wo_SKUID wo = wo_SKUID w ∧ wo_SalesOrderLineID wo = wo_SalesOrderLineID w) as (E1 & E2 & E3 & E4)
    by (unfold wo_core in E; split_and!; congruence).
  unfold carries. simpl. rewrite wrap64_id by (unfold int64; lia).
  rewrite Eo, E1, Eq. split_and!; [done..|lia|]. exists w. split_and!; [done..|lia|lia].
Qed.

Lemma wo_join_core d w : wo_core (wo_join d w) = wo_core w.
Proof. unfold wo_join. by case_match. Qed.

Lemma carry_wp in_ wo d0 w :
  prod_guar d0 (w_db w) →
  wp (if pci_CarryOver in_
      then id ← new_uuid; at_ ← now; mret (Some (carry_over_wo in_ wo id at_))
      else mret None)
     (λ r w', prod_guar d0 (w_db w') ∧ w_db w' = w_db w ∧
        match r with
        | Ok (Some c) => ∃ id at_, c = carry_over_wo in_ wo id at_
        | Ok None => True
        | Err _ => False
        end) (w : world ProdDB X).
Proof.
  intros G. destruct (pci_CarryOver in_); [|by apply wp_mret].
  apply wp_bind, wp_new_uuid, wp_bind, wp_now, wp_mret. eauto.
Qed.

Lemma PartialComplete_safe in_ : safe (PartialComplete in_).
Proof.
  intros w. apply (wp_respects prod_guar). unfold PartialComplete.
  do 2 (apply wp_bind, wp_fail_if; intros _; [done|]).
  assert (prod_guar (w_db w) (w_db (interfere w))) as GI by apply HR.
  apply wp_bind, wp_query_row; [done..|]. intros wo (w0 & Hw0 & ->)%fmap_Some_1.
  set (wo := wo_join _ w0). assert (wo_core wo = wo_core w0) as Ecore by apply wo_join_core. clearbody wo.
  apply wp_bind, wp_fail_if; intros _; [done|].
  apply wp_bind, wp_fail_if; intros Ha; [done|]. bool_hyps.
  apply wp_bind. eapply wp_mono; [by apply carry_wp|].
  intros [carry|e] w1 (G1 & Ed & Hcarry); [|done]. apply wp_bind.
  set (op := Build_partialCompleteOp _ _ _ _).
  assert (prod_guar (w_db w) (w_db (snd (partialCompleteAtomically (X:=X) op w1)))) as G2.
  { apply partialCompleteAtomically_safe; [done|]. intros W c Hc. simpl in Hc. subst carry.
    destruct Hcarry as (id & at_ & ->). rewrite Ed.
    eapply (carry_over_ok in_ wo w0 _ id at_ op); try done; by apply GI. }
  unfold wp at 1. destruct (partialCompleteAtomically op w1) as [[[p c]|e] w2]; simpl in *; [|done].
  eapply wp_prod_safe; [|exact G2|by intros].
  unfold notify_status, fire_hook. safe_steps.
Qed.

(** ** The rest *)
Lemma BoostWOPriority_safe in_ : safe (BoostWOPriority in_).
Proof.
  unfold BoostWOPriority, selectWorkOrderByID, setPriorityBoostAtomically. safe_steps; stmt_guar.
Qed.

Lemma PreemptWO_safe in_ : safe (PreemptWO in_).
Proof. unfold PreemptWO, selectWorkOrderByID, preemptAtomically. safe_steps; stmt_guar. Qed.

Lemma ReassignWorkOrder_safe in_ : safe (ReassignWorkOrder in_).
Proof.
  unfold ReassignWorkOrder, reassignWorkOrderAtomically.
  safe_steps; first [apply lock_joined_wo_safe|stmt_guar].
Qed.

Lemma ClaimWorkOrder_safe in_ : safe (ClaimWorkOrder in_).
Proof.
  unfold ClaimWorkOrder, claimWorkOrderAtomically.
  safe_steps; first [apply lock_joined_wo_safe|stmt_guar].
Qed.

Lemma UpdateQCStatus_safe woID st : safe (UpdateQCStatus woID st).
Proof. unfold UpdateQCStatus, updateWorkOrderQCStatus. safe_steps. stmt_ok. stmt_guar. Qed.

Lemma CreateBlocker_safe in_ : safe (CreateBlocker in_).
Proof. unfold CreateBlocker, selectWorkOrderByID, insertBlocker. safe_steps; stmt_guar. Qed.

Lemma ResolveBlocker_safe in_ : safe (ResolveBlocker in_).
Proof.
  unfold ResolveBlocker, getBlocker, resolveBlocker. safe_steps.
  by eapply resolve_stmt_guar.
Qed.
End safety.
