(* ===== verification/ProductionProps.v ===== *)
(** * Production: reachable states and a concrete shop floor *)

From S2P Require Import Prelude Domain Effects HttpKit Sql ProductionData ProductionStore ProductionService ProductionSafety.
From stdpp Require Import base gmap strings list.
From Stdlib Require Import ZArith Lia.

Open Scope string_scope.

(** ** The module as a state machine *)
Inductive prod_call : Type :=
  | CallCreateWorkOrder (in_ : CreateWOInput)
  | CallAdvanceStatus (woID : uuid) (in_ : AdvanceStatusInput)
  | CallRecordConsumption (in_ : RecordConsumptionInput)
  | CallAssignWorkOrder (in_ : AssignWorkOrderInput)
  | CallRecordLaborEntry (in_ : RecordLaborEntryInput)
  | CallCancelPlannedByPlan (planID : uuid)
  | CallPartialComplete (in_ : PartialCompleteInput)
  | CallBoostWOPriority (in_ : BoostWOPriorityInput)
  | CallPreemptWO (in_ : PreemptWOInput)
  | CallReassignWorkOrder (in_ : ReassignWorkOrderInput)
  | CallClaimWorkOrder (in_ : ClaimWorkOrderInput)
  | CallUpdateQCStatus (woID : uuid) (status : string)
  | CallCreateBlocker (in_ : CreateBlockerInput)
  | CallResolveBlocker (in_ : ResolveBlockerInput).

Section machine.
Context {X : Type} `{!Oracle ProdDB} `{!Postgres} `{!ProductionDeps X} `{!CursorCodec}.
Local Abbreviation M := (M ProdDB X).

Definition prod_serve (c : prod_call) : M unit :=
  match c with
  | CallCreateWorkOrder i => best_effort (CreateWorkOrder i)
  | CallAdvanceStatus w i => best_effort (AdvanceStatus w i)
  | CallRecordConsumption i => best_effort (RecordConsumption i)
  | CallAssignWorkOrder i => best_effort (AssignWorkOrder i)
  | CallRecordLaborEntry i => best_effort (RecordLaborEntry i)
  | CallCancelPlannedByPlan p => best_effort (CancelPlannedByPlan p)
  | CallPartialComplete i => best_effort (PartialComplete i)
  | CallBoostWOPriority i => best_effort (BoostWOPriority i)
  | CallPreemptWO i => best_effort (PreemptWO i)
  | CallReassignWorkOrder i => best_effort (ReassignWorkOrder i)
  | CallClaimWorkOrder i => best_effort (ClaimWorkOrder i)
  | CallUpdateQCStatus w s => best_effort (UpdateQCStatus w s)
  | CallCreateBlocker i => best_effort (CreateBlocker i)
  | CallResolveBlocker i => best_effort (ResolveBlocker i)
  end.

Definition prod_serve_all (cs : list prod_call) : M unit := mfor (λ _ c, prod_serve c) cs tt.

Lemma prod_serve_safe (HR : rely prod_guar) c : respects prod_guar (prod_serve c).
Proof.
  destruct c; apply respects_best_effort;
    first [ by apply CreateWorkOrder_safe | by apply AdvanceStatus_safe | by apply RecordConsumption_safe
          | by apply AssignWorkOrder_safe | by apply RecordLaborEntry_safe
          | by apply CancelPlannedByPlan_safe | by apply PartialComplete_safe
          | by apply BoostWOPriority_safe | by apply PreemptWO_safe | by apply ReassignWorkOrder_safe
          | by apply ClaimWorkOrder_safe | by apply UpdateQCStatus_safe | by apply CreateBlocker_safe
          | by apply ResolveBlocker_safe ].
Qed.

Lemma prod_serve_all_safe (HR : rely prod_guar) cs : respects prod_guar (prod_serve_all cs).
Proof. apply respects_mfor; [apply _|intros; by apply prod_serve_safe]. Qed.
End machine.

(** ** A concrete shop floor *)
Module Shop.
Definition oracle : Oracle ProdDB := {|
  o_uuid k := N.of_nat (1000 + k);
  o_time k := Z.of_nat k;
  o_fault _ := false;
  o_interf _ d := d
|}.

Definition postgres : Postgres := {| for_update_outer := false |}.

(** Every SKU needs metal; user 7 is an operator; material 2 is in stock. *)
Definition deps : ProductionDeps unit := {|
  pc_GetPlan p := λ _ x, (Ok {| pli_ID := p; pli_Status := PlanApproved; pli_SKUIDs := [5%N] |}, x);
  sc_GetSKU s := λ _ x, (Ok {| ski_ID := s; ski_RequiresMetal := true; ski_Dimensions := mkDim 600 400 |}, x);
  uc := Some (λ u _ x, (Ok {| usi_ID := u; usi_Role := RoleCNC; usi_IsActive := true |}, x));
  sa := None;
  cc := Some {| HasCostingRecord _ := λ _ x, (Ok true, x); IsCostingFinalized _ := λ _ x, (Ok false, x) |};
  ra := None;
  stk := Some (λ _ _ x, (Ok 50%Z, x));
  br := Some (λ _ _ x, (Ok [2%N], x));
  wo_notifier := None;
  fgHook := None
|}.

Definition wo (id : uuid) (st : string) (who : option uuid) : WorkOrder := {|
  wo_ID := id; wo_PlanID := 9; wo_SKUID := 5; wo_SKUCode := ""; wo_SKUName := "";
  wo_SKUDimensions := mkDim 0 0; wo_Quantity := 10; wo_Status := st; wo_AssignedTo := who;
  wo_AssignedAt := None; wo_EstimatedHours := None; wo_MachineSlotID := None;
  wo_SalesOrderLineID := Some 30%N; wo_ActualQty := None; wo_ParentWOID := None;
  wo_ShortfallReason := None; wo_PriorityBoost := false; wo_QCStatus := None; wo_CreatedAt := 0
|}.

Definition labor (id : uuid) (minutes rate : Z) : LaborEntry := {|
  lab_ID := id; lab_WorkOrderID := 20; lab_Stage := "CNC"; lab_Minutes := minutes;
  lab_RatePerHour := rate; lab_WorkerID := 7; lab_ActorID := 7; lab_CreatedAt := 0
|}.

Definition blocker : WOBlocker := {|
  blk_ID := 60; blk_WorkOrderID := 22; blk_Reason := "MACHINE_DOWN"; blk_Detail := "";
  blk_CreatedBy := 7; blk_CreatedAt := 0; blk_ResolvedBy := None; blk_ResolvedAt := None
|}.

(** Work orders 20 in processing, 21 and 22 planned, the latter blocked. *)
Definition db : ProdDB := {|
  p_wos := <[20%N := wo 20 "IN_PROCESSING" (Some 7%N)]> (<[21%N := wo 21 "PLANNED" (Some 7%N)]>
    (<[22%N := wo 22 "PLANNED" None]> ∅));
  p_cons := ∅;
  p_labor := <[50%N := labor 50 90 40000]> (<[51%N := labor 51 7 30000]> ∅);
  p_blockers := {[60%N := blocker]};
  p_reassigns := ∅; p_boosts := ∅; p_preempts := ∅;
  p_skus := {[5%N := {| skr_Code := "TB-1"; skr_Name := "Table"; skr_Dimensions := mkDim 600 400 |}]};
  p_users := <[7%N := "cnc"]> (<[8%N := "cnc"]> {[9%N := "planner"]});
  p_plans := {[9%N]}; p_materials := {[2%N]}; p_so_lines := {[30%N]}
|}.

Definition world0 : world ProdDB unit := World db tt 0.

Definition partial : PartialCompleteInput := {|
  pci_WorkOrderID := 20; pci_ActualQty := 6; pci_ShortfallReason := "DEFECT"; pci_CarryOver := true;
  pci_CarryOverPlanID := None; pci_CallerID := Some 7%N
|}.

Definition advance (to : string) : AdvanceStatusInput := {|
  asi_To := to; asi_SheetID := None; asi_BypassOverflow := false; asi_BypassReason := "";
  asi_CallerID := Some 7%N; asi_CallerRole := RoleCNC
|}.

Definition resolve : ResolveBlockerInput := {| rbi_BlockerID := 60; rbi_ResolvedBy := 7 |}.

Lemma rely_shop (R : relation ProdDB) `{!Reflexive R} : @rely ProdDB oracle R.
Proof. intros k d. simpl. reflexivity. Qed.

Lemma shop_wf : prod_wf db.
Proof.
  split.
  - repeat apply map_Forall_insert_2; [repeat split; try done; vm_compute; congruence..|apply map_Forall_empty].
  - repeat apply map_Forall_insert_2; [repeat split; vm_compute; congruence..|apply map_Forall_empty].
  - apply map_Forall_empty.
Qed.
End Shop.

(** ** Reachable states *)
Section claims.
Context {X : Type} `{!Oracle ProdDB} `{!Postgres} `{!ProductionDeps X} `{!CursorCodec}.

(** [C11] Whatever requests the module serves, in whatever order, with any
    database faults and beside any sessions within the same guarantee, the
    tables stay well formed: every work order keeps a known status, a positive
    quantity of 32 bits and an actual quantity between zero and it, and every
    carry-over refers to an existing work order of the same SKU and
    sales-order line and of a strictly larger quantity. *)
Theorem production_invariant (cs : list prod_call) (w : world ProdDB X) :
  rely prod_guar → prod_wf (w_db w) → prod_wf (w_db (snd (prod_serve_all cs w))).
Proof. intros HR. apply (prod_serve_all_safe HR cs w). Qed.

(** [C13] Through any requests, faults and concurrent sessions, the identifying
    columns of a work order never change, consumption, labour and audit rows
    are append-only, and a blocker is resolved at most once: once it is, its
    row is final. *)
Theorem production_audit (cs : list prod_call) (w : world ProdDB X) :
  rely prod_guar → prod_persist (w_db w) (w_db (snd (prod_serve_all cs w))).
Proof. intros HR. apply (prod_serve_all_safe HR cs w). Qed.
End claims.

Lemma production_invariant_witness :
  let _ := Shop.oracle in let _ := Shop.postgres in let _ := Shop.deps in let _ := BinaryCodec.codec in
  prod_wf (w_db (snd (prod_serve_all [CallPartialComplete Shop.partial; CallResolveBlocker Shop.resolve]
    Shop.world0))).
Proof.
  intros. apply (production_invariant _ Shop.world0).
  - apply Shop.rely_shop. apply _.
  - apply Shop.shop_wf.
Defined.

Lemma production_audit_witness :
  let _ := Shop.oracle in let _ := Shop.postgres in let _ := Shop.deps in let _ := BinaryCodec.codec in
  prod_persist Shop.db (w_db (snd (prod_serve_all [CallResolveBlocker Shop.resolve] Shop.world0))).
Proof.
  intros. apply (production_audit [CallResolveBlocker Shop.resolve] Shop.world0).
  apply Shop.rely_shop. apply _.
Defined.
