(* ===== verification/ProductionLife.v ===== *)
(** * Production: the lifecycle of work orders and the balance of carry-overs

    Statuses move along [wo_move], and what a work order produced plus what its
    carry-overs plan again never exceeds its quantity.  Every handler keeps both
    under concurrency, except [AdvanceStatus]: it reads the status and later
    writes it unconditionally, so it keeps them only while no other session
    writes work orders. *)

From S2P Require Import Prelude Domain Effects HttpKit Sql ProductionData ProductionStore ProductionService ProductionSafety.
From S2P Require Import ProductionProps.
From stdpp Require Import base gmap strings list relations.
From Stdlib Require Import ZArith Lia.

Open Scope string_scope.

(** ** The lifecycle *)
Inductive wo_move : string → string → Prop :=
  | move_advance s t : wo_step s t → wo_move s t
  | move_cancel : wo_move WOPlanned WOCanceled
  | move_preempted : wo_move WOInCutting WOPlanned.

(** Not yet finished: nothing produced is booked and nothing is carried over. *)
Definition is_open (s : string) : bool :=
  (s =s WOPlanned) || (s =s WOInCutting) || (s =s WOInProcessing).

Lemma wo_move_open s t : wo_move s t → is_open t = true → is_open s = true.
Proof. destruct 1 as [s t Hs| |]; [destruct Hs|..]; done. Qed.

Lemma wo_moves_open s t : rtc wo_move s t → is_open t = true → is_open s = true.
Proof. induction 1; [done|]. eauto using wo_move_open. Qed.

Lemma wo_terminal s t : s = WOCanceled ∨ s = WOCosted → rtc wo_move s t → t = s.
Proof.
  intros Hs. destruct 1 as [|s s1 t Hm]; [done|].
  destruct Hs as [-> | ->]; inversion Hm as [? ? Hst| |]; inversion Hst.
Qed.

Definition wo_life (d d' : ProdDB) : Prop :=
  ∀ k w, p_wos d !! k = Some w →
    ∃ w', p_wos d' !! k = Some w' ∧ rtc wo_move (wo_Status w) (wo_Status w').

#[export] Instance wo_life_preorder : PreOrder wo_life.
Proof.
  split; [intros d k w; eauto using rtc_refl|]. intros d1 d2 d3 L1 L2 k w Hk.
  destruct (L1 k w Hk) as (w2 & H2 & ?), (L2 k w2 H2) as (w3 & ? & ?).
  eexists. split; [done|by etrans].
Qed.

(** ** The balance *)
Definition produced (w : WorkOrder) : Z := default 0%Z (wo_ActualQty w).

Definition carry_share (k : uuid) (w : WorkOrder) : Z :=
  if opt_eqb (wo_ParentWOID w) (Some k) then wo_Quantity w else 0%Z.

(** What the carry-overs of work order [k] plan again. *)
Definition carried (t : gmap uuid WorkOrder) (k : uuid) : Z := table_sum (carry_share k) t.

Definition wo_fair (t : gmap uuid WorkOrder) (k : uuid) (w : WorkOrder) : Prop :=
  (produced w + carried t k <= wo_Quantity w)%Z
  ∧ (is_open (wo_Status w) = true → wo_ActualQty w = None ∧ carried t k = 0%Z).

Definition fair (d : ProdDB) : Prop := map_Forall (wo_fair (p_wos d)) (p_wos d).

Definition prod_life (d d' : ProdDB) : Prop :=
  prod_guar d d' ∧ (prod_wf d → wo_life d d' ∧ (fair d → fair d')).

#[export] Instance prod_life_preorder : PreOrder prod_life.
Proof.
  split.
  - intros d. split; [reflexivity|]. intros _. split; [reflexivity|done].
  - intros d1 d2 d3 [G1 L1] [G2 L2]. split; [by etrans|]. intros W.
    destruct (L1 W) as [L1' F1], (L2 (proj2 G1 W)) as [L2' F2]. split; [by etrans|auto].
Qed.

(** Other sessions leave the work orders alone. *)
Definition calm (d d' : ProdDB) : Prop := prod_guar d d' ∧ p_wos d' = p_wos d.

Lemma prod_life_same d d' : prod_guar d d' → p_wos d' = p_wos d → prod_life d d'.
Proof.
  intros G E. split; [done|]. intros _. split.
  - intros k w Hk. rewrite E. eauto using rtc_refl.
  - unfold fair. by rewrite E.
Qed.

Lemma calm_life d d' : calm d d' → prod_life d d'.
Proof. intros [G E]. by apply prod_life_same. Qed.

Lemma carried_core t t' k : wo_core <$> t = wo_core <$> t' → carried t k = carried t' k.
Proof.
  intros E. unfold carried.
  set (g := λ c : uuid * uuid * uuid * Z * option uuid * option uuid * instant,
    if opt_eqb c.1.2 (Some k) then c.1.1.1.2 else 0%Z).
  by rewrite !(table_sum_core (carry_share k) wo_core g), E.
Qed.

(** ** Work orders updated in place *)
Lemma wos_change_life d t :
  prod_guar d (set_wos t d) → wo_core <$> t = wo_core <$> p_wos d →
  (∀ k w w', p_wos d !! k = Some w → t !! k = Some w' → wo_wf d k w →
     rtc wo_move (wo_Status w) (wo_Status w') ∧ wo_ActualQty w' = wo_ActualQty w) →
  prod_life d (set_wos t d).
Proof.
  intros G E Ht. split; [done|]. intros [W _ _]. split.
  - intros k w Hk. destruct (core_lookup wo_core (p_wos d) t k w) as (w' & Hw' & _); [by rewrite E|done|].
    exists w'. split; [done|]. by eapply Ht; [| |apply W].
  - intros F k w' Hw'. simpl in *.
    destruct (core_lookup_eq wo_core _ _ _ _ (symmetry E) Hw') as (w & Hw & Ec).
    destruct (Ht k w w' Hw Hw' (W k w Hw)) as [Hm Ha]. destruct (F k w Hw) as [Hle Hop].
    unfold wo_fair, produced. rewrite Ha, (carried_core t (p_wos d)) by done.
    assert (wo_Quantity w' = wo_Quantity w) as -> by (unfold wo_core in Ec; congruence).
    split; [done|]. intros Ho. apply Hop. by eapply wo_moves_open.
Qed.

Lemma wo_update_life id f d n d' :
  (∀ w, wo_core (f w) = wo_core w) →
  (∀ w, p_wos d !! id = Some w → wo_status_known (wo_Status (f w)) = true
     ∧ rtc wo_move (wo_Status w) (wo_Status (f w)) ∧ wo_ActualQty (f w) = wo_ActualQty w) →
  wo_update id f d = Ok (n, d') → prod_life d d'.
Proof.
  intros Hf Hw Hu. pose proof (wo_update_set _ _ _ _ _ Hu) as ->. apply wos_change_life.
  - eapply wo_update_guar; [done| |done]. intros w Hk (? & ? & ? & Ha & ? & ?).
    destruct (Hw w Hk) as (? & _ & ->). split; [|done].
    assert (wo_Quantity (f w) = wo_Quantity w) as -> by (specialize (Hf w); unfold wo_core in Hf; congruence).
    done.
  - by apply core_update.
  - intros k w w' Hk. rewrite sql_update_lookup, Hk. case_decide; [subst k|]; intros [= <-] _.
    + by destruct (Hw w Hk) as (_ & ? & ?).
    + eauto using rtc_refl.
Qed.

Lemma wo_update_keep_life id f d n d' :
  prod_guar d d' →
  (∀ w, wo_core (f w) = wo_core w ∧ wo_ActualQty (f w) = wo_ActualQty w ∧ wo_Status (f w) = wo_Status w) →
  wo_update id f d = Ok (n, d') → prod_life d d'.
Proof.
  intros G Hf Hu. pose proof (wo_update_set _ _ _ _ _ Hu) as ->. apply wos_change_life; [done| |].
  - apply core_update. intros w. apply Hf.
  - intros k w w' Hk. rewrite sql_update_lookup, Hk.
    case_decide; intros [= <-] _; [|eauto using rtc_refl]. destruct (Hf w) as (_ & -> & ->). eauto using rtc_refl.
Qed.

Lemma wo_update_assignee_life id u p at_ d n d' :
  wo_update_assignee id u p at_ d = Ok (n, d') → prod_life d d'.
Proof.
  intros Hu. pose proof (wo_update_assignee_guar _ _ _ _ _ _ _ Hu) as G. unfold wo_update_assignee in Hu.
  destruct (p_wos d !! id) as [w|] eqn:E; [destruct (p w)|]; stmt_ok; try reflexivity.
  eapply wo_update_keep_life; [done| |eassumption]. intros w'. by split_and!.
Qed.

Lemma cancel_planned_life planID d :
  prod_life d (set_wos (snd (sql_update_where (planned_of planID) (wo_set_status "CANCELED") (p_wos d))) d).
Proof.
  apply wos_change_life; [apply cancel_planned_guar|by apply core_update_where|].
  intros k w w' Hk. rewrite sql_update_where_lookup, Hk. intros [= <-] _.
  destruct (planned_of planID w) eqn:E; [|eauto using rtc_refl]. split; [|done].
  unfold planned_of in E. bool_hyps.
  match goal with Es : wo_Status w = _ |- _ => rewrite Es end. apply rtc_once, move_cancel.
Qed.

(** ** New work orders *)

(** The parent has finished and its shortfall covers the new quantity. *)
Definition room_for (t : gmap uuid WorkOrder) (wo : WorkOrder) : Prop :=
  match wo_ParentWOID wo with
  | None => True
  | Some p => ∃ pw, t !! p = Some pw ∧ is_open (wo_Status pw) = false
                    ∧ (produced pw + carried t p + wo_Quantity wo <= wo_Quantity pw)%Z
  end.

Lemma carried_fresh d id : prod_wf d → p_wos d !! id = None → carried (p_wos d) id = 0%Z.
Proof.
  intros W Hn. apply table_sum_zero. intros k w Hk. unfold carry_share, opt_eqb.
  destruct (wf_wos _ W k w Hk) as (_ & _ & _ & _ & _ & Hp). unfold parent_ok in Hp.
  rewrite bool_decide_eq_false_2; [done|]. intros E. rewrite E in Hp.
  destruct Hp as (pw & ? & _). congruence.
Qed.

Lemma wo_insert_fair d wo :
  prod_wf d → p_wos d !! wo_ID wo = None → (0 < wo_Quantity wo)%Z → room_for (p_wos d) wo → fair d →
  fair (set_wos (<[wo_ID wo := wo_inserted wo]> (p_wos d)) d).
Proof.
  intros W Hn Hq Hr F. unfold fair. simpl.
  assert (∀ k, carried (<[wo_ID wo := wo_inserted wo]> (p_wos d)) k
               = (carry_share k wo + carried (p_wos d) k)%Z) as Hc.
  { intros k. unfold carried. by rewrite table_sum_insert_new. }
  apply map_Forall_insert_2.
  - unfold wo_fair, produced. rewrite Hc, carried_fresh by done. unfold carry_share, opt_eqb. simpl.
    case_bool_decide as E; [|split; [lia|done]]. unfold room_for in Hr. rewrite E in Hr.
    destruct Hr as (pw & ? & _). congruence.
  - intros k w Hk. destruct (F k w Hk) as [Hle Ho]. unfold wo_fair. rewrite Hc.
    unfold carry_share, opt_eqb. case_bool_decide as E; [|by rewrite Z.add_0_l].
    unfold room_for in Hr. rewrite E in Hr. destruct Hr as (pw & Hp & Hcl & Hle').
    assert (pw = w) as -> by congruence. split; [lia|]. rewrite Hcl. done.
Qed.

Lemma wo_life_grow d d' : p_wos d ⊆ p_wos d' → wo_life d d'.
Proof. intros Hs k w Hk. exists w. split; [by eapply lookup_weaken|done]. Qed.

Lemma wo_insert_root_life wo d u d' :
  (0 < wo_Quantity wo)%Z → wo_status_known (wo_Status wo) = true → wo_ParentWOID wo = None →
  wo_insert wo d = Ok (u, d') → prod_life d d'.
Proof.
  intros Hq Hs Hp Hi. assert (prod_guar d d') as G.
  { eapply wo_insert_guar; [|done]. intros _. unfold parent_ok. by rewrite Hp. }
  unfold wo_insert in Hi. stmt_ok. split; [done|]. intros W. split.
  - apply wo_life_grow. simpl. by apply insert_subseteq.
  - apply wo_insert_fair; try done. unfold room_for. by rewrite Hp.
Qed.

(** ** Partial completion *)
Section partial.
Context (op : partialCompleteOp) (d d1 : ProdDB) (n : Z) (w : WorkOrder).
Context (Hw : p_wos d !! pco_WorkOrderID op = Some w) (Hst : wo_Status w = WOInProcessing).
Context (Hu : wo_update_partial (pco_WorkOrderID op) (pco_ActualQty op) (pco_ShortfallReason op) d = Ok (n, d1)).
Let id := pco_WorkOrderID op.
Let w1 := wo_set_partial (pco_ActualQty op) (pco_ShortfallReason op) w.

Lemma partial_row : d1 = set_wos (<[id := w1]> (p_wos d)) d ∧ (0 <= pco_ActualQty op <= wo_Quantity w)%Z.
Proof using Hw Hu.
  unfold wo_update_partial in Hu. rewrite Hw in Hu. stmt_ok. bool_hyps.
  unfold wo_update, sql_update in Hu. rewrite Hw in Hu. by injection Hu as <- <-.
Qed.

Lemma partial_core : wo_core <$> p_wos d1 = wo_core <$> p_wos d.
Proof using Hw Hu.
  destruct partial_row as [-> _]. simpl. rewrite fmap_insert. apply insert_id.
  unfold id. by rewrite lookup_fmap, Hw.
Qed.

Lemma partial_life : prod_life d d1.
Proof using Hw Hst Hu.
  split; [by eapply wo_update_partial_guar|]. intros W.
  pose proof partial_core as Ec. destruct partial_row as [-> Ha]. simpl in Ec. split.
  - intros k x Hk. simpl. destruct (decide (id = k)) as [<-|].
    + rewrite lookup_insert_eq. eexists. split; [done|]. assert (x = w) as -> by (unfold id in Hk; congruence).
      rewrite Hst. apply rtc_once, move_advance, wo_partial.
    + rewrite lookup_insert_ne by done. eauto using rtc_refl.
  - intros F k x. simpl. unfold wo_fair. rewrite (carried_core _ (p_wos d)) by exact Ec.
    destruct (decide (id = k)) as [<-|].
    + rewrite lookup_insert_eq. intros [= <-]. destruct (F _ _ Hw) as [_ Ho].
      rewrite Hst in Ho. destruct (Ho eq_refl) as [_ Hc]. unfold id. rewrite Hc. simpl. split; [|done].
      unfold produced, w1. simpl. lia.
    + rewrite lookup_insert_ne by done. intros Hk. by apply F.
Qed.

Lemma partial_room c : prod_wf d → fair d → wo_ParentWOID c = Some id →
  (pco_ActualQty op + wo_Quantity c <= wo_Quantity w)%Z → room_for (p_wos d1) c.
Proof using Hw Hst Hu.
  intros W F Hp Hle. unfold room_for. rewrite Hp, (carried_core _ (p_wos d)) by exact partial_core.
  destruct partial_row as [-> _]. simpl. rewrite lookup_insert_eq.
  eexists. split; [done|]. split; [done|]. destruct (F _ _ Hw) as [_ Ho].
  rewrite Hst in Ho. destruct (Ho eq_refl) as [_ Hc]. unfold id. rewrite Hc. unfold produced, w1. simpl. lia.
Qed.

Lemma partial_carry_life c u d2 : pco_CarryOver op = Some c → (prod_wf d → carry_ok d op) →
  (prod_wf d → pco_ActualQty op + wo_Quantity c <= wo_Quantity w)%Z →
  wo_insert c d1 = Ok (u, d2) → prod_guar d d2 → prod_life d d2.
Proof using Hw Hst Hu.
  intros E Hok Hle Hi G2. split; [done|]. intros W.
  destruct partial_life as [G1 L1]. destruct (L1 W) as [Hlife Hfair].
  destruct (Hok W c E) as (_ & Hp & Hq & _). pose proof (proj2 G1 W) as W1.
  unfold wo_insert in Hi. stmt_ok. split.
  - etrans; [exact Hlife|]. apply wo_life_grow. simpl. by apply insert_subseteq.
  - intros F. apply wo_insert_fair; try done; [|by apply Hfair]. apply partial_room; auto.
Qed.
End partial.

(** ** The handlers *)
Section life_safety.
Context {X : Type} `{!Oracle ProdDB} `{!Postgres} `{!ProductionDeps X} `{!CursorCodec}.
Context (HR : rely prod_life).
Local Abbreviation M := (M ProdDB X).
Local Abbreviation safe m := (respects (X:=X) prod_life m).

Ltac life_steps := resp_steps HR.

Lemma rely_life_guar : rely prod_guar.
Proof using HR. intros k d. apply HR. Qed.

Ltac same_wos := apply prod_life_same;
  [ first [ by eapply con_insert_guar | by eapply labor_insert_guar | by eapply blocker_insert_guar
          | by eapply reassign_log_guar | by eapply boost_log_guar | by eapply preempt_log_guar ]
  | unfold con_insert, labor_insert, blocker_insert, reassign_log, boost_log, preempt_log in *;
    stmt_ok; done ].

Ltac stmt_life :=
  first
  [ by eapply wo_update_assignee_life; eassumption
  | eapply wo_update_keep_life; [eapply wo_update_keep_guar; [|eassumption]| |eassumption];
      intros; by split_and!
  | same_wos ].

Lemma wp_life {A} (m : M A) (Q : result A → world ProdDB X → Prop) d0 w :
  safe m → prod_life d0 (w_db w) →
  (∀ r w', m w = (r, w') → prod_life d0 (w_db w') → Q r w') → wp m Q w.
Proof. apply wp_keeps, _. Qed.

Lemma lock_joined_wo_life id : safe (lock_joined_wo id).
Proof using Type.
  unfold lock_joined_wo. life_steps. destruct for_update_outer; [|done].
  case_match; simplify_eq. reflexivity.
Qed.

Lemma CreateWorkOrder_life in_ : safe (CreateWorkOrder in_).
Proof using HR.
  intros w. apply (wp_respects prod_life). unfold CreateWorkOrder.
  apply wp_bind. eapply wp_life; [apply respects_call_dep, _|reflexivity|].
  intros [plan|e] w1 _ G1; [|done]. do 2 (apply wp_bind, wp_fail_if; intros _; [done|]).
  apply wp_bind, wp_fail_if; intros Hq; [done|]. bool_hyps.
  apply wp_bind. eapply wp_life; [apply respects_call_dep, _|exact G1|].
  intros [sku|e] w2 _ G2; [|done].
  eapply wp_life; [|exact G2|by intros]. unfold stock_check, insertWorkOrder, log_bypass.
  life_steps. by eapply wo_insert_root_life; [| | |eassumption].
Qed.

Lemma RecordConsumption_life in_ : safe (RecordConsumption in_).
Proof using HR. unfold RecordConsumption, selectWorkOrderByID, insertConsumption. life_steps; stmt_life. Qed.

Lemma AssignWorkOrder_life in_ : safe (AssignWorkOrder in_).
Proof using HR.
  unfold AssignWorkOrder, selectWorkOrderByID, updateWorkOrderAssignment. life_steps; stmt_life.
Qed.

Lemma RecordLaborEntry_life in_ : safe (RecordLaborEntry in_).
Proof using HR.
  unfold RecordLaborEntry, labor_worker, finalized_guard, fail_opt, selectWorkOrderByID, insertLaborEntry.
  life_steps; stmt_life.
Qed.

Lemma CancelPlannedByPlan_life planID : safe (CancelPlannedByPlan planID).
Proof using HR.
  unfold CancelPlannedByPlan, cancelPlannedByPlan. life_steps.
  pose proof (cancel_planned_life planID d) as G. destruct (sql_update_where _ _ _). by stmt_ok.
Qed.

Lemma BoostWOPriority_life in_ : safe (BoostWOPriority in_).
Proof using HR.
  unfold BoostWOPriority, selectWorkOrderByID, setPriorityBoostAtomically. life_steps; stmt_life.
Qed.

Lemma ReassignWorkOrder_life in_ : safe (ReassignWorkOrder in_).
Proof using HR.
  unfold ReassignWorkOrder, reassignWorkOrderAtomically.
  life_steps; first [apply lock_joined_wo_life|stmt_life].
Qed.

Lemma ClaimWorkOrder_life in_ : safe (ClaimWorkOrder in_).
Proof using HR.
  unfold ClaimWorkOrder, claimWorkOrderAtomically.
  life_steps; first [apply lock_joined_wo_life|stmt_life].
Qed.

Lemma UpdateQCStatus_life woID st : safe (UpdateQCStatus woID st).
Proof using HR. unfold UpdateQCStatus, updateWorkOrderQCStatus. life_steps. stmt_ok. stmt_life. Qed.

Lemma CreateBlocker_life in_ : safe (CreateBlocker in_).
Proof using HR. unfold CreateBlocker, selectWorkOrderByID, insertBlocker. life_steps; stmt_life. Qed.

Lemma ResolveBlocker_life in_ : safe (ResolveBlocker in_).
Proof using HR.
  unfold ResolveBlocker, getBlocker, resolveBlocker. life_steps.
  apply prod_life_same; [|by repeat case_match; stmt_ok].
  pose proof (resolve_stmt_guar (rbi_BlockerID in_) (rbi_ResolvedBy in_)) as G. by eapply G.
Qed.
(** The row is locked, so the status that was read is the one overwritten. *)
Lemma preemptAtomically_life in_ : safe (preemptAtomically in_).
Proof using HR.
  intros w. apply (wp_respects prod_life). unfold preemptAtomically.
  assert (prod_life (w_db w) (w_db (interfere w))) as GI by apply HR.
  apply wp_tx; [done|]. set (w0 := interfere w) in *. clearbody w0.
  apply wp_bind, wp_tquery_row; [done..|]. intros [st qty] (x & Hx & [= -> ->])%fmap_Some_1.
  apply wp_bind, wp_tquery; [done|]. apply wp_bind, wp_fail_if; intros Hs; [done|].
  apply wp_bind, wp_texec; [done..|]. intros n d1 H1.
  assert (prod_life (w_db w0) d1) as G1.
  { refine (wo_update_life _ _ _ _ _ _ _ H1); [done|]. intros x' Hx'. simpl in Hx'.
    assert (x' = x) as -> by congruence. simpl. split_and!; [done| |done].
    destruct (String.eqb_spec (wo_Status x) WOPlanned) as [->|]; [done|].
    destruct (String.eqb_spec (wo_Status x) WOInCutting) as [->|]; [|done]. apply rtc_once, move_preempted. }
  apply wp_bind, wp_new_uuid, wp_bind, wp_now, wp_bind, wp_texec; [done..|]. intros u d2 H2.
  apply wp_mret. split; intros _; [done|].
  etrans; [exact GI|]. etrans; [exact G1|]. same_wos.
Qed.

Lemma PreemptWO_life in_ : safe (PreemptWO in_).
Proof using HR. unfold PreemptWO, selectWorkOrderByID. life_steps. apply preemptAtomically_life. Qed.

Lemma carry_step_life d0 d d1 d2 op x n c u :
  prod_life d0 d → (prod_wf d0 → carry_ok d op) → pco_CarryOver op = Some c →
  p_wos d !! pco_WorkOrderID op = Some x → wo_Status x = WOInProcessing →
  wo_update_partial (pco_WorkOrderID op) (pco_ActualQty op) (pco_ShortfallReason op) d = Ok (n, d1) →
  wo_insert c d1 = Ok (u, d2) → prod_life d0 d2.
Proof using Type.
  intros [G0 L0] Hok E Hx Hs H1 H2. split; [by eapply carry_step_guar|]. intros W.
  assert (carry_ok d op) as Hc by auto. destruct (L0 W) as [Hl Hf].
  assert (prod_life d d2) as [_ L2].
  { eapply (partial_carry_life op d d1 n x Hx Hs H1); [done|done| |done|].
    - intros _. destruct (Hc c E) as (_ & _ & _ & pw & Hpw & _ & Hq).
      assert (pw = x) as -> by congruence. lia.
    - by eapply carry_step_guar; [reflexivity|..]. }
  destruct (L2 (proj2 G0 W)) as [Hl2 Hf2]. split; [by etrans|auto].
Qed.

Lemma partialCompleteAtomically_life op d0 w :
  prod_life d0 (w_db w) → (prod_wf d0 → carry_ok (w_db w) op) →
  prod_life d0 (w_db (snd (partialCompleteAtomically (X:=X) op w))).
Proof using HR.
  intros G0 Hc. apply (wp_respects (λ _, prod_life d0)). unfold partialCompleteAtomically.
  assert (prod_life (w_db w) (w_db (interfere w))) as GI by apply HR.
  assert (prod_life d0 (w_db (interfere w))) as G1 by exact (transitivity G0 GI).
  apply wp_bind, wp_tx; [done|].
  assert (prod_wf d0 → carry_ok (w_db (interfere w)) op) as Hc1.
  { intros W. eapply carry_ok_persists; [apply GI|auto]. }
  set (w0 := interfere w) in *. clearbody w0. clear Hc GI G0.
  apply wp_bind, wp_tquery_row; [done..|]. intros st (x & Hx & ->)%fmap_Some_1.
  apply wp_bind, wp_fail_if; intros Hs; [done|]. bool_hyps.
  apply wp_bind, wp_texec; [done..|]. intros n d1 H1. simpl in H1.
  pose proof (partial_life op _ d1 n x Hx Hs H1) as G2.
  assert (∀ (w' : world ProdDB X), prod_life d0 (w_db w') →
    wp (parent ← selectWorkOrderByID (pco_WorkOrderID op);
        match pco_CarryOver op with
        | Some c => carry ← selectWorkOrderByID (wo_ID c); mret (parent, Some carry)
        | None => mret (parent, None)
        end) (λ _ w', prod_life d0 (w_db w')) w') as Hread.
  { intros w' G. eapply wp_life; [|exact G|by intros]. unfold selectWorkOrderByID. life_steps. }
  assert (∀ c, pco_CarryOver op = Some c → ∀ u d2, wo_insert c d1 = Ok (u, d2) → prod_life d0 d2) as Hins.
  { intros c E u d2 H2. by eapply (carry_step_life d0 (w_db w0)). }
  destruct (pco_CarryOver op) as [c|] eqn:E.
  - apply wp_texec; [done..|]. intros u d2 H2%(Hins c eq_refl).
    split; intros _; [done|]. by apply Hread.
  - apply wp_mret. split; intros _; [done|]. apply Hread. exact (transitivity G1 G2).
Qed.
Lemma PartialComplete_life in_ : safe (PartialComplete in_).
Proof using HR.
  intros w. apply (wp_respects prod_life). unfold PartialComplete.
  do 2 (apply wp_bind, wp_fail_if; intros _; [done|]).
  assert (prod_life (w_db w) (w_db (interfere w))) as GI by apply HR.
  apply wp_bind, wp_query_row; [done..|]. intros wo (w0 & Hw0 & ->)%fmap_Some_1.
  set (wo := wo_join _ w0). assert (wo_core wo = wo_core w0) as Ecore by apply wo_join_core. clearbody wo.
  apply wp_bind, wp_fail_if; intros _; [done|].
  apply wp_bind, wp_fail_if; intros Ha; [done|]. bool_hyps.
  apply wp_bind. eapply wp_mono; [by apply (carry_wp in_ wo (w_db (interfere w)))|].
  intros [carry|e] w1 (_ & Ed & Hcarry); [|done]. apply wp_bind.
  set (op := Build_partialCompleteOp _ _ _ _).
  assert (prod_life (w_db w) (w_db (snd (partialCompleteAtomically (X:=X) op w1)))) as G2.
  { apply partialCompleteAtomically_life; [by rewrite Ed|]. intros W c Hc. simpl in Hc. subst carry.
    destruct Hcarry as (id & at_ & ->). rewrite Ed.
    eapply (carry_over_ok in_ wo w0 _ id at_ op); try done. by apply GI. }
  unfold wp at 1. destruct (partialCompleteAtomically op w1) as [[[p c]|e] w2]; simpl in *; [|done].
  eapply wp_life; [|exact G2|by intros].
  unfold notify_status, fire_hook. life_steps.
Qed.
End life_safety.

(** ** AdvanceStatus, while no other session writes work orders *)
#[export] Instance calm_preorder : PreOrder calm.
Proof.
  split; [split; reflexivity|]. intros d1 d2 d3 [G1 E1] [G2 E2]. split; [by etrans|congruence].
Qed.

Section advance.
Context {X : Type} `{!Oracle ProdDB} `{!Postgres} `{!ProductionDeps X}.
Context (HC : rely calm).

Lemma rely_life : rely prod_life.
Proof using HC. intros k d. apply calm_life, HC. Qed.

(** What AdvanceStatus does before it writes. *)
Definition advance_checks (wo : WorkOrder) (woID : uuid) (in_ : AdvanceStatusInput) : M ProdDB X unit :=
  blocker_guard woID;; fail_opt (assignment_guard wo in_);; costing_guard woID in_;;
  metal_guard wo woID in_;; assign_sheet woID in_.

Definition advance_notices (wo : WorkOrder) (woID : uuid) (in_ : AdvanceStatusInput) : M ProdDB X unit :=
  notify_status woID (asi_To in_);;
  (if asi_To in_ =s WOCompleted
   then fire_hook (completed_event wo (wo_Quantity wo) (hook_actor (asi_CallerID in_) (wo_AssignedTo wo)))
   else mret tt).

Lemma AdvanceStatus_eq woID in_ w :
  AdvanceStatus woID in_ w =
  (wo ← selectWorkOrderByID woID;
   fail_if (is_some (CanTransitionTo (wo_Status wo) (asi_To in_)))
     (NewBizError ErrInvalidTransition ("invalid transition " ++ wo_Status wo ++ " -> " ++ asi_To in_));;
   advance_checks wo woID in_;;
   updateWorkOrderStatus woID (asi_To in_);;
   advance_notices wo woID in_) w.
Proof using Type.
  unfold AdvanceStatus, advance_checks, advance_notices, mbind, M_bind.
  destruct (selectWorkOrderByID woID w) as [[wo|e] w1]; [|done].
  destruct (fail_if _ _ w1) as [[[]|e] w2]; [|done].
  destruct (blocker_guard woID w2) as [[[]|e] w3]; [|done].
  destruct (fail_opt _ w3) as [[[]|e] w4]; [|done].
  destruct (costing_guard woID in_ w4) as [[[]|e] w5]; [|done].
  destruct (metal_guard wo woID in_ w5) as [[[]|e] w6]; [|done]. done.
Qed.

Lemma advance_checks_calm wo woID in_ : respects calm (advance_checks wo woID in_).
Proof using HC.
  unfold advance_checks, blocker_guard, countOpenBlockers, fail_opt, costing_guard, metal_guard,
    hasMetalConsumption, assign_sheet, of_result.
  resp_steps HC.
Qed.

Lemma AdvanceStatus_life woID in_ : respects prod_life (AdvanceStatus (X:=X) woID in_).
Proof using HC.
  intros w. rewrite AdvanceStatus_eq. apply (wp_respects prod_life).
  assert (calm (w_db w) (w_db (interfere w))) as C0 by apply HC.
  apply wp_bind, wp_query_row; [intros _; by apply calm_life..|]. intros wo (x & Hx & ->)%fmap_Some_1.
  apply wp_bind, wp_fail_if; intros Ht; [by apply calm_life|].
  destruct (CanTransitionTo _ _) eqn:Et in Ht; [done|]. apply CanTransitionTo_step in Et.
  assert (wo_step (wo_Status x) (asi_To in_)) as Hst by (unfold wo_join in Et; by case_match).
  apply wp_bind. eapply (wp_keeps calm); [apply advance_checks_calm|exact C0|].
  intros [[]|e] w1 _ C1; [|by apply calm_life]. unfold updateWorkOrderStatus.
  assert (calm (w_db w) (w_db (interfere w1))) as C2 by (etrans; [exact C1|apply HC]).
  apply wp_bind, wp_bind, wp_exec; [intros; by apply calm_life..|]. intros n d' Hu. apply wp_mret.
  assert (prod_life (w_db w) d') as G.
  { etrans; [by apply calm_life|]. refine (wo_update_life _ _ _ _ _ _ _ Hu); [done|].
    intros x' Hx'. destruct C0 as [_ E0], C2 as [_ E2]. rewrite E2, <- E0, Hx in Hx'.
    injection Hx' as <-. simpl. split_and!; [by inversion Hst|by apply rtc_once, move_advance|done]. }
  eapply (wp_keeps prod_life); [|exact G|by intros].
  pose proof rely_life as HR. unfold advance_notices, notify_status, fire_hook. resp_steps HR.
Qed.
End advance.

(** ** Reachable states *)
Definition is_advance (c : prod_call) : bool :=
  match c with CallAdvanceStatus _ _ => true | _ => false end.

Section life_claims.
Context {X : Type} `{!Oracle ProdDB} `{!Postgres} `{!ProductionDeps X} `{!CursorCodec}.

Lemma prod_serve_life c :
  rely prod_life → rely calm ∨ is_advance c = false → respects (X:=X) prod_life (prod_serve c).
Proof.
  intros HR Hc. destruct c; apply respects_best_effort;
    first [ by apply CreateWorkOrder_life | by apply RecordConsumption_life
          | by apply AssignWorkOrder_life | by apply RecordLaborEntry_life
          | by apply CancelPlannedByPlan_life | by apply PartialComplete_life
          | by apply BoostWOPriority_life | by apply PreemptWO_life | by apply ReassignWorkOrder_life
          | by apply ClaimWorkOrder_life | by apply UpdateQCStatus_life | by apply CreateBlocker_life
          | by apply ResolveBlocker_life
          | destruct Hc as [Hc|Hc]; [by apply AdvanceStatus_life|discriminate Hc] ].
Qed.

Lemma prod_serve_all_life cs :
  rely prod_life → rely calm ∨ Forall (λ c, is_advance c = false) cs →
  respects (X:=X) prod_life (prod_serve_all cs).
Proof.
  intros HR Hcs. unfold prod_serve_all. induction cs as [|c cs IH]; simpl.
  - apply respects_mret; apply _.
  - apply respects_bind; [apply _|apply prod_serve_life|intros []; apply IH]; [done| |];
      destruct Hcs as [?|Hcs]; [by left|right; by inversion Hcs|by left|right; by inversion Hcs].
Qed.

(** [C7] Every work order only moves along its lifecycle - PLANNED, IN_CUTTING,
    IN_PROCESSING, COMPLETED or PARTIAL_COMPLETE, COSTED, with PLANNED to
    CANCELED by the plan cascade and IN_CUTTING back to PLANNED by a
    pre-emption; CANCELED and COSTED are final - through any requests and
    faults, either while no other session writes work orders or, for the
    handlers other than AdvanceStatus, beside sessions that do the same. *)
Theorem wo_lifecycle (cs : list prod_call) (w : world ProdDB X) :
  prod_wf (w_db w) → rely prod_life → rely calm ∨ Forall (λ c, is_advance c = false) cs →
  wo_life (w_db w) (w_db (snd (prod_serve_all cs w)))
  ∧ ∀ k x, p_wos (w_db w) !! k = Some x → wo_Status x = WOCanceled ∨ wo_Status x = WOCosted →
      ∃ x', p_wos (w_db (snd (prod_serve_all cs w))) !! k = Some x' ∧ wo_Status x' = wo_Status x.
Proof.
  intros W HR Hcs. destruct (prod_serve_all_life cs HR Hcs w) as [_ L]. destruct (L W) as [HL _].
  split; [done|]. intros k x Hx Ht. destruct (HL k x Hx) as (x' & ? & ?).
  exists x'. split; [done|]. by apply wo_terminal.
Qed.

(** [C5] Nothing is planned twice (BR-P07, BR-P08): under the same conditions,
    if initially what every work order produced plus the quantities of its
    carry-overs stays within its own quantity, with nothing booked while it is
    unfinished, then this holds in every state reached. *)
Theorem carry_over_balance (cs : list prod_call) (w : world ProdDB X) :
  prod_wf (w_db w) → rely prod_life → rely calm ∨ Forall (λ c, is_advance c = false) cs →
  fair (w_db w) → fair (w_db (snd (prod_serve_all cs w))).
Proof. intros W HR Hcs. destruct (prod_serve_all_life cs HR Hcs w) as [_ L]. by apply (L W). Qed.
End life_claims.

(** Cut, process and partially complete; then cost what was produced. *)
Definition shop_day : list prod_call :=
  [CallResolveBlocker Shop.resolve; CallPartialComplete Shop.partial; CallCancelPlannedByPlan 9;
   CallAdvanceStatus 21 (Shop.advance WOInCutting); CallAdvanceStatus 20 (Shop.advance WOCosted)].

Lemma shop_fair : fair Shop.db.
Proof.
  unfold fair. simpl. repeat apply map_Forall_insert_2; [by vm_compute..|apply map_Forall_empty].
Qed.

Lemma wo_lifecycle_witness :
  let _ := Shop.oracle in let _ := Shop.postgres in let _ := Shop.deps in let _ := BinaryCodec.codec in
  wo_life Shop.db (w_db (snd (prod_serve_all shop_day Shop.world0))).
Proof.
  intros. apply (wo_lifecycle shop_day Shop.world0).
  - apply Shop.shop_wf.
  - apply Shop.rely_shop. apply _.
  - left. apply Shop.rely_shop. apply _.
Defined.

Lemma carry_over_balance_witness :
  let _ := Shop.oracle in let _ := Shop.postgres in let _ := Shop.deps in let _ := BinaryCodec.codec in
  fair (w_db (snd (prod_serve_all shop_day Shop.world0))).
Proof.
  intros. apply (carry_over_balance shop_day Shop.world0).
  - apply Shop.shop_wf.
  - apply Shop.rely_shop. apply _.
  - left. apply Shop.rely_shop. apply _.
  - apply shop_fair.
Defined.
