(* ===== verification/ProductionFlow.v ===== *)
(** * Production: what each operation does

    Functional correctness of the work-order handlers for a request no other
    session overlaps ([serial]), with faults of the driver and of the
    collaborators left open. *)

From S2P Require Import Prelude Domain Effects HttpKit Sql ProductionData ProductionStore ProductionService ProductionSafety.
From S2P Require Import ProductionProps ProductionLife.
From stdpp Require Import base gmap strings list sorting.
From Stdlib Require Import ZArith Lia.

Open Scope string_scope.

(** A collaborator gave the answer [r] to the call [f]. *)
Definition answered {X A} (f : dep X A) (a : A) : Prop := ∃ k x x', f k x = (Ok a, x').

(** ** Row-level readings of the statements *)
Lemma wo_update_row id f d n d' x :
  p_wos d !! id = Some x → wo_update id f d = Ok (n, d') → d' = set_wos (<[id := f x]> (p_wos d)) d.
Proof. intros Hx ->%wo_update_set. unfold sql_update. by rewrite Hx. Qed.

Lemma wo_join_fields d w :
  wo_ID (wo_join d w) = wo_ID w ∧ wo_Status (wo_join d w) = wo_Status w
  ∧ wo_AssignedTo (wo_join d w) = wo_AssignedTo w ∧ wo_Quantity (wo_join d w) = wo_Quantity w
  ∧ wo_SKUID (wo_join d w) = wo_SKUID w ∧ wo_PlanID (wo_join d w) = wo_PlanID w
  ∧ wo_SalesOrderLineID (wo_join d w) = wo_SalesOrderLineID w.
Proof. unfold wo_join. by case_match. Qed.

Section flow.
Context {X : Type} `{!Oracle ProdDB} `{!Postgres} `{!ProductionDeps X} `{!CursorCodec}.
Context (HS : @serial ProdDB _).
Local Abbreviation M := (M ProdDB X).
Implicit Types (w : world ProdDB X).

(** A check: the tables stay, and success means [P]. *)
Definition checks (m : M unit) (d : ProdDB) (P : Prop) : Prop :=
  ∀ w, w_db w = d → wp m (λ r w', w_db w' = d ∧ (is_ok r = true → P)) w.

Lemma checks_skip d (P : Prop) : P → checks (mret tt) d P.
Proof using Type. intros HP w Hw. by apply wp_mret. Qed.

Lemma checks_fail_if d b e : checks (fail_if b e) d (b = false).
Proof using Type. intros w Hw. by apply wp_fail_if. Qed.

Lemma checks_fail_opt d o : checks (fail_opt o) d (o = None).
Proof using Type. intros w Hw. by apply fail_opt_wp. Qed.

Lemma checks_seq m k d P Q : checks m d P → (P → checks k d Q) → checks (m;; k) d (P ∧ Q).
Proof using Type.
  intros Hm Hk w Hw. apply wp_bind. eapply wp_mono; [by apply Hm|].
  intros [[]|e] w1 [H1 HP]; [|by split]. specialize (HP eq_refl).
  eapply wp_mono; [by apply Hk|]. intros r w2 [? ?]. auto.
Qed.

Lemma checks_dep {A} (f : dep X A) (k : A → M unit) d (P : Prop) :
  (∀ a, answered f a → checks (k a) d P) → checks (call_dep f ≫= k) d P.
Proof using Type.
  intros Hk w Hw. apply wp_bind, wp_call_dep. intros [a|e] x' E; [|done].
  apply Hk; [|done]. unfold answered. eauto.
Qed.

Lemma checks_query {A} lbl (f : ProdDB → A) (k : A → M unit) d (P : Prop) :
  checks (k (f d)) d P → checks (query lbl f ≫= k) d P.
Proof using HS.
  intros Hk w <-. apply wp_bind, wp_query_serial; [done|intros e w' E; by split|].
  intros w' E. by apply Hk.
Qed.

Lemma checks_mono m d (P Q : Prop) : checks m d P → (P → Q) → checks m d Q.
Proof using Type. intros Hm HPQ w Hw. eapply wp_mono; [by apply Hm|]. intros r w' []. auto. Qed.

(** ** AdvanceStatus *)
Definition no_open_blocker (d : ProdDB) (woID : uuid) : Prop :=
  ∀ k b, p_blockers d !! k = Some b → blk_WorkOrderID b = woID → is_Some (blk_ResolvedAt b).

Lemma count_zero_blockers d woID :
  zlen (sql_where (open_blocker woID) (p_blockers d)) = 0%Z → no_open_blocker d woID.
Proof using Type.
  intros Hz k b Hk Hb. destruct (blk_ResolvedAt b) eqn:E; [eauto|]. exfalso.
  assert (b ∈ sql_where (open_blocker woID) (p_blockers d)) as Hin.
  { apply sql_where_elem. split; [|eauto]. unfold open_blocker. by rewrite Hb, N.eqb_refl, E. }
  destruct (sql_where _ _); [by apply not_elem_of_nil in Hin|unfold zlen in Hz; simpl in Hz; lia].
Qed.

Lemma blocker_guard_checks d woID : checks (blocker_guard woID) d (no_open_blocker d woID).
Proof using HS.
  intros w Hw. unfold blocker_guard, countOpenBlockers.
  apply wp_bind, wp_wrap_err, wp_query_serial; [done|intros e w' E; split; [congruence|done]|].
  intros w' E. apply wp_fail_if; intros Hz; (split; [congruence|]); [done|]. intros _. bool_hyps.
  rewrite <- Hw. apply count_zero_blockers. pose proof (zlen_nonneg (sql_where (open_blocker woID) (p_blockers (w_db w)))).
  lia.
Qed.

(** Spec 5.1: cutting is started for its operator, and by that operator. *)
Definition may_start (x : WorkOrder) (in_ : AdvanceStatusInput) : Prop :=
  asi_To in_ = WOInCutting → asi_CallerRole in_ ≠ RoleAdmin →
  ∃ u, wo_AssignedTo x = Some u ∧ (asi_CallerID in_ = None ∨ asi_CallerID in_ = Some u).

Lemma assignment_guard_ok x in_ : assignment_guard x in_ = None → may_start x in_.
Proof using Type.
  unfold assignment_guard, may_start. intros Hg Ht Hr. rewrite Ht in Hg. simpl in Hg.
  destruct (String.eqb_spec (asi_CallerRole in_) RoleAdmin); [done|]. simpl in Hg.
  destruct (wo_AssignedTo x) as [u|]; [|done]. exists u. split; [done|].
  destruct (asi_CallerID in_) as [c|]; [|by left].
  destruct (N.eqb_spec c u); [right; congruence|done].
Qed.

Definition costed (woID : uuid) (in_ : AdvanceStatusInput) : Prop :=
  asi_To in_ = WOInCutting → ∀ c, cc = Some c → answered (HasCostingRecord c woID) true.

Lemma costing_guard_checks d woID in_ : checks (costing_guard woID in_) d (costed woID in_).
Proof using Type.
  unfold costing_guard, costed. destruct cc as [c|]; [|by apply checks_skip].
  destruct (String.eqb_spec (asi_To in_) WOInCutting); [|by apply checks_skip].
  apply checks_dep. intros b Hb. eapply checks_mono; [apply checks_fail_if|].
  intros ? _ c' [= <-]. by destruct b.
Qed.

Definition metal_used (d : ProdDB) (x : WorkOrder) (woID : uuid) (in_ : AdvanceStatusInput) : Prop :=
  asi_To in_ = WOCompleted → ∃ sku, answered (sc_GetSKU (wo_SKUID x)) sku
    ∧ (ski_RequiresMetal sku = true → metal_of woID d = true).

Lemma metal_guard_checks d x woID in_ : checks (metal_guard x woID in_) d (metal_used d x woID in_).
Proof using HS.
  unfold metal_guard, metal_used, hasMetalConsumption.
  destruct (String.eqb_spec (asi_To in_) WOCompleted); [|by apply checks_skip].
  apply checks_dep. intros sku Hsku. destruct (ski_RequiresMetal sku) eqn:E.
  - apply checks_query. eapply checks_mono; [apply checks_fail_if|].
    intros ? _. exists sku. split; [done|]. intros _. by destruct (metal_of woID d).
  - apply checks_skip. intros _. exists sku. split; [done|]. congruence.
Qed.

(** The sheet, if one was named, was handed over - by an admin with a reason
    if the overflow lock was bypassed. *)
Definition sheet_assigned (woID : uuid) (in_ : AdvanceStatusInput) : Prop :=
  asi_To in_ = WOInCutting → ∀ sid assign, asi_SheetID in_ = Some sid → sa = Some assign →
  ∃ req, answered (assign req) tt ∧ par_SheetID req = sid ∧ par_WorkOrderID req = woID
    ∧ (par_BypassOverflow req = true → asi_CallerRole in_ = RoleAdmin ∧ par_Reason req ≠ "").

Lemma assign_sheet_checks d woID in_ : checks (assign_sheet woID in_) d (sheet_assigned woID in_).
Proof using Type.
  unfold assign_sheet, sheet_assigned.
  destruct (asi_SheetID in_) as [sid|], sa as [assign|]; try by apply checks_skip.
  destruct (String.eqb_spec (asi_To in_) WOInCutting); [|by apply checks_skip].
  intros w Hw. apply wp_bind. destruct (assign_request woID sid in_) as [req|er] eqn:Er; simpl; [|by apply wp_throw].
  apply wp_mret, wp_call_dep. intros [[]|e'] x' Ea; [|done]. split; [done|].
  intros _ _ sid' assign' [= <-] [= <-]. exists req. split; [unfold answered; eauto|].
  unfold assign_request in Er. destruct (asi_BypassOverflow in_); [|by injection Er as <-].
  destruct (asi_CallerRole in_ <>s RoleAdmin) eqn:Ea'; [done|].
  destruct (asi_BypassReason in_ =s "") eqn:Eb; [done|]. injection Er as <-. by bool_hyps.
Qed.

(** Everything the handler demands before it writes. *)
Record may_advance (d : ProdDB) (x : WorkOrder) (woID : uuid) (in_ : AdvanceStatusInput) : Prop := {
  adv_step : wo_step (wo_Status x) (asi_To in_);
  adv_unblocked : no_open_blocker d woID;
  adv_start : may_start x in_;
  adv_costed : costed woID in_;
  adv_metal : metal_used d x woID in_;
  adv_sheet : sheet_assigned woID in_
}.

Lemma advance_checks_ok d x woID in_ :
  wo_step (wo_Status x) (asi_To in_) →
  checks (advance_checks (wo_join d x) woID in_) d (may_advance d x woID in_).
Proof using HS.
  intros Hst. unfold advance_checks. destruct (wo_join_fields d x) as (_ & _ & Ea & _ & Es & _).
  eapply checks_mono.
  - apply checks_seq; [apply blocker_guard_checks|intros _].
    apply checks_seq; [apply checks_fail_opt|intros _].
    apply checks_seq; [apply costing_guard_checks|intros _].
    apply checks_seq; [apply metal_guard_checks|intros _]. apply assign_sheet_checks.
  - intros (H1 & H2%assignment_guard_ok & H3 & H4 & H5). split; try done.
    + unfold may_start in *. by rewrite <- Ea.
    + unfold metal_used in *. by rewrite <- Es.
Qed.

Lemma advance_notices_wp x woID in_ w :
  wp (advance_notices x woID in_) (λ r w', w_db w' = w_db w ∧ is_ok r = true) w.
Proof using Type.
  unfold advance_notices, notify_status, fire_hook. apply wp_bind.
  apply (wp_mono _ (λ r w', w_db w' = w_db w ∧ r = Ok tt)).
  - destruct wo_notifier; [|by apply wp_mret]. by apply wp_best_effort, wp_call_dep.
  - intros r w1 [E1 ->]. apply wp_if; intros _; [|by apply wp_mret].
    destruct fgHook; [|by apply wp_mret]. by apply wp_best_effort, wp_call_dep.
Qed.

(** [C4] AdvanceStatus moves a work order exactly one step along its lifecycle
    and changes nothing else, and only when no blocker of it is open, cutting
    is started by the assigned operator or an admin with an estimated cost on
    record and the named sheet handed over, and completion finds its metal
    consumption recorded; on any error the tables are as before. *)
Theorem AdvanceStatus_gate (woID : uuid) (in_ : AdvanceStatusInput) (r : result unit) w w' :
  AdvanceStatus woID in_ w = (r, w') →
  match r with
  | Ok _ => ∃ x, p_wos (w_db w) !! woID = Some x ∧ may_advance (w_db w) x woID in_
                 ∧ w_db w' = set_wos (<[woID := wo_set_status (asi_To in_) x]> (p_wos (w_db w))) (w_db w)
  | Err _ => w_db w' = w_db w
  end.
Proof using HS.
  intros E. rewrite AdvanceStatus_eq in E. run_wp E. unfold selectWorkOrderByID, updateWorkOrderStatus.
  apply wp_bind, wp_query_row_serial; [done..|]. intros wo w1 (x & Hx & ->)%fmap_Some_1 E1.
  apply wp_bind, wp_fail_if; intros Ht; [done|].
  destruct (CanTransitionTo _ _) eqn:Et in Ht; [done|]. apply CanTransitionTo_step in Et.
  destruct (wo_join_fields (w_db w) x) as (_ & Es & _). rewrite Es in Et.
  apply wp_bind. eapply wp_mono; [by apply (advance_checks_ok (w_db w))|].
  intros [[]|e] w2 [E2 Hadv]; [|done]. specialize (Hadv eq_refl).
  apply wp_bind, wp_bind, wp_exec_serial; [done|intros e w3 E3; congruence|].
  intros n d' w3 Hu E3. apply wp_mret. rewrite E2 in Hu. apply (wo_update_row _ _ _ _ _ x) in Hu; [|done].
  eapply wp_mono; [apply advance_notices_wp|]. intros [[]|e] w4 [E4 Hok]; [|done].
  exists x. split_and!; [done..|]. congruence.
Qed.

(** ** PartialComplete *)
Definition partial_rows (in_ : PartialCompleteInput) (d : ProdDB) (x : WorkOrder)
    (carry : option WorkOrder) : gmap uuid WorkOrder :=
  let t := <[pci_WorkOrderID in_ := wo_set_partial (pci_ActualQty in_) (pci_ShortfallReason in_) x]> (p_wos d) in
  match carry with None => t | Some c => <[wo_ID c := c]> t end.

(** The carry-over row: fresh, unassigned and PLANNED for exactly the shortfall. *)
Definition carry_row (in_ : PartialCompleteInput) (d : ProdDB) (x c : WorkOrder) : Prop :=
  p_wos d !! wo_ID c = None
  ∧ (∃ at_, c = new_wo (wo_ID c) (default (wo_PlanID x) (pci_CarryOverPlanID in_)) (wo_SKUID x)
              (wo_Quantity x - pci_ActualQty in_) (wo_SalesOrderLineID x) (Some (wo_ID x)) at_).

Definition partial_effect (in_ : PartialCompleteInput) (d : ProdDB) (x : WorkOrder)
    (carry : option WorkOrder) (d' : ProdDB) : Prop :=
  p_wos d !! pci_WorkOrderID in_ = Some x ∧ wo_Status x = WOInProcessing
  ∧ (1 <= pci_ActualQty in_ < wo_Quantity x)%Z
  ∧ is_some carry = pci_CarryOver in_ ∧ (∀ c, carry = Some c → carry_row in_ d x c)
  ∧ d' = set_wos (partial_rows in_ d x carry) d.

Lemma partial_tx_wp in_ x (carry : option WorkOrder) w :
  prod_wf (w_db w) → p_wos (w_db w) !! pci_WorkOrderID in_ = Some x →
  (1 <= pci_ActualQty in_ < wo_Quantity x)%Z →
  is_some carry = pci_CarryOver in_ →
  (∀ c, carry = Some c → ∃ id at_, c = carry_over_wo in_ (wo_join (w_db w) x) id at_) →
  wp (partialCompleteAtomically {| pco_WorkOrderID := pci_WorkOrderID in_; pco_ActualQty := pci_ActualQty in_;
        pco_ShortfallReason := pci_ShortfallReason in_; pco_CarryOver := carry |})
    (λ r w', match r with
      | Ok (p, c) => partial_effect in_ (w_db w) x carry (w_db w')
          ∧ p = wo_join (w_db w') (wo_set_partial (pci_ActualQty in_) (pci_ShortfallReason in_) x)
          ∧ c = wo_join (w_db w') <$> carry
      | Err _ => w_db w' = w_db w ∨ partial_effect in_ (w_db w) x carry (w_db w')
      end) w.
Proof using HS.
  intros W Hx Ha Hco Hcarry. unfold partialCompleteAtomically.
  apply wp_bind, wp_tx; [intros _; left; simpl; apply HS|].
  assert (w_db (interfere w) = w_db w) as E0 by apply HS.
  set (w0 := interfere w) in *. clearbody w0.
  apply wp_bind, wp_tquery_row; [by left..|]. intros st. simpl. rewrite E0, Hx. intros [= <-].
  apply wp_bind, wp_fail_if; intros Hst; [by left|]. bool_hyps.
  apply wp_bind, wp_texec; [by left..|]. intros n d1 H1. simpl in H1. rewrite E0 in H1.
  destruct (partial_row {| pco_WorkOrderID := pci_WorkOrderID in_; pco_ActualQty := pci_ActualQty in_;
        pco_ShortfallReason := pci_ShortfallReason in_; pco_CarryOver := carry |} _ d1 n x Hx H1) as [-> _].
  simpl.
  assert (∀ d2 (w2 : world ProdDB X), w_db w2 = d2 → partial_effect in_ (w_db w) x carry d2 →
    wp (parent ← selectWorkOrderByID (pci_WorkOrderID in_);
        match carry with
        | Some c => carry ← selectWorkOrderByID (wo_ID c); mret (parent, Some carry)
        | None => mret (parent, None)
        end)
      (λ r w', match r with
      | Ok (p, c) => partial_effect in_ (w_db w) x carry (w_db w')
          ∧ p = wo_join (w_db w') (wo_set_partial (pci_ActualQty in_) (pci_ShortfallReason in_) x)
          ∧ c = wo_join (w_db w') <$> carry
      | Err _ => w_db w' = w_db w ∨ partial_effect in_ (w_db w) x carry (w_db w')
      end) w2) as Hread.
  { intros d2 w2 E2 Heff. unfold selectWorkOrderByID.
    apply wp_bind, wp_query_row_serial; [done|intros e w3 E3; right; congruence|].
    intros p w3 (p0 & Hp0 & ->)%fmap_Some_1 E3.
    assert (p0 = wo_set_partial (pci_ActualQty in_) (pci_ShortfallReason in_) x) as ->.
    { destruct Heff as (_ & _ & _ & _ & Hc & Hd2). rewrite E2, Hd2 in Hp0. simpl in Hp0. unfold partial_rows in Hp0.
      destruct carry as [c|]; [|rewrite lookup_insert_eq in Hp0; congruence].
      destruct (Hc c eq_refl) as [Hf _]. rewrite lookup_insert_ne, lookup_insert_eq in Hp0; congruence. }
    destruct carry as [c|]; [|apply wp_mret; rewrite E3, E2; done].
    apply wp_bind, wp_query_row_serial; [done|intros e w4 E4; right; congruence|].
    intros c' w4 (c0 & Hc0 & ->)%fmap_Some_1 E4. apply wp_mret.
    assert (c0 = c) as ->.
    { destruct Heff as (_ & _ & _ & _ & _ & Hd2). rewrite E3, E2, Hd2 in Hc0. simpl in Hc0.
      rewrite lookup_insert_eq in Hc0. congruence. }
    rewrite E4, E3, E2. done. }
  destruct carry as [c|].
  - apply wp_texec; [by left..|]. intros u d2 Hi. simpl in Hi. unfold wo_insert in Hi. stmt_ok. simpl in *.
    split; intros _; [by left|]. eapply Hread; [done|]. unfold partial_effect.
    destruct (Hcarry c eq_refl) as (id & at_ & Ec).
    assert (wo_inserted c = c ∧ c = new_wo (wo_ID c) (default (wo_PlanID x) (pci_CarryOverPlanID in_)) (wo_SKUID x)
              (wo_Quantity x - pci_ActualQty in_) (wo_SalesOrderLineID x) (Some (wo_ID x)) at_) as [Ein Enew].
    { destruct (wf_wos _ W _ _ Hx) as (_ & _ & Hq%int4_spec & _).
      destruct (wo_join_fields (w_db w) x) as (E1 & _ & _ & E2 & E3 & E4 & E5).
      rewrite Ec. unfold carry_over_wo. rewrite E1, E2, E3, E4, E5, wrap64_id by (unfold int64; lia). done. }
    split_and!; [done|done|lia|lia|done| |].
    + intros c2 [= <-]. split; [|by exists at_].
      match goal with Hn : <[_ := _]> _ !! wo_ID c = None |- _ => apply lookup_insert_None in Hn as [? _] end. done.
    + unfold partial_rows. by rewrite Ein.
  - apply wp_mret. split; intros _; [by left|]. eapply Hread; [done|].
    unfold partial_effect. split_and!; done || lia.
Qed.

(** [C8] A partial completion books the actual quantity - at least one, less
    than planned - on the IN_PROCESSING work order together with the reason,
    and with carry-over plans the exact shortfall again in a fresh, unassigned
    work order of the same SKU and sales-order line that names its parent; it
    returns both rows.  An error leaves the tables as they were, unless only
    reading the committed rows back failed. *)
Theorem PartialComplete_splits (in_ : PartialCompleteInput) (r : result PartialCompleteResult) w w' :
  prod_wf (w_db w) → PartialComplete in_ w = (r, w') →
  match r with
  | Ok res => ∃ x carry, partial_effect in_ (w_db w) x carry (w_db w')
      ∧ pcr_WOUpdated res = wo_join (w_db w') (wo_set_partial (pci_ActualQty in_) (pci_ShortfallReason in_) x)
      ∧ pcr_CarryOverWO res = wo_join (w_db w') <$> carry
  | Err _ => w_db w' = w_db w ∨ ∃ x carry, partial_effect in_ (w_db w) x carry (w_db w')
  end.
Proof using HS.
  intros W E. run_wp E. unfold PartialComplete.
  do 2 (apply wp_bind, wp_fail_if; intros _; [by left|]). unfold selectWorkOrderByID.
  apply wp_bind, wp_query_row_serial; [done|by left|]. intros wo w1 (x & Hx & ->)%fmap_Some_1 E1.
  destruct (wo_join_fields (w_db w) x) as (Ei & _ & _ & Eq & _).
  apply wp_bind, wp_fail_if; intros _; [by left|].
  apply wp_bind, wp_fail_if; intros Ha; [by left|]. bool_hyps. rewrite Eq in *.
  apply wp_bind. apply (wp_mono _ (λ r w', w_db w' = w_db w ∧ ∃ carry, r = Ok carry ∧ is_some carry = pci_CarryOver in_
    ∧ ∀ c, carry = Some c → ∃ id at_, c = carry_over_wo in_ (wo_join (w_db w) x) id at_)).
  { destruct (pci_CarryOver in_); [|apply wp_mret; split; [done|by exists None]].
    apply wp_bind, wp_new_uuid, wp_bind, wp_now, wp_mret. split; [done|].
    eexists. split_and!; [done..|]. intros c [= <-]. eauto. }
  intros r2 w2 (E2 & carry & -> & Hco & Hcarry). apply wp_bind.
  rewrite Ei. destruct (wf_wos _ W _ _ Hx) as (-> & _).
  rewrite <- E2 in *. eapply wp_mono; [by apply (partial_tx_wp in_ x carry)|].
  intros [[p c]|e] w3 Hr; [|destruct Hr as [?|?]; [by left|right; eauto]].
  destruct Hr as (Heff & -> & ->). apply wp_bind.
  apply (wp_mono _ (λ r w', w_db w' = w_db w3 ∧ r = Ok tt)).
  { unfold notify_status. destruct wo_notifier; [|by apply wp_mret]. by apply wp_best_effort, wp_call_dep. }
  intros r4 w4 [E4 ->]. apply wp_bind.
  apply (wp_mono _ (λ r w', w_db w' = w_db w3 ∧ r = Ok tt)).
  { unfold fire_hook. destruct fgHook; [|by apply wp_mret]. by apply wp_best_effort, wp_call_dep. }
  intros r5 w5 [E5 ->]. apply wp_mret. exists x, carry. rewrite E5. done.
Qed.
End flow.

Lemma AdvanceStatus_gate_witness :
  let _ := Shop.oracle in let _ := Shop.postgres in let _ := Shop.deps in
  ∃ x, p_wos Shop.db !! 21%N = Some x ∧ may_advance Shop.db x 21 (Shop.advance WOInCutting).
Proof.
  intros. assert (@serial ProdDB Shop.oracle) as HS by done.
  destruct (AdvanceStatus 21 (Shop.advance WOInCutting) Shop.world0) as [[u|e] w'] eqn:E.
  - destruct (AdvanceStatus_gate HS 21 (Shop.advance WOInCutting) (Ok u) _ _ E) as (x & ? & ? & _). by exists x.
  - vm_compute in E. discriminate E.
Defined.

Lemma PartialComplete_splits_witness :
  let _ := Shop.oracle in let _ := Shop.postgres in let _ := Shop.deps in
  ∃ x carry d', partial_effect Shop.partial Shop.db x carry d'.
Proof.
  intros. assert (@serial ProdDB Shop.oracle) as HS by done.
  destruct (PartialComplete Shop.partial Shop.world0) as [[res|e] w'] eqn:E.
  - destruct (PartialComplete_splits HS Shop.partial (Ok res) Shop.world0 w' Shop.shop_wf E) as (x & carry & ? & _).
    by exists x, carry, (w_db w').
  - vm_compute in E. discriminate E.
Defined.
