(* ===== verification/ProductionOps.v ===== *)
(** * Production: creation, assignment, labour, cascades and pre-emption

    Further functional properties of the handlers and the ways the state machine
    of the work orders is left.  Claiming and reassigning are stated of any
    server; on one that refuses their lock they only fail. *)

From S2P Require Import Prelude Domain Effects HttpKit Sql ProductionData ProductionStore ProductionService ProductionSafety.
From S2P Require Import ProductionProps ProductionLife ProductionFlow.
From stdpp Require Import base gmap strings list sorting.
From Stdlib Require Import ZArith Lia.

Open Scope string_scope.

(** ** The least busy operator *)
Lemma least_busy_spec load best l :
  Forall (λ u, best <= u)%N l → StronglySorted N.le l →
  let res := least_busy load best (load best) l in
  sar_InCuttingCount res = load (sar_UserID res)
  ∧ sar_UserID res ∈ best :: l
  ∧ ∀ u, u ∈ best :: l → by_key load id (sar_UserID res) u.
Proof.
  revert best. induction l as [|v l IH]; intros best Hb Hs; simpl.
  - split_and!; [done|by left|]. intros u [->|Hu]%elem_of_cons; [by right|by apply not_elem_of_nil in Hu].
  - inversion Hb as [|? ? Hbv Hbl]; subst. inversion Hs as [|? ? Hsl Hvl]; subst.
    destruct (load v <? load best)%Z eqn:E; bool_hyps.
    + destruct (IH v Hvl Hsl) as (H1 & H2 & H3). split_and!; [done|by right|].
      intros u [->|Hu]%elem_of_cons; [|by apply H3].
      specialize (H3 v ltac:(by left)). unfold by_key in *. simpl in *. lia.
    + destruct (IH best Hbl Hsl) as (H1 & H2 & H3). split_and!; [done| |].
      * apply elem_of_cons in H2 as [->|]; [by left|by right; right].
      * intros u Hu. apply elem_of_cons in Hu as [->|Hu]; [apply H3; by left|].
        apply elem_of_cons in Hu as [->|Hu]; [|apply H3; by right].
        specialize (H3 best ltac:(by left)). unfold by_key in *. simpl in *. lia.
Qed.

Section ops.
Context {X : Type} `{!Oracle ProdDB} `{!Postgres} `{!ProductionDeps X} `{!CursorCodec}.
Local Abbreviation M := (M ProdDB X).
Implicit Types (w : world ProdDB X).

(** [C25] The suggested operator is one of the CNC users, the count returned is
    the number of work orders that operator is cutting, and no CNC user is
    cutting fewer; among the equally busy it is the one with the least id. *)
Theorem SuggestAssignment_least (HS : @serial ProdDB _) (woID : uuid) (res : SuggestAssignmentResult) w w' :
  SuggestAssignment woID w = (Ok res, w') →
  let load := cutting_load (w_db w) in
  sar_UserID res ∈ cnc_users (w_db w) ∧ sar_InCuttingCount res = load (sar_UserID res)
  ∧ ∀ u, u ∈ cnc_users (w_db w) → by_key load id (sar_UserID res) u.
Proof.
  intros E.
  enough (wp (SuggestAssignment woID) (λ r _, ∀ res, r = Ok res →
    ∃ u l, cnc_users (w_db w) = u :: l ∧ res = least_busy (cutting_load (w_db w)) u (cutting_load (w_db w) u) l) w)
    as Hwp.
  { destruct (wp_run _ _ _ _ _ E Hwp res eq_refl) as (u & l & Hl & ->).
    assert (StronglySorted N.le (cnc_users (w_db w))) as Hs.
    { apply StronglySorted_merge_sort; apply _. }
    rewrite Hl in *. inversion Hs as [|? ? Hsl Hul]; subst.
    destruct (least_busy_spec (cutting_load (w_db w)) u l Hul Hsl) as (? & ? & ?). done. }
  clear E. unfold SuggestAssignment, selectWorkOrderByID, selectCNCUserIDs, selectInCuttingCountByUser.
  apply wp_bind, wp_query_row_serial; [done..|]. intros x w1 _ E1.
  apply wp_bind, wp_query_serial; [done..|]. intros w2 E2. rewrite E1.
  destruct (cnc_users (w_db w)) as [|u l]; [by apply wp_throw|].
  apply wp_bind, wp_query_serial; [done..|]. intros w3 E3. apply wp_mret. intros ? [= <-].
  rewrite E2, E1. eauto.
Qed.

(** ** Labour cost *)
Definition labor_cost (woID : uuid) (d : ProdDB) : Z :=
  table_sum (λ e, if (lab_WorkOrderID e =? woID)%N then lab_Minutes e * lab_RatePerHour e else 0)%Z (p_labor d).

Lemma labor_sum_eq woID d :
  zsum id ((λ e, lab_Minutes e * lab_RatePerHour e)%Z <$> labor_of woID d) = labor_cost woID d.
Proof.
  assert (∀ (f : LaborEntry → Z) l, zsum id (f <$> l) = zsum f l) as Hm
    by (intros f l; induction l as [|a l IH]; [done|]; simpl; f_equal; exact IH).
  rewrite Hm. unfold labor_of, labor_cost, table_sum, sql_where.
  rewrite (zsum_perm _ _ _ (sql_order_perm _ _ _)).
  induction (table_rows (p_labor d)) as [|e l IH]; [done|].
  rewrite filter_cons. simpl. rewrite <- IH.
  destruct (lab_WorkOrderID e =? woID)%N; simpl; lia.
Qed.

Lemma labor_cost_nonneg woID d : prod_wf d → (0 <= labor_cost woID d)%Z.
Proof.
  intros W. apply table_sum_nonneg. intros k e Hk.
  destruct (wf_labor _ W k e Hk) as (_ & _ & ? & ?). case_match; [nia|done].
Qed.

(** [C23] The labour cost of a work order is the exact sum of minutes times
    hourly rate over all its entries, divided by sixty and rounded down to
    whole dong, whatever the order and number of the entries; a sum that
    leaves the 64-bit range is reported as an error, never as a wrapped
    amount. *)
Theorem SumLaborCost_exact (HS : @serial ProdDB _) (woID : uuid) (r : result Money) w w' :
  prod_wf (w_db w) → SumLaborCost woID w = (r, w') →
  w_db w' = w_db w ∧
  match r with
  | Ok m => m = VND (labor_cost woID (w_db w) / 60) ∧ (0 <= Amount m < 2 ^ 63)%Z
  | Err _ => True
  end.
Proof.
  intros W E. run_wp E. unfold SumLaborCost, sumLaborMinuteRateByWO.
  apply wp_bind, wp_fail_if; intros _; [done|].
  apply wp_bind, wp_bind, wp_query_serial; [done..|]. intros w1 E1.
  rewrite labor_sum_eq. pose proof (labor_cost_nonneg woID _ W) as Hn.
  set (s := labor_cost woID (w_db w)) in *.
  destruct (forallb _ _); [|by apply wp_throw]. unfold scan_int64.
  destruct (_ && _) eqn:Eb; [|by apply wp_throw]. bool_hyps.
  apply wp_mret, wp_mret. split; [done|]. simpl. rewrite Z.quot_div_nonneg by lia. split; [done|].
  pose proof (Z.div_pos s 60). pose proof (Z.div_le_upper_bound s 60 s). lia.
Qed.

(** [C24] A labour entry is only recorded while the work order's costing is not
    finalized (BR-C04), for an existing work order, with positive minutes and
    a known stage, and for an active worker - the one named, else the
    recorder; exactly that row is added. *)
Theorem RecordLaborEntry_gate (HS : @serial ProdDB _) (in_ : RecordLaborEntryInput) (r : result LaborEntry) w w' :
  RecordLaborEntry in_ w = (r, w') →
  match r with
  | Ok e => w_db w' = set_labor (<[lab_ID e := e]> (p_labor (w_db w))) (w_db w)
      ∧ p_labor (w_db w) !! lab_ID e = None ∧ is_Some (p_wos (w_db w) !! rle_WorkOrderID in_)
      ∧ lab_WorkOrderID e = rle_WorkOrderID in_ ∧ labor_wf (lab_ID e) e
      ∧ (∀ c, cc = Some c → answered (IsCostingFinalized c (rle_WorkOrderID in_)) false)
      ∧ match rle_WorkerID in_ with
        | None => lab_WorkerID e = rle_ActorID in_
        | Some u => lab_WorkerID e = u ∧ ∃ f v, uc = Some f ∧ answered (f u) v ∧ usi_IsActive v = true
        end
  | Err _ => w_db w' = w_db w
  end.
Proof.
  intros E. run_wp E. unfold RecordLaborEntry.
  apply wp_bind, fail_opt_wp; [done|intros _].
  apply wp_bind. apply (wp_mono _ (λ r w', w_db w' = w_db w ∧ ∀ u, r = Ok u →
    match rle_WorkerID in_ with
    | None => u = rle_ActorID in_
    | Some v => u = v ∧ ∃ f i, uc = Some f ∧ answered (f v) i ∧ usi_IsActive i = true
    end)).
  { unfold labor_worker. destruct (rle_WorkerID in_) as [v|]; [|apply wp_mret; split; [done|by intros ? [= ->]]].
    apply wp_bind, wp_fail_if; intros _; [done|]. destruct uc as [f|] eqn:Euc; [|by apply wp_throw].
    apply wp_bind, wp_try, wp_call_dep. intros [i|e] x' Ef; [|by apply wp_throw].
    apply wp_bind, wp_fail_if; intros Hi; [done|]. bool_hyps. apply wp_mret. split; [done|].
    intros u [= <-]. split; [done|]. exists f, i. split_and!; [done| |done]. unfold answered. eauto. }
  intros [worker|e] w1 [E1 Hworker]; [|done]. specialize (Hworker worker eq_refl). unfold selectWorkOrderByID.
  apply wp_bind, wp_query_row_serial; [done|intros; congruence|]. intros wo w2 (x & Hx & _)%fmap_Some_1 E2.
  apply wp_bind. apply (wp_mono _ (λ r w', w_db w' = w_db w ∧ (is_ok r = true →
    ∀ c, cc = Some c → answered (IsCostingFinalized c (rle_WorkOrderID in_)) false))).
  { unfold finalized_guard. destruct cc as [c|]; [|apply wp_mret; split; [congruence|done]].
    apply wp_bind, wp_call_dep. intros [b|e] x' Ef; [|split; [simpl; congruence|done]].
    apply wp_fail_if; intros Hb; (split; [simpl; congruence|]); [done|].
    intros _ c' [= <-]. subst b. unfold answered. eauto. }
  intros [[]|e] w3 [E3 Hfin]; [|done]. specialize (Hfin eq_refl).
  apply wp_bind, wp_new_uuid, wp_bind, wp_now. cbv zeta. unfold insertLaborEntry.
  apply wp_bind, wp_exec_serial; [done|intros e w4 E4; by rewrite E4|].
  intros u d' w4 Hi E4. apply wp_mret. unfold labor_insert in Hi. simpl in Hi. rewrite E3 in Hi. stmt_ok.
  bool_hyps. rewrite E4. simpl. rewrite E1 in Hx. by split_and!.
Qed.

(** ** Creation *)

(** Every sheet material of the SKU was counted and is in stock. *)
Definition stocked (skuID : uuid) (qty : Z) : Prop :=
  ∀ count bom, stk = Some count → br = Some bom →
  ∃ reqs, answered (bom skuID) reqs
    ∧ Forall (λ m, ∃ n, answered (count m) n ∧ (qty <= n)%Z) reqs.

Lemma stock_check_wp skuID qty w :
  wp (stock_check skuID qty) (λ r w', w_db w' = w_db w ∧ (is_ok r = true → stocked skuID qty)) w.
Proof.
  unfold stock_check, stocked. destruct stk as [count|], br as [bom|]; try by apply wp_mret.
  apply wp_bind, wp_call_dep. intros [reqs|e] x' Eb; [|done].
  match goal with |- wp _ _ ?w0 => assert (w_db w0 = w_db w) as E0 by done; revert E0; generalize w0 end.
  intros w0 E0. apply (wp_mono _ (λ r w', w_db w' = w_db w ∧ (is_ok r = true →
    Forall (λ m, ∃ n, answered (count m) n ∧ (qty <= n)%Z) reqs))).
  2: { intros r w1 [E1 Hf]. split; [done|]. intros Hr c' b' [= <-] [= <-]. exists reqs.
       split; [unfold answered; eauto|auto]. }
  clear Eb x'. revert w0 E0. induction reqs as [|m reqs IH]; intros w0 E0; simpl.
  - apply wp_mret. split; [done|]. by constructor.
  - apply wp_bind, wp_bind, wp_call_dep. intros [n|e] x' En; [|done].
    apply wp_fail_if; intros Hn; [done|]. bool_hyps.
    eapply wp_mono; [by apply IH|]. intros r w1 [E1 Hf]. split; [done|]. intros Hr.
    constructor; [|by apply Hf]. exists n. split; [unfold answered; eauto|lia].
Qed.

Lemma log_bypass_wp id dims caller reason w :
  wp (log_bypass id dims caller reason) (λ r w', w_db w' = w_db w ∧ is_ok r = true) w.
Proof.
  unfold log_bypass. destruct ra as [a|], caller as [actor|]; try by apply wp_mret.
  apply wp_if; intros _; [|by apply wp_mret]. apply wp_bind, wp_try, wp_call_dep.
  intros [[|u ids]|e] x' _; [by apply wp_mret| |by apply wp_mret].
  apply wp_best_effort, wp_call_dep. done.
Qed.

(** [C21] A work order is only created under an APPROVED plan that contains its
    SKU, for a positive quantity, and with that many sheets of every sheet
    material of the SKU counted in stock (BR-K01); it is PLANNED, unassigned
    and without parent, and it is the only row written.  Neither the advice on
    remnants nor its failure changes the outcome; a refusal writes nothing. *)
Theorem CreateWorkOrder_gate (HS : @serial ProdDB _) (in_ : CreateWOInput) (r : result WorkOrder) w w' :
  CreateWorkOrder in_ w = (r, w') →
  match r with
  | Ok wo => p_wos (w_db w) !! wo_ID wo = None
      ∧ w_db w' = set_wos (<[wo_ID wo := wo]> (p_wos (w_db w))) (w_db w)
      ∧ (∃ plan, answered (pc_GetPlan (cw_PlanID in_)) plan ∧ pli_Status plan = PlanApproved
                 ∧ cw_SKUID in_ ∈ pli_SKUIDs plan)
      ∧ stocked (cw_SKUID in_) (cw_Quantity in_) ∧ (0 < cw_Quantity in_ < 2 ^ 31)%Z
      ∧ ∃ at_, wo = new_wo (wo_ID wo) (cw_PlanID in_) (cw_SKUID in_) (cw_Quantity in_)
                      (cw_SalesOrderLineID in_) None at_
  | Err _ => w_db w' = w_db w
  end.
Proof.
  intros E. run_wp E. unfold CreateWorkOrder.
  apply wp_bind, wp_call_dep. intros [plan|e] x1 Eplan; [|done].
  apply wp_bind, wp_fail_if; intros Hs; [done|]. apply wp_bind, wp_fail_if; intros Hin; [done|].
  apply wp_bind, wp_fail_if; intros Hq; [done|]. bool_hyps.
  apply existsb_exists in Hin as (s & Hin & ->%N.eqb_eq). apply list_elem_of_In in Hin.
  apply wp_bind, wp_call_dep. intros [sku|e] x2 _; [|done].
  apply wp_bind. eapply wp_mono; [apply stock_check_wp|]. intros [[]|e] w1 [E1 Hst]; [|done].
  specialize (Hst eq_refl). simpl in E1. apply wp_bind, wp_now, wp_bind, wp_new_uuid. cbv zeta.
  unfold insertWorkOrder. apply wp_bind, wp_exec_serial; [done|intros e w2 E2; by rewrite E2|].
  intros u d' w2 Hi E2. simpl in Hi. rewrite E1 in Hi. unfold wo_insert in Hi. stmt_ok.
  apply wp_bind. eapply wp_mono; [apply log_bypass_wp|]. intros [[]|e] w3 [E3 Hr]; [|done].
  apply wp_mret.
  match goal with Hi4 : int4 _ = true |- _ => apply int4_spec in Hi4; simpl in Hi4 end.
  split_and!; simpl; try done; try lia; [by rewrite E3, E2| |eauto].
  exists plan. split_and!; [unfold answered; eauto|done..].
Qed.

(** ** Assignment *)

(** [C22] Assignment gives a PLANNED work order to a user whose role is cnc,
    stamps the time, returns the row so updated and touches nothing else; in
    every other case nothing is written - whether or not the operator could be
    notified. *)
Theorem AssignWorkOrder_assigns (HS : @serial ProdDB _) (in_ : AssignWorkOrderInput) (r : result WorkOrder) w w' :
  AssignWorkOrder in_ w = (r, w') →
  match r with
  | Ok wo => ∃ x at_, p_wos (w_db w) !! awo_WorkOrderID in_ = Some x ∧ wo_Status x = WOPlanned
      ∧ wo = wo_set_assignee (awo_UserID in_) at_ (wo_join (w_db w) x)
      ∧ w_db w' = set_wos (<[awo_WorkOrderID in_ := wo_set_assignee (awo_UserID in_) at_ x]> (p_wos (w_db w))) (w_db w)
      ∧ is_Some (p_users (w_db w) !! awo_UserID in_)
      ∧ ∃ f u, uc = Some f ∧ answered (f (awo_UserID in_)) u ∧ usi_Role u = RoleCNC
  | Err _ => w_db w' = w_db w
  end.
Proof.
  intros E. run_wp E. unfold AssignWorkOrder, selectWorkOrderByID, updateWorkOrderAssignment.
  apply wp_bind, wp_query_row_serial; [done..|]. intros wo w1 (x & Hx & ->)%fmap_Some_1 E1.
  destruct (wo_join_fields (w_db w) x) as (_ & Es & _).
  apply wp_bind, wp_fail_if; intros Hs; [done|]. bool_hyps. rewrite Es in Hs.
  destruct uc as [f|] eqn:Euc; [|by apply wp_throw].
  apply wp_bind, wp_call_dep. intros [u|e] x1 Eu; [|done].
  apply wp_bind, wp_fail_if; intros Hrole; [done|]. bool_hyps. apply wp_bind, wp_now.
  apply wp_bind, wp_bind, wp_exec_serial; [done|intros e w2 E2; by rewrite E2|].
  intros n d' w2 Hu E2. simpl in Hu. rewrite E1 in Hu. unfold wo_update_assignee in Hu. rewrite Hx in Hu.
  rewrite Hs in Hu. simpl in Hu. stmt_ok.
  match goal with Hfk : fk_ok _ _ = true |- _ => apply fk_ok_spec in Hfk as Husr end.
  unfold wo_update, sql_update in Hu. rewrite Hx in Hu. injection Hu as <- <-.
  apply wp_fail_if; intros Hz; [done|].
  assert (∀ (w3 : world ProdDB X) at_, w_db w3 = w_db w2 →
    w_db w2 = set_wos (<[awo_WorkOrderID in_ := wo_set_assignee (awo_UserID in_) at_ x]> (p_wos (w_db w))) (w_db w) →
    ∃ x0 at_0, p_wos (w_db w) !! awo_WorkOrderID in_ = Some x0 ∧ wo_Status x0 = WOPlanned
      ∧ wo_set_assignee (awo_UserID in_) at_ (wo_join (w_db w) x) = wo_set_assignee (awo_UserID in_) at_0 (wo_join (w_db w) x0)
      ∧ w_db w3 = set_wos (<[awo_WorkOrderID in_ := wo_set_assignee (awo_UserID in_) at_0 x0]> (p_wos (w_db w))) (w_db w)
      ∧ is_Some (p_users (w_db w) !! awo_UserID in_)
      ∧ ∃ f0 u0, Some f = Some f0 ∧ answered (f0 (awo_UserID in_)) u0 ∧ usi_Role u0 = RoleCNC) as Hend.
  { intros w3 at_ E3 E4. exists x, at_. split_and!; [done..|congruence|done|].
    exists f, u. split_and!; [done| |done]. unfold answered. eauto. }
  apply wp_bind. destruct wo_notifier as [nt|]; [|by apply wp_mret, wp_mret, Hend].
  apply wp_best_effort, wp_call_dep. intros r3 x3 _. by apply wp_mret, Hend.
Qed.

(** ** The plan cascade *)

Definition planned_in (planID : uuid) (x : WorkOrder) : Prop :=
  wo_PlanID x = planID ∧ wo_Status x = "PLANNED".

Lemma planned_of_spec planID x : planned_of planID x = true ↔ planned_in planID x.
Proof using Type. unfold planned_of, planned_in. by rewrite andb_true_iff, N.eqb_eq, String.eqb_eq. Qed.

(** The rows a cascade over the tables [d] writes: those of the plan that are
    still PLANNED, in their status column. *)
Definition cascaded (planID : uuid) (d d' : ProdDB) : Prop :=
  d' = set_wos (p_wos d') d ∧ dom (p_wos d') = dom (p_wos d)
  ∧ (∀ k x, p_wos d !! k = Some x → planned_in planID x →
       p_wos d' !! k = Some (wo_set_status "CANCELED" x))
  ∧ (∀ k x, p_wos d !! k = Some x → ¬ planned_in planID x → p_wos d' !! k = Some x).

Lemma cancelled_cascaded planID d :
  cascaded planID d (set_wos (snd (sql_update_where (planned_of planID) (wo_set_status "CANCELED") (p_wos d))) d).
Proof using Type.
  unfold cascaded. simpl. split_and!; [done|apply dom_fmap_L|..]; intros k x Hk Hp; rewrite lookup_fmap, Hk; simpl.
  - by rewrite (proj2 (planned_of_spec planID x) Hp).
  - destruct (planned_of planID x) eqn:E; [|done]. by apply planned_of_spec in E.
Qed.

Lemma planned_count planID (t : gmap uuid WorkOrder) :
  ∃ ids, NoDup ids ∧ (∀ k, k ∈ ids ↔ ∃ x, t !! k = Some x ∧ planned_in planID x)
    ∧ size (filter (λ kv, planned_of planID kv.2 = true) t) = length ids.
Proof using Type.
  set (f := filter (λ kv, planned_of planID kv.2 = true) t). exists (map_to_list f).*1. split_and!.
  - apply NoDup_fst_map_to_list.
  - intros k. rewrite list_elem_of_fmap. split.
    + intros ([k' x] & -> & [Hk Hp]%elem_of_map_to_list%map_lookup_filter_Some). exists x.
      by rewrite <- planned_of_spec.
    + intros (x & Hk & Hp%planned_of_spec). exists (k, x). split; [done|].
      by apply elem_of_map_to_list, map_lookup_filter_Some.
  - by rewrite length_fmap, length_map_to_list.
Qed.

(** [C27] Cancelling a plan cancels exactly the work orders of that plan that are
    still PLANNED when the statement runs, whatever other sessions commit
    before; the answer is how many they are.  No other order - of another plan,
    or started - and no other column or table changes, no order of the plan is
    left PLANNED, and the same request again finds none. *)
Theorem CancelPlannedByPlan_exact (planID : uuid) (r : result Z) w w' :
  CancelPlannedByPlan planID w = (r, w') →
  let d := w_db (interfere w) in
  match r with
  | Ok n => cascaded planID d (w_db w')
      ∧ (∃ ids, NoDup ids ∧ (∀ k, k ∈ ids ↔ ∃ x, p_wos d !! k = Some x ∧ planned_in planID x) ∧ n = zlen ids)
      ∧ (∀ k x, p_wos (w_db w') !! k = Some x → ¬ planned_in planID x)
      ∧ (∀ m w2, @serial ProdDB _ → CancelPlannedByPlan planID w' = (Ok m, w2) → m = 0%Z)
  | Err _ => w_db w' = w_db w ∨ w_db w' = d
  end.
Proof.
  assert (∀ w0 : world ProdDB X, wp (CancelPlannedByPlan planID) (λ r w1, match r with
    | Ok n => w_db w1 = set_wos (snd (sql_update_where (planned_of planID) (wo_set_status "CANCELED")
                          (p_wos (w_db (interfere w0))))) (w_db (interfere w0))
        ∧ n = Z.of_nat (size (filter (λ kv, planned_of planID kv.2 = true) (p_wos (w_db (interfere w0)))))
    | Err _ => w_db w1 = w_db w0 ∨ w_db w1 = w_db (interfere w0) end) w0) as Hwp.
  { intros w0. unfold CancelPlannedByPlan, cancelPlannedByPlan.
    apply wp_bind, wp_fail_if; intros _; [by left|]. apply wp_exec; [by right..|].
    intros n d' Hu. injection Hu as <- <-. done. }
  intros E. pose proof (wp_run _ _ _ _ _ E (Hwp w)) as Hr. cbv zeta. destruct r as [n|e]; [|exact Hr].
  destruct Hr as [Hd Hn].
  assert (cascaded planID (w_db (interfere w)) (w_db w')) as Hc by (rewrite Hd; apply cancelled_cascaded).
  assert (∀ k x, p_wos (w_db w') !! k = Some x → ¬ planned_in planID x) as Hnone.
  { intros k x Hk [Hp Hs]. destruct Hc as (_ & Hdom & Hyes & Hno).
    assert (is_Some (p_wos (w_db (interfere w)) !! k)) as [y Hy]
      by (apply elem_of_dom; rewrite <- Hdom; by apply elem_of_dom).
    destruct (planned_of planID y) eqn:Ey.
    - apply planned_of_spec in Ey. rewrite (Hyes k y Hy Ey) in Hk. injection Hk as <-. done.
    - assert (¬ planned_in planID y) as Hnp by (intros Hp2%planned_of_spec; congruence).
      rewrite (Hno k y Hy Hnp) in Hk. injection Hk as ->. by apply Hnp. }
  split_and!; [done| |done|].
  - destruct (planned_count planID (p_wos (w_db (interfere w)))) as (ids & H1 & H2 & H3).
    exists ids. split_and!; [done..|]. rewrite Hn, H3. done.
  - intros m w2 HS E2. destruct (wp_run _ _ _ _ _ E2 (Hwp w')) as [_ ->]. simpl. rewrite HS.
    destruct (planned_count planID (p_wos (w_db w'))) as (ids & _ & H2 & ->).
    destruct ids as [|k ids]; [done|]. destruct (proj1 (H2 k)) as (x & Hk & Hp); [by left|]. by destruct (Hnone k x).
Qed.

(** ** Pre-emption *)

(** [C26] A pre-emption only takes material from a PLANNED or IN_CUTTING work
    order, puts it back to PLANNED, and logs the actor, both work orders and
    its whole quantity as freed, all or nothing. *)
Theorem PreemptWO_logged (HS : @serial ProdDB _) (in_ : PreemptWOInput) (r : result PreemptWOResult) w w' :
  PreemptWO in_ w = (r, w') →
  match r with
  | Ok res => ∃ x, p_wos (w_db w) !! pwi_FromWOID in_ = Some x
      ∧ (wo_Status x = WOPlanned ∨ wo_Status x = WOInCutting)
      ∧ is_Some (p_wos (w_db w) !! pwi_ToWOID in_) ∧ pwr_FreedQty res = wo_Quantity x
      ∧ w_db w' = set_preempts (<[pwr_AuditID res := {| plg_ID := pwr_AuditID res;
            plg_FromWO := pwi_FromWOID in_; plg_ToWO := pwi_ToWOID in_; plg_MaterialID := pwi_MaterialID in_;
            plg_FreedQty := wo_Quantity x; plg_Reason := pwi_Reason in_; plg_ActorID := pwi_ActorID in_;
            plg_CreatedAt := pwr_PreemptedAt res |}]> (p_preempts (w_db w)))
          (set_wos (<[pwi_FromWOID in_ := wo_set_status WOPlanned x]> (p_wos (w_db w))) (w_db w))
  | Err _ => w_db w' = w_db w
  end.
Proof.
  intros E. run_wp E. unfold PreemptWO, selectWorkOrderByID, preemptAtomically.
  apply wp_bind, wp_wrap_err, wp_query_row_serial; [done..|]. intros wo w1 (y & Hy & _)%fmap_Some_1 E1.
  apply wp_bind, wp_tx; [intros _; simpl; rewrite HS; done|].
  assert (w_db (interfere w1) = w_db w) as E0 by (simpl; by rewrite HS).
  set (w0 := interfere w1) in *. clearbody w0.
  apply wp_bind, wp_tquery_row; [done..|]. intros [st qty]. rewrite E0.
  intros (x & Hx & [= -> ->])%fmap_Some_1.
  apply wp_bind, wp_tquery; [done|]. apply wp_bind, wp_fail_if; intros Hs; [done|].
  apply wp_bind, wp_texec; [done..|]. intros n d1 H1. simpl in H1. rewrite E0 in H1.
  apply (wo_update_row _ _ _ _ _ x) in H1; [|done]. subst d1.
  apply wp_bind, wp_new_uuid, wp_bind, wp_now, wp_bind, wp_texec; [done..|]. intros u d2 H2.
  unfold preempt_log in H2. simpl in H2. stmt_ok. apply wp_mret.
  split; intros _; [done|]. apply wp_mret. exists x. split_and!; try done.
  destruct (String.eqb_spec (wo_Status x) WOPlanned); [by left|].
  destruct (String.eqb_spec (wo_Status x) WOInCutting); [by right|done].
Qed.

(** ** Claiming and reassigning

    Both lock the row through an outer join, which a server may refuse. *)
Lemma lock_joined_wp id Q w :
  (∀ e w', w_db w' = w_db w → Q (Err e) w') →
  (∀ x w', for_update_outer = true → p_wos (w_db w) !! id = Some x → w_db w' = w_db w → Q (Ok (wo_join (w_db w) x)) w') →
  wp (lock_joined_wo id) Q w.
Proof using Type.
  intros He Ho. unfold lock_joined_wo. apply wp_texec; [by intros; apply He|by intros; apply He|].
  intros wo d'. destruct for_update_outer; [|done]. destruct (p_wos (w_db w) !! id) as [x|] eqn:Hx; [|done].
  intros [= <- <-]. by apply Ho.
Qed.

(** Writing the operator of a locked row. *)
Lemma assignee_written id u at_ d n d' x :
  p_wos d !! id = Some x → wo_update_assignee id u (λ _, true) at_ d = Ok (n, d') →
  is_Some (p_users d !! u) ∧ d' = set_wos (<[id := wo_set_assignee u at_ x]> (p_wos d)) d.
Proof using Type.
  unfold wo_update_assignee. intros Hx Hu. rewrite Hx in Hu. stmt_ok.
  match goal with Hfk : fk_ok _ _ = true |- _ => apply fk_ok_spec in Hfk end.
  split; [done|]. by apply (wo_update_row _ _ _ _ _ x) in Hu.
Qed.

(** [C31] A work order is claimed by one operator only, whatever other sessions
    do.  Let the tables be [d] when the request locks the row.  A claim that
    succeeds found it PLANNED and without an operator in [d]; it names the user
    as operator, at the time of the request, returns the row so updated and
    changes nothing else.  A claim that fails writes nothing, and on a server
    that refuses FOR UPDATE on the nullable side of an outer join, as
    PostgreSQL does, every claim fails. *)
Theorem ClaimWorkOrder_exclusive (in_ : ClaimWorkOrderInput) (r : result WorkOrder) w w' :
  ClaimWorkOrder in_ w = (r, w') →
  let d := w_db (interfere (bump w)) in let at_ := o_time (w_step w) in
  match r with
  | Ok wo => for_update_outer = true ∧ ∃ x, p_wos d !! clw_WorkOrderID in_ = Some x
      ∧ wo_Status x = WOPlanned ∧ wo_AssignedTo x = None ∧ is_Some (p_users d !! clw_UserID in_)
      ∧ w_db w' = set_wos (<[clw_WorkOrderID in_ := wo_set_assignee (clw_UserID in_) at_ x]> (p_wos d)) d
      ∧ wo = wo_set_assignee (clw_UserID in_) at_ (wo_join d x)
  | Err _ => w_db w' = w_db w ∨ w_db w' = d
  end.
Proof.
  intros E. cbv zeta. run_wp E. unfold ClaimWorkOrder, claimWorkOrderAtomically.
  apply wp_bind, wp_fail_if; intros _; [by left|]. apply wp_bind, wp_now.
  apply wp_tx; [by right|]. set (w0 := interfere (bump w)).
  apply wp_bind, lock_joined_wp; [by right|]. intros x w1 Hpg Hx E1.
  destruct (wo_join_fields (w_db w0) x) as (_ & Es & Ea & _).
  apply wp_bind, wp_fail_if; intros Hs; [by right|]. apply wp_bind, wp_fail_if; intros Ha; [by right|].
  bool_hyps. rewrite Es in Hs. rewrite Ea in Ha. apply wp_bind, wp_texec; [by right..|]. intros n d' Hu. simpl in Hu.
  rewrite E1 in Hu. destruct (assignee_written _ _ _ _ _ _ _ Hx Hu) as [Husr ->].
  apply wp_mret. split; intros _; [by right|]. split; [done|]. exists x. split_and!; try done.
  by destruct (wo_AssignedTo x).
Qed.

(** [C40] A reassignment needs a reason and a locked work order in IN_CUTTING or
    IN_PROCESSING; in one transaction it names the new operator and logs who
    had the order, who has it now, who decided and why - one row - whatever
    other sessions do; a failing one writes nothing, and on a server that
    refuses the lock every one fails. *)
Theorem ReassignWorkOrder_logged (in_ : ReassignWorkOrderInput) (r : result WorkOrder) w w' :
  ReassignWorkOrder in_ w = (r, w') →
  let d := w_db (interfere (bump (bump w))) in let at_ := o_time (w_step w) in
  match r with
  | Ok wo => for_update_outer = true ∧ rwo_Reason in_ ≠ ""
      ∧ ∃ x logID, p_wos d !! rwo_WorkOrderID in_ = Some x
      ∧ (wo_Status x = WOInCutting ∨ wo_Status x = WOInProcessing)
      ∧ is_Some (p_users d !! rwo_NewUserID in_) ∧ p_reassigns d !! logID = None
      ∧ w_db w' = set_reassigns (<[logID := {| rlg_ID := logID; rlg_WorkOrderID := rwo_WorkOrderID in_;
            rlg_FromUser := wo_AssignedTo x; rlg_ToUser := rwo_NewUserID in_; rlg_Reason := rwo_Reason in_;
            rlg_ActorID := rwo_ActorID in_; rlg_CreatedAt := at_ |}]> (p_reassigns d))
          (set_wos (<[rwo_WorkOrderID in_ := wo_set_assignee (rwo_NewUserID in_) at_ x]> (p_wos d)) d)
      ∧ wo = wo_set_assignee (rwo_NewUserID in_) at_ (wo_join d x)
  | Err _ => w_db w' = w_db w ∨ w_db w' = d
  end.
Proof.
  intros E. cbv zeta. run_wp E. unfold ReassignWorkOrder, reassignWorkOrderAtomically.
  apply wp_bind, wp_fail_if; intros Hre; [by left|]. apply wp_bind, wp_fail_if; intros _; [by left|]. bool_hyps.
  apply wp_bind, wp_now, wp_bind, wp_new_uuid. apply wp_tx; [by right|]. set (w0 := interfere _).
  apply wp_bind, lock_joined_wp; [by right|]. intros x w1 Hpg Hx E1.
  destruct (wo_join_fields (w_db w0) x) as (_ & Es & Ea & _). rewrite Es, Ea.
  apply wp_bind, wp_fail_if; intros Hs; [by right|].
  apply wp_bind, wp_texec; [by right..|]. intros n d' Hu. simpl in Hu.
  rewrite E1 in Hu. destruct (assignee_written _ _ _ _ _ _ _ Hx Hu) as [Husr ->].
  apply wp_bind, wp_texec; [by right..|]. intros u d2 Hl. unfold reassign_log in Hl. simpl in Hl. stmt_ok.
  apply wp_mret. split; intros _; [by right|]. split_and!; [done..|].
  exists x, (o_uuid (S (w_step w))). split_and!; try done.
  destruct (String.eqb_spec (wo_Status x) WOInCutting); [by left|].
  destruct (String.eqb_spec (wo_Status x) WOInProcessing); [by right|done].
Qed.
End ops.

(** ** Concrete requests *)
Module Requests.
Definition create : CreateWOInput := {|
  cw_PlanID := 9; cw_SKUID := 5; cw_Quantity := 4; cw_BypassReason := ""; cw_CallerID := Some 9%N;
  cw_SalesOrderLineID := Some 30%N
|}.
Definition assign : AssignWorkOrderInput := {| awo_WorkOrderID := 22; awo_UserID := 8 |}.
Definition labour : RecordLaborEntryInput := {|
  rle_WorkOrderID := 20; rle_Stage := "POLISHING"; rle_Minutes := 45; rle_RatePerHour := 50000;
  rle_WorkerID := Some 8%N; rle_ActorID := 7
|}.
Definition preempt : PreemptWOInput := {|
  pwi_ToWOID := 22; pwi_FromWOID := 21; pwi_MaterialID := 2; pwi_Reason := "rush"; pwi_ActorID := 9
|}.
Definition claim : ClaimWorkOrderInput := {| clw_WorkOrderID := 22; clw_UserID := 8 |}.
Definition reassign : ReassignWorkOrderInput := {|
  rwo_WorkOrderID := 20; rwo_NewUserID := 8; rwo_Reason := "sick"; rwo_ActorID := 9
|}.

(** An order of another plan beside those of plan 9. *)
Definition other_plan : WorkOrder := new_wo 23 10 5 4 None None 0.

Definition two_plans : world ProdDB unit :=
  World (set_wos (<[23%N := other_plan]> (p_wos Shop.db)) Shop.db) tt 0.

(** Another session cancels plan 9 just before statement [n]. *)
Definition overtaken (n : nat) : Oracle ProdDB := {|
  o_uuid k := N.of_nat (1000 + k);
  o_time k := Z.of_nat k;
  o_fault _ := false;
  o_interf k d := if (k =? n)%nat
    then w_db (snd (@CancelPlannedByPlan unit Shop.oracle 9 (World d tt 0))) else d
|}.

(** A server that takes the lock. *)
Definition lenient : Postgres := {| for_update_outer := true |}.
End Requests.

Lemma SuggestAssignment_least_witness :
  let _ := Shop.oracle in
  ∃ res, sar_UserID res ∈ cnc_users Shop.db ∧ sar_InCuttingCount res = 0%Z.
Proof.
  intros. assert (@serial ProdDB Shop.oracle) as HS by done.
  destruct (SuggestAssignment (X:=unit) 22 Shop.world0) as [[res|e] w'] eqn:E.
  - destruct (SuggestAssignment_least HS 22 res _ _ E) as (H1 & H2 & _). exists res. split; [exact H1|].
    vm_compute in E. by injection E as <- _.
  - vm_compute in E. discriminate E.
Defined.

Lemma SumLaborCost_exact_witness :
  let _ := Shop.oracle in
  ∃ m, fst (SumLaborCost (X:=unit) 20 Shop.world0) = Ok m ∧ m = VND (labor_cost 20 Shop.db / 60).
Proof.
  intros. assert (@serial ProdDB Shop.oracle) as HS by done.
  destruct (SumLaborCost (X:=unit) 20 Shop.world0) as [[m|e] w'] eqn:E.
  - destruct (SumLaborCost_exact HS 20 (Ok m) Shop.world0 w' Shop.shop_wf E) as (_ & H1 & _). by exists m.
  - vm_compute in E. discriminate E.
Defined.

Lemma RecordLaborEntry_gate_witness :
  let _ := Shop.oracle in let _ := Shop.deps in
  ∃ e, fst (RecordLaborEntry Requests.labour Shop.world0) = Ok e ∧ labor_wf (lab_ID e) e ∧ lab_WorkerID e = 8%N.
Proof.
  intros. assert (@serial ProdDB Shop.oracle) as HS by done.
  destruct (RecordLaborEntry Requests.labour Shop.world0) as [[e|e] w'] eqn:E.
  - destruct (RecordLaborEntry_gate HS Requests.labour (Ok e) _ _ E) as (_ & _ & _ & _ & H1 & _ & H2 & _).
    by exists e.
  - vm_compute in E. discriminate E.
Defined.

Lemma CreateWorkOrder_gate_witness :
  let _ := Shop.oracle in let _ := Shop.deps in
  ∃ wo, fst (CreateWorkOrder Requests.create Shop.world0) = Ok wo ∧ stocked 5 4 ∧ p_wos Shop.db !! wo_ID wo = None.
Proof.
  intros. assert (@serial ProdDB Shop.oracle) as HS by done.
  destruct (CreateWorkOrder Requests.create Shop.world0) as [[wo|e] w'] eqn:E.
  - destruct (CreateWorkOrder_gate HS Requests.create (Ok wo) _ _ E) as (H1 & _ & _ & H2 & _). by exists wo.
  - vm_compute in E. discriminate E.
Defined.

Lemma AssignWorkOrder_assigns_witness :
  let _ := Shop.oracle in let _ := Shop.deps in
  ∃ wo x, fst (AssignWorkOrder Requests.assign Shop.world0) = Ok wo
    ∧ p_wos Shop.db !! 22%N = Some x ∧ wo_Status x = WOPlanned.
Proof.
  intros. assert (@serial ProdDB Shop.oracle) as HS by done.
  destruct (AssignWorkOrder Requests.assign Shop.world0) as [[wo|e] w'] eqn:E.
  - destruct (AssignWorkOrder_assigns HS Requests.assign (Ok wo) _ _ E) as (x & _ & H1 & H2 & _). by exists wo, x.
  - vm_compute in E. discriminate E.
Defined.

Lemma CancelPlannedByPlan_exact_witness :
  let _ := Shop.oracle in
  ∃ w', CancelPlannedByPlan (X:=unit) 9 Requests.two_plans = (Ok 2%Z, w')
    ∧ p_wos (w_db w') !! 21%N = Some (wo_set_status "CANCELED" (Shop.wo 21 "PLANNED" (Some 7%N)))
    ∧ p_wos (w_db w') !! 20%N = Some (Shop.wo 20 "IN_PROCESSING" (Some 7%N))
    ∧ p_wos (w_db w') !! 23%N = Some Requests.other_plan.
Proof.
  intros. destruct (CancelPlannedByPlan (X:=unit) 9 Requests.two_plans) as [[n|e] w'] eqn:E.
  - assert (n = 2%Z) as -> by (vm_compute in E; by injection E as <- _).
    destruct (CancelPlannedByPlan_exact 9 (Ok 2%Z) _ _ E) as ((_ & _ & Hyes & Hno) & _).
    exists w'. split_and!; [done|apply Hyes|apply Hno|apply Hno]; try done; by intros [].
  - vm_compute in E. discriminate E.
Defined.

Lemma PreemptWO_logged_witness :
  let _ := Shop.oracle in
  ∃ res x, fst (PreemptWO (X:=unit) Requests.preempt Shop.world0) = Ok res
    ∧ p_wos Shop.db !! 21%N = Some x ∧ pwr_FreedQty res = wo_Quantity x.
Proof.
  intros. assert (@serial ProdDB Shop.oracle) as HS by done.
  destruct (PreemptWO (X:=unit) Requests.preempt Shop.world0) as [[res|e] w'] eqn:E.
  - destruct (PreemptWO_logged HS Requests.preempt (Ok res) _ _ E) as (x & H1 & _ & _ & H2 & _). by exists res, x.
  - vm_compute in E. discriminate E.
Defined.

Lemma ClaimWorkOrder_exclusive_witness :
  let _ := Shop.oracle in let _ := Requests.lenient in
  ∃ wo x, fst (ClaimWorkOrder (X:=unit) Requests.claim Shop.world0) = Ok wo
    ∧ p_wos Shop.db !! 22%N = Some x ∧ wo_AssignedTo x = None ∧ wo_AssignedTo wo = Some 8%N.
Proof.
  intros. destruct (ClaimWorkOrder (X:=unit) Requests.claim Shop.world0) as [[wo|e] w'] eqn:E.
  - destruct (ClaimWorkOrder_exclusive Requests.claim (Ok wo) _ _ E) as (_ & x & Hx & _ & Ha & _ & _ & Hwo).
    exists wo, x. split_and!; [done|exact Hx|exact Ha|by rewrite Hwo].
  - vm_compute in E. discriminate E.
Defined.

Lemma ReassignWorkOrder_logged_witness :
  let _ := Shop.oracle in let _ := Requests.lenient in
  ∃ wo w', ReassignWorkOrder (X:=unit) Requests.reassign Shop.world0 = (Ok wo, w')
    ∧ wo_AssignedTo wo = Some 8%N ∧ size (p_reassigns (w_db w')) = 1.
Proof.
  intros. destruct (ReassignWorkOrder (X:=unit) Requests.reassign Shop.world0) as [[wo|e] w'] eqn:E.
  - destruct (ReassignWorkOrder_logged Requests.reassign (Ok wo) _ _ E)
      as (_ & _ & x & logID & _ & _ & _ & Hn & Hd & Hwo).
    exists wo, w'. split_and!; [done|by rewrite Hwo|]. rewrite Hd. simpl.
    by rewrite map_size_insert_None by done.
  - vm_compute in E. discriminate E.
Defined.

(** ** Where the state machine can be left *)
Section race.
Context {X : Type} (DX : ProductionDeps X).
Local Abbreviation advance E := (@AdvanceStatus X E DX).

(** The request up to its UPDATE. *)
Definition advance_decision (woID : uuid) (in_ : AdvanceStatusInput) (E : Oracle ProdDB) : M ProdDB X WorkOrder :=
  wo ← @selectWorkOrderByID X E woID;
  fail_if (is_some (CanTransitionTo (wo_Status wo) (asi_To in_)))
    (NewBizError ErrInvalidTransition ("invalid transition " ++ wo_Status wo ++ " -> " ++ asi_To in_));;
  @advance_checks X E DX wo woID in_;;
  mret wo.

Lemma decision_prefixed woID in_ : prefixed (advance_decision woID in_).
Proof.
  unfold advance_decision, selectWorkOrderByID, query_row.
  apply prefixed_bind; [apply prefixed_exec|intros wo]. apply prefixed_bind; [apply prefixed_fail_if|intros _].
  apply prefixed_bind; [|intros _; apply prefixed_mret]. unfold advance_checks.
  apply prefixed_bind; [|intros _].
  { unfold blocker_guard, countOpenBlockers, query. apply prefixed_bind; [|intros n; apply prefixed_fail_if].
    apply prefixed_wrap_err, prefixed_exec. }
  apply prefixed_bind; [apply prefixed_fail_opt|intros _]. apply prefixed_bind; [|intros _].
  { unfold costing_guard. destruct cc as [c|]; [|apply prefixed_mret].
    destruct (asi_To in_ =s WOInCutting); [|apply prefixed_mret].
    apply prefixed_bind; [apply prefixed_call_dep|intros b; apply prefixed_fail_if]. }
  apply prefixed_bind; [|intros _].
  { unfold metal_guard, hasMetalConsumption, query. destruct (asi_To in_ =s WOCompleted); [|apply prefixed_mret].
    apply prefixed_bind; [apply prefixed_call_dep|intros sku]. destruct (ski_RequiresMetal sku); [|apply prefixed_mret].
    apply prefixed_bind; [apply prefixed_exec|intros b; apply prefixed_fail_if]. }
  unfold assign_sheet. destruct (asi_SheetID in_) as [sid|], sa as [assign|]; try apply prefixed_mret.
  destruct (asi_To in_ =s WOInCutting); [|apply prefixed_mret].
  apply prefixed_bind; [apply prefixed_of_result|intros req; apply prefixed_call_dep].
Qed.

Lemma advance_split (E : Oracle ProdDB) woID in_ w :
  advance E woID in_ w
  = (wo ← advance_decision woID in_ E; @updateWorkOrderStatus X E woID (asi_To in_);;
     @advance_notices X DX wo woID in_) w.
Proof.
  rewrite AdvanceStatus_eq. unfold advance_decision, mbind, M_bind.
  destruct (@selectWorkOrderByID X E woID w) as [[wo|e] w1]; [|done].
  destruct (fail_if _ _ w1) as [[[]|e] w2]; [|done]. by destruct (advance_checks wo woID in_ w2) as [[[]|e] w3].
Qed.

(** Alone, the decision leaves the tables and allows the step. *)
Lemma decision_serial (E : Oracle ProdDB) (HS : @serial _ E) woID in_ (w : world ProdDB X) :
  wp (advance_decision woID in_ E) (λ r w1, w_db w1 = w_db w ∧ (is_ok r = true →
    ∃ x, p_wos (w_db w) !! woID = Some x ∧ wo_step (wo_Status x) (asi_To in_))) w.
Proof.
  unfold advance_decision, selectWorkOrderByID. apply wp_bind, wp_query_row_serial; [done..|].
  intros wo w1 (x & Hx & ->)%fmap_Some_1 E1. apply wp_bind, wp_fail_if; intros Ht; [done|].
  destruct (CanTransitionTo _ _) eqn:Et in Ht; [done|]. apply CanTransitionTo_step in Et.
  destruct (wo_join_fields (w_db w) x) as (_ & Es & _). rewrite Es in Et.
  apply wp_bind. eapply wp_mono; [by apply (advance_checks_ok HS (w_db w) x)|].
  intros [[]|e] w2 [E2 _]; [|done]. apply wp_mret. split; [done|]. intros _. eauto.
Qed.

(** The same request with other sessions only at its UPDATE, statement [n]. *)
Definition only_at (n : nat) (E E' : Oracle ProdDB) : Prop :=
  (∀ k, @o_uuid _ E' k = @o_uuid _ E k) ∧ (∀ k, @o_time _ E' k = @o_time _ E k)
  ∧ (∀ k, @o_fault _ E' k = @o_fault _ E k) ∧ ∀ k d, k ≠ n → @o_interf _ E' k d = d.

Lemma only_at_agree n E E' : @serial _ E → only_at n E E' → agree_until n E E'.
Proof.
  intros HS (Hu & Ht & Hf & Hi) k Hk. rewrite Hu, Ht, Hf. split_and!; [done..|].
  intros d. rewrite Hi by lia. by rewrite HS.
Qed.

(** [C33] AdvanceStatus decides on one read of the work order and writes the
    status unconditionally later.  For every request that succeeds alone there
    is a statement [n] of it - the UPDATE - such that whatever other sessions
    commit just before it, the request succeeds too and overwrites the status
    of the row they left: if they cancelled the order, it comes back to life in
    the requested status, which no moves of the lifecycle lead to. *)
Theorem advance_race (E : Oracle ProdDB) (woID : uuid) (in_ : AdvanceStatusInput) (u : unit) (w w' : world ProdDB X) :
  @serial _ E → advance E woID in_ w = (Ok u, w') →
  ∃ n, ∀ (E' : Oracle ProdDB) (y : WorkOrder), only_at n E E' →
    let mid := @o_interf _ E' n (w_db w) in
    p_wos mid !! woID = Some y → wo_Status y = WOCanceled →
    ∃ w1, advance E' woID in_ w = (Ok u, w1)
      ∧ w_db w1 = set_wos (<[woID := wo_set_status (asi_To in_) y]> (p_wos mid)) mid
      ∧ ¬ rtc wo_move (wo_Status y) (asi_To in_).
Proof.
  intros HS. rewrite advance_split. unfold mbind at 1, M_bind at 1.
  destruct (advance_decision woID in_ E w) as [[wo|e] w1] eqn:E1; [|done]. intros E2.
  destruct (wp_run _ _ _ _ _ E1 (decision_serial E HS woID in_ w)) as (Ed & Hx).
  destruct (Hx eq_refl) as (x & _ & Hst). clear Hx.
  assert (@o_fault _ E (w_step w1) = false) as Hnf.
  { destruct (@o_fault _ E (w_step w1)) eqn:Ef; [|done]. exfalso. revert E2.
    unfold updateWorkOrderStatus, exec, mbind, M_bind. by rewrite Ef. }
  exists (w_step w1). intros E' y Hat. set (mid := @o_interf _ E' (w_step w1) (w_db w)). intros Hy Hcan.
  pose proof (proj2 (decision_prefixed woID in_ E w _ _ E1) E' (only_at_agree _ _ _ HS Hat)) as E1'.
  destruct u.
  enough (wp (advance E' woID in_) (λ r w2, r = Ok tt
    ∧ w_db w2 = set_wos (<[woID := wo_set_status (asi_To in_) y]> (p_wos mid)) mid) w) as Hwp.
  { unfold wp in Hwp. destruct (advance E' woID in_ w) as [r w2]. destruct Hwp as [Hr Hd]. simpl in Hr, Hd.
    exists w2. split_and!; [by rewrite Hr|done|]. rewrite Hcan. intros Hm%(wo_terminal _ _ (or_introl eq_refl)).
    rewrite Hm in Hst. inversion Hst. }
  assert (advance E' woID in_ w = (@updateWorkOrderStatus X E' woID (asi_To in_);;
    @advance_notices X DX wo woID in_) w1) as Heq
    by (rewrite advance_split; unfold mbind at 1, M_bind at 1; by rewrite E1').
  unfold wp. rewrite Heq. apply (wp_bind _ _ (λ r w2, r = Ok tt ∧ w_db w2 = _)).
  unfold updateWorkOrderStatus. apply wp_bind.
  destruct Hat as (_ & _ & Hf & _). apply wp_exec; [by rewrite Hf, Hnf|..].
  - simpl. fold mid. rewrite Ed. fold mid. unfold wo_update, sql_update. by rewrite Hy.
  - simpl. intros n d' Hu. rewrite Ed in Hu. fold mid in Hu. apply (wo_update_row _ _ _ _ _ y) in Hu; [|done].
    apply wp_mret. eapply wp_mono; [apply advance_notices_wp|]. intros [[]|e] w4 [E4 Hok]; [|done].
    split; [done|]. by rewrite E4, Hu.
Qed.
End race.

Lemma advance_race_witness :
  ∃ n w1, @AdvanceStatus unit (Requests.overtaken n) Shop.deps 21 (Shop.advance WOInCutting) Shop.world0 = (Ok tt, w1)
    ∧ (wo_Status <$> p_wos (@o_interf _ (Requests.overtaken n) n Shop.db) !! 21%N) = Some WOCanceled
    ∧ (wo_Status <$> p_wos (w_db w1) !! 21%N) = Some WOInCutting.
Proof.
  destruct (@AdvanceStatus unit Shop.oracle Shop.deps 21 (Shop.advance WOInCutting) Shop.world0) as [[u|e] w'] eqn:E;
    [|vm_compute in E; discriminate E].
  destruct (advance_race Shop.deps Shop.oracle 21 (Shop.advance WOInCutting) u Shop.world0 w') as [n Hn]; [done|exact E|].
  assert (∀ d, @o_interf _ (Requests.overtaken n) n d = w_db (snd (@CancelPlannedByPlan unit Shop.oracle 9 (World d tt 0)))) as Hi
    by (intros d; simpl; by rewrite Nat.eqb_refl).
  destruct (Hn (Requests.overtaken n) (wo_set_status "CANCELED" (Shop.wo 21 "PLANNED" (Some 7%N)))) as (w1 & H1 & H2 & _).
  - unfold only_at. split_and!; [done..|]. intros k d Hk. simpl. by rewrite (proj2 (Nat.eqb_neq k n) Hk).
  - rewrite Hi. by vm_compute.
  - done.
  - destruct u. exists n, w1. split_and!; [exact H1|rewrite Hi; by vm_compute|].
    rewrite H2. simpl. by rewrite lookup_insert_eq.
Defined.

(** ** A partial completion without its quantity *)
Section partial.
Context {X : Type} `{!Oracle ProdDB} `{!ProductionDeps X}.
Implicit Types (w : world ProdDB X).

Lemma zero_blockers d woID :
  no_open_blocker d woID → zlen (sql_where (open_blocker woID) (p_blockers d)) = 0%Z.
Proof.
  intros Hno. destruct (sql_where _ _) as [|b l] eqn:E; [done|]. exfalso.
  assert (b ∈ sql_where (open_blocker woID) (p_blockers d)) as [Hb [k Hk]]%sql_where_elem by (rewrite E; by left).
  unfold open_blocker in Hb. bool_hyps. destruct (Hno k b Hk) as [t Ht]; [done|]. by rewrite Ht in *.
Qed.

(** Without an open blocker the checks let every order through to PARTIAL_COMPLETE. *)
Lemma partial_checks (HS : @serial ProdDB _) wo (woID : uuid) (in_ : AdvanceStatusInput) Q w :
  (∀ n, o_fault n = false) → no_open_blocker (w_db w) woID → asi_To in_ = WOPartialComplete →
  (∀ w2, w_db w2 = w_db w → Q (Ok tt) w2) → wp (advance_checks wo woID in_) Q w.
Proof using Type.
  intros HF Hno Hto HQ. unfold advance_checks, blocker_guard, countOpenBlockers, assignment_guard, costing_guard,
    metal_guard, assign_sheet. rewrite Hto. simpl.
  apply wp_bind, wp_bind, wp_wrap_err, wp_query; simpl; rewrite ?HF, ?HS; [done|].
  rewrite (zero_blockers _ _ Hno). apply wp_fail_if; [done|intros _].
  apply wp_bind, wp_mret, wp_bind. destruct cc; apply wp_mret, wp_bind, wp_mret;
    destruct (asi_SheetID in_), sa; apply wp_mret, HQ; simpl; by rewrite ?HS.
Qed.

Lemma advance_to_partial (HS : @serial ProdDB _) (woID : uuid) (in_ : AdvanceStatusInput) w x :
  (∀ n, o_fault n = false) → p_wos (w_db w) !! woID = Some x →
  wo_Status x = WOInProcessing → no_open_blocker (w_db w) woID → asi_To in_ = WOPartialComplete →
  wp (AdvanceStatus woID in_) (λ r w', r = Ok tt
    ∧ w_db w' = set_wos (<[woID := wo_set_status WOPartialComplete x]> (p_wos (w_db w))) (w_db w)) w.
Proof using Type.
  intros HF Hx Hst Hno Hto. unfold wp. rewrite AdvanceStatus_eq. unfold selectWorkOrderByID.
  apply (wp_bind _ _ (λ r w', r = Ok tt ∧ w_db w' = _)). apply wp_query_row; simpl; rewrite ?HF, ?HS, ?Hx; [done..|].
  intros wo [= <-]. destruct (wo_join_fields (w_db w) x) as (_ & Es & _). rewrite Es, Hst, Hto.
  apply wp_bind, wp_fail_if; [done|intros _]. apply wp_bind.
  apply partial_checks; [done|done|simpl; by rewrite HS|done|].
  intros w2 E2. simpl in E2. rewrite HS in E2. unfold updateWorkOrderStatus.
  apply wp_bind, wp_bind, wp_exec; simpl; rewrite ?HF, ?HS, ?E2; [done|..].
  - unfold wo_update. by destruct (sql_update _ _ _).
  - intros n d' Hu. apply (wo_update_row _ _ _ _ _ x) in Hu; [|done]. apply wp_mret.
    eapply wp_mono; [apply advance_notices_wp|]. intros [[]|e] w4 [E4 Hok]; [|done]. split; [done|]. by rewrite E4, Hu.
Qed.

(** PartialComplete refuses an order that is not in processing. *)
Lemma partial_refused (HS : @serial ProdDB _) (p : PartialCompleteInput) w y :
  p_wos (w_db w) !! pci_WorkOrderID p = Some y → wo_Status y ≠ WOInProcessing →
  is_ok (fst (PartialComplete p w)) = false.
Proof using Type.
  intros Hy Hst. apply (wp_run _ (λ r _, is_ok r = false) w _ _ (surjective_pairing _)).
  unfold PartialComplete, selectWorkOrderByID.
  apply wp_bind, wp_fail_if; intros _; [done|]. apply wp_bind, wp_fail_if; intros _; [done|].
  apply wp_bind, wp_query_row_serial; [done..|]. intros wo w2 (z & Hz & ->)%fmap_Some_1 _.
  rewrite Hy in Hz. injection Hz as <-. destruct (wo_join_fields (w_db w) y) as (_ & Es & _).
  rewrite Es, (proj2 (String.eqb_neq _ _) Hst). by apply wp_bind, wp_fail_if.
Qed.

(** [C35] Nothing but an open blocker keeps AdvanceStatus from moving a work order
    in processing to PARTIAL_COMPLETE: without one, and without faults, every
    such request succeeds, whatever its caller and role.  The order then counts
    as partially complete with the actual quantity and reason it had - none, in
    tables that keep the carry-over balance - and with nothing carried over,
    and no PartialComplete request for it succeeds any more: the quantity
    BR-P06 demands cannot be booked afterwards. *)
Theorem partial_without_quantity (HS : @serial ProdDB _) (woID : uuid) (in_ : AdvanceStatusInput) w x :
  (∀ n, o_fault n = false) → fair (w_db w) → p_wos (w_db w) !! woID = Some x →
  wo_Status x = WOInProcessing → no_open_blocker (w_db w) woID → asi_To in_ = WOPartialComplete →
  ∃ w', AdvanceStatus woID in_ w = (Ok tt, w')
    ∧ (∃ y, p_wos (w_db w') !! woID = Some y ∧ wo_Status y = WOPartialComplete
        ∧ wo_ActualQty y = None ∧ carried (p_wos (w_db w')) woID = 0%Z)
    ∧ ∀ p, pci_WorkOrderID p = woID → is_ok (fst (PartialComplete p w')) = false.
Proof.
  intros HF Hfair Hx Hst Hno Hto. pose proof (advance_to_partial HS woID in_ w x HF Hx Hst Hno Hto) as Hwp.
  unfold wp in Hwp. destruct (AdvanceStatus woID in_ w) as [r w']. destruct Hwp as [Hr Hd]. simpl in Hr, Hd. subst r.
  destruct (Hfair woID x Hx) as [_ Hopen]. destruct Hopen as [Hact Hcar]; [by rewrite Hst|].
  assert (p_wos (w_db w') !! woID = Some (wo_set_status WOPartialComplete x)) as Hy
    by (rewrite Hd; apply lookup_insert_eq).
  exists w'. split_and!; [done| |].
  - eexists. split_and!; [exact Hy|done|exact Hact|]. rewrite Hd. simpl. unfold carried.
    rewrite (table_sum_insert _ woID x) by done. unfold carried in Hcar. rewrite Hcar.
    unfold carry_share. simpl. lia.
  - intros p Hp. rewrite <- Hp in Hy. by eapply partial_refused.
Qed.
End partial.

Lemma partial_without_quantity_witness :
  let _ := Shop.oracle in let _ := Shop.deps in
  ∃ w', AdvanceStatus 20 (Shop.advance WOPartialComplete) Shop.world0 = (Ok tt, w')
    ∧ is_ok (fst (PartialComplete Shop.partial w')) = false
    ∧ is_ok (fst (PartialComplete Shop.partial Shop.world0)) = true.
Proof.
  intros. assert (@serial ProdDB Shop.oracle) as HS by done.
  destruct (partial_without_quantity (X:=unit) HS 20 (Shop.advance WOPartialComplete) Shop.world0
    (Shop.wo 20 "IN_PROCESSING" (Some 7%N))) as (w' & H1 & _ & H2).
  - done.
  - repeat apply map_Forall_insert_2; [split; [vm_compute; discriminate|done]..|apply map_Forall_empty].
  - done.
  - done.
  - intros k b Hk Hb. unfold Shop.world0, Shop.db in Hk. simpl in Hk.
    apply lookup_singleton_Some in Hk as [<- <-]. discriminate Hb.
  - done.
  - exists w'. split_and!; [exact H1|by apply H2|by vm_compute].
Defined.
