(* ===== verification/System.v ===== *)
(** * The wiring of cmd/server/main.go: inventory drives production

    [woAdvanceAdapter] hands the work order of a recorded cut to the production
    module.  Here the foreign state of the inventory module is the production
    database paired with whatever else its collaborators reach. *)

From S2P Require Import Prelude Domain Effects HttpKit Sql InventoryData InventoryStore InventoryService InventoryProps.
From S2P Require Import ProductionData ProductionStore ProductionService ProductionSafety ProductionProps ProductionLife ProductionFlow.
From stdpp Require Import base gmap strings list.
From Stdlib Require Import ZArith Lia.

Open Scope string_scope.

(** A handler of another module as a dependency of this one. *)
Definition mount {D Y A} (m : M D Y A) : dep (D * Y) A := λ k x,
  let (r, w) := m (World x.1 x.2 k) in (r, (w_db w, w_ext w)).

(** [production.AdvanceStatusInput{To: in.To}] *)
Definition advance_input (to : string) : AdvanceStatusInput := {|
  asi_To := to; asi_SheetID := None; asi_BypassOverflow := false; asi_BypassReason := "";
  asi_CallerID := None; asi_CallerRole := ""
|}.

Section wiring.
Context {Y : Type} `{!Oracle ProdDB} `{!ProductionDeps Y}.

Definition woAdvanceAdapter (woID : uuid) (to : string) : dep (ProdDB * Y) unit :=
  mount (AdvanceStatus woID (advance_input to)).

(** The inventory module with its work-order advancer wired. *)
Definition wired (b : option (BarcodeForCutInput → nat → ProdDB * Y → (BarcodeForCutOutput * option error) * (ProdDB * Y)))
    (n : option (uuid → uuid → dep (ProdDB * Y) unit)) (p : option (PurchaseRequestCreator (ProdDB * Y)))
    (pct : SpecFloat.spec_float) : InventoryDeps (ProdDB * Y) := {|
  woa := Some woAdvanceAdapter; bcg := b; notifier := n; prCreator := p; overflowThresholdPct := pct
|}.
End wiring.

(** ** Requests that leave the foreign state alone *)
Section ext.
Context {D X : Type} `{!Oracle D}.

Definition ext_kept {A} (m : M D X A) : Prop := ∀ w, w_ext (snd (m w)) = w_ext w.

Lemma ext_kept_bind {A B} (m : M D X A) (f : A → M D X B) :
  ext_kept m → (∀ a, ext_kept (f a)) → ext_kept (m ≫= f).
Proof.
  intros Hm Hf w. unfold mbind, M_bind. specialize (Hm w).
  destruct (m w) as [[a|e] w']; simpl in *; [|done]. by rewrite Hf.
Qed.

Lemma ext_kept_exec {A} lbl (s : stmt (D:=D) A) : ext_kept (exec lbl s).
Proof. intros w. unfold exec, run_stmt. destruct (o_fault _); [done|]. by destruct (s _) as [[]|]. Qed.

Lemma ext_kept_texec {A} lbl (s : stmt (D:=D) A) : ext_kept (texec lbl s).
Proof. intros w. unfold texec, run_stmt. destruct (o_fault _); [done|]. by destruct (s _) as [[]|]. Qed.

Lemma ext_kept_tx {A} (m : M D X A) : ext_kept m → ext_kept (tx m).
Proof.
  intros Hm w. unfold tx. destruct (o_fault _); [done|]. specialize (Hm (interfere w)).
  destruct (m (interfere w)) as [[a|e] w1]; simpl in *; [|done]. by destruct (o_fault _).
Qed.

Lemma wp_ext {A} (m : M D X A) (Q : result A → world D X → Prop) w :
  ext_kept m → (∀ r w', w_ext w' = w_ext w → Q r w') → wp m Q w.
Proof. intros Hm HQ. apply HQ, Hm. Qed.
End ext.

Ltac ext_step :=
  lazymatch goal with
  | |- ext_kept (mbind _ _) => apply ext_kept_bind; [|intros]
  | |- ext_kept (tx _) => apply ext_kept_tx
  | |- ext_kept (exec _ _) => apply ext_kept_exec
  | |- ext_kept (query _ _) => apply ext_kept_exec
  | |- ext_kept (query_row _ _ _) => apply ext_kept_exec
  | |- ext_kept (texec _ _) => apply ext_kept_texec
  | |- ext_kept (tquery _ _) => apply ext_kept_texec
  | |- ext_kept (tquery_row _ _ _) => apply ext_kept_texec
  | |- ext_kept (fail_if ?b _) => destruct b; by intros ?
  | |- ext_kept (if ?b then _ else _) => destruct b
  | |- ext_kept (match ?x with _ => _ end) => destruct x
  | |- ext_kept (let (_, _) := ?x in _) => destruct x
  | |- ext_kept _ => by intros ?
  end.

Section system.
Context {Y : Type} `{!Oracle InvDB} `{!Oracle ProdDB} `{!Schema} `{!ProductionDeps Y}.
Context (b : option (BarcodeForCutInput → nat → ProdDB * Y → (BarcodeForCutOutput * option error) * (ProdDB * Y)))
  (n : option (uuid → uuid → dep (ProdDB * Y) unit)) (p : option (PurchaseRequestCreator (ProdDB * Y)))
  (pct : SpecFloat.spec_float).

(** The barcode generator reads work orders and the notifier publishes: neither
    writes the production database. *)
Context (Hb : ∀ f i k x, b = Some f → (f i k x).2.1 = x.1).
Context (Hn : ∀ f i j k x, n = Some f → (f i j k x).2.1 = x.1).

#[local] Instance deps_wired : InventoryDeps (ProdDB * Y) := wired b n p pct.

Lemma cut_source_ext in_ : ext_kept (cut_source (X:=ProdDB * Y) in_).
Proof using Type.
  unfold cut_source, GetOverflowStatus, selectOverflowAreas, scan_int64, selectSheetByID, selectRemnantByID.
  repeat ext_step.
Qed.

Lemma leftover_ext in_ src rd : ext_kept (leftover (X:=ProdDB * Y) in_ src rd).
Proof using Type.
  unfold leftover, selectMinRemnantPolicyByParentBoard. unfold fail_opt. repeat ext_step.
Qed.

Lemma recordCutAtomically_ext op : ext_kept (recordCutAtomically (X:=ProdDB * Y) op).
Proof using Type.
  unfold recordCutAtomically, lock_source, lock_sheet, lock_remnant. repeat ext_step.
Qed.

(** The order moved one step, and nothing else of production changed. *)
Definition order_advanced (woID : uuid) (d d' : ProdDB) : Prop :=
  ∃ x, p_wos d !! woID = Some x ∧ wo_Status x = WOInCutting ∧ no_open_blocker d woID
       ∧ d' = set_wos (<[woID := wo_set_status WOInProcessing x]> (p_wos d)) d.

Definition advance_outcome (woID : uuid) (d d' : ProdDB) : Prop :=
  (d' = d ∨ order_advanced woID d d')
  ∧ ((∀ k, o_fault (D:=ProdDB) k = false) → ∀ x, p_wos d !! woID = Some x → wo_Status x = WOInCutting →
     no_open_blocker d woID → order_advanced woID d d').

Lemma no_blocker_count d woID : no_open_blocker d woID → sql_where (open_blocker woID) (p_blockers d) = [].
Proof using Type.
  intros Hno. destruct (sql_where _ _) as [|x l] eqn:E; [done|]. exfalso.
  assert (x ∈ sql_where (open_blocker woID) (p_blockers d)) as Hx by (rewrite E; by left).
  apply sql_where_elem in Hx as (Hp & k & Hk). unfold open_blocker in Hp. bool_hyps.
  destruct (Hno k x Hk) as [t Ht]; [done|]. rewrite Ht in *. done.
Qed.

Lemma advance_outcome_wp (HS : @serial ProdDB _) woID (w : world ProdDB Y) :
  wp (AdvanceStatus woID (advance_input WOInProcessing)) (λ _ w', advance_outcome woID (w_db w) (w_db w')) w.
Proof using Type.
  unfold wp. destruct (AdvanceStatus woID (advance_input WOInProcessing) w) as [r w'] eqn:E. simpl.
  pose proof (AdvanceStatus_gate HS woID (advance_input WOInProcessing) r w w' E) as Hg. destruct r as [[]|e].
  - destruct Hg as (x & Hx & [Hst Hno _ _ _ _] & Hd). simpl in *.
    assert (order_advanced woID (w_db w) (w_db w')) as Ha
      by (exists x; split_and!; [done|by inversion Hst|done|done]).
    split; [by right|done].
  - split; [by left|]. intros Hf x Hx Hst Hno. exfalso.
    assert (wp (AdvanceStatus woID (advance_input WOInProcessing)) (λ r _, is_ok r = true) w) as Hok;
      [|unfold wp in Hok; by rewrite E in Hok].
    clear E Hg. unfold AdvanceStatus, selectWorkOrderByID.
    apply wp_bind, wp_query_row; [by rewrite Hf|simpl; by rewrite HS, Hx|].
    simpl. rewrite HS, Hx. intros ? [= <-]. destruct (wo_join_fields (w_db w) x) as (_ & Es & _).
    unfold fail_if. rewrite Es, Hst. simpl. apply wp_bind, wp_mret.
    unfold blocker_guard, countOpenBlockers.
    apply wp_bind, wp_bind, wp_wrap_err, wp_query; [by rewrite Hf|]. simpl. rewrite !HS, no_blocker_count by done.
    apply wp_fail_if; intros Hz; [done|].
    apply wp_bind, wp_mret. unfold costing_guard, metal_guard, assign_sheet. simpl.
    apply wp_bind. destruct cc; apply wp_mret; apply wp_bind, wp_mret, wp_bind, wp_mret;
      unfold updateWorkOrderStatus; apply wp_bind, wp_bind, wp_exec;
      try (by rewrite Hf); try (intros e' He'; unfold wo_update in He'; by destruct (sql_update _ _ _));
      intros m d' _; apply wp_mret;
      match goal with |- wp _ _ ?w0 =>
        exact (proj2 (advance_notices_wp (wo_join (w_db w) x) woID (advance_input WOInProcessing) w0)) end.
Qed.

Lemma cut_barcodes_keeps in_ cr w :
  wp (cut_barcodes in_ cr) (λ r w', (w_ext w').1 = (w_ext w).1 ∧ is_ok r = true) w.
Proof using Hb.
  unfold cut_barcodes. simpl. destruct b as [f|]; [|by apply wp_mret].
  apply wp_bind, wp_call_dep. intros r x' E.
  destruct (f _ _ _) as [[o e] x2] eqn:Ef in E. injection E as <- <-.
  apply wp_mret. simpl. split; [|done].
  match type of Ef with f ?i ?k ?x = _ => pose proof (Hb f i k x eq_refl) as Hx end.
  by rewrite Ef in Hx.
Qed.

Lemma afterCut_advances (HS : @serial ProdDB _) in_ cr w :
  wp (afterCut in_ cr) (λ r w', advance_outcome (rc_WorkOrderID in_) (w_ext w).1 (w_ext w').1 ∧ is_ok r = true) w.
Proof using Hn.
  unfold afterCut. simpl. apply wp_bind, wp_best_effort, wp_call_dep. intros r x' E.
  unfold woAdvanceAdapter, mount in E.
  pose proof (advance_outcome_wp HS (rc_WorkOrderID in_) (World (w_ext w).1 (w_ext w).2 (w_step w))) as Ho.
  unfold wp in Ho. destruct (AdvanceStatus _ _ _) as [r1 w1] eqn:E1 in E. injection E as <- <-.
  rewrite E1 in Ho. simpl in Ho. destruct n as [f|]; [|by apply wp_mret].
  apply wp_best_effort, wp_call_dep. intros r2 x2 E2.
  simpl in E2.
  pose proof (Hn f (rc_WorkOrderID in_) (cut_ID cr) (S (w_step w)) (w_db w1, w_ext w1) eq_refl) as Hx.
  rewrite E2 in Hx. simpl in *. by rewrite Hx.
Qed.

(** [C12] Recording a cut drives its work order: a cut that fails leaves
    production as it was, and one that succeeds either leaves it so or moves
    exactly its own order from IN_CUTTING to IN_PROCESSING - which it does
    whenever that order is IN_CUTTING without open blockers and the production
    database answers. *)
Theorem cut_advances_order (HS : @serial ProdDB _) (in_ : RecordCutInput) (r : result CutResult) w w' :
  RecordCut in_ w = (r, w') →
  match r with
  | Err _ => (w_ext w').1 = (w_ext w).1
  | Ok _ => advance_outcome (rc_WorkOrderID in_) (w_ext w).1 (w_ext w').1
  end.
Proof using Hb Hn.
  intros E. run_wp E. unfold RecordCut.
  apply wp_bind, fail_opt_wp; [done|intros _]. apply wp_bind, wp_fail_if; intros _; [done|].
  apply wp_bind, wp_ext; [apply cut_source_ext|]. intros [src|e] w1 E1; [|by rewrite E1].
  apply wp_bind, fail_opt_wp; [by rewrite E1|intros _]. apply wp_bind, wp_new_uuid, wp_bind, wp_now.
  apply wp_bind, wp_ext; [destruct (rc_RemnantDimension in_); [apply leftover_ext|by intros ?]|].
  intros [lo|e] w2 E2; [|by rewrite E2; simpl; rewrite E1]. simpl in E2. rewrite <- E1, <- E2.
  assert (∀ op w2', w_ext w2' = w_ext w2 → ∀ A (k : M InvDB (ProdDB * Y) A) Q,
    (∀ e w3, w_ext w3 = w_ext w2 → Q (Err e) w3) → (∀ w3, w_ext w3 = w_ext w2 → wp k Q w3) →
    wp (recordCutAtomically op;; k) Q w2') as Hrec.
  { intros op w2' E2' A k Q He Hk. apply wp_bind, wp_ext; [apply recordCutAtomically_ext|].
    intros [u|e] w3 E3; [apply Hk|apply He]; congruence. }
  assert (∀ cr w3 (k : M InvDB (ProdDB * Y) CutResult), (w_ext w3).1 = (w_ext w2).1 →
    (∀ w4, wp k (λ r w5, w_ext w5 = w_ext w4 ∧ is_ok r = true) w4) →
    wp (afterCut in_ cr;; k) (λ r w', match r with
      | Err _ => (w_ext w').1 = (w_ext w2).1
      | Ok _ => advance_outcome (rc_WorkOrderID in_) (w_ext w2).1 (w_ext w').1 end) w3) as Hafter.
  { intros cr w3 k E3 Hk. apply wp_bind. eapply wp_mono; [by apply afterCut_advances|].
    intros [u|e] w4 [Ho Hok]; [|done]. rewrite E3 in Ho.
    eapply wp_mono; [apply Hk|]. intros [v|e'] w5 [E5 Hok5]; [by rewrite E5|done]. }
  assert (∀ cr lo, wp (recordCutAtomically (cut_op in_ cr lo);; codes ← cut_barcodes in_ cr;
      afterCut in_ cr;; mret {| cut_CuttingRecordID := cut_ID cr; cut_RemnantID := rem_ID <$> lo;
              cut_BarcodeIDs := codes; cut_DroppedRemnantCount := 0 |})
      (λ r w', match r with
      | Err _ => (w_ext w').1 = (w_ext w2).1
      | Ok _ => advance_outcome (rc_WorkOrderID in_) (w_ext w2).1 (w_ext w').1 end) w2) as Hfull.
  { intros cr lo'. apply Hrec; [done|intros; congruence|]. intros w3 E3. apply wp_bind.
    eapply wp_mono; [apply cut_barcodes_keeps|]. intros [codes|e] w4 [E4 Hok]; [|done].
    apply Hafter; [congruence|done]. }
  destruct (rc_RemnantDimension in_) as [rd|], lo as [lr|]; try apply Hfull.
  apply Hrec; [done|intros; congruence|]. intros w3 E3. apply Hafter; [congruence|done].
Qed.
End system.

(** ** A cut for a work order that is being cut *)
Module Plant.
Definition production : ProdDB := set_wos (<[21%N := Shop.wo 21 "IN_CUTTING" (Some 7%N)]> (p_wos Shop.db)) Shop.db.
Definition world0 : world InvDB (ProdDB * unit) := World Floor.db (production, tt) 0.
Definition cut : RecordCutInput := {|
  rc_SheetID := Some 10%N; rc_RemnantID := None; rc_WorkOrderID := 21; rc_SKUID := 5;
  rc_UsedDimension := mkDim 2440 1220; rc_RemnantDimension := None; rc_IsWaste := true;
  rc_BoundingBoxLengthMM := None; rc_BoundingBoxWidthMM := None; rc_ShapeType := ""
|}.
End Plant.

Lemma cut_advances_order_witness :
  let _ := Floor.oracle in let _ := Shop.oracle in let _ := Floor.deferred in let _ := Shop.deps in
  let _ := wired (Y:=unit) None None None (f64_of_int 15) in
  ∃ res w', RecordCut Plant.cut Plant.world0 = (Ok res, w') ∧ order_advanced 21 Plant.production (w_ext w').1.
Proof.
  intros. assert (@serial ProdDB Shop.oracle) as HS by done.
  destruct (RecordCut Plant.cut Plant.world0) as [[res|e] w'] eqn:E.
  - exists res, w'. split; [done|].
    destruct (cut_advances_order (Y:=unit) None None None (f64_of_int 15) ltac:(done) ltac:(done) HS
      Plant.cut (Ok res) Plant.world0 w' E) as [_ Hlive].
    apply (Hlive ltac:(done) (Shop.wo 21 "IN_CUTTING" (Some 7%N))); [done..|].
    intros k b Hk Hb. destruct (decide (k = 60%N)) as [->|Hne].
    + vm_compute in Hk. injection Hk as <-. discriminate Hb.
    + change (p_blockers (Plant.world0.(w_ext).1)) with ({[60%N := Shop.blocker]} : gmap uuid WOBlocker) in Hk.
      rewrite lookup_singleton_ne in Hk by done. discriminate Hk.
  - vm_compute in E. discriminate E.
Defined.
